(* ===== verification/_CoqProject ===== *)
-Q . S2P
Prelude.v
Money.v
Json.v
Collection.v
Http.v
Database.v
OrderModel.v
Kafka.v
Events.v
OrderSchemas.v
External.v
OrderRepository.v
OrderService.v
OrderSpec.v
OrderApi.v
ProductModel.v
ProductRepository.v
EventLoop.v
StockRace.v
ProductService.v
ProductApi.v
Lifespan.v
UserModel.v
UserRepository.v
UserService.v
RegisterRace.v
UserApi.v
UserScenario.v
NotificationModel.v
NotificationRepository.v
NotificationService.v
NotificationConsumer.v
NotificationApi.v
NotificationScenario.v
Platform.v
PlatformEvents.v
Scenario.v
ProductScenario.v
PlatformScenario.v
