(* ===== verification/Prelude.v ===== *)
(** * Verification of the e-commerce microservices (user, product, order,
    notification): shared prelude and guide to the development.

    ** The program

    Four FastAPI services over MongoDB (through the Beanie ODM) that talk to
    each other over HTTP and over Kafka topics:

    - order service ([src/order_service]): the order model with its pydantic
      validators, the repository over the [orders] collection, the service
      layer (order creation, status and payment transitions, cancellation,
      listing), the HTTP clients of the user and product services, the
      Kafka producer with one publish helper per domain event, the routes
      and the application with its lifespan and database connection;
    - product service ([src/product_service]): categories and products with
      soft delete, stock updates and search, their routes, a producer whose
      helpers nothing calls, the database connection;
    - user service ([src/user_service]): registration, login, profile and
      password, behind a bearer-token dependency;
    - notification service ([src/notification_service]): a Kafka consumer
      that turns events into notification records and delivers them, and
      routes that list and count them.

    The order service calls the user service (to verify a token) and the
    product service (to read products and to change stock); the
    notification service consumes the topics the other services publish on.

    ** Files, in dependency order

    Shared:
    - [Prelude] (this file): the exception type of the Python code, the
      state-and-exception monad [Act] in which every stateful operation is
      written, its notations (scope [act_scope]), the tactics and hint
      database [shop] of the development, Python truthiness of optional
      strings, string splitting and stripping, and list lemmas for
      pagination ([skip_limit], [page_of], [pages_cover]).
    - [Money]: amounts.  A Python [float] holding an amount is modelled as an
      exact rational ([Q]); [round(x, 2)] is [round2], rounding half to even
      on the exact value.
    - [Json]: JSON values and insertion-ordered dictionaries, for the event
      payloads the producers build and the consumer reads.
    - [Collection]: a MongoDB collection as the insertion-ordered list of its
      documents with an identifier supply; [insert], [get], [save], [find],
      [delete], the invariant [coll_wf] (identifiers unique and below the
      supply) and its preservation; [unique_key] for unique fields.
    - [Http]: the boundary every application shares: responses and the
      error envelope, the two exception handlers ([exception_handler]),
      validation of parameters ([validated]), the try/except of the routes
      ([respond], [reraise_http], [mask_errors]), and the predicates
      [answers], [raises_known], [keeps] and [preserves] with their
      tactics, against which the routes of the four services are proved.
    - [Database]: [app/database/connection.py] of the order and product
      services: [connect_to_mongo], [close_mongo_connection],
      [get_database] on the record [Connection]; the driver is the
      interface [MongoServer], and [ConnectionModule] is what a connection
      module promises to a lifespan.

    Order service:
    - [OrderModel]: [app/models/order.py], the enums, the three documents,
      the validators as smart constructors, the derived predicates.
    - [Kafka]: [app/utils/kafka_producer.py], the producer state machine
      ([start], [stop], [send_event]) and the seven publish helpers.
    - [Events]: the producers of the product and user services
      ([app/utils/kafka_producer.py] of each), with their event payloads.
    - [OrderSchemas]: [app/schemas/order_schemas.py], one record per schema
      with its constraints as a boolean [valid].
    - [External]: [app/utils/external_services.py], the two HTTP clients
      against the interface [Peers] of the remote endpoints.
    - [OrderRepository]: [app/repositories/order_repository.py].
    - [OrderService]: [app/services/order_service.py], the handlers over
      the state [World].
    - [OrderSpec]: the abstract order lifecycle (a transition relation on
      status, payment status and milestones) and the invariants it keeps.
    - [OrderApi]: [app/controllers/order_controller.py] and [app/main.py]:
      module [OrderController] with the routes, [handle], and the process
      ([boot], [step], [reachable], [serve]); the refinement of [OrderSpec].

    Product service:
    - [ProductModel]: [app/models/product.py] and [app/schemas].
    - [ProductRepository]: [app/repositories/product_repository.py] over
      the state [Catalog]; the invariant [catalog_ok].
    - [EventLoop]: the asyncio event loop over a pool of tasks, for any
      coroutine given by its [resume]: a [turn] resumes one task to its
      next await, a [schedule] is a list of turns; the rule by which an
      invariant holds under every schedule.
    - [StockRace]: [update_stock] of the repository as a task resumed one
      await at a time (module [StockUpdate]), on the event loop of
      [EventLoop].
    - [ProductService]: [app/services/product_service.py].
    - [ProductApi]: [app/controllers/product_controller.py] and
      [app/main.py]: module [ProductController] and its process.
    - [Lifespan]: [lifespan] of [app/main.py] of the order and product
      services, as an action on a process (connection and application).

    User service:
    - [UserModel], [UserRepository] (state [Accounts]), [UserService],
      [UserApi] (module [UserController]): [app/models/user.py],
      [app/schemas], [app/repositories/user_repository.py],
      [app/services/user_service.py], [app/controllers/user_controller.py]
      and [app/main.py].
    - [RegisterRace]: [register_user] of the service as a task resumed one
      await at a time (module [Registration]), on the same event loop.

    Notification service:
    - [NotificationModel], [NotificationRepository] (state [Inbox]),
      [NotificationService]: the document, the repository and
      [app/services/notification_service.py] (creation, dispatch by type,
      retry).
    - [NotificationConsumer]: [app/utils/kafka_consumer.py], the handlers of
      the consumer, [_process_message] and the loop [_consume_messages].
    - [NotificationApi]: [app/main.py], module [NotificationApp]: the
      routes and the process, whose events are requests and deliveries.

    Composition:
    - [Platform]: the interface [Peers] instantiated with the applications
      of the user and product services ([platform_peers]); the three
      services as one [System] with its calls and its invariant.
    - [PlatformEvents]: the log of the Kafka cluster the producers of the
      [System] write to, and the notification service as its consumer.

    Instances ([UserScenario], [NotificationScenario], [Scenario],
    [ProductScenario], [PlatformScenario]): concrete states and requests
    on which the definitions evaluate, with the theorems that have
    hypotheses applied at an input where they hold.

    ** How state and effects are modelled

    Each service process is a record of its collections, its Kafka client
    and a logical clock.  A handler is a value of [Act W A]: a function from
    the state to a result (a value or a raised exception) and the next
    state.  A raised exception keeps the state changes made before it, as in
    Python: nothing is rolled back.  [datetime.utcnow()] reads the clock
    and advances it, so two readings in one handler are distinct and
    ordered.  Document identifiers are the allocation index of the
    collection's supply; an identifier that does not parse and one that is
    absent both read as [None], as the repositories'
    [except Exception: return None] makes them.  A process is a step
    relation: [boot] is the state the lifespan leaves before [yield],
    [step] serves one request to its end, [reachable] are the states of a
    run.  The broker is the list of the messages delivered to it, with an
    oracle for the transport that may fail.

    Code the repository calls but does not contain is an interface, a
    typeclass whose fields are the calls made: [Mongo] (regular-expression
    search), [MongoServer] (environment, ping, model initialisation),
    [EmailValidator] (pydantic's [EmailStr]), [Auth] ([app.utils.auth] of
    the user service: hashing and tokens), [PyRepr] ([str] of a value
    that is no string or number), [Environment] ([strftime], [uuid4]) and
    [Peers] (the remote endpoints).  Theorems hold for every instance; the
    scenario files give one.

    ** What the theorems show

    - Order service: the amounts of a created order ([create_order_totals],
      [order_total_never_negative]), creation as a whole (success, no
      partial order on failure, the event and its best-effort delivery),
      cancellation and its refusals, milestones stamped once, ownership
      checks, pagination (each page, and the pages together against the
      reference listing), creation read back by [get_order_by_id], and for
      the process: well-formed collections and amounts in every reachable
      state, refinement of the lifecycle of [OrderSpec], an append-only
      broker, an answer to every request.
    - Product service: stock never negative, soft delete, SKU and name
      conflicts, denormalised category names, the count of a search, and the
      invariant [catalog_ok] in every reachable state: every stored
      document is a value of its model.  For concurrent calls of
      [update_stock]: under every schedule the stock stays at zero or
      above, and an update saved between the read and the save of another
      is lost.
    - User service: an address registers once, login after registration,
      the invariant [accounts_inv], routes that need credentials.  For
      concurrent calls of [register_user]: under every schedule the
      identifiers stay unique and the documents valid, but two
      registrations that interleave store one address twice, and a login
      under it is then checked against the first of the two users alone.
    - Notification service: what a welcome and a low-stock alert are, that
      the events the producers publish reach no handler, that the returned
      notification is stale, the inbox invariant in every reachable state,
      and that the loop of the consumer returns for every batch.
    - Lifespans: with a database that answers, the lifespan is the process
      of the controller from boot to shutdown and ends with the client
      closed; without one the exception leaves it before the application
      starts.
    - Platform: which tokens the order service accepts and for whom, that
      the prices it reads are positive (the hypothesis of the theorem on
      totals), that a stock update never succeeds and an accepted order is
      accepted again, the three invariants together in every state, and
      that no message of the platform makes the notification service store
      a notification.

    ** Bounds and fuel

    No definition uses fuel: every loop of the sources iterates over a
    finite list (order lines, update fields, failed notifications, the
    messages delivered) and is a structural recursion on it.  The consumer
    loop, which the source runs until it is stopped, is modelled over the
    batch of messages delivered while it runs.  Integers are unbounded as
    in Python; identifiers and clock readings are natural numbers.

    ** What is not modelled

    The ASGI server, CORS, logging and printing, the wire format of HTTP and
    of Kafka, and the uvicorn entry points.  Binary rounding error of IEEE
    doubles: every theorem about amounts is a theorem about the decimal
    arithmetic the code intends.  Asynchronous interleaving inside a
    request, except for [update_stock] in [StockRace] and [register_user]
    in [RegisterRace]: every other handler runs to its end, so a state
    between two awaits of one handler is never observed by another; the
    calls of [Platform] are interleaved at the granularity of requests.
    A schedule is a finite list of turns, and a database operation
    between two awaits is atomic.  The connection modules of
    the user and notification services and [app.utils.auth], which the
    repository does not contain, are interfaces or the booted state. *)

From stdpp Require Export base tactics option list strings numbers pretty.

(** ** Exceptions of the Python code *)

(** [HTTPException(status_code, detail)] of FastAPI and every other Python
    exception ([ValueError], pydantic's [ValidationError], ...), which the
    handlers tell apart with [except HTTPException] / [except Exception]. *)
Inductive exn : Type :=
| HTTPException (status_code : nat) (detail : string)
| PyException (kind : string) (msg : string).

#[export] Instance exn_eq_dec : EqDecision exn.
Proof. solve_decision. Defined.

Definition HTTP_400_BAD_REQUEST : nat := 400.
Definition HTTP_401_UNAUTHORIZED : nat := 401.
Definition HTTP_403_FORBIDDEN : nat := 403.
Definition HTTP_404_NOT_FOUND : nat := 404.
Definition HTTP_500_INTERNAL_SERVER_ERROR : nat := 500.

Definition is_http (e : exn) : bool :=
  match e with HTTPException _ _ => true | PyException _ _ => false end.

Definition exn_status (e : exn) : nat :=
  match e with
  | HTTPException c _ => c
  | PyException _ _ => HTTP_500_INTERNAL_SERVER_ERROR
  end.

(** ** The state-and-exception monad *)

Inductive Res (A : Type) : Type :=
| Ok (a : A)
| Raise (e : exn).
Arguments Ok {A} a.
Arguments Raise {A} e.

Definition Act (W A : Type) : Type := W -> Res A * W.

Definition ret {W A} (a : A) : Act W A := fun w => (Ok a, w).

Definition bind {W A B} (c : Act W A) (k : A -> Act W B) : Act W B :=
  fun w => match c w with
           | (Ok a, w') => k a w'
           | (Raise e, w') => (Raise e, w')
           end.

Definition raise {W A} (e : exn) : Act W A := fun w => (Raise e, w).

(** [try: c except e: h e].  The handler runs in the state the body left. *)
Definition try_except {W A} (c : Act W A) (h : exn -> Act W A) : Act W A :=
  fun w => match c w with
           | (Ok a, w') => (Ok a, w')
           | (Raise e, w') => h e w'
           end.

(** A pure result as an action: the value of a constructor, or the
    exception it raised. *)
Definition of_res {W A} (r : Res A) : Act W A := fun w => (r, w).

(** [if cond: raise e]. *)
Definition raise_if {W} (cond : bool) (e : exn) : Act W unit :=
  if cond then raise e else ret tt.

Definition get {W} : Act W W := fun w => (Ok w, w).
Definition gets {W A} (f : W -> A) : Act W A := fun w => (Ok (f w), w).
Definition put {W} (w : W) : Act W unit := fun _ => (Ok tt, w).
Definition modify {W} (f : W -> W) : Act W unit := fun w => (Ok tt, f w).

(** Lift an action on a component of the state (a collection, the producer)
    to the whole state, through a getter and a setter. *)
Definition zoom {W V A} (proj : W -> V) (upd : V -> W -> W) (c : Act V A) : Act W A :=
  fun w => match c (proj w) with (r, v') => (r, upd v' w) end.

Declare Scope act_scope.
Delimit Scope act_scope with act.
Bind Scope act_scope with Act.

Notation "x <- c ;; k" := (bind c (fun x => k))
  (at level 100, c at next level, right associativity) : act_scope.
Notation "c ;; k" := (bind c (fun _ => k))
  (at level 100, right associativity) : act_scope.

Local Open Scope act_scope.

(** [for x in l: body x], collecting the results. *)
Fixpoint mapM {W A B} (f : A -> Act W B) (l : list A) : Act W (list B) :=
  match l with
  | [] => ret []
  | x :: l' => y <- f x ;; ys <- mapM f l' ;; ret (y :: ys)
  end.

Fixpoint forM_ {W A} (l : list A) (f : A -> Act W unit) : Act W unit :=
  match l with
  | [] => ret tt
  | x :: l' => f x ;; forM_ l' f
  end.

Definition is_ok {A} (r : Res A) : bool :=
  match r with Ok _ => true | Raise _ => false end.

Definition res_to_option {A} (r : Res A) : option A :=
  match r with Ok a => Some a | Raise _ => None end.

(** What a handler that has run returns and the state it leaves. *)
Definition result_of {W A} (c : Act W A) (w : W) : Res A := fst (c w).
Definition state_after {W A} (c : Act W A) (w : W) : W := snd (c w).

(** ** Python truthiness *)

(** [if s:] for an [Optional[str]]: [None] and the empty string are false. *)
Definition truthy_str (s : option string) : bool :=
  match s with
  | Some s => negb (String.eqb s "")
  | None => false
  end.

(** [x or d] for an [Optional[str]]. *)
Definition str_or (s : option string) (d : string) : string :=
  match s with
  | Some s => if String.eqb s "" then d else s
  | None => d
  end.

(** ** Constraints of pydantic fields *)

(** [Field(min_length=lo, max_length=hi)] on a string. *)
Definition length_in (lo hi : nat) (s : string) : bool :=
  bool_decide (lo <= String.length s <= hi).

(** A constraint on an [Optional] field holds of [None]. *)
Definition opt_ok {A} (ok : A -> bool) (v : option A) : bool :=
  match v with Some a => ok a | None => true end.

Definition newline : string := String (Ascii.ascii_of_nat 10) "".

(** [t.isoformat()] of a clock reading, and [str(doc.id)] of a document
    identifier ([str(None)] is the text [None]). *)
Definition isoformat (t : nat) : string := pretty t.

Definition str_id (i : option nat) : string :=
  match i with Some n => pretty n | None => "None" end.

(** [sep.join(l)]. *)
Fixpoint join (sep : string) (l : list string) : string :=
  match l with
  | [] => ""
  | [x] => x
  | x :: l' => x +:+ sep +:+ join sep l'
  end.

(** ** Splitting and trimming strings *)

(** [s.split(c)]. *)
Fixpoint str_split (c : Ascii.ascii) (s : string) : list string :=
  match s with
  | EmptyString => [EmptyString]
  | String a s' =>
      if Ascii.eqb a c then EmptyString :: str_split c s'
      else match str_split c s' with
           | x :: r => String a x :: r
           | [] => [String a EmptyString]
           end
  end.

Definition space : Ascii.ascii := Ascii.ascii_of_nat 32.

(** [s.strip()]: the string without the white space at its ends. *)
Definition is_space (a : Ascii.ascii) : bool :=
  let n := Ascii.nat_of_ascii a in (n =? 32) || ((9 <=? n) && (n <=? 13)).

Fixpoint lstrip (s : string) : string :=
  match s with
  | String a s' => if is_space a then lstrip s' else s
  | EmptyString => EmptyString
  end.

Definition strip (s : string) : string := String.rev (lstrip (String.rev (lstrip s))).

(** ** Pagination *)

(** [(total + per_page - 1) // per_page]. *)
Definition ceil_div (total per_page : nat) : nat := (total + per_page - 1) / per_page.

(** [a // b] on non-negative integers: division by zero raises. *)
Definition zero_division : exn := PyException "ZeroDivisionError" "division by zero".

Definition floor_div {W} (a b : nat) : Act W nat :=
  if decide (b = 0) then raise zero_division else ret (a / b).

(** [(page - 1) * per_page] as it reaches [.skip]: the store refuses a
    negative number, which page 0 makes. *)
Definition negative_skip : exn := PyException "OperationFailure" "skip must be non-negative".

Definition skip_of {W} (page per_page : nat) : Act W nat :=
  if decide (page = 0 /\ per_page <> 0) then raise negative_skip
  else ret ((page - 1) * per_page).

(** [.limit(limit)] on a cursor: for Mongo a limit of 0 is no limit. *)
Definition limited {A} (limit : nat) (l : list A) : list A :=
  match limit with 0 => l | _ => take limit l end.

(** [.skip(offset).limit(limit)] on a cursor. *)
Definition skip_limit {A} (offset limit : nat) (l : list A) : list A :=
  limited limit (drop offset l).

(** The [n]-th page (from 1) of [l]. *)
Definition page_of {A} (page per_page : nat) (l : list A) : list A :=
  skip_limit ((page - 1) * per_page) per_page l.

(** ** Tactics and hints *)

Create HintDb shop discriminated.
Create Rewrite HintDb shop_rw.

(** Unfold the monad's combinators and compute. *)
Ltac act_unfold :=
  unfold result_of, state_after, bind, ret, raise, try_except, get, gets, put,
    modify, zoom in *.

Ltac act_simpl := act_unfold; simpl in *.

(** Case on the first [match] or [if] of the goal whose scrutinee is not a
    constructor, keeping the equation. *)
Ltac case_step :=
  match goal with
  | |- context [match ?x with _ => _ end] =>
      lazymatch x with
      | context [match _ with _ => _ end] => fail
      | _ => destruct x eqn:?
      end
  end.

Ltac act_cases := act_simpl; repeat (case_step; simpl in *; simplify_eq); try done.

(** ** Laws of the monad *)

Section ActLaws.
Context {W A B C : Type}.
Implicit Types (w : W) (a : A).

Lemma bind_ret_l a (k : A -> Act W B) w : (x <- ret a ;; k x) w = k a w.
Proof. done. Qed.

Lemma bind_ret_r (c : Act W A) w : (x <- c ;; ret x) w = c w.
Proof. unfold bind, ret. by destruct (c w) as [[]]. Qed.

Lemma bind_assoc (c : Act W A) (k : A -> Act W B) (h : B -> Act W C) w :
  (y <- (x <- c ;; k x) ;; h y) w = (x <- c ;; y <- k x ;; h y) w.
Proof. unfold bind. by destruct (c w) as [[]]. Qed.

Lemma bind_raise e (k : A -> Act W B) w : (x <- raise e ;; k x) w = (Raise e, w).
Proof. done. Qed.

Lemma bind_ok (c : Act W A) (k : A -> Act W B) w a w' :
  c w = (Ok a, w') -> (x <- c ;; k x) w = k a w'.
Proof. unfold bind. by intros ->. Qed.

Lemma bind_err (c : Act W A) (k : A -> Act W B) w e w' :
  c w = (Raise e, w') -> (x <- c ;; k x) w = (Raise e, w').
Proof. unfold bind. by intros ->. Qed.

(** Inversion of a [bind] that returned. *)
Lemma bind_inv_ok (c : Act W A) (k : A -> Act W B) w b w'' :
  (x <- c ;; k x) w = (Ok b, w'') ->
  exists a w', c w = (Ok a, w') /\ k a w' = (Ok b, w'').
Proof. unfold bind. destruct (c w) as [[a|e] w']; [eauto | done]. Qed.

(** Inversion of a [bind] that raised: the first action raised, or it
    returned and the continuation raised. *)
Lemma bind_inv_err (c : Act W A) (k : A -> Act W B) w e w'' :
  (x <- c ;; k x) w = (Raise e, w'') ->
  c w = (Raise e, w'') \/ exists a w', c w = (Ok a, w') /\ k a w' = (Raise e, w'').
Proof. unfold bind. destruct (c w) as [[a|e'] w']; [eauto | left; congruence]. Qed.

Lemma try_except_ok (c : Act W A) h w a w' :
  c w = (Ok a, w') -> try_except c h w = (Ok a, w').
Proof. unfold try_except. by intros ->. Qed.

Lemma try_except_err (c : Act W A) h w e w' :
  c w = (Raise e, w') -> try_except c h w = h e w'.
Proof. unfold try_except. by intros ->. Qed.

(** [except Exception: log]: the exception is swallowed, the state is the
    one the body left. *)
Lemma try_except_swallow (c : Act W unit) w :
  try_except c (fun _ => ret tt) w = (Ok tt, state_after c w).
Proof. unfold try_except, state_after. by destruct (c w) as [[[]|e] w']. Qed.

End ActLaws.

#[export] Hint Rewrite @bind_ret_l @bind_raise : shop_rw.

(** An action that never raises and never changes the state but at one
    point of it is the common case of a read. *)
Definition pure_read {W A} (c : Act W A) : Prop :=
  forall w, exists a, c w = (Ok a, w).

Lemma gets_pure_read {W A} (f : W -> A) : pure_read (gets f).
Proof. intros w. by exists (f w). Qed.

#[export] Hint Resolve gets_pure_read : shop.

(** ** Lemmas on [mapM] *)

Section MapM.
Context {W A B : Type}.

(** A loop whose body never raises and leaves the state alone is [map]. *)
Lemma mapM_pure (f : A -> Act W B) (g : A -> B) (l : list A) w :
  (forall x w, f x w = (Ok (g x), w)) -> mapM f l w = (Ok (map g l), w).
Proof.
  intros Hf. induction l as [|x l IH]; [done|].
  simpl. unfold bind. by rewrite Hf, IH.
Qed.

Lemma mapM_length (f : A -> Act W B) (l : list A) w ys w' :
  mapM f l w = (Ok ys, w') -> length ys = length l.
Proof.
  revert w ys. induction l as [|x l IH]; intros w ys; simpl.
  - unfold ret. by intros [= <- _].
  - intros (y & w1 & _ & H)%bind_inv_ok.
    apply bind_inv_ok in H as (ys' & w2 & H & Hr).
    unfold ret in Hr. simplify_eq. simpl. f_equal. eauto.
Qed.

End MapM.

(** ** Lemmas on strings and truthiness *)

Lemma truthy_str_None : truthy_str None = false.
Proof. done. Qed.

Lemma truthy_str_Some s : truthy_str (Some s) = true <-> s <> "".
Proof.
  simpl. destruct (String.eqb_spec s ""); naive_solver.
Qed.

Lemma truthy_str_false s : truthy_str s = false <-> s = None \/ s = Some "".
Proof.
  destruct s as [s|]; simpl; [|by split; [left|]].
  destruct (String.eqb_spec s ""); split; intros; simplify_eq; auto; by destruct_or!; simplify_eq.
Qed.

Lemma string_app_nil_r (s : string) : s +:+ "" = s.
Proof. induction s as [|a s IH]; [done|]. unfold String.append. fold String.append. by f_equal. Qed.

Lemma string_app_assoc (s t u : string) : (s +:+ t) +:+ u = s +:+ (t +:+ u).
Proof.
  induction s as [|a s IH]; [done|]. unfold String.append. fold String.append. by f_equal.
Qed.

(** [s'] is [s] with text appended: the order of an append-only log. *)
Definition extends (s s' : string) : Prop := exists t, s' = s +:+ t.

#[export] Instance extends_preorder : PreOrder extends.
Proof.
  split.
  - intros s. exists "". by rewrite string_app_nil_r.
  - intros s1 s2 s3 [t ->] [u ->]. exists (t +:+ u). apply string_app_assoc.
Qed.

Lemma extends_app s t : extends s (s +:+ t).
Proof. by exists t. Qed.

Lemma extends_nil s : extends "" s.
Proof. by exists s. Qed.

(** ** Lemmas on [split] *)

Lemma str_split_nonempty c s : str_split c s <> [].
Proof.
  destruct s as [|a s]; [done|]. simpl. destruct (Ascii.eqb a c); [done|].
  by destruct (str_split c s).
Qed.

Lemma str_split_cons_ne c a s :
  Ascii.eqb a c = false ->
  str_split c (String a s) = String a (default "" (head (str_split c s))) :: tail (str_split c s).
Proof.
  intros Hne. simpl. rewrite Hne.
  destruct (str_split c s) eqn:E; [by apply str_split_nonempty in E | done].
Qed.

(** ** Lemmas on pagination *)

Section Pagination.
Context {A : Type}.
Implicit Types (l : list A).

Lemma limited_pos limit l : 0 < limit -> limited limit l = take limit l.
Proof. by destruct limit; [lia|]. Qed.

Lemma limited_sublist limit l : limited limit l `sublist_of` l.
Proof. destruct limit; [done | apply sublist_take]. Qed.

Lemma limited_length limit l : 0 < limit -> length (limited limit l) = min limit (length l).
Proof. intros Hl. by rewrite limited_pos, length_take. Qed.

Lemma limited_le limit l : 0 < limit -> length (limited limit l) <= limit.
Proof. intros Hl. rewrite limited_length by done. lia. Qed.

Lemma skip_limit_pos offset limit l :
  0 < limit -> skip_limit offset limit l = take limit (drop offset l).
Proof. apply limited_pos. Qed.

(** Without a limit the cursor returns everything after the offset. *)
Lemma skip_limit_0 offset l : skip_limit offset 0 l = drop offset l.
Proof. done. Qed.

Lemma skip_limit_length offset limit l :
  0 < limit -> length (skip_limit offset limit l) = min limit (length l - offset).
Proof. intros Hl. unfold skip_limit. by rewrite limited_length, length_drop. Qed.

Lemma skip_limit_le offset limit l : 0 < limit -> length (skip_limit offset limit l) <= limit.
Proof. intros Hl. rewrite skip_limit_length by done. lia. Qed.

Lemma skip_limit_sublist offset limit l : skip_limit offset limit l `sublist_of` l.
Proof. unfold skip_limit. etrans; [apply limited_sublist | apply sublist_drop]. Qed.

Lemma skip_limit_elem_of offset limit l x : x ∈ skip_limit offset limit l -> x ∈ l.
Proof. intros H. eapply elem_of_sublist; [done | apply skip_limit_sublist]. Qed.

Lemma limited_elem_of limit l x : x ∈ limited limit l -> x ∈ l.
Proof. intros H. eapply elem_of_sublist; [done | apply limited_sublist]. Qed.

(** A page followed by the pages after it is the rest of the list. *)
Lemma skip_limit_app offset limit l :
  0 < limit -> skip_limit offset limit l ++ drop (offset + limit) l = drop offset l.
Proof.
  intros Hl. rewrite skip_limit_pos by done.
  rewrite <- (take_drop limit (drop offset l)) at 2.
  f_equal. rewrite drop_drop. done.
Qed.

(** Past the last element a page is empty. *)
Lemma skip_limit_past offset limit l :
  length l <= offset -> skip_limit offset limit l = [].
Proof. intros H. unfold skip_limit. rewrite drop_ge by done. by destruct limit. Qed.

(** The pages [1 .. n] of a list, concatenated, are its first [n * per_page]
    elements: no document is skipped and none is repeated. *)
Lemma pages_concat per_page n l :
  0 < per_page ->
  concat (map (fun p => page_of (S p) per_page l) (seq 0 n)) = take (n * per_page) l.
Proof.
  intros Hp. induction n as [|n IH]; [done|].
  rewrite seq_S, map_app, concat_app, IH. simpl. rewrite app_nil_r.
  unfold page_of. rewrite skip_limit_pos by done. replace (S n - 1) with n by lia.
  replace (per_page + n * per_page) with (n * per_page + per_page) by lia.
  by rewrite take_take_drop.
Qed.

(** Read page by page up to the last page, a list is read whole. *)
Lemma pages_cover per_page l :
  0 < per_page ->
  concat ((fun p => page_of p per_page l) <$> seq 1 (ceil_div (length l) per_page)) = l.
Proof.
  intros Hp. rewrite <- fmap_S_seq, <- list_fmap_compose.
  etrans; [exact (pages_concat per_page _ l Hp)|]. apply take_ge.
  unfold ceil_div. pose proof (Nat.div_mod_eq (length l + per_page - 1) per_page).
  pose proof (Nat.mod_upper_bound (length l + per_page - 1) per_page ltac:(lia)). nia.
Qed.

End Pagination.

Lemma floor_div_pos {W} a b (w : W) : 0 < b -> floor_div a b w = (Ok (a / b), w).
Proof. intros Hb. unfold floor_div. by rewrite decide_False by lia. Qed.

Lemma floor_div_0 {W} a (w : W) : floor_div a 0 w = (Raise zero_division, w).
Proof. done. Qed.

Lemma skip_of_pos {W} page per_page (w : W) :
  0 < page -> skip_of page per_page w = (Ok ((page - 1) * per_page), w).
Proof. intros Hp. unfold skip_of. by rewrite decide_False by lia. Qed.

Lemma ceil_div_0 per_page : 0 < per_page -> ceil_div 0 per_page = 0.
Proof. intros H. unfold ceil_div. apply Nat.div_small. lia. Qed.

(** [ceil_div] is the least number of pages that hold [total] documents. *)
Lemma ceil_div_spec total per_page :
  0 < per_page ->
  total <= ceil_div total per_page * per_page /\
  (0 < total -> (ceil_div total per_page - 1) * per_page < total).
Proof.
  intros Hp. unfold ceil_div.
  pose proof (Nat.div_mod_eq (total + per_page - 1) per_page) as Hdm.
  pose proof (Nat.mod_upper_bound (total + per_page - 1) per_page ltac:(lia)) as Hm.
  split; [nia|]. intros Ht. nia.
Qed.
