(* ===== verification/Money.v ===== *)
(** * Amounts of money.

    The services hold amounts in Python [float]s and round them with
    [round(x, 2)].  Here an amount is an exact rational and [round2] rounds
    the exact value to hundredths, half to even (what Python 3's [round]
    does on a value that is exactly representable).  [Qeq] is the equality
    of amounts; [round2] returns a fraction over 100, so that two rounded
    amounts that are [Qeq] are equal.  The file gives the rounding function,
    its error bound, monotonicity, idempotence and compatibility with
    [Qeq], and the sums the order model uses. *)

From S2P Require Import Prelude.
From Stdlib Require Import QArith Qround Qabs Lqa Lia Morphisms.

Local Open Scope Q_scope.

(** ** Definitions *)

(** Nearest integer, ties to the even neighbour. *)
Definition round_half_even (q : Q) : Z :=
  let f := Qfloor q in
  match Qcompare (q - inject_Z f) (1 # 2) with
  | Lt => f
  | Gt => (f + 1)%Z
  | Eq => if Z.even f then f else (f + 1)%Z
  end.

(** [round(q, 2)]. *)
Definition round2 (q : Q) : Q := round_half_even (q * 100) # 100.

(** The hundredths of an amount, as an integer. *)
Definition cents (q : Q) : Z := round_half_even (q * 100).

(** [a < b] on floats. *)
Definition Qltb (a b : Q) : bool := negb (Qle_bool b a).

(** [max(a, b)]. *)
Definition qmax (a b : Q) : Q := if Qle_bool b a then a else b.

(** [sum(l)]: Python adds from the left, starting at 0. *)
Definition qsum (l : list Q) : Q := fold_left Qplus l 0.

(** An amount that is a whole number of hundredths. *)
Definition is_cents (q : Q) : Prop := exists c : Z, q == c # 100.

(** A value halfway between two integers. *)
Definition is_tie (q : Q) : Prop := q - inject_Z (Qfloor q) == 1 # 2.

(** ** Rounding to the nearest integer *)

#[export] Instance round_half_even_comp : Proper (Qeq ==> eq) round_half_even.
Proof.
  intros x y H. unfold round_half_even.
  rewrite (Qfloor_comp x y H).
  by rewrite H.
Qed.

Lemma Qfloor_bounds q : inject_Z (Qfloor q) <= q /\ q < inject_Z (Qfloor q) + 1.
Proof.
  split; [apply Qfloor_le|].
  pose proof (Qlt_floor q) as H. by rewrite inject_Z_plus in H.
Qed.

(** The three cases of [round_half_even], with what each knows. *)
Lemma round_half_even_cases q :
  let f := Qfloor q in
  (q - inject_Z f < 1 # 2 /\ round_half_even q = f) \/
  (1 # 2 < q - inject_Z f /\ round_half_even q = (f + 1)%Z) \/
  (q - inject_Z f == 1 # 2 /\ Z.even (round_half_even q) = true /\
   (round_half_even q = f \/ round_half_even q = (f + 1)%Z)).
Proof.
  intros f. unfold round_half_even. fold f.
  destruct (Qcompare_spec (q - inject_Z f) (1 # 2)) as [He|Hl|Hg]; [|auto..].
  right; right. split; [done|].
  destruct (Z.even f) eqn:E; [auto|]. split; [|auto].
  rewrite Z.even_add, E. done.
Qed.

(** The rounded value is within one half of the exact one. *)
Lemma round_half_even_bounds q :
  inject_Z (round_half_even q) - (1 # 2) <= q /\
  q <= inject_Z (round_half_even q) + (1 # 2).
Proof.
  destruct (Qfloor_bounds q) as [Hlo Hhi].
  destruct (round_half_even_cases q) as [[H ->]|[[H ->]|(H & _ & [-> | ->])]];
    rewrite ?inject_Z_plus; change (inject_Z 1) with 1; lra.
Qed.

(** An integer is its own rounding. *)
Lemma round_half_even_Z z : round_half_even (inject_Z z) = z.
Proof.
  unfold round_half_even. rewrite Qfloor_Z.
  assert (inject_Z z - inject_Z z == 0) as -> by ring. done.
Qed.

Lemma round_half_even_mono q1 q2 :
  q1 <= q2 -> (round_half_even q1 <= round_half_even q2)%Z.
Proof.
  intros Hle.
  pose proof (Qfloor_resp_le _ _ Hle) as Hf.
  destruct (Qfloor_bounds q1) as [Hlo1 Hhi1], (Qfloor_bounds q2) as [Hlo2 Hhi2].
  destruct (Z.eq_dec (Qfloor q1) (Qfloor q2)) as [E|NE].
  - destruct (round_half_even_cases q1) as [[H1 R1]|[[H1 R1]|(H1 & Ev1 & R1)]],
      (round_half_even_cases q2) as [[H2 R2]|[[H2 R2]|(H2 & Ev2 & R2)]];
      rewrite <- ?E in *; try lia; try (exfalso; lra).
    destruct R1 as [R1|R1], R2 as [R2|R2]; try lia.
    rewrite R1, R2 in *. rewrite Z.even_add in Ev1.
    rewrite Ev2 in Ev1. done.
  - assert (Qfloor q1 + 1 <= Qfloor q2)%Z by lia.
    destruct (round_half_even_cases q1) as [[_ R1]|[[_ R1]|(_ & _ & [R1|R1])]],
      (round_half_even_cases q2) as [[_ R2]|[[_ R2]|(_ & _ & [R2|R2])]]; lia.
Qed.

Lemma round_half_even_nonneg q : 0 <= q -> (0 <= round_half_even q)%Z.
Proof.
  intros H. change 0%Z with (round_half_even (inject_Z 0)) at 1.
  rewrite round_half_even_Z. change 0%Z with (round_half_even 0).
  by apply round_half_even_mono.
Qed.

Lemma Qfloor_add_Z q (n : Z) : Qfloor (q + inject_Z n) = (Qfloor q + n)%Z.
Proof.
  destruct (Qfloor_bounds q) as [Hlo Hhi].
  destruct (Qfloor_bounds (q + inject_Z n)) as [Hlo' Hhi'].
  assert (Qfloor q + n < Qfloor (q + inject_Z n) + 1)%Z
    by (rewrite Zlt_Qlt, !inject_Z_plus; change (inject_Z 1) with 1; lra).
  assert (Qfloor (q + inject_Z n) < Qfloor q + n + 1)%Z
    by (rewrite Zlt_Qlt, !inject_Z_plus; change (inject_Z 1) with 1; lra).
  lia.
Qed.

#[export] Instance is_tie_comp : Proper (Qeq ==> iff) is_tie.
Proof. intros x y H. unfold is_tie. by rewrite (Qfloor_comp x y H), H. Qed.

(** Adding an integer commutes with rounding when the value is not a tie
    (a tie would follow the parity of the sum). *)
Lemma round_half_even_add_Z q (n : Z) :
  ~ is_tie q -> round_half_even (q + inject_Z n) = (round_half_even q + n)%Z.
Proof.
  unfold is_tie. intros Hnt. unfold round_half_even. rewrite Qfloor_add_Z.
  assert (q + inject_Z n - inject_Z (Qfloor q + n) == q - inject_Z (Qfloor q)) as ->
    by (rewrite inject_Z_plus; ring).
  destruct (Qcompare_spec (q - inject_Z (Qfloor q)) (1 # 2)); [done|lia..].
Qed.

(** ** Rounding to hundredths *)

#[export] Instance round2_comp : Proper (Qeq ==> eq) round2.
Proof. intros x y H. unfold round2. by rewrite H. Qed.

#[export] Instance cents_comp : Proper (Qeq ==> eq) cents.
Proof. intros x y H. unfold cents. by rewrite H. Qed.

Lemma round2_cents q : round2 q = cents q # 100.
Proof. done. Qed.

Lemma round2_is_cents q : is_cents (round2 q).
Proof. by exists (cents q). Qed.

Lemma cents_of_cents (c : Z) : cents (c # 100) = c.
Proof.
  unfold cents. rewrite <- (round_half_even_Z c) at 2.
  apply round_half_even_comp. unfold Qeq. simpl. lia.
Qed.

(** A whole number of hundredths is its own rounding. *)
Lemma round2_of_cents (c : Z) : round2 (c # 100) = c # 100.
Proof. by rewrite round2_cents, cents_of_cents. Qed.

Lemma round2_fix q : is_cents q -> round2 q == q.
Proof.
  intros [c Hc]. rewrite (round2_comp _ _ Hc), round2_of_cents. by symmetry.
Qed.

(** [round2] is idempotent. *)
Lemma round2_idem q : round2 (round2 q) = round2 q.
Proof. by rewrite (round2_cents q), round2_of_cents. Qed.

(** The rounded amount is within half a hundredth of the exact one. *)
Lemma round2_error q : Qabs (round2 q - q) <= 1 # 200.
Proof.
  destruct (round_half_even_bounds (q * 100)) as [Hlo Hhi].
  assert (round2 q == inject_Z (cents q) * (1 # 100)) as E
      by (rewrite round2_cents; unfold Qeq; simpl; lia).
  unfold cents in E. apply Qabs_Qle_condition. split; lra.
Qed.

Lemma round2_mono q1 q2 : q1 <= q2 -> round2 q1 <= round2 q2.
Proof.
  intros H. rewrite !round2_cents. unfold Qle. simpl.
  apply Z.mul_le_mono_nonneg_r; [done|].
  apply round_half_even_mono. lra.
Qed.

Lemma round2_nonneg q : 0 <= q -> 0 <= round2 q.
Proof.
  intros H. rewrite round2_cents. unfold Qle. simpl.
  assert (0 <= cents q)%Z by (apply round_half_even_nonneg; lra). lia.
Qed.

(** Rounding the sum of a whole number of hundredths and an amount rounds
    the amount, when its hundredths are not a tie. *)
Lemma round2_add_cents a q :
  is_cents a -> ~ is_tie (q * 100) -> round2 (a + q) == a + round2 q.
Proof.
  intros [c Hc] Hnt. rewrite (round2_comp _ _ (Qplus_comp _ _ Hc _ _ (Qeq_refl q))), Hc.
  rewrite !round2_cents. unfold cents.
  assert (((c # 100) + q) * 100 == q * 100 + inject_Z c) as ->
    by (unfold Qeq, Qplus, Qmult, inject_Z; simpl; lia).
  rewrite round_half_even_add_Z by done.
  unfold Qeq, Qplus; simpl; lia.
Qed.

(** ** Comparison and maximum *)

Lemma Qltb_lt a b : Qltb a b = true <-> a < b.
Proof.
  unfold Qltb. rewrite negb_true_iff. split.
  - intros H. apply Qnot_le_lt. intros Hle. apply Qle_bool_iff in Hle. congruence.
  - intros H. destruct (Qle_bool b a) eqn:E; [|done].
    apply Qle_bool_iff in E. lra.
Qed.

Lemma Qltb_ge a b : Qltb a b = false <-> b <= a.
Proof.
  unfold Qltb. rewrite negb_false_iff. apply Qle_bool_iff.
Qed.

#[export] Instance Qltb_comp : Proper (Qeq ==> Qeq ==> eq) Qltb.
Proof.
  intros a a' Ha b b' Hb.
  destruct (Qltb a b) eqn:E, (Qltb a' b') eqn:E'; try done;
    rewrite ?Qltb_lt, ?Qltb_ge in *; lra.
Qed.

Lemma qmax_spec a b : (b <= a /\ qmax a b = a) \/ (a < b /\ qmax a b = b).
Proof.
  unfold qmax. destruct (Qle_bool b a) eqn:E.
  - left. by apply Qle_bool_iff in E.
  - right. split; [|done]. apply Qnot_le_lt. intros H.
    apply Qle_bool_iff in H. congruence.
Qed.

Lemma qmax_ge_r a b : b <= qmax a b.
Proof. destruct (qmax_spec a b) as [[? ->]|[? ->]]; lra. Qed.

Lemma qmax_ge_l a b : a <= qmax a b.
Proof. destruct (qmax_spec a b) as [[? ->]|[? ->]]; lra. Qed.

#[export] Instance qmax_comp : Proper (Qeq ==> Qeq ==> Qeq) qmax.
Proof.
  intros a a' Ha b b' Hb.
  destruct (qmax_spec a b) as [[? ->]|[? ->]],
    (qmax_spec a' b') as [[? ->]|[? ->]]; lra.
Qed.

(** ** Sums *)

Lemma fold_left_Qplus_acc (l : list Q) (a : Q) :
  fold_left Qplus l a == a + fold_left Qplus l 0.
Proof.
  revert a. induction l as [|x l IH]; intros a; simpl; [ring|].
  rewrite (IH (a + x)), (IH (0 + x)). ring.
Qed.

Lemma qsum_nil : qsum [] = 0.
Proof. done. Qed.

Lemma qsum_cons x l : qsum (x :: l) == x + qsum l.
Proof. unfold qsum. simpl. rewrite fold_left_Qplus_acc. ring. Qed.

Lemma qsum_app l1 l2 : qsum (l1 ++ l2) == qsum l1 + qsum l2.
Proof.
  induction l1 as [|x l1 IH]; simpl; [rewrite qsum_nil; ring|].
  rewrite !qsum_cons, IH. ring.
Qed.

Lemma qsum_nonneg l : Forall (fun x => 0 <= x) l -> 0 <= qsum l.
Proof.
  induction 1 as [|x l Hx _ IH]; [done|]. rewrite qsum_cons. lra.
Qed.

(** A sum of whole hundredths is a whole number of hundredths. *)
Lemma is_cents_plus a b : is_cents a -> is_cents b -> is_cents (a + b).
Proof.
  intros [c Hc] [d Hd]. exists (c + d)%Z. rewrite Hc, Hd.
  unfold Qeq. simpl. lia.
Qed.

Lemma is_cents_0 : is_cents 0.
Proof. by exists 0%Z. Qed.

Lemma is_cents_qsum l : Forall is_cents l -> is_cents (qsum l).
Proof.
  induction 1 as [|x l Hx _ IH]; [apply is_cents_0|].
  destruct (is_cents_plus _ _ Hx IH) as [c Hc]. exists c.
  by rewrite qsum_cons.
Qed.

#[export] Instance is_cents_comp : Proper (Qeq ==> iff) is_cents.
Proof. intros a b H. unfold is_cents. by setoid_rewrite H. Qed.

#[export] Hint Resolve round2_is_cents is_cents_0 is_cents_plus is_cents_qsum
  round2_nonneg qmax_ge_r qmax_ge_l : shop.
