(* ===== verification/Json.v ===== *)
(** * JSON values and Python dictionaries.

    The event payloads of the Kafka producers are Python [dict]s built with
    literals, [d[k] = v] and [d.update(...)], read with [d.get(k)] and
    [d.get(k, default)], and sent as JSON.  A dictionary is modelled as the
    list of its items in insertion order, which is the order Python keeps
    and the order [json.dumps] writes.  The file gives the operations, the
    lookup-after-update lemmas and the invariant that keys stay unique. *)

From S2P Require Import Prelude.
From Stdlib Require Import QArith.

(** ** Definitions *)

#[warnings="-register-all"]
Inductive json : Type :=
| JNull
| JBool (b : bool)
| JInt (z : Z)
| JFloat (q : Q)
| JStr (s : string)
| JList (l : list json)
| JDict (d : list (string * json)).

Abbreviation dict := (list (string * json)).

(** [d.get(k)] as an option: [None] when the key is absent. *)
Fixpoint dict_lookup (k : string) (d : dict) : option json :=
  match d with
  | [] => None
  | (k', v) :: d' => if decide (k' = k) then Some v else dict_lookup k d'
  end.

(** [d.get(k)]: Python's [None] (JSON [null]) when the key is absent. *)
Definition dict_get (k : string) (d : dict) : json :=
  default JNull (dict_lookup k d).

(** [d.get(k, dflt)]. *)
Definition dict_get_default (k : string) (dflt : json) (d : dict) : json :=
  default dflt (dict_lookup k d).

(** [d[k] = v]: overwrite in place, or append a new item. *)
Fixpoint dict_set (k : string) (v : json) (d : dict) : dict :=
  match d with
  | [] => [(k, v)]
  | (k', v') :: d' =>
      if decide (k' = k) then (k, v) :: d' else (k', v') :: dict_set k v d'
  end.

(** [d.update(u)]: the items of [u] are set in their order. *)
Definition dict_update (d u : dict) : dict :=
  fold_left (fun acc kv => dict_set kv.1 kv.2 acc) u d.

Definition dict_keys (d : dict) : list string := d.*1.

(** [x] of an [Optional[str]] as JSON. *)
Definition json_of_opt_str (o : option string) : json :=
  match o with Some s => JStr s | None => JNull end.

Definition json_of_opt_nat (f : nat -> string) (o : option nat) : json :=
  match o with Some n => JStr (f n) | None => JNull end.

(** The string a JSON string holds, [None] for any other value. *)
Definition json_str (j : json) : option string :=
  match j with JStr s => Some s | _ => None end.

Definition json_int (j : json) : option Z :=
  match j with JInt z => Some z | _ => None end.

(** Python's [x is not None]. *)
Definition is_not_none (j : json) : bool :=
  match j with JNull => false | _ => true end.

(** Python truthiness of a JSON value. *)
Definition json_truthy (j : json) : bool :=
  match j with
  | JNull => false
  | JBool b => b
  | JInt z => negb (Z.eqb z 0)
  | JFloat q => negb (Qeq_bool q 0)
  | JStr s => negb (String.eqb s "")
  | JList l => match l with [] => false | _ => true end
  | JDict d => match d with [] => false | _ => true end
  end.

(** ** Lookup after update *)

Section DictLemmas.
Implicit Types (k : string) (v : json) (d u : dict).

Lemma dict_lookup_set_eq k v d : dict_lookup k (dict_set k v d) = Some v.
Proof.
  induction d as [|[k' v'] d IH]; simpl; repeat case_decide; simpl;
    repeat case_decide; try done.
Qed.

Lemma dict_lookup_set_ne k k' v d :
  k <> k' -> dict_lookup k' (dict_set k v d) = dict_lookup k' d.
Proof.
  intros Hne. induction d as [|[k'' v''] d IH]; simpl; repeat case_decide;
    simpl; repeat case_decide; simplify_eq; done.
Qed.

Lemma dict_lookup_set k k' v d :
  dict_lookup k' (dict_set k v d) = if decide (k = k') then Some v else dict_lookup k' d.
Proof.
  case_decide as E; [subst; apply dict_lookup_set_eq | by apply dict_lookup_set_ne].
Qed.

Lemma dict_get_set_eq k v d : dict_get k (dict_set k v d) = v.
Proof. unfold dict_get. by rewrite dict_lookup_set_eq. Qed.

Lemma dict_get_set_ne k k' v d :
  k <> k' -> dict_get k' (dict_set k v d) = dict_get k' d.
Proof. intros. unfold dict_get. by rewrite dict_lookup_set_ne. Qed.

Lemma dict_lookup_None k d : dict_lookup k d = None <-> k ∉ dict_keys d.
Proof.
  induction d as [|[k' v'] d IH]; simpl.
  - split; [intros _; apply not_elem_of_nil | done].
  - rewrite not_elem_of_cons. case_decide; naive_solver.
Qed.

Lemma dict_lookup_Some_elem_of k v d : dict_lookup k d = Some v -> (k, v) ∈ d.
Proof.
  induction d as [|[k' v'] d IH]; simpl; [done|].
  case_decide; intros; simplify_eq; [left | right; auto].
Qed.

(** Setting a key keeps the other keys and their order. *)
Lemma dict_keys_set_in k v d :
  k ∈ dict_keys d -> dict_keys (dict_set k v d) = dict_keys d.
Proof.
  unfold dict_keys. induction d as [|[k' v'] d IH]; simpl.
  - by intros ?%elem_of_nil.
  - intros Hin. destruct (decide (k' = k)) as [->|Hne]; simpl; [done|].
    f_equal. apply IH. apply elem_of_cons in Hin as [?|?]; [congruence | done].
Qed.

Lemma dict_keys_set_notin k v d :
  k ∉ dict_keys d -> dict_keys (dict_set k v d) = dict_keys d ++ [k].
Proof.
  unfold dict_keys. induction d as [|[k' v'] d IH]; simpl; [done|].
  intros [Hne Hnin]%not_elem_of_cons.
  rewrite decide_False by done. simpl. f_equal. auto.
Qed.

(** Keys stay unique. *)
Lemma dict_set_NoDup k v d : NoDup (dict_keys d) -> NoDup (dict_keys (dict_set k v d)).
Proof.
  intros H. destruct (decide (k ∈ dict_keys d)) as [Hin|Hnin].
  - by rewrite dict_keys_set_in.
  - rewrite dict_keys_set_notin by done.
    apply NoDup_app. split_and!; [done| |apply NoDup_singleton].
    intros x Hx ->%list_elem_of_singleton. done.
Qed.

Lemma dict_update_NoDup d u : NoDup (dict_keys d) -> NoDup (dict_keys (dict_update d u)).
Proof.
  unfold dict_update. revert d. induction u as [|[k v] u IH]; intros d H; simpl;
    [done|]. apply IH. by apply dict_set_NoDup.
Qed.

(** A key the update does not mention keeps its value. *)
Lemma dict_lookup_update_notin k d u :
  k ∉ dict_keys u -> dict_lookup k (dict_update d u) = dict_lookup k d.
Proof.
  unfold dict_update. revert d. induction u as [|[k' v'] u IH]; intros d H; simpl;
    [done|].
  apply not_elem_of_cons in H as [Hne H]. simpl in Hne.
  rewrite IH by done. by apply dict_lookup_set_ne.
Qed.

End DictLemmas.

#[export] Hint Rewrite dict_lookup_set_eq dict_get_set_eq : shop_rw.
#[export] Hint Resolve dict_set_NoDup dict_update_NoDup : shop.
