(* ===== verification/Collection.v ===== *)
(** * MongoDB collections through the Beanie ODM.

    A collection is the list of its documents in insertion order (the order
    an unsorted cursor yields) together with the supply of identifiers.
    [Document.insert()] gives the document the next identifier and appends
    it; [Document.get(id)] finds the document with that identifier;
    [document.save()] writes the document over the stored one with the same
    identifier (and inserts it when there is none: Beanie's save is an
    upsert); [find(query)] filters, [sort], [skip] and [limit] act on the
    resulting list.  An identifier is the index at which the supply
    allocated it; [Document.get] of a string that is no identifier raises
    in the ODM and the repositories turn that into [None], which is what
    the lookup of an unallocated index gives here.

    The invariant [coll_wf] says identifiers are unique and below the
    supply; every operation preserves it, and under it the lookups behave
    as a finite map ([coll_get_insert], [coll_get_save], ...).  Sorting by a
    timestamp uses stdpp's merge sort; Mongo does not promise an order among
    equal keys, here the order is the one merge sort gives. *)

From S2P Require Import Prelude.
From stdpp Require Import sorting.

(** ** Definitions *)

(** What the ODM needs of a document class: its [id] field. *)
Class Document (D : Type) := {
  doc_id : D -> option nat;
  with_id : nat -> D -> D;
  doc_id_with_id : forall i d, doc_id (with_id i d) = Some i;
}.

Record Collection (D : Type) := mkCollection {
  docs : list D;
  next_id : nat;
}.
Arguments mkCollection {D} docs next_id.
Arguments docs {D} c.
Arguments next_id {D} c.

Definition coll_empty {D} : Collection D := mkCollection [] 0.

Section Ops.
Context {D : Type} `{Document D}.
Implicit Types (c : Collection D) (d : D) (l : list D) (i j : nat).

Fixpoint find_id i l : option D :=
  match l with
  | [] => None
  | x :: l' => if decide (doc_id x = Some i) then Some x else find_id i l'
  end.

Fixpoint replace_id i d l : list D :=
  match l with
  | [] => []
  | x :: l' => if decide (doc_id x = Some i) then d :: l' else x :: replace_id i d l'
  end.

Fixpoint remove_id i l : list D :=
  match l with
  | [] => []
  | x :: l' => if decide (doc_id x = Some i) then l' else x :: remove_id i l'
  end.

(** [await D.get(i)]. *)
Definition coll_get i c : option D := find_id i (docs c).

(** [await d.insert()]: the document as stored (with its identifier) and
    the collection after. *)
Definition coll_insert d c : D * Collection D :=
  let d' := with_id (next_id c) d in
  (d', mkCollection (docs c ++ [d']) (S (next_id c))).

(** [await d.save()]. *)
Definition coll_save d c : Collection D :=
  match doc_id d with
  | None => (coll_insert d c).2
  | Some i =>
      match find_id i (docs c) with
      | Some _ => mkCollection (replace_id i d (docs c)) (next_id c)
      | None => mkCollection (docs c ++ [d]) (max (next_id c) (S i))
      end
  end.

(** [await d.delete()]. *)
Definition coll_delete i c : Collection D :=
  mkCollection (remove_id i (docs c)) (next_id c).

(** [await D.get(ObjectId(s))] for an identifier that travels as a string:
    the document whose printed identifier is [s].  A string that is no
    identifier finds nothing, which is what the [except Exception] around
    the call in the repositories returns. *)
Definition coll_get_str (s : string) c : option D :=
  List.find (fun d => bool_decide (str_id (doc_id d) = s)) (docs c).

(** [D.find(q)] as a list, in insertion order. *)
Definition coll_find (q : D -> bool) c : list D := List.filter q (docs c).

(** [await D.find_one(q)]. *)
Definition coll_find_one (q : D -> bool) c : option D := head (coll_find q c).

(** [await D.find(q).count()]. *)
Definition coll_count (q : D -> bool) c : nat := length (coll_find q c).

(** The orders of [.sort(-key)] and [.sort(key)]. *)
Definition key_ge (key : D -> nat) (a b : D) : Prop := key b <= key a.
Definition key_le (key : D -> nat) (a b : D) : Prop := key a <= key b.

#[export] Instance key_ge_dec key : RelDecision (key_ge key).
Proof. intros a b. unfold key_ge. apply _. Defined.
#[export] Instance key_le_dec key : RelDecision (key_le key).
Proof. intros a b. unfold key_le. apply _. Defined.
#[export] Instance key_ge_total key : Total (key_ge key).
Proof. intros a b. unfold key_ge. lia. Qed.
#[export] Instance key_le_total key : Total (key_le key).
Proof. intros a b. unfold key_le. lia. Qed.

(** [.sort(-key)] and [.sort(key)]. *)
Definition sort_desc (key : D -> nat) l : list D := merge_sort (key_ge key) l.
Definition sort_asc (key : D -> nat) l : list D := merge_sort (key_le key) l.

Definition ids l : list (option nat) := doc_id <$> l.

(** Identifiers are unique and were all allocated by the supply. *)
Definition coll_wf c : Prop :=
  NoDup (ids (docs c)) /\
  Forall (fun d => exists i, doc_id d = Some i /\ i < next_id c) (docs c).

(** ** Lookups in a list of documents *)

Lemma find_id_Some i l d : find_id i l = Some d -> d ∈ l /\ doc_id d = Some i.
Proof.
  induction l as [|x l IH]; simpl; [done|].
  case_decide; intros; simplify_eq; [split; [left|done]|].
  destruct IH as [? ?]; [done|]. split; [by right|done].
Qed.

Lemma find_id_None i l : find_id i l = None <-> Some i ∉ ids l.
Proof.
  unfold ids. induction l as [|x l IH]; simpl.
  - split; [intros _; apply not_elem_of_nil | done].
  - rewrite not_elem_of_cons. case_decide; naive_solver.
Qed.

Lemma find_id_is_Some i l : is_Some (find_id i l) <-> Some i ∈ ids l.
Proof.
  rewrite <- not_eq_None_Some, find_id_None.
  destruct (decide (Some i ∈ ids l)); naive_solver.
Qed.

(** With unique identifiers, a document of the list is the one found
    under its identifier. *)
Lemma find_id_elem_of i l d :
  NoDup (ids l) -> d ∈ l -> doc_id d = Some i -> find_id i l = Some d.
Proof.
  unfold ids. induction l as [|x l IH]; simpl; [by intros _ ?%elem_of_nil|].
  intros [Hx Hnd]%NoDup_cons [->|Hin]%elem_of_cons Hid.
  - by rewrite decide_True.
  - rewrite decide_False; [auto|]. intros Hxi. apply Hx.
    rewrite Hxi, <- Hid. by apply list_elem_of_fmap_2.
Qed.

Lemma find_id_app i l1 l2 :
  find_id i (l1 ++ l2) = match find_id i l1 with Some d => Some d | None => find_id i l2 end.
Proof. induction l1 as [|x l1 IH]; simpl; [done|]. by case_decide. Qed.

Lemma ids_replace_id i d l : doc_id d = Some i -> ids (replace_id i d l) = ids l.
Proof.
  intros Hd. unfold ids. induction l as [|x l IH]; csimpl; [done|].
  case_decide; csimpl; congruence.
Qed.

Lemma length_replace_id i d l : length (replace_id i d l) = length l.
Proof. induction l as [|x l IH]; simpl; [done|]. case_decide; simpl; congruence. Qed.

Lemma find_id_replace_eq i d l :
  doc_id d = Some i -> is_Some (find_id i l) -> find_id i (replace_id i d l) = Some d.
Proof.
  intros Hd. induction l as [|x l IH]; simpl; [by intros []|].
  case_decide as Hx; simpl.
  - intros _. by rewrite decide_True.
  - rewrite decide_False by done. auto.
Qed.

Lemma find_id_replace_ne i j d l :
  doc_id d = Some i -> i <> j -> find_id j (replace_id i d l) = find_id j l.
Proof.
  intros Hd Hne. induction l as [|x l IH]; simpl; [done|].
  case_decide as Hx; simpl.
  - rewrite !decide_False by congruence. done.
  - case_decide; auto.
Qed.

Lemma elem_of_replace_id i d l x :
  x ∈ replace_id i d l -> x = d \/ x ∈ l.
Proof.
  induction l as [|y l IH]; simpl; [auto|].
  case_decide; rewrite !elem_of_cons; naive_solver.
Qed.

(** With unique identifiers, what is left of the old list carries other
    identifiers. *)
Lemma elem_of_replace_id_ne i d l x :
  NoDup (ids l) -> x ∈ replace_id i d l -> x = d \/ (x ∈ l /\ doc_id x <> Some i).
Proof.
  unfold ids. induction l as [|y l IH]; simpl; [by intros _ ?%elem_of_nil|].
  intros [Hy Hnd]%NoDup_cons. case_decide as Hyi.
  - intros [->|Hin]%elem_of_cons; [by left|]. right. split; [by right|].
    intros Hx. apply Hy. rewrite Hyi, <- Hx. by apply list_elem_of_fmap_2.
  - intros [->|Hin]%elem_of_cons; [right; split; [by left | done]|].
    destruct (IH Hnd Hin) as [->|[? ?]]; [by left|]. right. split; [by right | done].
Qed.

Lemma elem_of_remove_id i l x : x ∈ remove_id i l -> x ∈ l.
Proof.
  induction l as [|y l IH]; simpl; [auto|].
  case_decide; rewrite !elem_of_cons; naive_solver.
Qed.

Lemma ids_remove_id_sublist i l : ids (remove_id i l) `sublist_of` ids l.
Proof.
  unfold ids. induction l as [|y l IH]; simpl; [done|].
  case_decide; simpl; [by apply sublist_cons | by apply sublist_skip].
Qed.

Lemma find_id_remove_eq i l : NoDup (ids l) -> find_id i (remove_id i l) = None.
Proof.
  unfold ids. induction l as [|y l IH]; simpl; [done|].
  intros [Hy Hnd]%NoDup_cons. case_decide as E; simpl.
  - apply find_id_None. by rewrite <- E.
  - rewrite decide_False by done. auto.
Qed.

Lemma find_id_remove_ne i j l : i <> j -> find_id j (remove_id i l) = find_id j l.
Proof.
  intros Hne. induction l as [|y l IH]; simpl; [done|].
  case_decide as E; simpl.
  - rewrite decide_False by congruence. done.
  - case_decide; auto.
Qed.

(** ** The collection as a finite map *)

Lemma coll_get_Some i c d : coll_get i c = Some d -> d ∈ docs c /\ doc_id d = Some i.
Proof. apply find_id_Some. Qed.

Lemma coll_get_id i c d : coll_get i c = Some d -> doc_id d = Some i.
Proof. by intros [_ ?]%coll_get_Some. Qed.

Lemma coll_get_elem_of i c d :
  coll_wf c -> d ∈ docs c -> doc_id d = Some i -> coll_get i c = Some d.
Proof. intros [Hnd _]. by apply find_id_elem_of. Qed.

(** No document has an identifier the supply has not allocated yet. *)
Lemma coll_get_fresh i c : coll_wf c -> next_id c <= i -> coll_get i c = None.
Proof.
  intros [_ Hall] Hle. apply find_id_None. unfold ids.
  intros (d & Hd & Hin)%list_elem_of_fmap.
  rewrite Forall_forall in Hall. destruct (Hall d Hin) as (k & Hk & Hlt).
  rewrite Hk in Hd. simplify_eq. lia.
Qed.

Lemma coll_wf_empty : coll_wf (@coll_empty D).
Proof. split; [apply NoDup_nil_2 | apply Forall_nil_2]. Qed.

Lemma coll_insert_id d c : doc_id (coll_insert d c).1 = Some (next_id c).
Proof. apply doc_id_with_id. Qed.

Lemma coll_insert_wf d c : coll_wf c -> coll_wf (coll_insert d c).2.
Proof.
  intros [Hnd Hall]. split; simpl.
  - unfold ids. rewrite fmap_app. simpl. rewrite doc_id_with_id.
    apply NoDup_app. split_and!; [done| |apply NoDup_singleton].
    intros o Ho ->%list_elem_of_singleton.
    apply list_elem_of_fmap in Ho as (x & Hx & Hin).
    rewrite Forall_forall in Hall. destruct (Hall x Hin) as (k & Hk & Hlt).
    rewrite Hk in Hx. simplify_eq. lia.
  - apply Forall_app. split.
    + eapply Forall_impl; [done|]. intros x (k & ? & ?). exists k. split; [done|lia].
    + apply Forall_singleton. exists (next_id c).
      split; [apply doc_id_with_id | lia].
Qed.

(** The inserted document is found under its identifier. *)
Lemma coll_get_insert_new d c :
  coll_wf c -> coll_get (next_id c) (coll_insert d c).2 = Some (coll_insert d c).1.
Proof.
  intros Hwf. unfold coll_get. simpl. rewrite find_id_app.
  fold (coll_get (next_id c) c). rewrite coll_get_fresh by done.
  simpl. by rewrite decide_True by apply doc_id_with_id.
Qed.

(** The other documents are untouched. *)
Lemma coll_get_insert_old i d c :
  i <> next_id c -> coll_get i (coll_insert d c).2 = coll_get i c.
Proof.
  intros Hne. unfold coll_get. simpl. rewrite find_id_app.
  destruct (find_id i (docs c)); [done|]. simpl.
  rewrite decide_False; [done|]. rewrite doc_id_with_id. congruence.
Qed.

Lemma coll_insert_docs d c : docs (coll_insert d c).2 = docs c ++ [(coll_insert d c).1].
Proof. done. Qed.

Lemma coll_insert_next_id d c : next_id (coll_insert d c).2 = S (next_id c).
Proof. done. Qed.

(** Saving a stored document replaces it and nothing else. *)
Lemma coll_save_stored i d c :
  doc_id d = Some i -> is_Some (coll_get i c) ->
  coll_save d c = mkCollection (replace_id i d (docs c)) (next_id c).
Proof.
  intros Hd [x Hx]. unfold coll_save, coll_get in *. by rewrite Hd, Hx.
Qed.

Lemma coll_get_save_eq i d c :
  doc_id d = Some i -> is_Some (coll_get i c) -> coll_get i (coll_save d c) = Some d.
Proof.
  intros Hd Hs. rewrite (coll_save_stored i) by done.
  by apply find_id_replace_eq.
Qed.

Lemma coll_get_save_ne i j d c :
  doc_id d = Some i -> is_Some (coll_get i c) -> i <> j ->
  coll_get j (coll_save d c) = coll_get j c.
Proof.
  intros Hd Hs Hne. rewrite (coll_save_stored i) by done.
  by apply find_id_replace_ne.
Qed.

Lemma coll_save_stored_wf i d c :
  doc_id d = Some i -> is_Some (coll_get i c) -> coll_wf c -> coll_wf (coll_save d c).
Proof.
  intros Hd Hs [Hnd Hall]. rewrite (coll_save_stored i) by done.
  split; simpl; [by rewrite ids_replace_id|].
  apply Forall_forall. intros x [->|Hin]%elem_of_replace_id.
  - exists i. split; [done|]. destruct Hs as [y Hy].
    apply coll_get_Some in Hy as [Hin Hid].
    rewrite Forall_forall in Hall. destruct (Hall y Hin) as (k & Hk & ?).
    rewrite Hk in Hid. by simplify_eq.
  - rewrite Forall_forall in Hall. auto.
Qed.

Lemma coll_save_stored_length i d c :
  doc_id d = Some i -> is_Some (coll_get i c) ->
  length (docs (coll_save d c)) = length (docs c).
Proof.
  intros Hd Hs. rewrite (coll_save_stored i) by done. apply length_replace_id.
Qed.

Lemma coll_save_stored_next_id i d c :
  doc_id d = Some i -> is_Some (coll_get i c) -> next_id (coll_save d c) = next_id c.
Proof. intros Hd Hs. by rewrite (coll_save_stored i). Qed.

Lemma coll_delete_wf i c : coll_wf c -> coll_wf (coll_delete i c).
Proof.
  intros [Hnd Hall]. split; simpl.
  - eapply sublist_NoDup; [done | apply ids_remove_id_sublist].
  - apply Forall_forall. intros x Hx%elem_of_remove_id.
    rewrite Forall_forall in Hall. auto.
Qed.

Lemma coll_get_delete_eq i c : coll_wf c -> coll_get i (coll_delete i c) = None.
Proof. intros [Hnd _]. by apply find_id_remove_eq. Qed.

Lemma coll_get_delete_ne i j c : i <> j -> coll_get j (coll_delete i c) = coll_get j c.
Proof. apply find_id_remove_ne. Qed.

(** ** Queries *)

Lemma coll_find_elem_of q c d : d ∈ coll_find q c <-> d ∈ docs c /\ q d = true.
Proof.
  unfold coll_find. rewrite !list_elem_of_In. apply filter_In.
Qed.

Lemma coll_find_one_Some q c d :
  coll_find_one q c = Some d -> d ∈ docs c /\ q d = true.
Proof.
  unfold coll_find_one. intros Hh. apply coll_find_elem_of.
  destruct (coll_find q c); simplify_eq/=. left.
Qed.

Lemma coll_find_one_None q c :
  coll_find_one q c = None <-> forall d, d ∈ docs c -> q d = false.
Proof.
  unfold coll_find_one. split.
  - intros Hh d Hin. destruct (q d) eqn:E; [|done].
    assert (d ∈ coll_find q c) as Hd by by apply coll_find_elem_of.
    destruct (coll_find q c); [by apply elem_of_nil in Hd | done].
  - intros Hall. destruct (coll_find q c) as [|d l] eqn:E; [done|].
    assert (d ∈ coll_find q c) as [Hin Hq]%coll_find_elem_of by (rewrite E; left).
    rewrite Hall in Hq by done. done.
Qed.

(** A query no stored document satisfies finds nothing. *)
Lemma coll_find_none q c : Forall (fun d => q d = false) (docs c) -> coll_find q c = [].
Proof.
  unfold coll_find. induction 1 as [|d l Hd _ IH]; [done|]. cbn. by rewrite Hd.
Qed.

Lemma coll_count_le q c : coll_count q c <= length (docs c).
Proof. apply filter_length_le. Qed.

Lemma sort_desc_perm key l : sort_desc key l ≡ₚ l.
Proof. apply merge_sort_Permutation. Qed.

Lemma sort_desc_sorted key l : Sorted (key_ge key) (sort_desc key l).
Proof. apply (Sorted_merge_sort _). Qed.

Lemma sort_desc_elem_of key l d : d ∈ sort_desc key l <-> d ∈ l.
Proof. by rewrite sort_desc_perm. Qed.

Lemma sort_desc_length key l : length (sort_desc key l) = length l.
Proof. by rewrite sort_desc_perm. Qed.

#[export] Instance key_ge_trans key : Transitive (key_ge key).
Proof. intros a b c. unfold key_ge. lia. Qed.

(** Every document of the sorted list is at least as recent as all the
    documents after it. *)
Lemma sort_desc_strongly_sorted key l : StronglySorted (key_ge key) (sort_desc key l).
Proof. apply Sorted_StronglySorted; [apply _ | apply sort_desc_sorted]. Qed.

(** A page of a sorted list is sorted. *)
Lemma skip_limit_strongly_sorted (R : relation D) offset limit l :
  StronglySorted R l -> StronglySorted R (skip_limit offset limit l).
Proof.
  intros Hs. unfold skip_limit.
  rewrite <- (take_drop offset l) in Hs. apply StronglySorted_app_1_r in Hs.
  destruct limit as [|n]; [done|]. cbn [limited].
  rewrite <- (take_drop (S n) (drop offset l)) in Hs.
  by apply StronglySorted_app_1_l in Hs.
Qed.

(** ** Lookup by a printed identifier *)

Lemma coll_get_str_Some s c d :
  coll_get_str s c = Some d -> d ∈ docs c /\ str_id (doc_id d) = s.
Proof.
  unfold coll_get_str. intros Hf. split.
  - apply list_elem_of_In. by apply find_some in Hf as [? _].
  - apply find_some in Hf as [_ Hq]. by apply bool_decide_eq_true in Hq.
Qed.

Lemma find_str_id i l :
  Forall (fun d => is_Some (doc_id d)) l ->
  List.find (fun d => bool_decide (str_id (doc_id d) = str_id (Some i))) l = find_id i l.
Proof.
  induction 1 as [|x l [j Hj] _ IH]; [done|]. cbn [List.find find_id]. rewrite Hj.
  destruct (decide (j = i)) as [->|Hne].
  - by rewrite bool_decide_true, decide_True.
  - rewrite bool_decide_false, decide_False; [exact IH | congruence |].
    cbn [str_id]. by intros ?%(inj pretty).
Qed.

(** On a well-formed collection, the lookup by the printed form of an
    identifier is the lookup by the identifier. *)
Lemma coll_get_str_id i c : coll_wf c -> coll_get_str (str_id (Some i)) c = coll_get i c.
Proof.
  intros [_ Hall]. apply find_str_id. eapply Forall_impl; [exact Hall|].
  cbn beta. intros d (j & -> & _). by eexists.
Qed.

Lemma coll_get_str_get s c d :
  coll_wf c -> coll_get_str s c = Some d ->
  exists i, doc_id d = Some i /\ s = str_id (Some i) /\ coll_get i c = Some d.
Proof.
  intros Hwf Hs. destruct (coll_get_str_Some _ _ _ Hs) as [Hin <-].
  destruct Hwf as [Hnd Hall]. pose proof Hall as Hall'.
  eapply Forall_forall in Hall as (i & Hi & _); [|exact Hin].
  exists i. rewrite Hi. split_and!; [done..|].
  rewrite <- (coll_get_str_id i c (conj Hnd Hall')). by rewrite Hi in Hs.
Qed.

(** A string finds a document or is the printed form of no stored
    identifier. *)
Lemma coll_get_str_None s c i :
  coll_wf c -> coll_get_str s c = None -> s = str_id (Some i) -> coll_get i c = None.
Proof. intros Hwf Hs ->. by rewrite <- coll_get_str_id. Qed.

(** Saving a stored document under its identifier: the lookup by that
    identifier finds the saved document, every other lookup is unchanged. *)
Lemma coll_get_str_save_eq s d d' c :
  coll_wf c -> coll_get_str s c = Some d -> doc_id d' = doc_id d ->
  coll_get_str s (coll_save d' c) = Some d'.
Proof.
  intros Hwf Hs Hid. destruct (coll_get_str_get _ _ _ Hwf Hs) as (i & Hi & -> & Hget).
  assert (is_Some (coll_get i c)) as Hsome by (by rewrite Hget).
  rewrite coll_get_str_id by (apply (coll_save_stored_wf i); [congruence | done | done]).
  apply coll_get_save_eq; [congruence | done].
Qed.

Lemma coll_get_str_save_ne s s' d d' c :
  coll_wf c -> coll_get_str s c = Some d -> doc_id d' = doc_id d -> s' <> s ->
  coll_get_str s' (coll_save d' c) = coll_get_str s' c.
Proof.
  intros Hwf Hs Hid Hne. destruct (coll_get_str_get _ _ _ Hwf Hs) as (i & Hi & -> & Hget).
  assert (is_Some (coll_get i c)) as Hsome by (by rewrite Hget).
  assert (coll_wf (coll_save d' c)) as Hwf'
    by (apply (coll_save_stored_wf i); [congruence | done | done]).
  destruct (coll_get_str s' c) as [x|] eqn:Hx.
  - destruct (coll_get_str_get _ _ _ Hwf Hx) as (j & Hj & -> & Hgetj).
    rewrite coll_get_str_id by done.
    rewrite (coll_get_save_ne i); [done | congruence | done | congruence].
  - destruct (coll_get_str s' (coll_save d' c)) as [y|] eqn:Hy; [|done].
    destruct (coll_get_str_get _ _ _ Hwf' Hy) as (j & Hj & -> & Hgetj).
    rewrite (coll_get_save_ne i) in Hgetj; [| congruence | done | congruence].
    by rewrite <- coll_get_str_id, Hx in Hgetj.
Qed.

(** A document stored after such a save is the saved one or a stored
    document with another identifier. *)
Lemma elem_of_coll_save_str s d d' c x :
  coll_wf c -> coll_get_str s c = Some d -> doc_id d' = doc_id d ->
  x ∈ docs (coll_save d' c) -> x = d' \/ (x ∈ docs c /\ doc_id x <> doc_id d).
Proof.
  intros Hwf Hs Hid Hx. destruct (coll_get_str_get _ _ _ Hwf Hs) as (i & Hi & -> & Hget).
  rewrite (coll_save_stored i) in Hx; [| congruence | by rewrite Hget].
  rewrite Hi. apply elem_of_replace_id_ne; [apply Hwf | done].
Qed.

(** A stored document carries an identifier other than the next one. *)
Lemma coll_wf_elem_of_id c d : coll_wf c -> d ∈ docs c -> doc_id d <> Some (next_id c).
Proof.
  intros [_ Hall] Hin. eapply Forall_forall in Hall as (i & -> & Hlt); [|done].
  intros [= ->]. lia.
Qed.

(** With unique identifiers, two stored documents with the same
    identifier are the same document. *)
Lemma coll_wf_id_inj c d1 d2 :
  coll_wf c -> d1 ∈ docs c -> d2 ∈ docs c -> doc_id d1 = doc_id d2 -> d1 = d2.
Proof.
  intros [Hnd Hall] H1 H2 Hid.
  pose proof Hall as Hall'. eapply Forall_forall in Hall' as (i & Hi & _); [|exact H1].
  pose proof (find_id_elem_of i _ _ Hnd H1 Hi) as E1.
  rewrite Hid in Hi. pose proof (find_id_elem_of i _ _ Hnd H2 Hi) as E2. congruence.
Qed.

(** A stored document is found under the identifier it carries. *)
Lemma coll_get_str_elem_of c d :
  coll_wf c -> d ∈ docs c -> coll_get_str (str_id (doc_id d)) c = Some d.
Proof.
  intros Hwf Hin. pose proof Hwf as [_ Hall].
  eapply Forall_forall in Hall as (i & Hi & _); [|exact Hin].
  rewrite Hi, coll_get_str_id by done. by apply coll_get_elem_of.
Qed.

(** The inserted document is found under the identifier it was given. *)
Lemma coll_get_str_insert_new d c :
  coll_wf c ->
  coll_get_str (str_id (doc_id (coll_insert d c).1)) (coll_insert d c).2
  = Some (coll_insert d c).1.
Proof.
  intros Hwf. rewrite coll_insert_id, coll_get_str_id by by apply coll_insert_wf.
  by apply coll_get_insert_new.
Qed.

(** The documents after such a save: the saved one in place of the
    stored one. *)
Lemma coll_save_str_docs s d d' c :
  coll_wf c -> coll_get_str s c = Some d -> doc_id d' = doc_id d ->
  exists i, doc_id d = Some i /\ docs (coll_save d' c) = replace_id i d' (docs c) /\
            coll_wf (coll_save d' c).
Proof.
  intros Hwf Hs Hid. destruct (coll_get_str_get _ _ _ Hwf Hs) as (i & Hi & -> & Hget).
  assert (is_Some (coll_get i c)) as Hsome by (by rewrite Hget).
  exists i. split_and!; [done | |].
  - rewrite (coll_save_stored i); [done | congruence | done].
  - apply (coll_save_stored_wf i); [congruence | done | done].
Qed.

(** Of two saves under one identifier the second is the one that stays. *)
Lemma replace_id_replace_id i d1 d2 l :
  doc_id d1 = Some i -> replace_id i d2 (replace_id i d1 l) = replace_id i d2 l.
Proof.
  intros H1. induction l as [|x l IH]; simpl; [done|].
  case_decide as Hx; simpl; [by rewrite decide_True | rewrite decide_False by done].
  by rewrite IH.
Qed.

Lemma coll_save_save s d d1 d2 c :
  coll_wf c -> coll_get_str s c = Some d -> doc_id d1 = doc_id d -> doc_id d2 = doc_id d ->
  coll_save d2 (coll_save d1 c) = coll_save d2 c.
Proof.
  intros Hwf Hs H1 H2. destruct (coll_get_str_get _ _ _ Hwf Hs) as (i & Hi & -> & Hget).
  assert (is_Some (coll_get i c)) as Hsome by (by rewrite Hget).
  rewrite (coll_save_stored i d1 c), (coll_save_stored i d2 c) by (done || congruence).
  rewrite (coll_save_stored i d2); [| congruence |].
  - cbn. f_equal. apply replace_id_replace_id. congruence.
  - unfold coll_get. cbn. rewrite find_id_replace_eq; [done | congruence | done].
Qed.

(** A document that is inserted and then saved under the identifier it
    was given: the stored documents are the old ones and the saved one. *)
Lemma replace_id_fresh i d d' l :
  Some i ∉ ids l -> doc_id d = Some i -> replace_id i d' (l ++ [d]) = l ++ [d'].
Proof.
  intros Hi Hd. induction l as [|x l IH]; cbn.
  - by rewrite decide_True.
  - cbn in Hi. apply not_elem_of_cons in Hi as [Hx Hl].
    rewrite decide_False by congruence. by rewrite IH.
Qed.

Lemma coll_save_insert_docs d d' c :
  coll_wf c -> doc_id d' = Some (next_id c) ->
  docs (coll_save d' (coll_insert d c).2) = docs c ++ [d'].
Proof.
  intros Hwf Hd'. rewrite (coll_save_stored (next_id c)); [|done|].
  - cbn. apply replace_id_fresh; [|apply doc_id_with_id].
    apply find_id_None. by apply (coll_get_fresh _ c).
  - by rewrite coll_get_insert_new.
Qed.

(** A property of all stored documents survives such a save when the
    saved document has it. *)
Lemma Forall_coll_save_str (P : D -> Prop) s d d' c :
  coll_wf c -> coll_get_str s c = Some d -> doc_id d' = doc_id d ->
  Forall P (docs c) -> P d' -> Forall P (docs (coll_save d' c)).
Proof.
  intros Hwf Hs Hid Hall Hd. rewrite Forall_forall in Hall. apply Forall_forall.
  intros x [->|[Hx _]]%(elem_of_coll_save_str s d); [done | by apply Hall | done..].
Qed.

Lemma Forall_coll_insert (P : D -> Prop) d c :
  Forall P (docs c) -> P (coll_insert d c).1 -> Forall P (docs (coll_insert d c).2).
Proof. intros Hall Hd. cbn. apply Forall_app. split; [done | by apply Forall_singleton]. Qed.

End Ops.

(** ** A key that identifies the document *)

(** The services keep some fields unique (a SKU, a name, an email
    address) by looking the value up before they write.  [unique_key] is
    the invariant: two stored documents with the same key are the same
    document, for the keys that count ([cnt]: an empty SKU does not). *)
Section Unique.
Context {D K : Type} `{Document D} (key : D -> K) (cnt : K -> bool).
Implicit Types (c : Collection D) (d : D).

Definition unique_key c : Prop :=
  forall d1 d2, d1 ∈ docs c -> d2 ∈ docs c ->
    cnt (key d1) = true -> key d1 = key d2 -> doc_id d1 = doc_id d2.

Lemma unique_key_empty : unique_key coll_empty.
Proof. intros d1 d2 Hin. by apply elem_of_nil in Hin. Qed.

(** Inserting a document keeps the keys unique when its key does not
    count or is carried by no stored document. *)
Lemma unique_key_insert d c :
  unique_key c -> key (coll_insert d c).1 = key d ->
  (cnt (key d) = false \/ forall x, x ∈ docs c -> key x <> key d) ->
  unique_key (coll_insert d c).2.
Proof.
  intros Hu Hkey Hcase d1 d2. cbn [snd coll_insert docs].
  rewrite !elem_of_app, !list_elem_of_singleton.
  intros [H1| ->] [H2| ->] Ht He; [by apply Hu | | | done]; cbn [fst coll_insert] in Hkey.
  - destruct Hcase as [Ef|Hfresh]; [congruence | destruct (Hfresh d1 H1); congruence].
  - destruct Hcase as [Ef|Hfresh]; [congruence | destruct (Hfresh d2 H2); congruence].
Qed.

(** Saving a document over the stored one keeps the keys unique when its
    key is the stored one's, does not count, or is carried by no stored
    document. *)
Lemma unique_key_save s d d' c :
  coll_wf c -> unique_key c -> coll_get_str s c = Some d -> doc_id d' = doc_id d ->
  (key d' = key d \/ cnt (key d') = false \/ forall x, x ∈ docs c -> key x <> key d') ->
  unique_key (coll_save d' c).
Proof.
  intros Hwf Hu Hget Hid Hcase d1 d2.
  pose proof (coll_get_str_Some _ _ _ Hget) as [Hin _].
  intros [->|[H1 N1]]%(elem_of_coll_save_str s d) [->|[H2 N2]]%(elem_of_coll_save_str s d)
    Ht He; try done.
  - destruct Hcase as [Es|[Ef|Hfresh]]; [|congruence|by destruct (Hfresh d2 H2)].
    destruct N2. symmetry. apply (Hu d d2); [done | done | congruence | congruence].
  - destruct Hcase as [Es|[Ef|Hfresh]]; [|congruence|by destruct (Hfresh d1 H1)].
    destruct N1. apply (Hu d1 d); [done | done | done | congruence].
  - by apply Hu.
Qed.

(** With well-formed identifiers, a key that counts names one document. *)
Lemma unique_key_inj c d1 d2 :
  coll_wf c -> unique_key c -> d1 ∈ docs c -> d2 ∈ docs c ->
  cnt (key d1) = true -> key d1 = key d2 -> d1 = d2.
Proof. intros Hwf Hu H1 H2 Ht He. eapply coll_wf_id_inj; [done..|]. by apply Hu. Qed.

(** [find_one] on the key finding nothing says that no stored document
    carries it. *)
Lemma find_one_key_None `{EqDecision K} (k : K) c x :
  coll_find_one (fun d => bool_decide (key d = k)) c = None -> x ∈ docs c -> key x <> k.
Proof.
  intros Hnone Hin Hx. rewrite coll_find_one_None in Hnone.
  specialize (Hnone x Hin). by rewrite bool_decide_true in Hnone.
Qed.

(** And a lookup by a key that counts finds the document that carries
    it. *)
Lemma find_one_key_Some `{EqDecision K} c d :
  coll_wf c -> unique_key c -> d ∈ docs c -> cnt (key d) = true ->
  coll_find_one (fun x => bool_decide (key x = key d)) c = Some d.
Proof.
  intros Hwf Hu Hin Hc. destruct (coll_find_one _ c) as [d'|] eqn:Hf.
  - apply coll_find_one_Some in Hf as [Hin' He%bool_decide_eq_true].
    f_equal. symmetry. by eapply unique_key_inj.
  - by destruct (find_one_key_None (key d) c d Hf Hin).
Qed.

End Unique.

#[export] Hint Resolve coll_wf_empty coll_insert_wf coll_delete_wf : shop.
