(* ===== verification/Http.v ===== *)
(** * The HTTP boundary the four applications share.

    Each [main.py] builds a FastAPI application and registers the same
    two exception handlers; each controller runs its route functions under
    them.  This file holds what is common: an answer ([HttpResponse]) whose
    body is the payload of the route, the error envelope
    [{success: false, message, status_code}] or the framework's validation
    error; the exception handlers; a route function run under them
    ([respond]); the [try]/[except] wrappers the product and user
    controllers put around their service calls; and the predicate
    [answers], which says that an answer is well formed for a route.

    The payload type [P] is the parameter: every service instantiates it
    with the payloads of its own routes. *)

From S2P Require Import Prelude.
Local Open Scope act_scope.

(** ** Answers *)

Inductive Body (P : Type) : Type :=
| Payload (p : P)
(** the error envelope [{success: false, message, status_code}] *)
| ErrorBody (message : string) (status_code : nat)
(** FastAPI's own answer to a parameter that does not validate *)
| ValidationErrorBody.
Arguments Payload {P} p.
Arguments ErrorBody {P} message status_code.
Arguments ValidationErrorBody {P}.

Record HttpResponse (P : Type) : Type := mkHttpResponse {
  status_code : nat;
  body : Body P;
}.
Arguments mkHttpResponse {P} status_code body.
Arguments status_code {P} h.
Arguments body {P} h.

Definition HTTP_200_OK : nat := 200.
Definition HTTP_201_CREATED : nat := 201.
Definition HTTP_422_UNPROCESSABLE_ENTITY : nat := 422.

(** ** The exception handlers of an application *)

(** [http_exception_handler] and [general_exception_handler]. *)
Definition exception_handler {P} (e : exn) : HttpResponse P :=
  match e with
  | HTTPException status_code detail => mkHttpResponse status_code (ErrorBody detail status_code)
  | PyException _ _ =>
      mkHttpResponse HTTP_500_INTERNAL_SERVER_ERROR
        (ErrorBody "Internal server error" HTTP_500_INTERNAL_SERVER_ERROR)
  end.

Definition validation_error {P} : HttpResponse P :=
  mkHttpResponse HTTP_422_UNPROCESSABLE_ENTITY ValidationErrorBody.

(** A route function run under the exception handlers: its answer with
    the status code of the route, or the answer of the handler. *)
Definition respond {W A P} (code : nat) (wrap : A -> P) (c : Act W A)
    : Act W (HttpResponse P) :=
  try_except (r <- c ;; ret (mkHttpResponse code (Payload (wrap r))))
    (fun e => ret (exception_handler e)).

(** A route whose parameters FastAPI validates first: when they do not
    validate the route function does not run. *)
Definition validated {W P} (valid : bool) (route : Act W (HttpResponse P))
    : Act W (HttpResponse P) :=
  if negb valid then ret validation_error else route.

(** [Query(1, ge=1)] and [Query(n, ge=1, le=100)] of a paginated route. *)
Definition valid_page (page per_page : nat) : bool :=
  bool_decide (1 <= page) && bool_decide (1 <= per_page <= 100).

(** ** The [try]/[except] of a controller *)

Definition internal_server_error : exn :=
  HTTPException HTTP_500_INTERNAL_SERVER_ERROR "Internal server error".

(** [except HTTPException as e: raise e] then
    [except Exception: raise HTTPException(500, "Internal server error")]. *)
Definition reraise_http {W A} (c : Act W A) : Act W A :=
  try_except c (fun e => if is_http e then raise e else raise internal_server_error).

(** [except Exception: raise HTTPException(500, "Internal server error")]
    alone: an [HTTPException] of the service is masked as well. *)
Definition mask_errors {W A} (c : Act W A) : Act W A :=
  try_except c (fun _ => raise internal_server_error).

(** ** What a client may rely on in an answer *)

(** The status codes the services raise. *)
Definition error_codes : list nat :=
  [HTTP_400_BAD_REQUEST; HTTP_401_UNAUTHORIZED; HTTP_403_FORBIDDEN; HTTP_404_NOT_FOUND;
   HTTP_500_INTERNAL_SERVER_ERROR].

(** An exception the handlers turn into one of those codes. *)
Definition known (e : exn) : bool :=
  match e with
  | HTTPException status_code _ => bool_decide (status_code ∈ error_codes)
  | PyException _ _ => true
  end.

(** A well-formed answer to a route that declares [code]: the payload
    under [code], the error envelope under the code it carries, or the
    validation error under 422. *)
Definition answers {P} (code : nat) (r : HttpResponse P) : bool :=
  match body r with
  | Payload _ => bool_decide (status_code r = code)
  | ErrorBody _ c => bool_decide (status_code r = c) && bool_decide (c ∈ error_codes)
  | ValidationErrorBody => bool_decide (status_code r = HTTP_422_UNPROCESSABLE_ENTITY)
  end.

(** An action all of whose exceptions are [known]. *)
Definition raises_known {W A} (c : Act W A) : Prop :=
  forall w e, result_of c w = Raise e -> known e = true.

(** ** Lemmas *)

Section Respond.
Context {W A P : Type}.
Implicit Types (c : Act W A) (wrap : A -> P) (w : W).

Lemma respond_run code wrap c w :
  respond code wrap c w =
  (Ok (match (c w).1 with
       | Ok r => mkHttpResponse code (Payload (wrap r))
       | Raise e => exception_handler e
       end), (c w).2).
Proof. unfold respond, try_except, bind, ret. by destruct (c w) as [[r|e] w']. Qed.

(** The handlers touch no state: a route leaves the state its function
    left. *)
Lemma respond_state code wrap c w : state_after (respond code wrap c) w = state_after c w.
Proof. unfold state_after. by rewrite respond_run. Qed.

Lemma validated_run valid (route : Act W (HttpResponse P)) w :
  validated valid route w = if valid then route w else (Ok validation_error, w).
Proof. by destruct valid. Qed.

Lemma exception_handler_answers code e :
  known e = true -> answers (P:=P) code (exception_handler e) = true.
Proof.
  destruct e as [s d|]; [|done]. unfold answers. cbn. intros Hc.
  by rewrite Hc, bool_decide_true.
Qed.

(** A route function whose exceptions are known is answered well. *)
Lemma respond_answers code wrap c w :
  (forall e, result_of c w = Raise e -> known e = true) ->
  exists r, result_of (respond code wrap c) w = Ok r /\ answers code r = true.
Proof.
  intros Hknown. unfold result_of in *. rewrite respond_run. cbn [fst].
  destruct (c w).1 as [a|e]; eexists; (split; [done|]);
    [unfold answers; cbn; by rewrite bool_decide_true
    | by apply exception_handler_answers, Hknown].
Qed.

Lemma reraise_http_run c w :
  reraise_http c w =
  match c w with
  | (Ok a, w') => (Ok a, w')
  | (Raise (HTTPException s d), w') => (Raise (HTTPException s d), w')
  | (Raise (PyException _ _), w') => (Raise internal_server_error, w')
  end.
Proof. unfold reraise_http, try_except. by destruct (c w) as [[a|[s d|k m]] w']. Qed.

Lemma reraise_http_state c w : state_after (reraise_http c) w = state_after c w.
Proof. unfold state_after. rewrite reraise_http_run. by destruct (c w) as [[a|[s d|k m]] w']. Qed.

Lemma mask_errors_run c w :
  mask_errors c w =
  match c w with
  | (Ok a, w') => (Ok a, w')
  | (Raise _, w') => (Raise internal_server_error, w')
  end.
Proof. unfold mask_errors, try_except. by destruct (c w) as [[a|e] w']. Qed.

Lemma mask_errors_state c w : state_after (mask_errors c) w = state_after c w.
Proof. unfold state_after. rewrite mask_errors_run. by destruct (c w) as [[a|e] w']. Qed.

(** The wrappers keep the exceptions known. *)
Lemma reraise_http_known c : raises_known c -> raises_known (reraise_http c).
Proof.
  intros Hc w e. unfold result_of. rewrite reraise_http_run.
  destruct (c w) as [[a|[s d|k m]] w'] eqn:E; cbn [fst]; intros [= <-]; [|done].
  apply (Hc w). unfold result_of. by rewrite E.
Qed.

Lemma mask_errors_known c : raises_known (mask_errors c).
Proof.
  intros w e. unfold result_of. rewrite mask_errors_run.
  by destruct (c w) as [[a|e'] w']; cbn [fst]; intros [= <-].
Qed.

(** A validated route leaves the state its function left, or the state
    it found; it is answered well when the exceptions of its function are
    known. *)
Lemma route_state valid code wrap c w :
  state_after (validated valid (respond code wrap c)) w = if valid then state_after c w else w.
Proof. unfold state_after. rewrite validated_run. destruct valid; [apply respond_state | done]. Qed.

Lemma respond_answers_known code wrap c w :
  raises_known c ->
  exists r, result_of (respond code wrap c) w = Ok r /\ answers code r = true.
Proof. intros Hc. apply respond_answers, Hc. Qed.

Lemma route_answers valid code wrap c w :
  raises_known c ->
  exists r, result_of (validated valid (respond code wrap c)) w = Ok r /\ answers code r = true.
Proof.
  intros Hc. unfold result_of. rewrite validated_run. destruct valid; [|by eexists].
  apply respond_answers, Hc.
Qed.

End Respond.

(** ** Known exceptions, compositionally *)

Section Known.
Context {W : Type}.

Lemma raises_known_ret {A} (a : A) : raises_known (W:=W) (ret a).
Proof. by intros w e. Qed.

Lemma raises_known_gets {A} (f : W -> A) : raises_known (gets f).
Proof. by intros w e. Qed.

Lemma raises_known_modify (f : W -> W) : raises_known (modify f).
Proof. by intros w e. Qed.

Lemma raises_known_raise {A} e : known e = true -> raises_known (W:=W) (A:=A) (raise e).
Proof. by intros He w e' [= <-]. Qed.

Lemma raises_known_bind {A B} (c : Act W A) (k : A -> Act W B) :
  raises_known c -> (forall a, raises_known (k a)) -> raises_known (x <- c ;; k x).
Proof.
  intros Hc Hk w e. unfold result_of, bind. destruct (c w) as [[a|e'] w'] eqn:E.
  - apply Hk.
  - cbn. intros [= <-]. apply (Hc w). unfold result_of. by rewrite E.
Qed.

(** An action that always returns raises nothing. *)
Lemma raises_known_total {A} (c : Act W A) :
  (forall w, is_ok (result_of c w) = true) -> raises_known c.
Proof. intros Hc w e He. specialize (Hc w). by rewrite He in Hc. Qed.

Lemma of_res_known {A} (r : Res A) :
  (forall e, r = Raise e -> known e = true) -> raises_known (W:=W) (of_res r).
Proof. intros Hr w e. destruct r as [a|e']; [done|]. intros [= <-]. by apply Hr. Qed.

Lemma raise_if_run (cond : bool) e (w : W) :
  raise_if cond e w = if cond then (Raise e, w) else (Ok tt, w).
Proof. by destruct cond. Qed.

Lemma raise_if_known (cond : bool) e :
  known e = true -> raises_known (W:=W) (raise_if cond e).
Proof.
  intros He. unfold raise_if. destruct cond; [by apply raises_known_raise|].
  apply raises_known_ret.
Qed.

Lemma raises_known_floor_div a b : raises_known (W:=W) (floor_div a b).
Proof. unfold floor_div. intros w e. by case_decide; intros [= <-]. Qed.

Lemma raises_known_skip_of page per_page : raises_known (W:=W) (skip_of page per_page).
Proof. unfold skip_of. intros w e. by case_decide; intros [= <-]. Qed.

End Known.

Create HintDb known discriminated.

#[export] Hint Resolve raises_known_ret raises_known_gets raises_known_modify
  raises_known_floor_div raises_known_skip_of mask_errors_known reraise_http_known : known.

#[export] Hint Extern 1 (raises_known (raise_if _ _)) =>
  apply raise_if_known; reflexivity : known.

(** Decompose an action into its binds, branches and raises. *)
Ltac known_step :=
  match goal with
  | |- raises_known (bind _ _) => apply raises_known_bind; [|intros ?]
  | |- raises_known (raise _) => apply raises_known_raise; reflexivity
  | |- raises_known (if ?b then _ else _) => destruct b
  | |- raises_known (match ?x with _ => _ end) => destruct x
  | |- raises_known _ => solve [auto with known]
  end.

Ltac known := repeat known_step.

(** ** What an action leaves alone *)

(** An action that never changes the observation [f] of the state. *)
Definition keeps {W A B} (f : W -> B) (c : Act W A) : Prop :=
  forall w, f (state_after c w) = f w.

Section Keeps.
Context {W B : Type} (f : W -> B).

Lemma keeps_ret {A} (a : A) : keeps f (ret a).
Proof. done. Qed.

Lemma keeps_raise {A} e : keeps f (raise (A:=A) e).
Proof. done. Qed.

Lemma keeps_gets {A} (g : W -> A) : keeps f (gets g).
Proof. done. Qed.

Lemma keeps_modify (g : W -> W) : (forall w, f (g w) = f w) -> keeps f (modify g).
Proof. intros Hg w. apply Hg. Qed.

Lemma keeps_bind {A C} (c : Act W A) (k : A -> Act W C) :
  keeps f c -> (forall a, keeps f (k a)) -> keeps f (x <- c ;; k x).
Proof.
  intros Hc Hk w. specialize (Hc w). unfold state_after, bind in *.
  destruct (c w) as [[a|e] w']; [|done]. cbn [snd] in Hc. rewrite <- Hc. apply Hk.
Qed.

Lemma keeps_try_except {A} (c : Act W A) (h : exn -> Act W A) :
  keeps f c -> (forall e, keeps f (h e)) -> keeps f (try_except c h).
Proof.
  intros Hc Hh w. specialize (Hc w). unfold state_after, try_except in *.
  destruct (c w) as [[a|e] w']; [done|]. cbn [snd] in Hc. rewrite <- Hc. apply Hh.
Qed.

Lemma keeps_of_res {A} (r : Res A) : keeps f (of_res r).
Proof. done. Qed.

Lemma keeps_raise_if (cond : bool) e : keeps f (raise_if cond e).
Proof. by destruct cond. Qed.

Lemma keeps_floor_div a b : keeps f (floor_div a b).
Proof. intros w. unfold floor_div. by case_decide. Qed.

Lemma keeps_skip_of page per_page : keeps f (skip_of page per_page).
Proof. intros w. unfold skip_of. by case_decide. Qed.

Lemma keeps_reraise_http {A} (c : Act W A) : keeps f c -> keeps f (reraise_http c).
Proof. intros Hc w. by rewrite reraise_http_state. Qed.

Lemma keeps_mask_errors {A} (c : Act W A) : keeps f c -> keeps f (mask_errors c).
Proof. intros Hc w. by rewrite mask_errors_state. Qed.

Lemma keeps_respond {A P} code (wrap : A -> P) (c : Act W A) :
  keeps f c -> keeps f (respond code wrap c).
Proof. intros Hc w. by rewrite respond_state. Qed.

Lemma keeps_validated {P} valid (route : Act W (HttpResponse P)) :
  keeps f route -> keeps f (validated valid route).
Proof. intros Hc w. unfold state_after. rewrite validated_run. destruct valid; [apply Hc | done]. Qed.

End Keeps.

(** An action that keeps the whole state reads only. *)
Lemma keeps_id {W A} (c : Act W A) w : keeps id c -> state_after c w = w.
Proof. intros Hc. apply Hc. Qed.

Create HintDb keeps discriminated.

#[export] Hint Resolve keeps_ret keeps_raise keeps_gets keeps_of_res keeps_raise_if
  keeps_floor_div keeps_skip_of : keeps.

Ltac keeps_step :=
  match goal with
  | |- keeps _ (bind _ _) => apply keeps_bind; [|intros ?]
  | |- keeps _ (reraise_http _) => apply keeps_reraise_http
  | |- keeps _ (mask_errors _) => apply keeps_mask_errors
  | |- keeps _ (respond _ _ _) => apply keeps_respond
  | |- keeps _ (validated _ _) => apply keeps_validated
  | |- keeps _ (if ?b then _ else _) => destruct b
  | |- keeps _ (match ?x with _ => _ end) => destruct x
  | |- keeps _ _ => solve [auto with keeps]
  end.

Ltac keeps := repeat keeps_step.

(** ** What an action maintains *)

(** An action that maintains the invariant [I] of the state, whether it
    returns or raises. *)
Definition preserves {W A} (I : W -> Prop) (c : Act W A) : Prop :=
  forall w, I w -> I (state_after c w).

Section Preserves.
Context {W : Type} (I : W -> Prop).

Lemma preserves_ret {A} (a : A) : preserves I (ret a).
Proof. by intros w. Qed.

Lemma preserves_raise {A} e : preserves I (raise (A:=A) e).
Proof. by intros w. Qed.

Lemma preserves_gets {A} (g : W -> A) : preserves I (gets g).
Proof. by intros w. Qed.

Lemma preserves_of_res {A} (r : Res A) : preserves I (of_res r).
Proof. by intros w. Qed.

Lemma preserves_raise_if (cond : bool) e : preserves I (raise_if cond e).
Proof. intros w. by destruct cond. Qed.

Lemma preserves_bind {A C} (c : Act W A) (k : A -> Act W C) :
  preserves I c -> (forall a, preserves I (k a)) -> preserves I (x <- c ;; k x).
Proof.
  intros Hc Hk w Hw. specialize (Hc w Hw). unfold state_after, bind in *.
  destruct (c w) as [[a|e] w']; [|done]. by apply Hk.
Qed.

Lemma preserves_try_except {A} (c : Act W A) (h : exn -> Act W A) :
  preserves I c -> (forall e, preserves I (h e)) -> preserves I (try_except c h).
Proof.
  intros Hc Hh w Hw. specialize (Hc w Hw). unfold state_after, try_except in *.
  destruct (c w) as [[a|e] w']; [done|]. by apply Hh.
Qed.

Lemma preserves_reraise_http {A} (c : Act W A) : preserves I c -> preserves I (reraise_http c).
Proof. intros Hc w Hw. rewrite reraise_http_state. by apply Hc. Qed.

Lemma preserves_mask_errors {A} (c : Act W A) : preserves I c -> preserves I (mask_errors c).
Proof. intros Hc w Hw. rewrite mask_errors_state. by apply Hc. Qed.

Lemma preserves_respond {A P} code (wrap : A -> P) (c : Act W A) :
  preserves I c -> preserves I (respond code wrap c).
Proof. intros Hc w Hw. rewrite respond_state. by apply Hc. Qed.

Lemma preserves_validated {P} valid (route : Act W (HttpResponse P)) :
  preserves I route -> preserves I (validated valid route).
Proof.
  intros Hc w Hw. unfold state_after. rewrite validated_run.
  destruct valid; [by apply Hc | done].
Qed.

(** An action that keeps the whole state maintains every invariant. *)
Lemma keeps_preserves {A} (c : Act W A) : keeps id c -> preserves I c.
Proof. intros Hc w Hw. by rewrite (keeps_id c w Hc). Qed.

End Preserves.

Create HintDb preserves discriminated.

#[export] Hint Resolve preserves_ret preserves_raise preserves_gets preserves_of_res
  preserves_raise_if : preserves.

Ltac preserves_step :=
  match goal with
  | |- preserves _ (bind _ _) => apply preserves_bind; [|intros ?]
  | |- preserves _ (try_except _ _) => apply preserves_try_except; [|intros ?]
  | |- preserves _ (reraise_http _) => apply preserves_reraise_http
  | |- preserves _ (mask_errors _) => apply preserves_mask_errors
  | |- preserves _ (respond _ _ _) => apply preserves_respond
  | |- preserves _ (validated _ _) => apply preserves_validated
  | |- preserves _ (if ?b then _ else _) => destruct b
  | |- preserves _ (match ?x with _ => _ end) => destruct x
  | |- preserves _ _ => solve [auto with preserves]
  end.

Ltac preserves := repeat preserves_step.
