(* ===== verification/Database.v ===== *)
(** * The database connections of the order and product services.

    [src/order_service/app/database/connection.py] keeps the client and
    the database in two module globals, [src/product_service/app/database/
    connection.py] in the attributes of one object [db]; both are the
    record [Connection] here, and [connect_to_mongo],
    [close_mongo_connection] and [get_database] are actions on it.

    The driver (motor, beanie) and the process environment are not code of
    the repository: they are the interface [MongoServer].  A client is
    the URL it was made for and whether it is still open.

    The order service tests the connection with a ping and re-raises what
    fails; the product service does not test it.  In both, the globals are
    assigned before anything can fail, which the theorems at the end make
    precise. *)

From S2P Require Import Prelude.
Local Open Scope act_scope.

(** ** The driver and the environment *)

Class MongoServer : Type := {
  (** [os.getenv(name)] *)
  getenv : string -> option string;
  (** [await client.admin.command('ping')] on a client for that URL *)
  ping : string -> Res unit;
  (** [await init_beanie(database=client[name], document_models=models)]
      on a client for that URL *)
  init_beanie : string -> string -> list string -> Res unit;
}.

Module AsyncIOMotorClient.
Record t : Type := mk {
  url : string;
  is_open : bool;
}.

(** [AsyncIOMotorClient(url)]: no connection is made yet. *)
Definition new (url : string) : t := mk url true.

(** [client.close()]. *)
Definition close (c : t) : t := mk (url c) false.
End AsyncIOMotorClient.

#[export] Instance AsyncIOMotorClient_eq_dec : EqDecision AsyncIOMotorClient.t.
Proof. solve_decision. Defined.

(** The two globals ([client], [database]; [db.client], [db.database]):
    the database is [client[name]], held by its name. *)
Record Connection : Type := mkConnection {
  client : option AsyncIOMotorClient.t;
  database : option string;
}.

#[export] Instance Connection_eq_dec : EqDecision Connection.
Proof. solve_decision. Defined.

Definition with_client (v : option AsyncIOMotorClient.t) (c : Connection) : Connection :=
  mkConnection v (database c).
Definition with_database (v : option string) (c : Connection) : Connection :=
  mkConnection (client c) v.

(** [client = None; database = None]. *)
Definition disconnected : Connection := mkConnection None None.

(** The connection is usable: a client that is open and a database. *)
Definition connected (c : Connection) : bool :=
  match client c with
  | Some cl => AsyncIOMotorClient.is_open cl && bool_decide (is_Some (database c))
  | None => false
  end.

(** Nothing is held open: no client, or a closed one. *)
Definition released (c : Connection) : bool :=
  match client c with
  | Some cl => negb (AsyncIOMotorClient.is_open cl)
  | None => true
  end.

(** ** The order service *)

Module OrderConnection.
Section Connection.
Context `{MongoServer}.

Definition document_models : list string := ["Order"; "OrderItem"; "ShippingAddress"].

Definition connect_to_mongo : Act Connection unit :=
  try_except
    (let mongodb_url := default "mongodb://localhost:27017" (getenv "MONGODB_URL") in
     let database_name := default "ecommerce_orders" (getenv "DATABASE_NAME") in
     modify (with_client (Some (AsyncIOMotorClient.new mongodb_url))) ;;
     modify (with_database (Some database_name)) ;;
     of_res (ping mongodb_url) ;;
     of_res (init_beanie mongodb_url database_name document_models))
    (fun e => raise e).

Definition close_mongo_connection : Act Connection unit :=
  c <- get ;;
  match client c with
  | Some cl =>
      try_except (modify (with_client (Some (AsyncIOMotorClient.close cl))))
        (fun _ => ret tt)
  | None => ret tt
  end.

Definition get_database : Act Connection (option string) := gets database.

End Connection.
End OrderConnection.

(** ** The product service *)

Module ProductConnection.
Section Connection.
Context `{MongoServer}.

(** [db = Database()]: the class attributes are the defaults. *)
Definition db : Connection := disconnected.

Definition document_models : list string := ["Product"; "Category"].

Definition connect_to_mongo : Act Connection unit :=
  let MONGODB_URL := default "mongodb://localhost:27017" (getenv "MONGODB_URL") in
  let DATABASE_NAME := default "ecommerce_products" (getenv "DATABASE_NAME") in
  modify (with_client (Some (AsyncIOMotorClient.new MONGODB_URL))) ;;
  modify (with_database (Some DATABASE_NAME)) ;;
  of_res (init_beanie MONGODB_URL DATABASE_NAME document_models).

Definition close_mongo_connection : Act Connection unit :=
  c <- get ;;
  match client c with
  | Some cl => modify (with_client (Some (AsyncIOMotorClient.close cl)))
  | None => ret tt
  end.

Definition get_database : Act Connection (option string) := gets database.

End Connection.
End ProductConnection.

(** ** What a connection module promises to the application *)

(** The contract the [lifespan] of an application relies on: connecting
    either succeeds and leaves a usable connection, or raises; closing
    never raises and leaves nothing open. *)
Class ConnectionModule (connect close : Act Connection unit) : Prop := {
  connect_connected c : is_ok (result_of connect c) = true -> connected (state_after connect c) = true;
  close_total c : result_of close c = Ok tt;
  close_released c : released (state_after close c) = true;
  close_database c : database (state_after close c) = database c;
}.

(** ** The order service: theorems *)

Section OrderConnection.
Context `{MongoServer}.
Import OrderConnection.

Let mongodb_url : string := default "mongodb://localhost:27017" (getenv "MONGODB_URL").
Let database_name : string := default "ecommerce_orders" (getenv "DATABASE_NAME").

(** The connection [connect_to_mongo] leaves, whatever happens next. *)
Definition order_assigned : Connection :=
  mkConnection (Some (AsyncIOMotorClient.new mongodb_url)) (Some database_name).

(** [connect_to_mongo] in one equation: the globals are assigned, then
    the ping and the initialisation decide the result. *)
Lemma order_connect_run c :
  connect_to_mongo c =
  (match ping mongodb_url with
   | Ok _ => init_beanie mongodb_url database_name document_models
   | Raise e => Raise e
   end, order_assigned).
Proof.
  unfold connect_to_mongo, try_except, bind, modify, of_res, raise. cbn.
  fold mongodb_url database_name. destruct (ping mongodb_url) as [[]|e]; [|done].
  by destruct (init_beanie _ _ _) as [[]|e].
Qed.

Lemma order_close_run c :
  close_mongo_connection c =
  (Ok tt, match client c with
          | Some cl => with_client (Some (AsyncIOMotorClient.close cl)) c
          | None => c
          end).
Proof. unfold close_mongo_connection, bind, get. by destruct (client c). Qed.

#[export] Instance order_connection_module :
  ConnectionModule connect_to_mongo close_mongo_connection.
Proof.
  split; intros c; unfold result_of, state_after;
    rewrite ?order_connect_run, ?order_close_run; cbn; try done;
    by destruct c as [[cl|] d].
Qed.

End OrderConnection.

(** ** The product service: theorems *)

Section ProductConnection.
Context `{MongoServer}.
Import ProductConnection.

Let MONGODB_URL : string := default "mongodb://localhost:27017" (getenv "MONGODB_URL").
Let DATABASE_NAME : string := default "ecommerce_products" (getenv "DATABASE_NAME").

Definition product_assigned : Connection :=
  mkConnection (Some (AsyncIOMotorClient.new MONGODB_URL)) (Some DATABASE_NAME).

Lemma product_connect_run c :
  connect_to_mongo c =
  (init_beanie MONGODB_URL DATABASE_NAME document_models, product_assigned).
Proof.
  unfold connect_to_mongo, bind, modify, of_res. cbn. fold MONGODB_URL DATABASE_NAME.
  by destruct (init_beanie _ _ _) as [[]|e].
Qed.

Lemma product_close_run c :
  close_mongo_connection c =
  (Ok tt, match client c with
          | Some cl => with_client (Some (AsyncIOMotorClient.close cl)) c
          | None => c
          end).
Proof. unfold close_mongo_connection, bind, get. by destruct (client c). Qed.

#[export] Instance product_connection_module :
  ConnectionModule connect_to_mongo close_mongo_connection.
Proof.
  split; intros c; unfold result_of, state_after;
    rewrite ?product_connect_run, ?product_close_run; cbn; try done;
    by destruct c as [[cl|] d].
Qed.

End ProductConnection.
