(* ===== verification/OrderModel.v ===== *)
(** * The order model: [src/order_service/app/models/order.py].

    The two status enumerations, the three Beanie documents ([OrderItem],
    [ShippingAddress], [Order]) as records with the fields of the source,
    the pydantic validators as the functions [calculate_total_price],
    [calculate_subtotal] and [calculate_total_amount] that the constructors
    [new_OrderItem] and [new_Order] run, and the methods of [Order].

    pydantic runs the validators of a field when the object is built, in
    the order the fields are declared, with the fields before it already
    validated; so [subtotal] is recomputed from [items] first and
    [total_amount] is computed from the recomputed [subtotal].  Assignment
    to a field afterwards runs no validator, which is why the setters below
    change one field and nothing else.  Timestamps are readings of the
    logical clock; [datetime.utcnow] as a default is a reading supplied by
    the caller of the constructor. *)

From S2P Require Import Prelude Money Json Collection.
From Stdlib Require Import QArith Lqa.

(** ** Enumerations *)

Module OrderStatus.
Inductive t : Type :=
| PENDING | CONFIRMED | PROCESSING | SHIPPED | DELIVERED | CANCELLED | REFUNDED.

Definition value (s : t) : string :=
  match s with
  | PENDING => "pending"
  | CONFIRMED => "confirmed"
  | PROCESSING => "processing"
  | SHIPPED => "shipped"
  | DELIVERED => "delivered"
  | CANCELLED => "cancelled"
  | REFUNDED => "refunded"
  end.

(** The members, in declaration order: [list(OrderStatus)]. *)
Definition members : list t :=
  [PENDING; CONFIRMED; PROCESSING; SHIPPED; DELIVERED; CANCELLED; REFUNDED].

#[export] Instance eq_dec : EqDecision t.
Proof. solve_decision. Defined.
End OrderStatus.
Export (hints) OrderStatus.

Module PaymentStatus.
Inductive t : Type := PENDING | PAID | FAILED | REFUNDED.

Definition value (s : t) : string :=
  match s with
  | PENDING => "pending"
  | PAID => "paid"
  | FAILED => "failed"
  | REFUNDED => "refunded"
  end.

Definition members : list t := [PENDING; PAID; FAILED; REFUNDED].

#[export] Instance eq_dec : EqDecision t.
Proof. solve_decision. Defined.
End PaymentStatus.
Export (hints) PaymentStatus.

(** ** Documents *)

Record OrderItem : Type := mkOrderItem {
  oi_id : option nat;
  product_id : string;
  product_name : string;
  product_sku : option string;
  unit_price : Q;
  quantity : Z;
  total_price : Q;
  product_snapshot : dict;
}.

Record ShippingAddress : Type := mkShippingAddress {
  sa_id : option nat;
  full_name : string;
  address_line_1 : string;
  address_line_2 : option string;
  city : string;
  state : string;
  postal_code : string;
  country : string;
  phone : option string;
}.

Record Order : Type := mkOrder {
  id : option nat;
  order_number : string;
  user_id : string;
  user_email : string;
  items : list OrderItem;
  subtotal : Q;
  tax_amount : Q;
  shipping_cost : Q;
  discount_amount : Q;
  total_amount : Q;
  status : OrderStatus.t;
  payment_status : PaymentStatus.t;
  shipping_address : ShippingAddress;
  shipping_method : option string;
  tracking_number : option string;
  payment_method : option string;
  payment_transaction_id : option string;
  created_at : nat;
  updated_at : nat;
  confirmed_at : option nat;
  shipped_at : option nat;
  delivered_at : option nat;
  notes : option string;
  metadata : dict;
}.

(** ** Validators *)

(** [OrderItem.calculate_total_price]: [round(unit_price * quantity, 2)]. *)
Definition calculate_total_price (unit_price : Q) (quantity : Z) : Q :=
  round2 (unit_price * inject_Z quantity).

(** [Order.calculate_total_amount]:
    [round(max(subtotal + tax + shipping - discount, 0), 2)]. *)
Definition calculate_total_amount (subtotal tax_amount shipping_cost discount_amount : Q) : Q :=
  let total := (subtotal + tax_amount + shipping_cost - discount_amount)%Q in
  round2 (qmax total 0).

(** [Order.calculate_subtotal]: recomputed from the items when there are
    any, else the given value ([v or 0]). *)
Definition calculate_subtotal (v : Q) (items : list OrderItem) : Q :=
  match items with
  | [] => v
  | _ => round2 (qsum (total_price <$> items))
  end.

(** ** Constructors *)

(** [OrderItem(...)]: [quantity] is declared [gt=0]; [total_price] is
    always recomputed, whatever is passed for it. *)
Definition new_OrderItem (product_id product_name : string) (product_sku : option string)
    (unit_price : Q) (quantity : Z) (total_price : Q) (product_snapshot : dict)
    : Res OrderItem :=
  if decide (0 < quantity)%Z then
    Ok {| oi_id := None; product_id := product_id; product_name := product_name;
          product_sku := product_sku; unit_price := unit_price; quantity := quantity;
          total_price := calculate_total_price unit_price quantity;
          product_snapshot := product_snapshot |}
  else Raise (PyException "ValidationError" "quantity: ensure this value is greater than 0").

(** The keyword arguments with which [create_order] builds the [Order]
    (the dictionary [order_data]). *)
Record OrderData : Type := mkOrderData {
  d_order_number : string;
  d_user_id : string;
  d_user_email : string;
  d_items : list OrderItem;
  d_subtotal : Q;
  d_tax_amount : Q;
  d_shipping_cost : Q;
  d_discount_amount : Q;
  d_total_amount : Q;
  d_status : OrderStatus.t;
  d_payment_status : PaymentStatus.t;
  d_shipping_address : ShippingAddress;
  d_shipping_method : option string;
  d_payment_method : option string;
  d_notes : option string;
  d_metadata : dict;
}.

(** [Order] built from [order_data]: the validators run, the timestamps default to
    two readings of the clock, the milestones and the tracking number to
    [None]. *)
Definition new_Order (d : OrderData) (now1 now2 : nat) : Order :=
  let subtotal := calculate_subtotal (d_subtotal d) (d_items d) in
  {| id := None;
     order_number := d_order_number d;
     user_id := d_user_id d;
     user_email := d_user_email d;
     items := d_items d;
     subtotal := subtotal;
     tax_amount := d_tax_amount d;
     shipping_cost := d_shipping_cost d;
     discount_amount := d_discount_amount d;
     total_amount :=
       calculate_total_amount subtotal (d_tax_amount d) (d_shipping_cost d)
         (d_discount_amount d);
     status := d_status d;
     payment_status := d_payment_status d;
     shipping_address := d_shipping_address d;
     shipping_method := d_shipping_method d;
     tracking_number := None;
     payment_method := d_payment_method d;
     payment_transaction_id := None;
     created_at := now1;
     updated_at := now2;
     confirmed_at := None;
     shipped_at := None;
     delivered_at := None;
     notes := d_notes d;
     metadata := d_metadata d |}.

(** ** Methods of [Order] *)

Definition is_editable (o : Order) : bool :=
  bool_decide (status o ∈ [OrderStatus.PENDING; OrderStatus.CONFIRMED]).

Definition is_cancellable (o : Order) : bool :=
  bool_decide (status o ∈
    [OrderStatus.PENDING; OrderStatus.CONFIRMED; OrderStatus.PROCESSING]).

(** [sum(item.quantity for item in self.items)]. *)
Definition get_item_count (o : Order) : Z :=
  fold_left Z.add (quantity <$> items o) 0%Z.

Definition get_items_by_product (o : Order) (pid : string) : list OrderItem :=
  List.filter (fun item => bool_decide (product_id item = pid)) (items o).

(** ** Field assignment *)

(** The order with its assignable fields replaced; the fields set at
    creation are copied. *)
Definition rebuild (o : Order) (id' : option nat) (total_amount' : Q)
    (status' : OrderStatus.t) (payment_status' : PaymentStatus.t)
    (shipping_method' tracking_number' payment_method' payment_transaction_id' : option string)
    (updated_at' : nat) (confirmed_at' shipped_at' delivered_at' : option nat)
    (notes' : option string) : Order :=
  {| id := id';
     order_number := order_number o;
     user_id := user_id o;
     user_email := user_email o;
     items := items o;
     subtotal := subtotal o;
     tax_amount := tax_amount o;
     shipping_cost := shipping_cost o;
     discount_amount := discount_amount o;
     total_amount := total_amount';
     status := status';
     payment_status := payment_status';
     shipping_address := shipping_address o;
     shipping_method := shipping_method';
     tracking_number := tracking_number';
     payment_method := payment_method';
     payment_transaction_id := payment_transaction_id';
     created_at := created_at o;
     updated_at := updated_at';
     confirmed_at := confirmed_at';
     shipped_at := shipped_at';
     delivered_at := delivered_at';
     notes := notes';
     metadata := metadata o |}.

Definition set_id (v : option nat) (o : Order) : Order :=
  rebuild o v (total_amount o) (status o) (payment_status o) (shipping_method o)
    (tracking_number o) (payment_method o) (payment_transaction_id o) (updated_at o)
    (confirmed_at o) (shipped_at o) (delivered_at o) (notes o).

Definition set_total_amount (v : Q) (o : Order) : Order :=
  rebuild o (id o) v (status o) (payment_status o) (shipping_method o)
    (tracking_number o) (payment_method o) (payment_transaction_id o) (updated_at o)
    (confirmed_at o) (shipped_at o) (delivered_at o) (notes o).

Definition set_status (v : OrderStatus.t) (o : Order) : Order :=
  rebuild o (id o) (total_amount o) v (payment_status o) (shipping_method o)
    (tracking_number o) (payment_method o) (payment_transaction_id o) (updated_at o)
    (confirmed_at o) (shipped_at o) (delivered_at o) (notes o).

Definition set_payment_status (v : PaymentStatus.t) (o : Order) : Order :=
  rebuild o (id o) (total_amount o) (status o) v (shipping_method o)
    (tracking_number o) (payment_method o) (payment_transaction_id o) (updated_at o)
    (confirmed_at o) (shipped_at o) (delivered_at o) (notes o).

Definition set_shipping_method (v : option string) (o : Order) : Order :=
  rebuild o (id o) (total_amount o) (status o) (payment_status o) v
    (tracking_number o) (payment_method o) (payment_transaction_id o) (updated_at o)
    (confirmed_at o) (shipped_at o) (delivered_at o) (notes o).

Definition set_tracking_number (v : option string) (o : Order) : Order :=
  rebuild o (id o) (total_amount o) (status o) (payment_status o) (shipping_method o)
    v (payment_method o) (payment_transaction_id o) (updated_at o)
    (confirmed_at o) (shipped_at o) (delivered_at o) (notes o).

Definition set_payment_method (v : option string) (o : Order) : Order :=
  rebuild o (id o) (total_amount o) (status o) (payment_status o) (shipping_method o)
    (tracking_number o) v (payment_transaction_id o) (updated_at o)
    (confirmed_at o) (shipped_at o) (delivered_at o) (notes o).

Definition set_payment_transaction_id (v : option string) (o : Order) : Order :=
  rebuild o (id o) (total_amount o) (status o) (payment_status o) (shipping_method o)
    (tracking_number o) (payment_method o) v (updated_at o)
    (confirmed_at o) (shipped_at o) (delivered_at o) (notes o).

Definition set_updated_at (v : nat) (o : Order) : Order :=
  rebuild o (id o) (total_amount o) (status o) (payment_status o) (shipping_method o)
    (tracking_number o) (payment_method o) (payment_transaction_id o) v
    (confirmed_at o) (shipped_at o) (delivered_at o) (notes o).

Definition set_confirmed_at (v : option nat) (o : Order) : Order :=
  rebuild o (id o) (total_amount o) (status o) (payment_status o) (shipping_method o)
    (tracking_number o) (payment_method o) (payment_transaction_id o) (updated_at o)
    v (shipped_at o) (delivered_at o) (notes o).

Definition set_shipped_at (v : option nat) (o : Order) : Order :=
  rebuild o (id o) (total_amount o) (status o) (payment_status o) (shipping_method o)
    (tracking_number o) (payment_method o) (payment_transaction_id o) (updated_at o)
    (confirmed_at o) v (delivered_at o) (notes o).

Definition set_delivered_at (v : option nat) (o : Order) : Order :=
  rebuild o (id o) (total_amount o) (status o) (payment_status o) (shipping_method o)
    (tracking_number o) (payment_method o) (payment_transaction_id o) (updated_at o)
    (confirmed_at o) (shipped_at o) v (notes o).

Definition set_notes (v : option string) (o : Order) : Order :=
  rebuild o (id o) (total_amount o) (status o) (payment_status o) (shipping_method o)
    (tracking_number o) (payment_method o) (payment_transaction_id o) (updated_at o)
    (confirmed_at o) (shipped_at o) (delivered_at o) v.

Definition set_sa_id (v : option nat) (a : ShippingAddress) : ShippingAddress :=
  {| sa_id := v; full_name := full_name a; address_line_1 := address_line_1 a;
     address_line_2 := address_line_2 a; city := city a; state := state a;
     postal_code := postal_code a; country := country a; phone := phone a |}.

#[export] Instance Order_Document : Document Order :=
  {| doc_id := id; with_id := fun i => set_id (Some i);
     doc_id_with_id := fun _ _ => eq_refl |}.

#[export] Instance ShippingAddress_Document : Document ShippingAddress :=
  {| doc_id := sa_id; with_id := fun i => set_sa_id (Some i);
     doc_id_with_id := fun _ _ => eq_refl |}.

(** ** Well-formed amounts *)

(** What the validators establish when an order is built: every line total
    is the rounded product, the subtotal is the rounded sum of the line
    totals when there are lines, the total is derived and not negative. *)
Definition item_ok (i : OrderItem) : Prop :=
  (0 < quantity i)%Z /\ total_price i = calculate_total_price (unit_price i) (quantity i).

Definition amounts_ok (o : Order) : Prop :=
  Forall item_ok (items o) /\
  (items o <> [] -> subtotal o = round2 (qsum (total_price <$> items o))) /\
  total_amount o =
    calculate_total_amount (subtotal o) (tax_amount o) (shipping_cost o) (discount_amount o).

Ltac unfold_setters :=
  unfold set_id, set_total_amount, set_status, set_payment_status, set_shipping_method,
    set_tracking_number, set_payment_method, set_payment_transaction_id, set_updated_at,
    set_confirmed_at, set_shipped_at, set_delivered_at, set_notes, rebuild in *.

(** ** Theorems on the validators *)

Local Open Scope Q_scope.

Lemma calculate_total_amount_nonneg s t sh d : 0 <= calculate_total_amount s t sh d.
Proof. unfold calculate_total_amount. apply round2_nonneg, qmax_ge_r. Qed.

Lemma calculate_total_amount_is_cents s t sh d : is_cents (calculate_total_amount s t sh d).
Proof. apply round2_is_cents. Qed.

(** When the parts are whole hundredths and the discount does not exceed
    them, the total is exactly their sum: rounding changes nothing. *)
Lemma calculate_total_amount_exact s t sh d :
  is_cents s -> is_cents t -> is_cents sh -> is_cents d ->
  d <= s + t + sh ->
  calculate_total_amount s t sh d == s + t + sh - d.
Proof.
  intros [a Ha] [b Hb] [c Hc] [e He] Hle. unfold calculate_total_amount.
  destruct (qmax_spec (s + t + sh - d) 0) as [[_ ->]|[Hlt _]]; [|lra].
  apply round2_fix. exists (a + b + c - e)%Z.
  rewrite Ha, Hb, Hc, He. unfold Qeq. simpl. lia.
Qed.

(** A discount larger than the rest gives a total of zero, never a
    negative one. *)
Lemma calculate_total_amount_floor s t sh d :
  s + t + sh <= d -> calculate_total_amount s t sh d == 0.
Proof.
  intros Hle. unfold calculate_total_amount.
  destruct (qmax_spec (s + t + sh - d) 0) as [[H0 E]|[_ ->]]; [|done].
  rewrite E. assert (s + t + sh - d == 0) as -> by lra. done.
Qed.

#[export] Instance calculate_total_amount_comp :
  Proper (Qeq ==> Qeq ==> Qeq ==> Qeq ==> eq) calculate_total_amount.
Proof.
  intros s s' Hs t t' Ht sh sh' Hsh d d' Hd. unfold calculate_total_amount.
  apply round2_comp. apply qmax_comp; [|done]. by rewrite Hs, Ht, Hsh, Hd.
Qed.

Lemma calculate_total_price_is_cents p q : is_cents (calculate_total_price p q).
Proof. apply round2_is_cents. Qed.

Lemma calculate_total_price_nonneg p q :
  0 <= p -> (0 <= q)%Z -> 0 <= calculate_total_price p q.
Proof.
  intros Hp Hq. apply round2_nonneg. apply Qmult_le_0_compat; [done|].
  unfold Qle. simpl. lia.
Qed.

(** A price in whole hundredths times a quantity needs no rounding. *)
Lemma calculate_total_price_exact (c q : Z) :
  calculate_total_price (c # 100) q = (c * q # 100).
Proof.
  unfold calculate_total_price. rewrite <- (round2_of_cents (c * q)).
  apply round2_comp. unfold Qeq. simpl. lia.
Qed.

Lemma calculate_subtotal_nil v : calculate_subtotal v [] = v.
Proof. done. Qed.

Lemma calculate_subtotal_items v items :
  items <> [] -> calculate_subtotal v items = round2 (qsum (total_price <$> items)).
Proof. by destruct items. Qed.

(** The subtotal of well-formed items is the sum of the line totals: the
    rounding of the validator changes nothing, the line totals being whole
    hundredths already. *)
Lemma calculate_subtotal_sum v items :
  items <> [] -> Forall item_ok items ->
  calculate_subtotal v items == qsum (total_price <$> items).
Proof.
  intros Hne Hok. rewrite calculate_subtotal_items by done.
  apply round2_fix, is_cents_qsum. apply Forall_fmap.
  eapply Forall_impl; [done|]. intros i [_ Hi]. simpl. rewrite Hi.
  apply calculate_total_price_is_cents.
Qed.

Lemma new_OrderItem_ok pid name sku price qty tp snap i :
  new_OrderItem pid name sku price qty tp snap = Ok i -> item_ok i.
Proof.
  unfold new_OrderItem. case_decide; [|done]. intros [= <-]. by split.
Qed.

Lemma new_OrderItem_Ok pid name sku price qty tp snap :
  (0 < qty)%Z -> is_ok (new_OrderItem pid name sku price qty tp snap) = true.
Proof. intros. unfold new_OrderItem. by rewrite decide_True. Qed.

(** The constructor ignores the [total_price] it is given. *)
Lemma new_OrderItem_total_price_ignored pid name sku price qty tp tp' snap :
  new_OrderItem pid name sku price qty tp snap = new_OrderItem pid name sku price qty tp' snap.
Proof. done. Qed.

Lemma new_Order_amounts_ok d t1 t2 :
  Forall item_ok (d_items d) -> amounts_ok (new_Order d t1 t2).
Proof.
  intros Hitems. split_and!; simpl; [done| |done].
  intros Hne. by rewrite calculate_subtotal_items.
Qed.

(** ** Theorems on the methods *)

Lemma is_cancellable_spec o :
  is_cancellable o = true <->
  status o = OrderStatus.PENDING \/ status o = OrderStatus.CONFIRMED \/
  status o = OrderStatus.PROCESSING.
Proof.
  unfold is_cancellable. rewrite bool_decide_eq_true.
  rewrite !elem_of_cons, elem_of_nil. naive_solver.
Qed.

Lemma is_cancellable_false o :
  is_cancellable o = false <->
  status o ∈ [OrderStatus.SHIPPED; OrderStatus.DELIVERED; OrderStatus.CANCELLED;
              OrderStatus.REFUNDED].
Proof.
  unfold is_cancellable. rewrite bool_decide_eq_false.
  rewrite !elem_of_cons, !elem_of_nil. destruct (status o); naive_solver.
Qed.

Lemma is_editable_spec o :
  is_editable o = true <->
  status o = OrderStatus.PENDING \/ status o = OrderStatus.CONFIRMED.
Proof.
  unfold is_editable. rewrite bool_decide_eq_true.
  rewrite !elem_of_cons, elem_of_nil. naive_solver.
Qed.

(** An editable order is cancellable. *)
Lemma is_editable_cancellable o : is_editable o = true -> is_cancellable o = true.
Proof. rewrite is_editable_spec, is_cancellable_spec. naive_solver. Qed.

Lemma fold_left_Zadd_acc (l : list Z) (a : Z) :
  (fold_left Z.add l a = a + fold_left Z.add l 0)%Z.
Proof.
  revert a. induction l as [|x l IH]; intros a; simpl; [lia|].
  rewrite (IH (a + x)%Z), (IH (0 + x)%Z). lia.
Qed.

(** An order whose items all have a positive quantity counts at least as
    many units as it has lines. *)
Lemma get_item_count_ge_length o :
  Forall item_ok (items o) -> (Z.of_nat (length (items o)) <= get_item_count o)%Z.
Proof.
  unfold get_item_count. induction 1 as [|i l [Hq _] _ IH]; csimpl; [done|].
  rewrite fold_left_Zadd_acc. lia.
Qed.

Lemma get_items_by_product_spec o pid i :
  i ∈ get_items_by_product o pid <-> i ∈ items o /\ product_id i = pid.
Proof.
  unfold get_items_by_product. rewrite !list_elem_of_In, filter_In.
  by rewrite bool_decide_eq_true.
Qed.

#[export] Hint Resolve calculate_total_amount_nonneg calculate_total_amount_is_cents
  calculate_total_price_is_cents new_Order_amounts_ok : shop.

(** ** The order as built *)

Local Open Scope Q_scope.

(** C2.  The total of every order that is built is a whole number of
    hundredths and is never negative, whatever the amounts passed: when the
    discount is at least the subtotal, tax and shipping together the total
    is zero; the total passed by the caller is ignored. *)
Theorem order_total_never_negative d t1 t2 :
  let o := new_Order d t1 t2 in
  0 <= total_amount o /\ is_cents (total_amount o) /\
  (subtotal o + tax_amount o + shipping_cost o <= discount_amount o -> total_amount o == 0) /\
  forall v, total_amount (new_Order
              (mkOrderData (d_order_number d) (d_user_id d) (d_user_email d) (d_items d)
                 (d_subtotal d) (d_tax_amount d) (d_shipping_cost d) (d_discount_amount d) v
                 (d_status d) (d_payment_status d) (d_shipping_address d)
                 (d_shipping_method d) (d_payment_method d) (d_notes d) (d_metadata d))
              t1 t2) = total_amount o.
Proof.
  cbn zeta. split_and!; [| |apply calculate_total_amount_floor|done].
  - apply calculate_total_amount_nonneg.
  - apply calculate_total_amount_is_cents.
Qed.

(** An order line is built only with a positive quantity, and its
    total is then the unit price times the quantity rounded to hundredths,
    whatever total the caller passed; a quantity that is not positive is
    refused with a validation error, which is not an [HTTPException]. *)
Theorem order_item_validated pid name sku price qty tp snap :
  match new_OrderItem pid name sku price qty tp snap with
  | Ok i =>
      (0 < qty)%Z /\ quantity i = qty /\ unit_price i = price /\ product_id i = pid /\
      total_price i = round2 (price * inject_Z qty)
  | Raise e => (qty <= 0)%Z /\ is_http e = false
  end.
Proof. unfold new_OrderItem. case_decide; [done|]. split; [lia|done]. Qed.
