(* ===== verification/Kafka.v ===== *)
(** * The Kafka producer: [src/order_service/app/utils/kafka_producer.py].

    The class [KafkaProducer] ([start], [stop], [send_event]) is the same in
    the order, product and user services but for the service name it writes
    in the envelope, so it is modelled once, with the name as a parameter.
    The seven [publish_..._event] helpers of the order service follow.

    The broker is the list of the messages it has accepted, oldest first.
    Whether a call to the transport succeeds is not decided by the program;
    the state carries an oracle [net] that answers for the [n]-th call, and
    every theorem holds for every oracle.  The client object
    [AIOKafkaProducer] is [Running] between a successful [start] and
    [stop]; sending on a stopped client raises in the client library, which
    [send_event] catches like any other failure. *)

From S2P Require Import Prelude Json.

(** ** State *)

Inductive ClientState : Type := Running | Stopped.

#[export] Instance ClientState_eq_dec : EqDecision ClientState.
Proof. solve_decision. Defined.

Record Message : Type := mkMessage {
  topic : string;
  key : option string;
  value : json;
}.

Record KafkaProducer : Type := mkKafkaProducer {
  kafka_enabled : bool;
  producer : option ClientState;
  broker : list Message;
  net : nat -> bool;
  calls : nat;
}.

Definition with_producer (p : option ClientState) (k : KafkaProducer) : KafkaProducer :=
  {| kafka_enabled := kafka_enabled k; producer := p; broker := broker k;
     net := net k; calls := calls k |}.

Definition with_broker (b : list Message) (k : KafkaProducer) : KafkaProducer :=
  {| kafka_enabled := kafka_enabled k; producer := producer k; broker := b;
     net := net k; calls := calls k |}.

Definition with_calls (n : nat) (k : KafkaProducer) : KafkaProducer :=
  {| kafka_enabled := kafka_enabled k; producer := producer k; broker := broker k;
     net := net k; calls := n |}.

(** [KafkaProducer()]: [KAFKA_ENABLED] read from the environment, no client
    yet. *)
Definition new_KafkaProducer (enabled : bool) (net : nat -> bool) : KafkaProducer :=
  {| kafka_enabled := enabled; producer := None; broker := []; net := net; calls := 0 |}.

(** One call to the transport: consult the oracle and count the call. *)
Definition transport : Act KafkaProducer bool :=
  fun k => (Ok (net k (calls k)), with_calls (S (calls k)) k).

Local Open Scope act_scope.

(** ** The class [KafkaProducer] *)

(** [start]: nothing when Kafka is disabled; else create the client and
    start it, and forget it when that fails. *)
Definition start : Act KafkaProducer unit :=
  k <- get ;;
  if negb (kafka_enabled k) then ret tt
  else
    ok <- transport ;;
    if ok then modify (with_producer (Some Running))
    else modify (with_producer None).

(** [stop]: stop the client when there is one.  The attribute keeps the
    stopped client. *)
Definition stop : Act KafkaProducer unit :=
  k <- get ;;
  match producer k with
  | Some _ => _ <- transport ;; modify (with_producer (Some Stopped))
  | None => ret tt
  end.

(** The envelope [send_event] wraps the payload in. *)
Definition enriched_event (service topic : string) (event_data : dict) : json :=
  JDict [("service", JStr service);
         ("timestamp", dict_get "timestamp" event_data);
         ("event_type", JStr topic);
         ("data", JDict event_data)].

(** [key_serializer]: [k.encode('utf-8') if k else None]. *)
Definition key_serializer (k : json) : option string :=
  match k with
  | JStr s => if String.eqb s "" then None else Some s
  | _ => None
  end.

(** [producer.send_and_wait(topic, value, key)]: the broker accepts the
    message when the client runs and the transport delivers; [false] stands
    for the exception the client raises otherwise. *)
Definition send_and_wait (topic : string) (value : json) (key : json)
    : Act KafkaProducer bool :=
  k <- get ;;
  ok <- transport ;;
  match producer k with
  | Some Running =>
      if ok then
        modify (fun k => with_broker (broker k ++ [mkMessage topic (key_serializer key) value]) k) ;;
        ret true
      else ret false
  | _ => ret false
  end.

(** [send_event]: silent when Kafka is disabled or there is no client;
    a failure of the send is logged and swallowed. *)
Definition send_event (service topic : string) (event_data : dict) (key : json)
    : Act KafkaProducer unit :=
  k <- get ;;
  if negb (kafka_enabled k) || negb (bool_decide (is_Some (producer k))) then ret tt
  else
    _ <- send_and_wait topic (enriched_event service topic event_data) key ;;
    ret tt.

(** ** Event types and publish helpers of the order service *)

Module OrderEvents.
Definition ORDER_CREATED : string := "order.created".
Definition ORDER_CONFIRMED : string := "order.confirmed".
Definition ORDER_CANCELLED : string := "order.cancelled".
Definition ORDER_SHIPPED : string := "order.shipped".
Definition ORDER_DELIVERED : string := "order.delivered".
Definition ORDER_PAYMENT_COMPLETED : string := "order.payment_completed".
Definition ORDER_PAYMENT_FAILED : string := "order.payment_failed".
Definition ORDER_REFUNDED : string := "order.refunded".
End OrderEvents.

Definition order_service_name : string := "order-service".
Definition order_topic : string := "order-events".

(** The fields every order event copies from [order_data]. *)
Definition order_event_head (event_type : string) (order_data : dict) : dict :=
  [("event_type", JStr event_type);
   ("order_id", dict_get "id" order_data);
   ("order_number", dict_get "order_number" order_data);
   ("user_id", dict_get "user_id" order_data);
   ("user_email", dict_get "user_email" order_data)].

Definition order_created_event_data (order_data : dict) : dict :=
  order_event_head OrderEvents.ORDER_CREATED order_data ++
  [("total_amount", dict_get "total_amount" order_data);
   ("item_count", dict_get "item_count" order_data);
   ("items", dict_get_default "items" (JList []) order_data);
   ("timestamp", dict_get "created_at" order_data)].

Definition order_confirmed_event_data (order_data : dict) : dict :=
  order_event_head OrderEvents.ORDER_CONFIRMED order_data ++
  [("total_amount", dict_get "total_amount" order_data);
   ("items", dict_get_default "items" (JList []) order_data);
   ("timestamp", dict_get "confirmed_at" order_data)].

Definition order_cancelled_event_data (order_data : dict) : dict :=
  order_event_head OrderEvents.ORDER_CANCELLED order_data ++
  [("total_amount", dict_get "total_amount" order_data);
   ("reason", dict_get "cancellation_reason" order_data);
   ("timestamp", dict_get "updated_at" order_data)].

Definition order_shipped_event_data (order_data : dict) : dict :=
  order_event_head OrderEvents.ORDER_SHIPPED order_data ++
  [("tracking_number", dict_get "tracking_number" order_data);
   ("shipping_method", dict_get "shipping_method" order_data);
   ("shipping_address", dict_get "shipping_address" order_data);
   ("timestamp", dict_get "shipped_at" order_data)].

Definition order_delivered_event_data (order_data : dict) : dict :=
  order_event_head OrderEvents.ORDER_DELIVERED order_data ++
  [("total_amount", dict_get "total_amount" order_data);
   ("timestamp", dict_get "delivered_at" order_data)].

Definition payment_completed_event_data (order_data : dict) : dict :=
  order_event_head OrderEvents.ORDER_PAYMENT_COMPLETED order_data ++
  [("total_amount", dict_get "total_amount" order_data);
   ("payment_method", dict_get "payment_method" order_data);
   ("payment_transaction_id", dict_get "payment_transaction_id" order_data);
   ("timestamp", dict_get "updated_at" order_data)].

Definition payment_failed_event_data (order_data : dict) : dict :=
  order_event_head OrderEvents.ORDER_PAYMENT_FAILED order_data ++
  [("total_amount", dict_get "total_amount" order_data);
   ("payment_method", dict_get "payment_method" order_data);
   ("failure_reason", dict_get "failure_reason" order_data);
   ("timestamp", dict_get "updated_at" order_data)].

(** Every helper sends on the topic [order-events], keyed by the order
    identifier. *)
Definition publish_order_event (event_data : dict) (order_data : dict)
    : Act KafkaProducer unit :=
  send_event order_service_name order_topic event_data (dict_get "id" order_data).

Definition publish_order_created_event (order_data : dict) : Act KafkaProducer unit :=
  publish_order_event (order_created_event_data order_data) order_data.

Definition publish_order_confirmed_event (order_data : dict) : Act KafkaProducer unit :=
  publish_order_event (order_confirmed_event_data order_data) order_data.

Definition publish_order_cancelled_event (order_data : dict) : Act KafkaProducer unit :=
  publish_order_event (order_cancelled_event_data order_data) order_data.

Definition publish_order_shipped_event (order_data : dict) : Act KafkaProducer unit :=
  publish_order_event (order_shipped_event_data order_data) order_data.

Definition publish_order_delivered_event (order_data : dict) : Act KafkaProducer unit :=
  publish_order_event (order_delivered_event_data order_data) order_data.

Definition publish_payment_completed_event (order_data : dict) : Act KafkaProducer unit :=
  publish_order_event (payment_completed_event_data order_data) order_data.

Definition publish_payment_failed_event (order_data : dict) : Act KafkaProducer unit :=
  publish_order_event (payment_failed_event_data order_data) order_data.

(** ** Reading a message back *)

(** The event type a consumer dispatches on: the [event_type] of the
    envelope. *)
Definition envelope_event_type (m : Message) : json :=
  match value m with JDict d => dict_get "event_type" d | _ => JNull end.

(** The event type the publish helper wrote in the payload. *)
Definition payload_event_type (m : Message) : json :=
  match value m with
  | JDict d => match dict_get "data" d with
               | JDict p => dict_get "event_type" p
               | _ => JNull
               end
  | _ => JNull
  end.

(** ** Properties of [send_event] *)

(** The producer can publish: enabled, with a running client. *)
Definition ready (k : KafkaProducer) : Prop :=
  kafka_enabled k = true /\ producer k = Some Running.

(** What [send_event] does to the state, in one equation: the broker gains
    the enveloped message exactly when the producer is ready and the
    transport delivers; a transport call is counted when Kafka is enabled
    and a client exists. *)
Lemma send_event_run service tp data key k :
  send_event service tp data key k =
  (Ok tt,
   if kafka_enabled k && bool_decide (is_Some (producer k)) then
     let k1 := with_calls (S (calls k)) k in
     if bool_decide (producer k = Some Running) && net k (calls k) then
       with_broker (broker k ++ [mkMessage tp (key_serializer key)
                                   (enriched_event service tp data)]) k1
     else k1
   else k).
Proof.
  unfold send_event, send_and_wait, transport. act_simpl.
  destruct (kafka_enabled k) eqn:En; simpl; [|done].
  destruct (producer k) as [[]|] eqn:Ep; simpl; rewrite ?Ep; simpl; try done.
  by destruct (net k (calls k)).
Qed.

(** [send_event] never raises. *)
Lemma send_event_total service tp data key k :
  result_of (send_event service tp data key) k = Ok tt.
Proof. unfold result_of. by rewrite send_event_run. Qed.

(** Disabled transport: a no-op. *)
Lemma send_event_disabled service tp data key k :
  kafka_enabled k = false -> send_event service tp data key k = (Ok tt, k).
Proof. intros E. by rewrite send_event_run, E. Qed.

(** No client: a no-op. *)
Lemma send_event_no_client service tp data key k :
  producer k = None -> send_event service tp data key k = (Ok tt, k).
Proof. intros E. rewrite send_event_run, E. by rewrite andb_false_r. Qed.

(** Ready and the transport delivers: exactly the enveloped message is
    appended. *)
Lemma send_event_delivered service tp data key k :
  ready k -> net k (calls k) = true ->
  broker (state_after (send_event service tp data key) k) =
  broker k ++ [mkMessage tp (key_serializer key) (enriched_event service tp data)].
Proof.
  intros [En Pr] Hn. unfold state_after. rewrite send_event_run, En, Pr, Hn. done.
Qed.

(** The transport fails: the caller sees nothing and the broker gains
    nothing. *)
Lemma send_event_lost service tp data key k :
  net k (calls k) = false ->
  broker (state_after (send_event service tp data key) k) = broker k.
Proof.
  intros Hn. unfold state_after. rewrite send_event_run, Hn.
  rewrite andb_false_r. by destruct (_ && _).
Qed.

(** The broker only grows, by at most one message. *)
Lemma send_event_broker service tp data key k :
  let k' := state_after (send_event service tp data key) k in
  broker k' = broker k \/
  broker k' = broker k ++ [mkMessage tp (key_serializer key) (enriched_event service tp data)].
Proof.
  unfold state_after. rewrite send_event_run. simpl.
  destruct (_ && _); [|by left]. destruct (_ && _); [by right | by left].
Qed.

#[export] Instance ready_dec k : Decision (ready k).
Proof. unfold ready. apply _. Defined.

(** The broker after a send, in one equation: the enveloped message is
    appended exactly when the producer is ready and the transport
    delivers. *)
Lemma send_event_broker_spec service tp data key k :
  broker (state_after (send_event service tp data key) k) =
  if bool_decide (ready k) && net k (calls k)
  then broker k ++ [mkMessage tp (key_serializer key) (enriched_event service tp data)]
  else broker k.
Proof.
  unfold state_after. rewrite send_event_run. cbn [snd].
  destruct (decide (ready k)) as [[En Pr]|Hn].
  - rewrite (bool_decide_true (ready k)) by done. rewrite En, Pr. simpl.
    by destruct (net k (calls k)).
  - rewrite (bool_decide_false (ready k)) by done. simpl.
    destruct (kafka_enabled k) eqn:En; simpl; [|done].
    destruct (producer k) as [[]|] eqn:Pr; simpl; try done.
    exfalso. by apply Hn.
Qed.

(** The configuration and the client are not changed by a send. *)
Lemma send_event_config service tp data key k :
  let k' := state_after (send_event service tp data key) k in
  kafka_enabled k' = kafka_enabled k /\ producer k' = producer k /\ net k' = net k.
Proof.
  unfold state_after. rewrite send_event_run. simpl.
  destruct (_ && _); [|done]. by destruct (_ && _).
Qed.

(** ** Properties of [start] and [stop] *)

Lemma start_total k : result_of start k = Ok tt.
Proof.
  unfold result_of, start, transport. act_simpl.
  destruct (kafka_enabled k); simpl; [|done]. by destruct (net k (calls k)).
Qed.

(** After [start] the producer is ready exactly when Kafka is enabled and
    the connection succeeded. *)
Lemma start_ready k :
  ready (state_after start k) <-> kafka_enabled k = true /\ net k (calls k) = true.
Proof.
  unfold ready, state_after, start, transport. act_simpl.
  destruct (kafka_enabled k) eqn:En; simpl; [|by rewrite En; naive_solver].
  destruct (net k (calls k)); simpl; rewrite ?En; naive_solver.
Qed.

(** A disabled producer never gets a client. *)
Lemma start_disabled k : kafka_enabled k = false -> start k = (Ok tt, k).
Proof. intros En. unfold start. act_simpl. by rewrite En. Qed.

Lemma stop_total k : result_of stop k = Ok tt.
Proof. unfold result_of, stop, transport. act_simpl. by destruct (producer k). Qed.

(** [start] and [stop] send nothing. *)
Lemma start_broker k : broker (state_after start k) = broker k.
Proof.
  unfold state_after, start, transport. act_simpl.
  destruct (kafka_enabled k); simpl; [|done]. by destruct (net k (calls k)).
Qed.

Lemma stop_broker k : broker (state_after stop k) = broker k.
Proof. unfold state_after, stop, transport. act_simpl. by destruct (producer k). Qed.

(** After [stop] the producer is not ready. *)
Lemma stop_not_ready k : ~ ready (state_after stop k).
Proof.
  unfold ready, state_after, stop, transport. act_simpl.
  destruct (producer k) eqn:E; simpl; rewrite ?E; naive_solver.
Qed.

(** After [stop] nothing is published any more. *)
Lemma send_after_stop service tp data key k :
  broker (state_after (send_event service tp data key) (state_after stop k)) = broker k.
Proof.
  unfold state_after at 1. rewrite send_event_run.
  unfold state_after, stop, transport. act_simpl.
  destruct (producer k) eqn:E; simpl; rewrite ?E; simpl.
  - by destruct (kafka_enabled k).
  - rewrite andb_false_r. done.
Qed.

(** ** Properties of the envelope *)

(** The envelope's [event_type] is the topic, not the event type of the
    payload. *)
Lemma enriched_event_type service tp data :
  dict_get "event_type"
    (match enriched_event service tp data with JDict d => d | _ => [] end) = JStr tp.
Proof. done. Qed.

Lemma enriched_event_data service tp data :
  dict_get "data"
    (match enriched_event service tp data with JDict d => d | _ => [] end) = JDict data.
Proof. done. Qed.

#[export] Hint Rewrite send_event_run : shop_rw.
