(* ===== verification/Events.v ===== *)
(** * The Kafka producers of the product and user services:
    [src/product_service/app/utils/kafka_producer.py] and
    [src/user_service/app/utils/kafka_producer.py].

    The class [KafkaProducer] of the two files is the one of the order
    service but for the service name in the envelope; [Kafka] models it
    with the name as a parameter, and this file instantiates it.  The
    publish helpers follow: four of the product service on the topic
    [product-events], three of the user service on [user-events], each
    copying its fields from the dictionary it is given.

    Every message these helpers send carries the topic as the
    [event_type] of its envelope; the event type of the domain event is
    in the payload only. *)

From S2P Require Import Prelude Json Kafka.
Local Open Scope act_scope.

(** ** The product service *)

Module ProductEvents.
Definition PRODUCT_CREATED : string := "product.created".
Definition PRODUCT_UPDATED : string := "product.updated".
Definition PRODUCT_DELETED : string := "product.deleted".
Definition PRODUCT_STOCK_UPDATED : string := "product.stock_updated".
Definition CATEGORY_CREATED : string := "category.created".
Definition CATEGORY_UPDATED : string := "category.updated".
Definition CATEGORY_DELETED : string := "category.deleted".
End ProductEvents.

Module ProductProducer.

Definition service_name : string := "product-service".
Definition topic_name : string := "product-events".

(** [kafka_producer.start] and [kafka_producer.stop] of the product
    service. *)
Definition start : Act KafkaProducer unit := Kafka.start.
Definition stop : Act KafkaProducer unit := Kafka.stop.

(** [kafka_producer.send_event] of the product service. *)
Definition send_event (topic : string) (event_data : dict) (key : json)
    : Act KafkaProducer unit :=
  Kafka.send_event service_name topic event_data key.

Definition product_created_event_data (product_data : dict) : dict :=
  [("event_type", JStr ProductEvents.PRODUCT_CREATED);
   ("product_id", dict_get "id" product_data);
   ("name", dict_get "name" product_data);
   ("price", dict_get "price" product_data);
   ("category_id", dict_get "category_id" product_data);
   ("stock_quantity", dict_get "stock_quantity" product_data);
   ("timestamp", dict_get "created_at" product_data)].

Definition publish_product_created_event (product_data : dict) : Act KafkaProducer unit :=
  send_event topic_name (product_created_event_data product_data)
    (dict_get "id" product_data).

Definition product_updated_event_data (product_data : dict) : dict :=
  [("event_type", JStr ProductEvents.PRODUCT_UPDATED);
   ("product_id", dict_get "id" product_data);
   ("name", dict_get "name" product_data);
   ("price", dict_get "price" product_data);
   ("category_id", dict_get "category_id" product_data);
   ("stock_quantity", dict_get "stock_quantity" product_data);
   ("timestamp", dict_get "updated_at" product_data)].

Definition publish_product_updated_event (product_data : dict) : Act KafkaProducer unit :=
  send_event topic_name (product_updated_event_data product_data)
    (dict_get "id" product_data).

Definition product_stock_updated_event_data (product_data : dict) : dict :=
  [("event_type", JStr ProductEvents.PRODUCT_STOCK_UPDATED);
   ("product_id", dict_get "id" product_data);
   ("stock_quantity", dict_get "stock_quantity" product_data);
   ("previous_stock", dict_get "previous_stock" product_data);
   ("timestamp", dict_get "updated_at" product_data)].

Definition publish_product_stock_updated_event (product_data : dict)
    : Act KafkaProducer unit :=
  send_event topic_name (product_stock_updated_event_data product_data)
    (dict_get "id" product_data).

Definition category_created_event_data (category_data : dict) : dict :=
  [("event_type", JStr ProductEvents.CATEGORY_CREATED);
   ("category_id", dict_get "id" category_data);
   ("name", dict_get "name" category_data);
   ("description", dict_get "description" category_data);
   ("timestamp", dict_get "created_at" category_data)].

Definition publish_category_created_event (category_data : dict) : Act KafkaProducer unit :=
  send_event topic_name (category_created_event_data category_data)
    (dict_get "id" category_data).

End ProductProducer.

(** ** The user service *)

Module UserEvents.
Definition USER_REGISTERED : string := "user.registered".
Definition USER_LOGIN : string := "user.login".
Definition USER_UPDATED : string := "user.updated".
Definition USER_DEACTIVATED : string := "user.deactivated".
End UserEvents.

Module UserProducer.

Definition service_name : string := "user-service".
Definition topic_name : string := "user-events".

(** [kafka_producer.start] and [kafka_producer.stop] of the user service. *)
Definition start : Act KafkaProducer unit := Kafka.start.
Definition stop : Act KafkaProducer unit := Kafka.stop.

(** [kafka_producer.send_event] of the user service. *)
Definition send_event (topic : string) (event_data : dict) (key : json)
    : Act KafkaProducer unit :=
  Kafka.send_event service_name topic event_data key.

Definition user_registered_event_data (user_data : dict) : dict :=
  [("event_type", JStr UserEvents.USER_REGISTERED);
   ("user_id", dict_get "id" user_data);
   ("email", dict_get "email" user_data);
   ("name", dict_get "name" user_data);
   ("timestamp", dict_get "created_at" user_data)].

Definition publish_user_registered_event (user_data : dict) : Act KafkaProducer unit :=
  send_event topic_name (user_registered_event_data user_data) (dict_get "id" user_data).

Definition user_login_event_data (user_data : dict) : dict :=
  [("event_type", JStr UserEvents.USER_LOGIN);
   ("user_id", dict_get "id" user_data);
   ("email", dict_get "email" user_data);
   ("timestamp", dict_get "login_timestamp" user_data)].

Definition publish_user_login_event (user_data : dict) : Act KafkaProducer unit :=
  send_event topic_name (user_login_event_data user_data) (dict_get "id" user_data).

Definition user_updated_event_data (user_data : dict) : dict :=
  [("event_type", JStr UserEvents.USER_UPDATED);
   ("user_id", dict_get "id" user_data);
   ("email", dict_get "email" user_data);
   ("name", dict_get "name" user_data);
   ("timestamp", dict_get "updated_at" user_data)].

Definition publish_user_updated_event (user_data : dict) : Act KafkaProducer unit :=
  send_event topic_name (user_updated_event_data user_data) (dict_get "id" user_data).

End UserProducer.

(** ** The helpers as a family *)

(** The publish helpers of the two services, each with the topic it sends
    on and the event type it writes in the payload. *)
Inductive Helper : Type :=
| product_created | product_updated | product_stock_updated | category_created
| user_registered | user_login | user_updated.

Definition helper_topic (h : Helper) : string :=
  match h with
  | product_created | product_updated | product_stock_updated | category_created =>
      ProductProducer.topic_name
  | _ => UserProducer.topic_name
  end.

Definition helper_event_type (h : Helper) : string :=
  match h with
  | product_created => ProductEvents.PRODUCT_CREATED
  | product_updated => ProductEvents.PRODUCT_UPDATED
  | product_stock_updated => ProductEvents.PRODUCT_STOCK_UPDATED
  | category_created => ProductEvents.CATEGORY_CREATED
  | user_registered => UserEvents.USER_REGISTERED
  | user_login => UserEvents.USER_LOGIN
  | user_updated => UserEvents.USER_UPDATED
  end.

Definition publish_helper (h : Helper) (data : dict) : Act KafkaProducer unit :=
  match h with
  | product_created => ProductProducer.publish_product_created_event data
  | product_updated => ProductProducer.publish_product_updated_event data
  | product_stock_updated => ProductProducer.publish_product_stock_updated_event data
  | category_created => ProductProducer.publish_category_created_event data
  | user_registered => UserProducer.publish_user_registered_event data
  | user_login => UserProducer.publish_user_login_event data
  | user_updated => UserProducer.publish_user_updated_event data
  end.

(** ** Properties *)

Ltac unfold_publish :=
  unfold publish_helper, ProductProducer.publish_product_created_event,
    ProductProducer.publish_product_updated_event,
    ProductProducer.publish_product_stock_updated_event,
    ProductProducer.publish_category_created_event,
    UserProducer.publish_user_registered_event, UserProducer.publish_user_login_event,
    UserProducer.publish_user_updated_event, ProductProducer.send_event,
    UserProducer.send_event.

(** A helper never raises. *)
Lemma publish_total h data k : result_of (publish_helper h data) k = Ok tt.
Proof. destruct h; unfold_publish; apply send_event_total. Qed.

(** What a helper adds to the broker is at most one message, on the topic
    of its service, whose envelope carries the topic as [event_type] and
    whose payload carries the event type of the helper. *)
Lemma publish_broker h data k :
  broker (state_after (publish_helper h data) k) = broker k \/
  exists m, broker (state_after (publish_helper h data) k) = broker k ++ [m] /\
            topic m = helper_topic h /\
            envelope_event_type m = JStr (helper_topic h) /\
            payload_event_type m = JStr (helper_event_type h).
Proof.
  destruct h; unfold_publish; rewrite send_event_broker_spec;
    (destruct (_ && _); [right; by eexists | by left]).
Qed.
