(* ===== verification/OrderSchemas.v ===== *)
(** * Request and response schemas of the order service:
    [src/order_service/app/schemas/order_schemas.py].

    Each pydantic class is a record in a module of its name, so that the
    fields keep the names of the source.  The only constraint the request
    schemas declare is [quantity > 0] on an order line; FastAPI checks it
    before a handler runs, [OrderCreate.valid] is that check. *)

From S2P Require Import Prelude Money Json OrderModel.
From Stdlib Require Import QArith.

(** ** Requests *)

Module OrderItemCreate.
Record t : Type := mk {
  product_id : string;
  quantity : Z;
}.
(** [quantity: int = Field(gt=0)]. *)
Definition valid (i : t) : bool := bool_decide (0 < quantity i)%Z.
End OrderItemCreate.

Module ShippingAddressCreate.
Record t : Type := mk {
  full_name : string;
  address_line_1 : string;
  address_line_2 : option string;
  city : string;
  state : string;
  postal_code : string;
  country : string;
  phone : option string;
}.
End ShippingAddressCreate.

Module OrderCreate.
Record t : Type := mk {
  items : list OrderItemCreate.t;
  shipping_address : ShippingAddressCreate.t;
  shipping_method : option string;
  payment_method : option string;
  notes : option string;
}.
Definition valid (r : t) : bool := forallb OrderItemCreate.valid (items r).
End OrderCreate.

Module OrderUpdate.
Record t : Type := mk {
  status : option OrderStatus.t;
  payment_status : option PaymentStatus.t;
  shipping_method : option string;
  tracking_number : option string;
  payment_transaction_id : option string;
  notes : option string;
}.
End OrderUpdate.

Module OrderStatusUpdate.
Record t : Type := mk {
  status : OrderStatus.t;
  notes : option string;
}.
End OrderStatusUpdate.

Module PaymentUpdate.
Record t : Type := mk {
  payment_status : PaymentStatus.t;
  payment_method : option string;
  payment_transaction_id : option string;
}.
End PaymentUpdate.

(** ** Responses *)

Module OrderItemResponse.
Record t : Type := mk {
  id : string;
  product_id : string;
  product_name : string;
  product_sku : option string;
  unit_price : Q;
  quantity : Z;
  total_price : Q;
  product_snapshot : dict;
}.
End OrderItemResponse.

Module ShippingAddressResponse.
Record t : Type := mk {
  id : string;
  full_name : string;
  address_line_1 : string;
  address_line_2 : option string;
  city : string;
  state : string;
  postal_code : string;
  country : string;
  phone : option string;
}.
End ShippingAddressResponse.

Module OrderResponse.
Record t : Type := mk {
  id : string;
  order_number : string;
  user_id : string;
  user_email : string;
  items : list OrderItemResponse.t;
  subtotal : Q;
  tax_amount : Q;
  shipping_cost : Q;
  discount_amount : Q;
  total_amount : Q;
  status : OrderStatus.t;
  payment_status : PaymentStatus.t;
  shipping_address : ShippingAddressResponse.t;
  shipping_method : option string;
  tracking_number : option string;
  payment_method : option string;
  payment_transaction_id : option string;
  created_at : nat;
  updated_at : nat;
  confirmed_at : option nat;
  shipped_at : option nat;
  delivered_at : option nat;
  notes : option string;
  metadata : dict;
  item_count : Z;
  is_editable : bool;
  is_cancellable : bool;
}.
End OrderResponse.

Module OrderListResponse.
Record t : Type := mk {
  orders : list OrderResponse.t;
  total : nat;
  page : nat;
  per_page : nat;
  total_pages : nat;
}.
End OrderListResponse.

Module OrderStats.
Record t : Type := mk {
  total_orders : nat;
  pending_orders : nat;
  confirmed_orders : nat;
  processing_orders : nat;
  shipped_orders : nat;
  delivered_orders : nat;
  cancelled_orders : nat;
  total_revenue : Q;
  average_order_value : Q;
}.
End OrderStats.

(** ** Validation *)

Lemma OrderCreate_valid_spec (r : OrderCreate.t) :
  OrderCreate.valid r = true <->
  Forall (fun i => (0 < OrderItemCreate.quantity i)%Z) (OrderCreate.items r).
Proof.
  unfold OrderCreate.valid. rewrite forallb_forall, Forall_forall.
  unfold OrderItemCreate.valid.
  split; intros Hall i Hi.
  - apply list_elem_of_In, Hall in Hi. by apply bool_decide_eq_true in Hi.
  - apply bool_decide_eq_true, Hall. by apply list_elem_of_In.
Qed.

(** A request with no line at all passes validation: the schema declares
    no minimum length. *)
Lemma OrderCreate_valid_empty addr sm pm n :
  OrderCreate.valid (OrderCreate.mk [] addr sm pm n) = true.
Proof. done. Qed.
