(* ===== verification/External.v ===== *)
(** * HTTP clients of the order service:
    [src/order_service/app/utils/external_services.py].

    The user and product services, seen from the order service, are the
    interface [Peers]: what each endpoint answers to a request.  An answer
    is a status code with a decoded body, or a failure of the connection
    (refused, timed out after the 30 seconds the clients allow).  The body
    of a 200 answer is typed by the response model the peer declares
    ([UserResponse], [ProductResponse]); a body that does not decode is
    [None].  With typed bodies the [except Exception] branch of
    [check_product_availability] (reason [Service error]) cannot be
    reached: the only calls in its [try] block are [get_product_by_id],
    which catches everything itself, and field reads.

    [reserve_products] is, as its docstring says, a mock: it checks
    availability line by line and reserves nothing.  All the functions of
    this file but [update_product_stock] are therefore reads. *)

From S2P Require Import Prelude Money.
From stdpp Require Import gmap.
From Stdlib Require Import QArith.
Local Close Scope Q_scope.

(** ** Answers and response models *)

Inductive HttpResult (A : Type) : Type :=
| Response (status_code : nat) (body : option A)
| ConnectionError.
Arguments Response {A} status_code body.
Arguments ConnectionError {A}.

(** [response.json()] when [response.status_code == 200], else [None];
    any exception on the way is caught and gives [None] too. *)
Definition ok_json {A} (r : HttpResult A) : option A :=
  match r with
  | Response code body => if decide (code = 200) then body else None
  | ConnectionError => None
  end.

Module UserInfo.
Record t : Type := mk {
  id : string;
  name : string;
  email : string;
  is_active : bool;
}.
End UserInfo.

Module ProductInfo.
Record t : Type := mk {
  id : string;
  name : string;
  description : string;
  price : Q;
  category_id : option string;
  category_name : option string;
  sku : option string;
  stock_quantity : Z;
  is_available : bool;
  is_active : bool;
  image_urls : list string;
  tags : list string;
}.
End ProductInfo.

(** The endpoints of the peers. *)
Class Peers : Type := {
  (** [GET /api/v1/users/profile] with [Authorization: Bearer token] *)
  user_profile : string -> HttpResult UserInfo.t;
  (** [GET /api/v1/users/profile/{user_id}] with the bearer token *)
  user_profile_by_id : string -> string -> HttpResult UserInfo.t;
  (** [GET /api/v1/products/{product_id}] *)
  product_by_id : string -> HttpResult ProductInfo.t;
  (** [PATCH /api/v1/products/{product_id}/stock] with [quantity_change] *)
  product_stock_patch : string -> Z -> HttpResult unit;
}.

(** ** Results of the product client *)

Module Availability.
Record t : Type := mk {
  available : bool;
  reason : option string;
  available_quantity : Z;
  requested_quantity : option Z;
  product : option ProductInfo.t;
}.
End Availability.

Module Reservation.
Record t : Type := mk {
  product_id : string;
  quantity : Z;
  reserved : bool;
  product : option ProductInfo.t;
  reason : option string;
  available_quantity : option Z;
}.
End Reservation.

Module ReservationResult.
Record t : Type := mk {
  success : bool;
  total_items : nat;
  reserved_items : nat;
  reservations : list Reservation.t;
}.
End ReservationResult.

Section Clients.
Context `{Peers}.

(** ** [UserServiceClient] *)

Definition get_user_by_id (user_id token : string) : option UserInfo.t :=
  ok_json (user_profile_by_id user_id token).

Definition verify_user_token (token : string) : option UserInfo.t :=
  ok_json (user_profile token).

(** ** [ProductServiceClient] *)

Definition get_product_by_id (product_id : string) : option ProductInfo.t :=
  ok_json (product_by_id product_id).

(** The dictionary from identifier to product, for the identifiers that
    answer. *)
Definition get_products_step (products : gmap string ProductInfo.t) (product_id : string)
    : gmap string ProductInfo.t :=
  match get_product_by_id product_id with
  | Some product => <[product_id := product]> products
  | None => products
  end.

Definition get_products_by_ids (product_ids : list string) : gmap string ProductInfo.t :=
  fold_left get_products_step product_ids ∅.

Definition check_product_availability (product_id : string) (quantity : Z)
    : Availability.t :=
  match get_product_by_id product_id with
  | None => Availability.mk false (Some "Product not found") 0 None None
  | Some product =>
      if negb (ProductInfo.is_available product) then
        Availability.mk false (Some "Product not available") 0 None None
      else
        let stock_quantity := ProductInfo.stock_quantity product in
        if bool_decide (stock_quantity < quantity)%Z then
          Availability.mk false (Some "Insufficient stock") stock_quantity
            (Some quantity) None
        else Availability.mk true None stock_quantity None (Some product)
  end.

(** One turn of the loop of [reserve_products]. *)
Definition reserve_one (item : string * Z) : Reservation.t :=
  let '(product_id, quantity) := item in
  let availability := check_product_availability product_id quantity in
  if Availability.available availability then
    Reservation.mk product_id quantity true (Availability.product availability) None None
  else
    Reservation.mk product_id quantity false None (Availability.reason availability)
      (Some (Availability.available_quantity availability)).

Definition reserve_products (items : list (string * Z)) : ReservationResult.t :=
  let reservations := reserve_one <$> items in
  let total_reserved := length (List.filter Reservation.reserved reservations) in
  ReservationResult.mk (bool_decide (total_reserved = length items)) (length items)
    total_reserved reservations.

Definition update_product_stock (product_id : string) (quantity_change : Z) : bool :=
  match product_stock_patch product_id quantity_change with
  | Response code _ => bool_decide (code = 200)
  | ConnectionError => false
  end.

(** ** Properties of the clients *)

(** A line can be served: the product answers, is available and has the
    stock. *)
Definition can_serve (product_id : string) (quantity : Z) (p : ProductInfo.t) : Prop :=
  get_product_by_id product_id = Some p /\ ProductInfo.is_available p = true /\
  (quantity <= ProductInfo.stock_quantity p)%Z.

Lemma ok_json_Some {A} (r : HttpResult A) a :
  ok_json r = Some a <-> r = Response 200 (Some a).
Proof.
  destruct r as [code body|]; simpl; [|done].
  case_decide; subst; naive_solver.
Qed.

(** The token is accepted exactly when the user service answers 200 with
    a profile. *)
Lemma verify_user_token_Some token u :
  verify_user_token token = Some u <-> user_profile token = Response 200 (Some u).
Proof. apply ok_json_Some. Qed.

(** A failed connection and an error status both read as an invalid
    token. *)
Lemma verify_user_token_failed token :
  user_profile token = ConnectionError \/
  (exists code body, user_profile token = Response code body /\ code <> 200) ->
  verify_user_token token = None.
Proof.
  unfold verify_user_token.
  intros [->|(code & body & -> & Hne)]; simpl; [done|]. by rewrite decide_False.
Qed.

Lemma check_product_availability_true pid qty :
  Availability.available (check_product_availability pid qty) = true <->
  exists p, can_serve pid qty p.
Proof.
  unfold check_product_availability, can_serve.
  destruct (get_product_by_id pid) as [p|]; simpl; [|naive_solver].
  destruct (ProductInfo.is_available p) eqn:Ea; simpl; [|naive_solver].
  case_bool_decide; simpl; split; try naive_solver.
  - intros (p' & ? & ? & ?). simplify_eq. lia.
  - intros _. exists p. split_and!; [done..|lia].
Qed.

(** The product an available answer carries is the product looked up. *)
Lemma check_product_availability_product pid qty :
  Availability.available (check_product_availability pid qty) = true ->
  Availability.product (check_product_availability pid qty) = get_product_by_id pid.
Proof.
  unfold check_product_availability.
  destruct (get_product_by_id pid) as [p|]; simpl; [|done].
  destruct (ProductInfo.is_available p); simpl; [|done].
  by case_bool_decide.
Qed.

(** The three reasons of an unavailable answer, each with its cause. *)
Lemma check_product_availability_reason pid qty :
  Availability.available (check_product_availability pid qty) = false ->
  (get_product_by_id pid = None /\
   Availability.reason (check_product_availability pid qty) = Some "Product not found") \/
  (exists p, get_product_by_id pid = Some p /\ ProductInfo.is_available p = false /\
   Availability.reason (check_product_availability pid qty) = Some "Product not available") \/
  (exists p, get_product_by_id pid = Some p /\ ProductInfo.is_available p = true /\
   (ProductInfo.stock_quantity p < qty)%Z /\
   Availability.reason (check_product_availability pid qty) = Some "Insufficient stock").
Proof.
  unfold check_product_availability.
  destruct (get_product_by_id pid) as [p|]; simpl; [|by left].
  destruct (ProductInfo.is_available p) eqn:Ea; simpl; [|right; left; eauto].
  case_bool_decide; simpl; [|done]. right; right. eauto 10.
Qed.

Lemma reserve_one_reserved item :
  Reservation.reserved (reserve_one item) =
  Availability.available (check_product_availability item.1 item.2).
Proof. destruct item as [pid qty]. simpl. by destruct (Availability.available _). Qed.

Lemma reserve_one_line item :
  Reservation.product_id (reserve_one item) = item.1 /\
  Reservation.quantity (reserve_one item) = item.2.
Proof. destruct item as [pid qty]. simpl. by destruct (Availability.available _). Qed.

(** A reserved line carries the product that was looked up. *)
Lemma reserve_one_product item :
  Reservation.reserved (reserve_one item) = true ->
  exists p, Reservation.product (reserve_one item) = Some p /\ can_serve item.1 item.2 p.
Proof.
  rewrite reserve_one_reserved. intros Hav.
  pose proof (check_product_availability_product _ _ Hav) as Hp.
  pose proof (proj1 (check_product_availability_true _ _) Hav) as (p & Hc).
  exists p. split; [|done]. destruct item as [pid qty]. simpl in *.
  rewrite Hav. simpl. rewrite Hp. apply Hc.
Qed.

(** The product a line carries, reserved or not, is the product the peer
    answered for its identifier. *)
Lemma reserve_one_product_lookup item p :
  Reservation.product (reserve_one item) = Some p -> get_product_by_id item.1 = Some p.
Proof.
  destruct item as [pid qty]. unfold reserve_one.
  destruct (Availability.available _) eqn:Ea; simpl; [|done].
  by rewrite check_product_availability_product.
Qed.

(** A failed line carries a reason. *)
Lemma reserve_one_reason item :
  Reservation.reserved (reserve_one item) = false ->
  exists r, Reservation.reason (reserve_one item) = Some r.
Proof.
  rewrite reserve_one_reserved. intros Hav.
  destruct item as [pid qty]. simpl in *. rewrite Hav. simpl.
  destruct (check_product_availability_reason _ _ Hav)
    as [[_ ->]|[(p & _ & _ & ->)|(p & _ & _ & _ & ->)]]; eauto.
Qed.

(** One reservation per requested line, in the order of the request. *)
Lemma reserve_products_lines items :
  let r := reserve_products items in
  length (ReservationResult.reservations r) = length items /\
  (fun x => (Reservation.product_id x, Reservation.quantity x)) <$>
    ReservationResult.reservations r = items.
Proof.
  simpl. split; [by rewrite length_fmap|].
  rewrite <- list_fmap_compose. rewrite <- (list_fmap_id items) at 2.
  apply list_fmap_ext. intros _ item _. simpl.
  destruct (reserve_one_line item) as [-> ->]. by destruct item.
Qed.

Lemma filter_length_all {A} (f : A -> bool) (l : list A) :
  length (List.filter f l) = length l <-> Forall (fun x => f x = true) l.
Proof.
  induction l as [|x l IH]; simpl; [by split; [constructor|]|].
  pose proof (filter_length_le f l) as Hle.
  destruct (f x) eqn:E; simpl; rewrite Forall_cons.
  - rewrite <- IH. split; [intros [=]; auto | intros [_ ->]; done].
  - split; [lia | intros [? _]; congruence].
Qed.

(** The reservation succeeds exactly when every line is reserved. *)
Lemma reserve_products_success items :
  ReservationResult.success (reserve_products items) = true <->
  Forall (fun r => Reservation.reserved r = true)
    (ReservationResult.reservations (reserve_products items)).
Proof.
  simpl. rewrite bool_decide_eq_true, <- filter_length_all.
  by rewrite length_fmap.
Qed.

(** ... that is, when every requested line can be served. *)
Lemma reserve_products_success_can_serve items :
  ReservationResult.success (reserve_products items) = true <->
  Forall (fun item => exists p, can_serve item.1 item.2 p) items.
Proof.
  rewrite reserve_products_success. simpl. rewrite Forall_fmap.
  apply Forall_proper; [|done]. intros item. simpl.
  by rewrite reserve_one_reserved, check_product_availability_true.
Qed.

(** [get_products_by_ids] holds a product for exactly the identifiers of
    the list that answer. *)
Lemma get_products_fold_lookup pids acc pid :
  fold_left get_products_step pids acc !! pid =
  if decide (pid ∈ pids) then
    match get_product_by_id pid with Some p => Some p | None => acc !! pid end
  else acc !! pid.
Proof.
  revert acc. induction pids as [|x pids IH]; intros acc; simpl; [done|].
  rewrite IH. unfold get_products_step.
  destruct (decide (x = pid)) as [->|Hne].
  - rewrite (decide_True (P := pid ∈ pid :: pids)) by left.
    destruct (get_product_by_id pid) as [p|]; [|by case_decide].
    rewrite lookup_insert_eq. by case_decide.
  - assert (acc' : forall p, <[x := p]> acc !! pid = acc !! pid)
      by (intros; by rewrite lookup_insert_ne).
    destruct (decide (pid ∈ pids)) as [Hin|Hnin].
    + rewrite (decide_True (P := pid ∈ x :: pids)) by by right.
      destruct (get_product_by_id pid); [done|]. by destruct (get_product_by_id x).
    + rewrite (decide_False (P := pid ∈ x :: pids))
        by (rewrite not_elem_of_cons; done).
      by destruct (get_product_by_id x).
Qed.

Lemma get_products_by_ids_lookup pids pid :
  get_products_by_ids pids !! pid =
  if decide (pid ∈ pids) then get_product_by_id pid else None.
Proof.
  unfold get_products_by_ids. rewrite get_products_fold_lookup, lookup_empty.
  case_decide; [|done]. by destruct (get_product_by_id pid).
Qed.

End Clients.
