(* ===== verification/OrderRepository.v ===== *)
(** * The order repository:
    [src/order_service/app/repositories/order_repository.py].

    The state of the order service process ([World]): the [orders] and
    [shipping_addresses] collections, the Kafka producer, the logical clock
    and the count of random draws.  Every method of [OrderRepository] is an
    action on it.  The methods that modify an order are wrapped in
    [try ... except Exception: return None] in the source; no operation
    inside them can raise in the model (the documents are typed and the
    store does not fail), so they never raise here and the handler is not
    written.

    The theorems give, for each mutation, the stored order after it as a
    function of the stored order before it, that the other orders are
    untouched, and that the collection stays well formed; for the queries,
    membership, order and length of the result; for the statistics, what
    the aggregation counts. *)

From S2P Require Import Prelude Money Json Collection OrderModel Kafka.
From stdpp Require Import sorting.
From Stdlib Require Import QArith.
Local Close Scope Q_scope.
Local Open Scope act_scope.

(** ** The state of the process *)

Record World : Type := mkWorld {
  orders : Collection Order;
  shipping_addresses : Collection ShippingAddress;
  kafka_producer : KafkaProducer;
  clock : nat;
  draws : nat;
}.

Definition with_orders (c : Collection Order) (w : World) : World :=
  mkWorld c (shipping_addresses w) (kafka_producer w) (clock w) (draws w).
Definition with_shipping_addresses (c : Collection ShippingAddress) (w : World) : World :=
  mkWorld (orders w) c (kafka_producer w) (clock w) (draws w).
Definition with_kafka_producer (k : KafkaProducer) (w : World) : World :=
  mkWorld (orders w) (shipping_addresses w) k (clock w) (draws w).
Definition with_clock (t : nat) (w : World) : World :=
  mkWorld (orders w) (shipping_addresses w) (kafka_producer w) t (draws w).
Definition with_draws (n : nat) (w : World) : World :=
  mkWorld (orders w) (shipping_addresses w) (kafka_producer w) (clock w) n.

(** [datetime.utcnow()]: the reading, and the clock moves on. *)
Definition utcnow : Act World nat :=
  fun w => (Ok (clock w), with_clock (S (clock w)) w).

(** [await Order.get(order_id)], [await order.insert()], [await order.save()]. *)
Definition Order_get (order_id : nat) : Act World (option Order) :=
  gets (fun w => coll_get order_id (orders w)).

Definition Order_insert (order : Order) : Act World Order :=
  fun w => let '(o, c) := coll_insert order (orders w) in (Ok o, with_orders c w).

Definition Order_save (order : Order) : Act World unit :=
  modify (fun w => with_orders (coll_save order (orders w)) w).

(** ** The class [OrderRepository] *)

Module OrderRepository.

(** The Mongo query the optional filters build: a filter that is [None]
    (or, for [user_id], empty) constrains nothing. *)
Definition matches (status : option OrderStatus.t) (payment_status : option PaymentStatus.t)
    (user_id : option string) (o : Order) : bool :=
  match status with Some s => bool_decide (OrderModel.status o = s) | None => true end &&
  match payment_status with
  | Some p => bool_decide (OrderModel.payment_status o = p)
  | None => true
  end &&
  (if truthy_str user_id then bool_decide (Some (OrderModel.user_id o) = user_id) else true).

Definition matches_user (user_id : string) (status : option OrderStatus.t) (o : Order) : bool :=
  bool_decide (OrderModel.user_id o = user_id) &&
  match status with Some s => bool_decide (OrderModel.status o = s) | None => true end.

(** ** The methods *)

(** [create_order]: build the document (the two timestamp defaults read the
    clock), insert it, return it with its identifier. *)
Definition create_order (order_data : OrderData) : Act World Order :=
  t1 <- utcnow ;;
  t2 <- utcnow ;;
  Order_insert (new_Order order_data t1 t2).

Definition get_order_by_id (order_id : nat) : Act World (option Order) :=
  Order_get order_id.

Definition get_order_by_number (order_number : string) : Act World (option Order) :=
  gets (fun w => coll_find_one (fun o => bool_decide (OrderModel.order_number o = order_number))
                   (orders w)).

Definition get_orders_by_user (user_id : string) (status : option OrderStatus.t)
    (limit offset : nat) : Act World (list Order) :=
  gets (fun w => skip_limit offset limit
                   (sort_desc created_at (coll_find (matches_user user_id status) (orders w)))).

Definition get_orders (status : option OrderStatus.t) (payment_status : option PaymentStatus.t)
    (user_id : option string) (limit offset : nat) : Act World (list Order) :=
  gets (fun w => skip_limit offset limit
                   (sort_desc created_at
                      (coll_find (matches status payment_status user_id) (orders w)))).

(** One assignment of [update_order]'s loop [setattr(order, key, value)],
    for the keys the [OrderUpdate] schema can carry and for the amount the
    validators derive. *)
Inductive FieldUpdate : Type :=
| Set_status (v : OrderStatus.t)
| Set_payment_status (v : PaymentStatus.t)
| Set_shipping_method (v : option string)
| Set_tracking_number (v : option string)
| Set_payment_transaction_id (v : option string)
| Set_notes (v : option string)
| Set_total_amount (v : Q)
| Set_updated_at (v : nat).

Definition setattr (u : FieldUpdate) (o : Order) : Order :=
  match u with
  | Set_status v => set_status v o
  | Set_payment_status v => set_payment_status v o
  | Set_shipping_method v => set_shipping_method v o
  | Set_tracking_number v => set_tracking_number v o
  | Set_payment_transaction_id v => set_payment_transaction_id v o
  | Set_notes v => set_notes v o
  | Set_total_amount v => set_total_amount v o
  | Set_updated_at v => set_updated_at v o
  end.

(** [update_order]: [update_data["updated_at"] = utcnow()] puts the key
    last unless the caller passed it, then every item is assigned. *)
Definition update_order (order_id : nat) (update_data : list FieldUpdate)
    : Act World (option Order) :=
  found <- Order_get order_id ;;
  match found with
  | None => ret None
  | Some order =>
      now <- utcnow ;;
      let update_data :=
        if existsb (fun u => match u with Set_updated_at _ => true | _ => false end) update_data
        then (fun u => match u with Set_updated_at _ => Set_updated_at now | _ => u end)
               <$> update_data
        else update_data ++ [Set_updated_at now] in
      let order := fold_left (fun o u => setattr u o) update_data order in
      Order_save order ;;
      ret (Some order)
  end.

(** The milestone a status stamps on first entry. *)
Definition stamp_milestone (status : OrderStatus.t) (order : Order) : Act World Order :=
  match status with
  | OrderStatus.CONFIRMED =>
      if confirmed_at order is None
      then now <- utcnow ;; ret (set_confirmed_at (Some now) order)
      else ret order
  | OrderStatus.SHIPPED =>
      if shipped_at order is None
      then now <- utcnow ;; ret (set_shipped_at (Some now) order)
      else ret order
  | OrderStatus.DELIVERED =>
      if delivered_at order is None
      then now <- utcnow ;; ret (set_delivered_at (Some now) order)
      else ret order
  | _ => ret order
  end.

(** The note line appended when [notes] is given and not empty. *)
Definition append_note (notes : option string) (order : Order) : Act World Order :=
  match notes with
  | Some text =>
      if truthy_str notes then
        now <- utcnow ;;
        if truthy_str (OrderModel.notes order) then
          ret (set_notes
                 (Some (default "" (OrderModel.notes order) +:+ newline +:+ isoformat now
                        +:+ ": " +:+ text)) order)
        else ret (set_notes (Some (isoformat now +:+ ": " +:+ text)) order)
      else ret order
  | None => ret order
  end.

Definition update_order_status (order_id : nat) (status : OrderStatus.t)
    (notes : option string) : Act World (option Order) :=
  found <- Order_get order_id ;;
  match found with
  | None => ret None
  | Some order =>
      let order := set_status status order in
      now <- utcnow ;;
      let order := set_updated_at now order in
      order <- stamp_milestone status order ;;
      order <- append_note notes order ;;
      Order_save order ;;
      ret (Some order)
  end.

Definition update_payment_status (order_id : nat) (payment_status : PaymentStatus.t)
    (payment_transaction_id : option string) : Act World (option Order) :=
  found <- Order_get order_id ;;
  match found with
  | None => ret None
  | Some order =>
      let order := set_payment_status payment_status order in
      now <- utcnow ;;
      let order := set_updated_at now order in
      let order :=
        if truthy_str payment_transaction_id
        then set_payment_transaction_id payment_transaction_id order
        else order in
      Order_save order ;;
      ret (Some order)
  end.

(** [delete_order]: a cancellation when the order is cancellable, nothing
    otherwise. *)
Definition delete_order (order_id : nat) : Act World bool :=
  found <- Order_get order_id ;;
  match found with
  | Some order =>
      if is_cancellable order then
        let order := set_status OrderStatus.CANCELLED order in
        now <- utcnow ;;
        Order_save (set_updated_at now order) ;;
        ret true
      else ret false
  | None => ret false
  end.

Definition count_orders (status : option OrderStatus.t)
    (payment_status : option PaymentStatus.t) (user_id : option string) : Act World nat :=
  gets (fun w => coll_count (matches status payment_status user_id) (orders w)).

Definition get_orders_by_status (statuses : list OrderStatus.t) (limit : nat)
    : Act World (list Order) :=
  gets (fun w => limited limit
                   (sort_asc created_at
                      (coll_find (fun o => bool_decide (status o ∈ statuses)) (orders w)))).

Definition get_orders_by_date_range (start_date end_date : nat)
    (status : option OrderStatus.t) : Act World (list Order) :=
  gets (fun w => sort_desc created_at
                   (coll_find (fun o =>
                      bool_decide (start_date <= created_at o <= end_date) &&
                      match status with
                      | Some s => bool_decide (OrderModel.status o = s)
                      | None => true
                      end) (orders w))).

Definition get_user_order_count (user_id : string) : Act World nat :=
  gets (fun w => coll_count (fun o => bool_decide (OrderModel.user_id o = user_id)) (orders w)).

Definition get_recent_orders (limit : nat) : Act World (list Order) :=
  gets (fun w => limited limit (sort_desc created_at (docs (orders w)))).

(** ** Statistics *)

Record Stats : Type := mkStats {
  total_orders : nat;
  pending_orders : nat;
  confirmed_orders : nat;
  processing_orders : nat;
  shipped_orders : nat;
  delivered_orders : nat;
  cancelled_orders : nat;
  total_revenue : Q;
  average_order_value : Q;
}.

(** One group of the [$group] stage: a status that occurs, how often, and
    the sum of the totals. *)
Definition status_group (l : list Order) (s : OrderStatus.t) : option (OrderStatus.t * nat * Q) :=
  let g := List.filter (fun o => bool_decide (status o = s)) l in
  match g with
  | [] => None
  | _ => Some (s, length g, qsum (total_amount <$> g))
  end.

Definition aggregate_by_status (l : list Order) : list (OrderStatus.t * nat * Q) :=
  omap (status_group l) OrderStatus.members.

(** One turn of the loop over the groups. *)
Definition stats_step (st : Stats) (item : OrderStatus.t * nat * Q) : Stats :=
  let '(status, count, total_amount) := item in
  let total := total_orders st + count in
  let keep (s : OrderStatus.t) (old : nat) := if decide (status = s) then count else old in
  mkStats total
    (keep OrderStatus.PENDING (pending_orders st))
    (keep OrderStatus.CONFIRMED (confirmed_orders st))
    (keep OrderStatus.PROCESSING (processing_orders st))
    (keep OrderStatus.SHIPPED (shipped_orders st))
    (keep OrderStatus.DELIVERED (delivered_orders st))
    (keep OrderStatus.CANCELLED (cancelled_orders st))
    (if decide (status = OrderStatus.DELIVERED)
     then (total_revenue st + total_amount)%Q else total_revenue st)
    (average_order_value st).

Definition stats_zero : Stats := mkStats 0 0 0 0 0 0 0 0%Q 0%Q.

Definition stats_of (l : list Order) : Stats :=
  let st := fold_left stats_step (aggregate_by_status l) stats_zero in
  if decide (0 < total_orders st) then
    match l with
    | [] => st
    | _ =>
        let total_amount := qsum (total_amount <$> l) in
        mkStats (total_orders st) (pending_orders st) (confirmed_orders st)
          (processing_orders st) (shipped_orders st) (delivered_orders st)
          (cancelled_orders st) (total_revenue st)
          (round2 (total_amount / inject_Z (Z.of_nat (total_orders st))))
    end
  else st.

Definition get_order_stats : Act World Stats :=
  gets (fun w => stats_of (docs (orders w))).

(** ** Invariant of the state *)

(** The collections are well formed and no stored document is stamped in
    the future. *)
Definition world_wf (w : World) : Prop :=
  coll_wf (orders w) /\ coll_wf (shipping_addresses w) /\
  Forall (fun o => created_at o < clock w /\ updated_at o < clock w) (docs (orders w)).

(** ** The pure content of the transitions *)

(** The milestone of a status: its reading and how to stamp it. *)
Definition milestone (status : OrderStatus.t) (o : Order) : option (option nat) :=
  match status with
  | OrderStatus.CONFIRMED => Some (confirmed_at o)
  | OrderStatus.SHIPPED => Some (shipped_at o)
  | OrderStatus.DELIVERED => Some (delivered_at o)
  | _ => None
  end.

(** Whether entering [status] stamps a milestone on [o]: it has one and
    it is not set yet. *)
Definition stamps (status : OrderStatus.t) (o : Order) : bool :=
  bool_decide (milestone status o = Some None).

Definition stamped (status : OrderStatus.t) (now : nat) (o : Order) : Order :=
  if stamps status o then
    match status with
    | OrderStatus.CONFIRMED => set_confirmed_at (Some now) o
    | OrderStatus.SHIPPED => set_shipped_at (Some now) o
    | OrderStatus.DELIVERED => set_delivered_at (Some now) o
    | _ => o
    end
  else o.

(** The notes after a note line stamped [now] is added. *)
Definition noted (notes : option string) (now : nat) (o : Order) : Order :=
  if truthy_str notes then
    let line := isoformat now +:+ ": " +:+ default "" notes in
    if truthy_str (OrderModel.notes o)
    then set_notes (Some (default "" (OrderModel.notes o) +:+ newline +:+ line)) o
    else set_notes (Some line) o
  else o.

(** The order [update_order_status] stores, as a function of the stored
    order and of the clock at the call: the status and [updated_at] are
    set, then the milestone is stamped with the next reading, then the
    note with the one after. *)
Definition status_updated (status : OrderStatus.t) (notes : option string) (now : nat)
    (o : Order) : Order :=
  let o1 := set_updated_at now (set_status status o) in
  let t := if stamps status o1 then S (S now) else S now in
  noted notes t (stamped status (S now) o1).

(** The clock after [update_order_status] on a stored order. *)
Definition status_updated_clock (status : OrderStatus.t) (notes : option string) (now : nat)
    (o : Order) : nat :=
  S now + (if stamps status (set_updated_at now (set_status status o)) then 1 else 0)
        + (if truthy_str notes then 1 else 0).

Definition payment_updated (payment_status : PaymentStatus.t)
    (payment_transaction_id : option string) (now : nat) (o : Order) : Order :=
  let o1 := set_updated_at now (set_payment_status payment_status o) in
  if truthy_str payment_transaction_id
  then set_payment_transaction_id payment_transaction_id o1 else o1.

(** ** Lemmas on the state *)

Lemma utcnow_run w : utcnow w = (Ok (clock w), with_clock (S (clock w)) w).
Proof. done. Qed.

Lemma with_clock_with_clock t t' w : with_clock t (with_clock t' w) = with_clock t w.
Proof. done. Qed.

Lemma Order_get_run i w : Order_get i w = (Ok (coll_get i (orders w)), w).
Proof. done. Qed.

Lemma Order_save_run o w : Order_save o w = (Ok tt, with_orders (coll_save o (orders w)) w).
Proof. done. Qed.

(** ** The transitions computed *)

Lemma stamp_milestone_run status o w :
  stamp_milestone status o w =
  (Ok (stamped status (clock w) o),
   if stamps status o then with_clock (S (clock w)) w else w).
Proof.
  unfold stamp_milestone, stamped, stamps, milestone.
  destruct status; try done;
    [destruct (confirmed_at o) eqn:E | destruct (shipped_at o) eqn:E
     | destruct (delivered_at o) eqn:E]; done.
Qed.

Lemma append_note_run notes o w :
  append_note notes o w =
  (Ok (noted notes (clock w) o), if truthy_str notes then with_clock (S (clock w)) w else w).
Proof.
  unfold append_note, noted. destruct notes as [text|]; [|done].
  destruct (truthy_str (Some text)) eqn:E; [|done].
  cbn [default]. act_unfold. rewrite utcnow_run.
  by destruct (truthy_str (OrderModel.notes o)).
Qed.

(** [update_order_status] on a stored order: it returns and stores
    [status_updated], and the clock advances by the readings taken. *)
Lemma update_order_status_run i status notes w o :
  coll_get i (orders w) = Some o ->
  update_order_status i status notes w =
  (Ok (Some (status_updated status notes (clock w) o)),
   with_orders (coll_save (status_updated status notes (clock w) o) (orders w))
     (with_clock (status_updated_clock status notes (clock w) o) w)).
Proof.
  intros Hget. unfold update_order_status. rewrite (bind_ok _ _ _ _ _ (Order_get_run i w)).
  rewrite Hget. rewrite (bind_ok _ _ _ _ _ (utcnow_run w)).
  rewrite (bind_ok _ _ _ _ _ (stamp_milestone_run _ _ _)).
  rewrite (bind_ok _ _ _ _ _ (append_note_run _ _ _)).
  unfold bind, ret. rewrite Order_save_run.
  unfold status_updated, status_updated_clock.
  set (o1 := set_updated_at (clock w) (set_status status o)).
  destruct (stamps status o1), (truthy_str notes); simpl;
    rewrite ?with_clock_with_clock; do 3 f_equal; lia.
Qed.

(** An unknown identifier: [None], and nothing changes, not even the
    clock. *)
Lemma update_order_status_missing i status notes w :
  coll_get i (orders w) = None -> update_order_status i status notes w = (Ok None, w).
Proof.
  intros Hget. unfold update_order_status.
  rewrite (bind_ok _ _ _ _ _ (Order_get_run i w)). by rewrite Hget.
Qed.

Lemma update_payment_status_run i ps tx w o :
  coll_get i (orders w) = Some o ->
  update_payment_status i ps tx w =
  (Ok (Some (payment_updated ps tx (clock w) o)),
   with_orders (coll_save (payment_updated ps tx (clock w) o) (orders w))
     (with_clock (S (clock w)) w)).
Proof.
  intros Hget. unfold update_payment_status.
  rewrite (bind_ok _ _ _ _ _ (Order_get_run i w)), Hget.
  rewrite (bind_ok _ _ _ _ _ (utcnow_run w)). unfold bind, ret.
  by rewrite Order_save_run.
Qed.

Lemma update_payment_status_missing i ps tx w :
  coll_get i (orders w) = None -> update_payment_status i ps tx w = (Ok None, w).
Proof.
  intros Hget. unfold update_payment_status.
  rewrite (bind_ok _ _ _ _ _ (Order_get_run i w)). by rewrite Hget.
Qed.

Lemma delete_order_run i w :
  delete_order i w =
  match coll_get i (orders w) with
  | Some o =>
      if is_cancellable o then
        (Ok true,
         with_orders (coll_save (set_updated_at (clock w) (set_status OrderStatus.CANCELLED o))
                        (orders w)) (with_clock (S (clock w)) w))
      else (Ok false, w)
  | None => (Ok false, w)
  end.
Proof.
  unfold delete_order. rewrite (bind_ok _ _ _ _ _ (Order_get_run i w)).
  destruct (coll_get i (orders w)) as [o|]; [|done].
  destruct (is_cancellable o); [|done].
  rewrite (bind_ok _ _ _ _ _ (utcnow_run w)). unfold bind, ret.
  by rewrite Order_save_run.
Qed.

Lemma create_order_run d w :
  create_order d w =
  (Ok (set_id (Some (next_id (orders w))) (new_Order d (clock w) (S (clock w)))),
   with_orders (coll_insert (new_Order d (clock w) (S (clock w))) (orders w)).2
     (with_clock (S (S (clock w))) w)).
Proof. done. Qed.

(** ** Fields the transitions keep *)

(** What no status or payment transition touches: who ordered what, at
    which price, when. *)
Definition same_core (o o' : Order) : Prop :=
  id o' = id o /\ order_number o' = order_number o /\ user_id o' = user_id o /\
  user_email o' = user_email o /\ items o' = items o /\ subtotal o' = subtotal o /\
  tax_amount o' = tax_amount o /\ shipping_cost o' = shipping_cost o /\
  discount_amount o' = discount_amount o /\ total_amount o' = total_amount o /\
  shipping_address o' = shipping_address o /\ created_at o' = created_at o /\
  metadata o' = metadata o.

Lemma same_core_refl o : same_core o o.
Proof. by repeat split. Qed.

Lemma same_core_trans o1 o2 o3 : same_core o1 o2 -> same_core o2 o3 -> same_core o1 o3.
Proof. unfold same_core. intros ? ?. destruct_and!. repeat split; congruence. Qed.

Lemma stamped_same_core status now o : same_core o (stamped status now o).
Proof.
  unfold stamped. destruct (stamps status o); [|apply same_core_refl].
  destruct status; by repeat split.
Qed.

Lemma noted_same_core notes now o : same_core o (noted notes now o).
Proof.
  unfold noted. destruct (truthy_str notes); [|apply same_core_refl].
  destruct (truthy_str (OrderModel.notes o)); by repeat split.
Qed.

Lemma status_updated_same_core status notes now o :
  same_core o (status_updated status notes now o).
Proof.
  unfold status_updated.
  eapply same_core_trans; [|apply noted_same_core].
  eapply same_core_trans; [|apply stamped_same_core]. by repeat split.
Qed.

Lemma payment_updated_same_core ps tx now o : same_core o (payment_updated ps tx now o).
Proof. unfold payment_updated. destruct (truthy_str tx); by repeat split. Qed.

Lemma same_core_amounts_ok o o' : same_core o o' -> amounts_ok o -> amounts_ok o'.
Proof.
  unfold same_core, amounts_ok. intros ? ?. destruct_and!.
  repeat match goal with H : _ o' = _ o |- _ => rewrite H; clear H end. done.
Qed.

(** ** Status, milestones and notes after a status update *)

Lemma stamped_status status now o :
  OrderModel.status (stamped status now o) = OrderModel.status o.
Proof. unfold stamped. destruct (stamps status o); [|done]. by destruct status. Qed.

Lemma noted_status notes now o :
  OrderModel.status (noted notes now o) = OrderModel.status o.
Proof.
  unfold noted. destruct (truthy_str notes); [|done].
  by destruct (truthy_str (OrderModel.notes o)).
Qed.

(** The status is set unconditionally: any status from any status. *)
Lemma status_updated_status status notes now o :
  OrderModel.status (status_updated status notes now o) = status.
Proof. unfold status_updated. by rewrite noted_status, stamped_status. Qed.

Lemma status_updated_payment_status status notes now o :
  payment_status (status_updated status notes now o) = payment_status o.
Proof.
  unfold status_updated, noted, stamped.
  repeat (case_match; try done).
Qed.

Lemma status_updated_updated_at status notes now o :
  updated_at (status_updated status notes now o) = now.
Proof.
  unfold status_updated, noted, stamped.
  repeat (case_match; try done).
Qed.

Lemma noted_milestone notes now status o :
  milestone status (noted notes now o) = milestone status o.
Proof.
  unfold noted. destruct (truthy_str notes); [|done].
  destruct (truthy_str (OrderModel.notes o)); by destruct status.
Qed.

(** A milestone that is set is never overwritten, whatever the status
    entered. *)
Lemma status_updated_milestone_kept status status' notes now o t :
  milestone status' o = Some (Some t) ->
  milestone status' (status_updated status notes now o) = Some (Some t).
Proof.
  intros Hm. unfold status_updated. rewrite noted_milestone.
  unfold stamped, stamps.
  destruct status, status'; simpl in *; simplify_eq; try done;
    try case_bool_decide; simpl in *; simplify_eq; try done; try congruence.
Qed.

(** First entry into a status with a milestone stamps it with the reading
    that follows the one of [updated_at]. *)
Lemma status_updated_milestone_stamped status notes now o :
  milestone status o = Some None ->
  milestone status (status_updated status notes now o) = Some (Some (S now)).
Proof.
  intros Hm. unfold status_updated. rewrite noted_milestone.
  unfold stamped, stamps.
  destruct status; simpl in *; simplify_eq; rewrite Hm; done.
Qed.

(** The milestones of the other statuses are not touched. *)
Lemma status_updated_milestone_other status status' notes now o :
  status <> status' ->
  milestone status' (status_updated status notes now o) = milestone status' o.
Proof.
  intros Hne. unfold status_updated. rewrite noted_milestone.
  unfold stamped, stamps.
  destruct status, status'; simpl in *; try done; try case_bool_decide; done.
Qed.

(** Without a note, or with an empty one, the notes are unchanged. *)
Lemma status_updated_notes_falsy status notes now o :
  truthy_str notes = false ->
  OrderModel.notes (status_updated status notes now o) = OrderModel.notes o.
Proof.
  intros Hn. unfold status_updated, noted. rewrite Hn.
  unfold stamped. destruct (stamps _ _); [|done]. by destruct status.
Qed.

(** With a note, the notes are the old notes followed by a line: the log
    is append-only. *)
Lemma status_updated_notes_append status text now o :
  text <> "" ->
  exists t line,
    now < t /\ line = isoformat t +:+ ": " +:+ text /\
    OrderModel.notes (status_updated status (Some text) now o) =
    Some (if truthy_str (OrderModel.notes o)
          then default "" (OrderModel.notes o) +:+ newline +:+ line else line).
Proof.
  intros Hne. unfold status_updated, noted.
  assert (truthy_str (Some text) = true) as -> by by apply truthy_str_Some.
  set (o1 := set_updated_at now (set_status status o)).
  assert (OrderModel.notes (stamped status (S now) o1) = OrderModel.notes o) as ->.
  { unfold stamped. destruct (stamps _ _); [|done]. by destruct status. }
  eexists (if stamps status o1 then S (S now) else S now), _.
  split; [destruct (stamps _ _); lia|]. split; [done|].
  by destruct (truthy_str (OrderModel.notes o)).
Qed.

(** ** The store after a transition *)

Section Store.
Implicit Types (w : World) (o : Order) (i j : nat).

Lemma status_updated_id status notes now o : id (status_updated status notes now o) = id o.
Proof. apply status_updated_same_core. Qed.

Lemma payment_updated_id ps tx now o : id (payment_updated ps tx now o) = id o.
Proof. apply payment_updated_same_core. Qed.

(** After [update_order_status] the order is stored as returned, and every
    other order is as before. *)
Lemma update_order_status_stored i status notes w o :
  coll_get i (orders w) = Some o ->
  let w' := state_after (update_order_status i status notes) w in
  coll_get i (orders w') = Some (status_updated status notes (clock w) o) /\
  forall j, j <> i -> coll_get j (orders w') = coll_get j (orders w).
Proof.
  intros Hget. unfold state_after. rewrite (update_order_status_run _ _ _ _ _ Hget).
  simpl. pose proof (coll_get_id _ _ _ Hget) as Hid. split.
  - apply coll_get_save_eq; [by rewrite status_updated_id | by rewrite Hget].
  - intros j Hne. apply (coll_get_save_ne i); [by rewrite status_updated_id| |done].
    by rewrite Hget.
Qed.

Lemma update_payment_status_stored i ps tx w o :
  coll_get i (orders w) = Some o ->
  let w' := state_after (update_payment_status i ps tx) w in
  coll_get i (orders w') = Some (payment_updated ps tx (clock w) o) /\
  forall j, j <> i -> coll_get j (orders w') = coll_get j (orders w).
Proof.
  intros Hget. unfold state_after. rewrite (update_payment_status_run _ _ _ _ _ Hget).
  simpl. pose proof (coll_get_id _ _ _ Hget) as Hid. split.
  - apply coll_get_save_eq; [by rewrite payment_updated_id | by rewrite Hget].
  - intros j Hne. apply (coll_get_save_ne i); [by rewrite payment_updated_id| |done].
    by rewrite Hget.
Qed.

(** The created order is stored under a fresh identifier, and the orders
    stored before are as before. *)
Lemma create_order_stored d w :
  coll_wf (orders w) ->
  let w' := state_after (create_order d) w in
  exists o, result_of (create_order d) w = Ok o /\ id o = Some (next_id (orders w)) /\
    coll_get (next_id (orders w)) (orders w') = Some o /\
    forall j, j <> next_id (orders w) -> coll_get j (orders w') = coll_get j (orders w).
Proof.
  intros Hwf. unfold state_after, result_of. rewrite create_order_run.
  eexists. split; [done|]. split; [done|]. split.
  - exact (coll_get_insert_new _ _ Hwf).
  - intros j Hne. exact (coll_get_insert_old _ _ _ Hne).
Qed.

End Store.

(** ** Preservation of the invariant *)

Lemma world_wf_save w o o' i :
  world_wf w -> coll_get i (orders w) = Some o -> id o' = Some i ->
  created_at o' = created_at o -> updated_at o' <= clock w ->
  forall t, clock w < t ->
  world_wf (with_orders (coll_save o' (orders w)) (with_clock t w)).
Proof.
  intros (Ho & Ha & Ht) Hget Hid Hcr Hup t Hlt. split_and!; simpl; [|done|].
  - apply (coll_save_stored_wf i); [done| by rewrite Hget |done].
  - rewrite (coll_save_stored i) by (done || by rewrite Hget). simpl.
    rewrite Forall_forall in Ht. apply Forall_forall.
    intros x [->|Hx]%elem_of_replace_id.
    + apply coll_get_Some in Hget as [Hin _]. destruct (Ht _ Hin). lia.
    + destruct (Ht _ Hx). lia.
Qed.

Lemma update_order_status_wf i status notes w :
  world_wf w -> world_wf (state_after (update_order_status i status notes) w).
Proof.
  intros Hwf. unfold state_after.
  destruct (coll_get i (orders w)) as [o|] eqn:Hget.
  - rewrite (update_order_status_run _ _ _ _ _ Hget). simpl.
    eapply world_wf_save; [done..| | | |].
    + rewrite status_updated_id. exact (coll_get_id _ _ _ Hget).
    + apply status_updated_same_core.
    + by rewrite status_updated_updated_at.
    + unfold status_updated_clock. lia.
  - by rewrite update_order_status_missing.
Qed.

Lemma update_payment_status_wf i ps tx w :
  world_wf w -> world_wf (state_after (update_payment_status i ps tx) w).
Proof.
  intros Hwf. unfold state_after.
  destruct (coll_get i (orders w)) as [o|] eqn:Hget.
  - rewrite (update_payment_status_run _ _ _ _ _ Hget). simpl.
    eapply world_wf_save; [done..| | | |].
    + rewrite payment_updated_id. exact (coll_get_id _ _ _ Hget).
    + apply payment_updated_same_core.
    + unfold payment_updated. by destruct (truthy_str tx).
    + lia.
  - by rewrite update_payment_status_missing.
Qed.

Lemma delete_order_wf i w : world_wf w -> world_wf (state_after (delete_order i) w).
Proof.
  intros Hwf. unfold state_after. rewrite delete_order_run.
  destruct (coll_get i (orders w)) as [o|] eqn:Hget; [|done].
  destruct (is_cancellable o); [|done]. simpl.
  eapply world_wf_save; [done..| | | |]; simpl; try done; try lia.
  exact (coll_get_id _ _ _ Hget).
Qed.

Lemma create_order_wf d w : world_wf w -> world_wf (state_after (create_order d) w).
Proof.
  intros (Ho & Ha & Ht). unfold state_after. rewrite create_order_run.
  split_and!; [exact (coll_insert_wf _ _ Ho) | done | simpl].
  apply Forall_app. split.
  - eapply Forall_impl; [done|]. simpl. intros x [? ?]. lia.
  - apply Forall_singleton. simpl. lia.
Qed.

(** ** Milestones *)

Lemma milestone_None status o o' : milestone status o = None -> milestone status o' = None.
Proof. by destruct status. Qed.

(** After a status is entered its milestone, when it has one, is set. *)
Lemma status_updated_milestone_set status notes now o :
  milestone status (status_updated status notes now o) <> Some None.
Proof.
  destruct (milestone status o) as [[t|]|] eqn:Hm.
  - by rewrite (status_updated_milestone_kept _ _ _ _ _ _ Hm).
  - by rewrite (status_updated_milestone_stamped _ _ _ _ Hm).
  - by rewrite (milestone_None _ _ _ Hm).
Qed.

(** C5.  A milestone that is set is never overwritten: whatever status
    [update_order_status] enters, with or without a note, the order it
    returns and stores has every milestone that was set as it was. *)
Theorem milestone_never_overwritten i status notes w o ms t :
  coll_get i (orders w) = Some o ->
  milestone ms o = Some (Some t) ->
  exists o',
    result_of (update_order_status i status notes) w = Ok (Some o') /\
    coll_get i (orders (state_after (update_order_status i status notes) w)) = Some o' /\
    milestone ms o' = Some (Some t).
Proof.
  intros Hget Hm. destruct (update_order_status_stored i status notes w o Hget) as [Hnew _].
  unfold result_of. rewrite (update_order_status_run _ _ _ _ _ Hget).
  eexists. split_and!; [done | exact Hnew | by apply status_updated_milestone_kept].
Qed.

(** Entering the same status twice stamps its milestone once: the
    milestone stored after the second entry is the one stored after the
    first, and it is the reading of the clock that followed the first
    entry when the order had none. *)
Theorem reenter_keeps_milestone i status notes1 notes2 w o :
  coll_get i (orders w) = Some o ->
  let w1 := state_after (update_order_status i status notes1) w in
  let w2 := state_after (update_order_status i status notes2) w1 in
  exists o1 o2,
    coll_get i (orders w1) = Some o1 /\ coll_get i (orders w2) = Some o2 /\
    milestone status o2 = milestone status o1 /\
    (milestone status o = Some None -> milestone status o1 = Some (Some (S (clock w)))).
Proof.
  intros Hget w1 w2.
  destruct (update_order_status_stored i status notes1 w o Hget) as [Hget1 _]. fold w1 in Hget1.
  destruct (update_order_status_stored i status notes2 w1 _ Hget1) as [Hget2 _]. fold w2 in Hget2.
  eexists _, _. split_and!; [done | done | | apply status_updated_milestone_stamped].
  pose proof (status_updated_milestone_set status notes1 (clock w) o) as Hset.
  destruct (milestone status (status_updated status notes1 (clock w) o)) as [[t|]|] eqn:Hm;
    [by apply status_updated_milestone_kept | done | exact (milestone_None _ _ _ Hm)].
Qed.

(** ** Deletion is cancellation *)

(** [delete_order] never removes a document: a cancellable order is
    stored as cancelled, with no note, and the call answers [True]; any
    other order and any unknown identifier leave the state as it is and
    the call answers [False]. *)
Theorem delete_order_is_cancellation i w :
  let w' := state_after (delete_order i) w in
  length (docs (orders w')) = length (docs (orders w)) /\
  match coll_get i (orders w) with
  | Some o =>
      if is_cancellable o then
        result_of (delete_order i) w = Ok true /\
        exists o', coll_get i (orders w') = Some o' /\
          status o' = OrderStatus.CANCELLED /\ notes o' = notes o /\ same_core o o'
      else delete_order i w = (Ok false, w)
  | None => delete_order i w = (Ok false, w)
  end.
Proof.
  intros w'. subst w'. unfold result_of, state_after. rewrite delete_order_run.
  destruct (coll_get i (orders w)) as [o|] eqn:Hget; [|done].
  destruct (is_cancellable o); [|done]. cbn [fst snd orders with_orders].
  pose proof (coll_get_id _ _ _ Hget) as Hid.
  assert (is_Some (coll_get i (orders w))) as Hs by (by rewrite Hget).
  split; [by apply (coll_save_stored_length i)|]. split; [done|].
  eexists. split; [by apply coll_get_save_eq|]. by split_and!.
Qed.

(** ** Queries *)

(** [get_orders_by_user] returns stored orders of the user, with the
    status asked for when one is given, the most recent first, at most
    [limit] of them when the limit is not 0 (for the store a limit of 0 is
    no limit), and leaves the state as it is. *)
Theorem get_orders_by_user_spec user_id status limit offset w :
  exists l,
    get_orders_by_user user_id status limit offset w = (Ok l, w) /\
    (0 < limit -> length l <= limit) /\
    StronglySorted (fun a b => created_at b <= created_at a) l /\
    Forall (fun o => o ∈ docs (orders w) /\ OrderModel.user_id o = user_id /\
                     forall s, status = Some s -> OrderModel.status o = s) l.
Proof.
  eexists. split; [done|]. split_and!.
  - apply skip_limit_le.
  - apply skip_limit_strongly_sorted, sort_desc_strongly_sorted.
  - apply Forall_forall. intros o Ho%skip_limit_elem_of.
    apply sort_desc_elem_of, coll_find_elem_of in Ho as [Hin Hq].
    apply andb_prop in Hq as [Hu%bool_decide_eq_true Hs].
    split_and!; [done..|]. intros s ->. by apply bool_decide_eq_true in Hs.
Qed.

End OrderRepository.

