(* ===== verification/OrderService.v ===== *)
(** * The order service layer:
    [src/order_service/app/services/order_service.py].

    The handlers of the class [OrderService], composed from the HTTP
    clients ([External]), the repository ([OrderRepository]) and the publish
    helpers ([Kafka]) the way the source composes them, over the state
    [World] of the process.  A handler returns an [OrderResponse] or raises;
    what it raises is an [HTTPException] with the status code and the detail
    of the source.

    What the process does not decide is a parameter: the peers' answers
    ([Peers]) and the formatting of the clock and the random identifiers
    ([Environment]).  Every theorem holds for all of them.

    The theorems give, for each handler, each of its error paths with the
    state it leaves, its successful path with the stored order and the
    message published, and the preservation of [world_wf]. *)

From S2P Require Import Prelude Money Json Collection OrderModel Kafka OrderSchemas.
From S2P Require Import External OrderRepository.
From Stdlib Require Import QArith Qround Lqa.
Local Close Scope Q_scope.
Local Open Scope act_scope.

(** ** The environment *)

Class Environment : Type := {
  (** [t.strftime("%Y%m%d%H%M%S")] of a clock reading *)
  strftime : nat -> string;
  (** [str(uuid.uuid4())] of the [n]-th draw *)
  uuid4 : nat -> string;
}.

(** [s.upper()] on ASCII. *)
Definition upper_ascii (c : Ascii.ascii) : Ascii.ascii :=
  let n := Ascii.nat_of_ascii c in
  if bool_decide (97 <= n <= 122) then Ascii.ascii_of_nat (n - 32) else c.

Fixpoint upper (s : string) : string :=
  match s with
  | EmptyString => EmptyString
  | String c s' => String (upper_ascii c) (upper s')
  end.

(** [await shipping_address.insert()]. *)
Definition ShippingAddress_insert (a : ShippingAddress) : Act World ShippingAddress :=
  fun w => let '(a', c) := coll_insert a (shipping_addresses w) in
           (Ok a', with_shipping_addresses c w).

(** A publish helper run on the producer of the process. *)
Definition publish (c : Act KafkaProducer unit) : Act World unit :=
  zoom kafka_producer with_kafka_producer c.

(** ** JSON views of the documents *)

Definition json_of_item (item : OrderItem) : json :=
  JDict [("product_id", JStr (product_id item));
         ("product_name", JStr (product_name item));
         ("quantity", JInt (quantity item));
         ("unit_price", JFloat (unit_price item))].

(** [order.shipping_address.dict()]. *)
Definition ShippingAddress_dict (a : ShippingAddress) : json :=
  JDict [("id", json_of_opt_nat pretty (sa_id a));
         ("full_name", JStr (full_name a));
         ("address_line_1", JStr (address_line_1 a));
         ("address_line_2", json_of_opt_str (address_line_2 a));
         ("city", JStr (city a));
         ("state", JStr (state a));
         ("postal_code", JStr (postal_code a));
         ("country", JStr (country a));
         ("phone", json_of_opt_str (phone a))].

(** The [ShippingAddress] document built from the fields of the request's
    address. *)
Definition new_ShippingAddress (a : ShippingAddressCreate.t) : ShippingAddress :=
  {| sa_id := None;
     full_name := ShippingAddressCreate.full_name a;
     address_line_1 := ShippingAddressCreate.address_line_1 a;
     address_line_2 := ShippingAddressCreate.address_line_2 a;
     city := ShippingAddressCreate.city a;
     state := ShippingAddressCreate.state a;
     postal_code := ShippingAddressCreate.postal_code a;
     country := ShippingAddressCreate.country a;
     phone := ShippingAddressCreate.phone a |}.

(** The fields every event dictionary of the service starts with. *)
Definition event_head (order : Order) : dict :=
  [("id", JStr (str_id (id order)));
   ("order_number", JStr (order_number order));
   ("user_id", JStr (user_id order));
   ("user_email", JStr (user_email order));
   ("total_amount", JFloat (total_amount order))].

(** A publish helper is a [send_event], which never raises. *)
Ltac helper_total :=
  unfold publish_order_created_event, publish_order_confirmed_event,
    publish_order_cancelled_event, publish_order_shipped_event,
    publish_order_delivered_event, publish_payment_completed_event,
    publish_payment_failed_event, publish_order_event;
  apply send_event_total.

(** ** The class [OrderService] *)

Module OrderService.
Section Handlers.
Context `{Peers} `{Environment}.

Definition _generate_order_number : Act World string :=
  now <- utcnow ;;
  let timestamp := strftime now in
  u <- (fun w => (Ok (uuid4 (draws w)), with_draws (S (draws w)) w)) ;;
  let random_suffix := upper (String.substring 0 8 u) in
  ret ("ORD-" +:+ timestamp +:+ "-" +:+ random_suffix).

(** [_convert_to_response]: the response model of an order, with the
    derived fields. *)
Definition item_response (item : OrderItem) : OrderItemResponse.t :=
  OrderItemResponse.mk (str_id (oi_id item)) (product_id item) (product_name item)
    (product_sku item) (unit_price item) (quantity item) (total_price item)
    (product_snapshot item).

Definition shipping_address_response (a : ShippingAddress) : ShippingAddressResponse.t :=
  ShippingAddressResponse.mk (str_id (sa_id a)) (full_name a) (address_line_1 a)
    (address_line_2 a) (city a) (state a) (postal_code a) (country a) (phone a).

Definition _convert_to_response (order : Order) : OrderResponse.t :=
  let items_response := item_response <$> items order in
  let shipping_address_response := shipping_address_response (shipping_address order) in
  OrderResponse.mk (str_id (id order)) (order_number order) (user_id order)
    (user_email order) items_response (subtotal order) (tax_amount order)
    (shipping_cost order) (discount_amount order) (total_amount order) (status order)
    (payment_status order) shipping_address_response (shipping_method order)
    (tracking_number order) (payment_method order) (payment_transaction_id order)
    (created_at order) (updated_at order) (confirmed_at order) (shipped_at order)
    (delivered_at order) (notes order) (metadata order) (get_item_count order)
    (is_editable order) (is_cancellable order).

(** *** [create_order] *)

(** One line of the detail of a failed reservation. *)
Definition failed_detail (item : Reservation.t) : string :=
  "Product " +:+ Reservation.product_id item +:+ ": " +:+
  default "Unknown error" (Reservation.reason item).

Definition reservation_failed_detail (reservations : list Reservation.t) : string :=
  let failed_items := List.filter (fun res => negb (Reservation.reserved res)) reservations in
  "Product reservation failed: " +:+ join "; " (failed_detail <$> failed_items).

(** The snapshot of the product kept in the order line. *)
Definition snapshot_of (product : ProductInfo.t) : dict :=
  [("name", JStr (ProductInfo.name product));
   ("description", JStr (ProductInfo.description product));
   ("price", JFloat (ProductInfo.price product));
   ("category_name", json_of_opt_str (ProductInfo.category_name product));
   ("image_urls", JList (JStr <$> ProductInfo.image_urls product))].

(** The loop over [zip(order_data.items, reservations)]: the lines built so
    far and the running subtotal.  A line that is not reserved is skipped;
    the constructor of [OrderItem] may raise. *)
Fixpoint build_items (lines : list (OrderItemCreate.t * Reservation.t))
    (order_items : list OrderItem) (subtotal : Q) : Res (list OrderItem * Q) :=
  match lines with
  | [] => Ok (order_items, subtotal)
  | (item_data, reservation) :: lines' =>
      if Reservation.reserved reservation then
        match Reservation.product reservation with
        | Some product =>
            match new_OrderItem (OrderItemCreate.product_id item_data)
                    (ProductInfo.name product) (ProductInfo.sku product)
                    (ProductInfo.price product) (OrderItemCreate.quantity item_data)
                    (ProductInfo.price product * inject_Z (OrderItemCreate.quantity item_data))%Q
                    (snapshot_of product) with
            | Ok order_item =>
                build_items lines' (order_items ++ [order_item])
                  (subtotal + total_price order_item)%Q
            | Raise e => Raise e
            end
        | None => Raise (PyException "TypeError" "'NoneType' object is not subscriptable")
        end
      else build_items lines' order_items subtotal
  end.

(** The event dictionary of a created order. *)
Definition created_event_data (order : Order) : dict :=
  event_head order ++
  [("item_count", JInt (get_item_count order));
   ("items", JList (json_of_item <$> items order));
   ("created_at", JStr (isoformat (created_at order)))].

Definition unauthorized : exn := HTTPException HTTP_401_UNAUTHORIZED "Invalid or expired token".
Definition not_found : exn := HTTPException HTTP_404_NOT_FOUND "Order not found".
Definition access_denied : exn := HTTPException HTTP_403_FORBIDDEN "Access denied".

(** The tax and shipping rules of [create_order]. *)
Definition tax_rate : Q := 8 # 100.
Definition tax_of (subtotal : Q) : Q := round2 (subtotal * tax_rate).
Definition shipping_of (subtotal : Q) : Q := if Qltb subtotal 100 then 10%Q else 0%Q.

(** The lines sent to [reserve_products]. *)
Definition requested_lines (order_data : OrderCreate.t) : list (string * Z) :=
  (fun item => (OrderItemCreate.product_id item, OrderItemCreate.quantity item))
    <$> OrderCreate.items order_data.

(** The dictionary [order_dict] the order is built from. *)
Definition order_dict (order_data : OrderCreate.t) (order_number user_id user_email : string)
    (order_items : list OrderItem) (subtotal tax_amount shipping_cost total_amount : Q)
    (shipping_address : ShippingAddress) : OrderData :=
  {| d_order_number := order_number;
     d_user_id := user_id;
     d_user_email := user_email;
     d_items := order_items;
     d_subtotal := subtotal;
     d_tax_amount := tax_amount;
     d_shipping_cost := shipping_cost;
     d_discount_amount := 0%Q;
     d_total_amount := total_amount;
     d_status := OrderStatus.PENDING;
     d_payment_status := PaymentStatus.PENDING;
     d_shipping_address := shipping_address;
     d_shipping_method := OrderCreate.shipping_method order_data;
     d_payment_method := OrderCreate.payment_method order_data;
     d_notes := OrderCreate.notes order_data;
     d_metadata := [] |}.

(** The body of the [try] block of [create_order]. *)
Definition create_order_body (order_data : OrderCreate.t) (user_token : string)
    : Act World OrderResponse.t :=
  match verify_user_token user_token with
  | None => raise unauthorized
  | Some user_info =>
      let user_id := UserInfo.id user_info in
      let user_email := UserInfo.email user_info in
      let reservation_result := reserve_products (requested_lines order_data) in
      if negb (ReservationResult.success reservation_result) then
        raise (HTTPException HTTP_400_BAD_REQUEST
                 (reservation_failed_detail (ReservationResult.reservations reservation_result)))
      else
        built <- of_res (build_items
                           (zip (OrderCreate.items order_data)
                                (ReservationResult.reservations reservation_result))
                           [] 0%Q) ;;
        let order_items := built.1 in
        let subtotal := built.2 in
        shipping_address <-
          ShippingAddress_insert (new_ShippingAddress (OrderCreate.shipping_address order_data)) ;;
        let tax_amount := tax_of subtotal in
        let shipping_cost := shipping_of subtotal in
        let total_amount := (subtotal + tax_amount + shipping_cost)%Q in
        order_number <- _generate_order_number ;;
        order <- OrderRepository.create_order
                   (order_dict order_data order_number user_id user_email order_items
                      subtotal tax_amount shipping_cost total_amount shipping_address) ;;
        publish (publish_order_created_event (created_event_data order)) ;;
        ret (_convert_to_response order)
  end.

(** [create_order]: an [HTTPException] of the body passes, any other
    exception becomes a 500. *)
Definition create_order (order_data : OrderCreate.t) (user_token : string)
    : Act World OrderResponse.t :=
  try_except (create_order_body order_data user_token)
    (fun e =>
       if is_http e then raise e
       else raise (HTTPException HTTP_500_INTERNAL_SERVER_ERROR "Failed to create order")).

(** *** Reads *)

Definition get_order_by_id (order_id : nat) (user_token : string)
    : Act World OrderResponse.t :=
  match verify_user_token user_token with
  | None => raise unauthorized
  | Some user_info =>
      found <- OrderRepository.get_order_by_id order_id ;;
      match found with
      | None => raise not_found
      | Some order =>
          if negb (bool_decide (user_id order = UserInfo.id user_info))
          then raise access_denied
          else ret (_convert_to_response order)
      end
  end.

Definition get_user_orders (user_token : string) (status : option OrderStatus.t)
    (page per_page : nat) : Act World OrderListResponse.t :=
  match verify_user_token user_token with
  | None => raise unauthorized
  | Some user_info =>
      let user_id := UserInfo.id user_info in
      offset <- skip_of page per_page ;;
      orders <- OrderRepository.get_orders_by_user user_id status per_page offset ;;
      total_orders <- OrderRepository.count_orders status None (Some user_id) ;;
      total_pages <- floor_div (total_orders + per_page - 1) per_page ;;
      let order_responses := _convert_to_response <$> orders in
      ret (OrderListResponse.mk order_responses total_orders page per_page total_pages)
  end.

Definition get_order_stats : Act World OrderStats.t :=
  stats <- OrderRepository.get_order_stats ;;
  ret (OrderStats.mk (OrderRepository.total_orders stats)
         (OrderRepository.pending_orders stats) (OrderRepository.confirmed_orders stats)
         (OrderRepository.processing_orders stats) (OrderRepository.shipped_orders stats)
         (OrderRepository.delivered_orders stats) (OrderRepository.cancelled_orders stats)
         (OrderRepository.total_revenue stats) (OrderRepository.average_order_value stats)).

(** *** Status and payment transitions *)

(** The event dictionary of [update_order_status], before the keys of the
    status are added. *)
Definition status_event_data (order : Order) : dict :=
  event_head order ++ [("updated_at", JStr (isoformat (updated_at order)))].

(** The event [update_order_status] publishes for the status entered:
    the publish helper and its dictionary, [None] for the statuses without
    an event (pending, processing, refunded). *)
Definition status_event (status : OrderStatus.t) (notes : option string) (order : Order)
    : option (Act KafkaProducer unit) :=
  let order_event_data := status_event_data order in
  match status with
  | OrderStatus.CONFIRMED =>
      Some (publish_order_confirmed_event
              (dict_set "confirmed_at" (json_of_opt_nat isoformat (confirmed_at order))
                 order_event_data))
  | OrderStatus.CANCELLED =>
      Some (publish_order_cancelled_event
              (dict_set "cancellation_reason" (json_of_opt_str notes) order_event_data))
  | OrderStatus.SHIPPED =>
      Some (publish_order_shipped_event
              (dict_update order_event_data
                 [("shipped_at", json_of_opt_nat isoformat (shipped_at order));
                  ("tracking_number", json_of_opt_str (tracking_number order));
                  ("shipping_method", json_of_opt_str (shipping_method order));
                  ("shipping_address", ShippingAddress_dict (shipping_address order))]))
  | OrderStatus.DELIVERED =>
      Some (publish_order_delivered_event
              (dict_set "delivered_at" (json_of_opt_nat isoformat (delivered_at order))
                 order_event_data))
  | _ => None
  end.

(** [update_order_status] (the administrator's endpoint): no token, no
    check of the current status. *)
Definition update_order_status (order_id : nat) (status_update : OrderStatusUpdate.t)
    : Act World OrderResponse.t :=
  found <- OrderRepository.update_order_status order_id
             (OrderStatusUpdate.status status_update) (OrderStatusUpdate.notes status_update) ;;
  match found with
  | None => raise not_found
  | Some order =>
      match status_event (OrderStatusUpdate.status status_update)
              (OrderStatusUpdate.notes status_update) order with
      | Some send => publish send
      | None => ret tt
      end ;;
      ret (_convert_to_response order)
  end.

Definition payment_event_data (order : Order) : dict :=
  event_head order ++
  [("payment_method", json_of_opt_str (payment_method order));
   ("payment_transaction_id", json_of_opt_str (payment_transaction_id order));
   ("updated_at", JStr (isoformat (updated_at order)))].

Definition payment_event (payment_status : PaymentStatus.t) (order : Order)
    : option (Act KafkaProducer unit) :=
  match payment_status with
  | PaymentStatus.PAID => Some (publish_payment_completed_event (payment_event_data order))
  | PaymentStatus.FAILED =>
      Some (publish_payment_failed_event
              (dict_set "failure_reason" (JStr "Payment processing failed")
                 (payment_event_data order)))
  | _ => None
  end.

Definition update_payment_status (order_id : nat) (payment_update : PaymentUpdate.t)
    : Act World OrderResponse.t :=
  found <- OrderRepository.update_payment_status order_id
             (PaymentUpdate.payment_status payment_update)
             (PaymentUpdate.payment_transaction_id payment_update) ;;
  match found with
  | None => raise not_found
  | Some order =>
      order <- (if truthy_str (PaymentUpdate.payment_method payment_update) then
                  let order := set_payment_method (PaymentUpdate.payment_method payment_update)
                                 order in
                  Order_save order ;; ret order
                else ret order) ;;
      match payment_event (PaymentUpdate.payment_status payment_update) order with
      | Some send => publish send
      | None => ret tt
      end ;;
      ret (_convert_to_response order)
  end.

(** *** [cancel_order] *)

Definition cancel_reason : string := "Cancelled by customer".

(** The detail of the refusal.  The status is written as its value, which
    is how an f-string formats a member of a [str] enumeration before
    Python 3.12. *)
Definition not_cancellable (order : Order) : exn :=
  HTTPException HTTP_400_BAD_REQUEST
    ("Order cannot be cancelled in " +:+ OrderStatus.value (status order) +:+ " status").

Definition cancel_event_data (cancelled_order : Order) : dict :=
  event_head cancelled_order ++
  [("cancellation_reason", JStr cancel_reason);
   ("updated_at", JStr (isoformat (updated_at cancelled_order)))].

Definition cancel_order (order_id : nat) (user_token : string) : Act World OrderResponse.t :=
  match verify_user_token user_token with
  | None => raise unauthorized
  | Some user_info =>
      found <- OrderRepository.get_order_by_id order_id ;;
      match found with
      | None => raise not_found
      | Some order =>
          if negb (bool_decide (user_id order = UserInfo.id user_info)) then raise access_denied
          else if negb (is_cancellable order) then raise (not_cancellable order)
          else
            cancelled <- OrderRepository.update_order_status order_id OrderStatus.CANCELLED
                           (Some cancel_reason) ;;
            match cancelled with
            | None =>
                raise (PyException "AttributeError" "'NoneType' object has no attribute 'id'")
            | Some cancelled_order =>
                publish (publish_order_cancelled_event (cancel_event_data cancelled_order)) ;;
                ret (_convert_to_response cancelled_order)
            end
      end
  end.

(** ** The pure content of the handlers *)

(** The state after a publish helper has run on the producer. *)
Definition published (c : Act KafkaProducer unit) (w : World) : World :=
  with_kafka_producer (state_after c (kafka_producer w)) w.

(** The order number generated in state [w]. *)
Definition order_number_at (w : World) : string :=
  "ORD-" +:+ strftime (clock w) +:+ "-" +:+ upper (String.substring 0 8 (uuid4 (draws w))).

(** The address document [create_order] stores in state [w]. *)
Definition placed_address (order_data : OrderCreate.t) (w : World) : ShippingAddress :=
  (coll_insert (new_ShippingAddress (OrderCreate.shipping_address order_data))
     (shipping_addresses w)).1.

(** The order document [create_order] builds in state [w] from the lines
    and the subtotal of the loop, before it has an identifier. *)
Definition placed_document (order_data : OrderCreate.t) (user_info : UserInfo.t)
    (order_items : list OrderItem) (subtotal : Q) (w : World) : Order :=
  new_Order
    (order_dict order_data (order_number_at w) (UserInfo.id user_info)
       (UserInfo.email user_info) order_items subtotal (tax_of subtotal)
       (shipping_of subtotal) (subtotal + tax_of subtotal + shipping_of subtotal)%Q
       (placed_address order_data w))
    (S (clock w)) (S (S (clock w))).

(** The order as stored and returned. *)
Definition placed (order_data : OrderCreate.t) (user_info : UserInfo.t)
    (order_items : list OrderItem) (subtotal : Q) (w : World) : Order :=
  set_id (Some (next_id (orders w)))
    (placed_document order_data user_info order_items subtotal w).

(** The state a successful [create_order] leaves: one address and one
    order inserted, three readings of the clock, one draw, one publish. *)
Definition after_placed (order_data : OrderCreate.t) (user_info : UserInfo.t)
    (order_items : list OrderItem) (subtotal : Q) (w : World) : World :=
  published
    (publish_order_created_event
       (created_event_data (placed order_data user_info order_items subtotal w)))
    (mkWorld
       (coll_insert (placed_document order_data user_info order_items subtotal w) (orders w)).2
       (coll_insert (new_ShippingAddress (OrderCreate.shipping_address order_data))
          (shipping_addresses w)).2
       (kafka_producer w) (S (S (S (clock w)))) (S (draws w))).

(** ** Publishing never fails the caller *)

Lemma publish_run c w :
  result_of c (kafka_producer w) = Ok tt -> publish c w = (Ok tt, published c w).
Proof.
  unfold publish, zoom, published, result_of, state_after.
  destruct (c (kafka_producer w)); simpl. by intros ->.
Qed.

Lemma publish_order_event_total data order_data k :
  result_of (publish_order_event data order_data) k = Ok tt.
Proof. helper_total. Qed.

Lemma publish_order_event_run data order_data w :
  publish (publish_order_event data order_data) w =
  (Ok tt, published (publish_order_event data order_data) w).
Proof. apply publish_run, publish_order_event_total. Qed.

(** Each helper is a [send_event]; the dictionary it is given is left as
    it is. *)
Lemma confirmed_event_total d k : result_of (publish_order_confirmed_event d) k = Ok tt.
Proof. helper_total. Qed.

Lemma cancelled_event_total d k : result_of (publish_order_cancelled_event d) k = Ok tt.
Proof. helper_total. Qed.

Lemma shipped_event_total d k : result_of (publish_order_shipped_event d) k = Ok tt.
Proof. helper_total. Qed.

Lemma delivered_event_total d k : result_of (publish_order_delivered_event d) k = Ok tt.
Proof. helper_total. Qed.

Lemma payment_completed_event_total d k :
  result_of (publish_payment_completed_event d) k = Ok tt.
Proof. helper_total. Qed.

Lemma payment_failed_event_total d k : result_of (publish_payment_failed_event d) k = Ok tt.
Proof. helper_total. Qed.

Lemma status_event_total status notes order send k :
  status_event status notes order = Some send -> result_of send k = Ok tt.
Proof.
  unfold status_event. destruct status; try discriminate; intros E; injection E as <-;
    auto using confirmed_event_total, cancelled_event_total, shipped_event_total,
      delivered_event_total.
Qed.

Lemma payment_event_total ps order send k :
  payment_event ps order = Some send -> result_of send k = Ok tt.
Proof.
  unfold payment_event. destruct ps; try discriminate; intros E; injection E as <-;
    auto using payment_completed_event_total, payment_failed_event_total.
Qed.

(** A publish changes the producer and nothing else. *)
Lemma published_orders c w : orders (published c w) = orders w.
Proof. done. Qed.

Lemma published_shipping_addresses c w :
  shipping_addresses (published c w) = shipping_addresses w.
Proof. done. Qed.

Lemma published_clock c w : clock (published c w) = clock w.
Proof. done. Qed.

Lemma published_wf c w : OrderRepository.world_wf w -> OrderRepository.world_wf (published c w).
Proof. done. Qed.

(** ** [create_order] computed *)

Lemma _generate_order_number_run w :
  _generate_order_number w =
  (Ok (order_number_at w), with_draws (S (draws w)) (with_clock (S (clock w)) w)).
Proof. done. Qed.

(** An invalid token: 401, and nothing has happened. *)
Lemma create_order_body_unauthorized order_data user_token w :
  verify_user_token user_token = None ->
  create_order_body order_data user_token w = (Raise unauthorized, w).
Proof. intros Hv. unfold create_order_body. by rewrite Hv. Qed.

(** A failed reservation: 400 with the reasons, and nothing has happened. *)
Lemma create_order_body_reservation_failed order_data user_token user_info w :
  verify_user_token user_token = Some user_info ->
  ReservationResult.success (reserve_products (requested_lines order_data)) = false ->
  create_order_body order_data user_token w =
  (Raise (HTTPException HTTP_400_BAD_REQUEST
            (reservation_failed_detail
               (ReservationResult.reservations (reserve_products (requested_lines order_data))))),
   w).
Proof. intros Hv Hs. unfold create_order_body. by rewrite Hv, Hs. Qed.

(** The loop raises: the exception leaves the body, and nothing has
    happened. *)
Lemma create_order_body_items_raise order_data user_token user_info e w :
  verify_user_token user_token = Some user_info ->
  ReservationResult.success (reserve_products (requested_lines order_data)) = true ->
  build_items
    (zip (OrderCreate.items order_data)
       (ReservationResult.reservations (reserve_products (requested_lines order_data))))
    [] 0%Q = Raise e ->
  create_order_body order_data user_token w = (Raise e, w).
Proof.
  intros Hv Hs Hb. unfold create_order_body. rewrite Hv, Hs. cbn [negb].
  unfold bind at 1. unfold of_res at 1. by rewrite Hb.
Qed.

(** The successful path. *)
Lemma create_order_body_run order_data user_token user_info order_items subtotal w :
  verify_user_token user_token = Some user_info ->
  ReservationResult.success (reserve_products (requested_lines order_data)) = true ->
  build_items
    (zip (OrderCreate.items order_data)
       (ReservationResult.reservations (reserve_products (requested_lines order_data))))
    [] 0%Q = Ok (order_items, subtotal) ->
  create_order_body order_data user_token w =
  (Ok (_convert_to_response (placed order_data user_info order_items subtotal w)),
   after_placed order_data user_info order_items subtotal w).
Proof.
  intros Hv Hs Hb. unfold create_order_body. rewrite Hv, Hs. cbn [negb].
  unfold bind at 1. unfold of_res at 1. rewrite Hb. cbn [fst snd].
  unfold bind at 1. unfold ShippingAddress_insert at 1. cbn [coll_insert fst snd].
  rewrite (bind_ok _ _ _ _ _ (_generate_order_number_run _)).
  rewrite (bind_ok _ _ _ _ _ (OrderRepository.create_order_run _ _)).
  unfold publish_order_created_event.
  rewrite (bind_ok _ _ _ _ _ (publish_order_event_run _ _ _)).
  done.
Qed.

(** ** The loop over the lines *)

(** What the loop returns: the lines it was given followed by one
    well-formed line per reserved request, and the running sum of their
    totals. *)
Lemma build_items_spec lines acc s order_items s' :
  build_items lines acc s = Ok (order_items, s') ->
  exists new, order_items = acc ++ new /\ s' = fold_left Qplus (total_price <$> new) s /\
    Forall item_ok new /\ length new <= length lines.
Proof.
  revert acc s. induction lines as [|[item_data r] lines IH]; intros acc s; simpl.
  - intros [= <- <-]. exists []. by rewrite app_nil_r.
  - destruct (Reservation.reserved r).
    + destruct (Reservation.product r) as [p|]; [|done].
      destruct (new_OrderItem _ _ _ _ _ _ _) as [i|e] eqn:Hi; [|done].
      intros (new & -> & -> & Hall & Hlen)%IH. exists (i :: new).
      rewrite <- app_assoc. split_and!; [done|done| |simpl; lia].
      constructor; [by eapply new_OrderItem_ok | done].
    + intros (new & -> & -> & Hall & Hlen)%IH. exists new. split_and!; try done. lia.
Qed.

(** The loop raises nothing but Python exceptions that are not
    [HTTPException]s. *)
Lemma build_items_raise lines acc s e :
  build_items lines acc s = Raise e -> is_http e = false.
Proof.
  revert acc s. induction lines as [|[item_data r] lines IH]; intros acc s; simpl; [done|].
  destruct (Reservation.reserved r); [|apply IH].
  destruct (Reservation.product r) as [p|]; [|by intros [= <-]].
  unfold new_OrderItem. case_decide; [apply IH | by intros [= <-]].
Qed.

(** The condition under which a line builds: reserved with its product,
    for a positive quantity. *)
Definition line_builds (line : OrderItemCreate.t * Reservation.t) : Prop :=
  Reservation.reserved line.2 = true /\ is_Some (Reservation.product line.2) /\
  (0 < OrderItemCreate.quantity line.1)%Z.

Lemma build_items_ok lines acc s :
  Forall line_builds lines -> is_ok (build_items lines acc s) = true.
Proof.
  intros Hall. revert acc s.
  induction Hall as [|[item_data r] lines (Hr & [p Hp] & Hq) _ IH]; intros acc s; [done|].
  simpl in *. rewrite Hr, Hp. unfold new_OrderItem. rewrite decide_True by done. apply IH.
Qed.

Lemma Forall_zip_fmap {A B} (g : A -> B) (P : A * B -> Prop) (l : list A) :
  Forall (fun x => P (x, g x)) l -> Forall P (zip l (g <$> l)).
Proof. induction 1; csimpl; by constructor. Qed.

(** When the reservation succeeds on a valid request, every line builds. *)
Lemma success_lines_build order_data :
  OrderCreate.valid order_data = true ->
  ReservationResult.success (reserve_products (requested_lines order_data)) = true ->
  Forall line_builds
    (zip (OrderCreate.items order_data)
       (ReservationResult.reservations (reserve_products (requested_lines order_data)))).
Proof.
  intros Hvalid Hs. apply reserve_products_success in Hs.
  apply OrderCreate_valid_spec in Hvalid.
  unfold reserve_products in *. cbn [ReservationResult.reservations] in *.
  unfold requested_lines in *. rewrite <- list_fmap_compose in *.
  apply Forall_zip_fmap. rewrite Forall_fmap in Hs. rewrite Forall_forall in *.
  intros d Hd. specialize (Hs d Hd). specialize (Hvalid d Hd).
  unfold line_builds. cbn [fst snd compose] in *. split_and!; [done| |done].
  destruct (reserve_one_product _ Hs) as (p & Hp & _). by exists p.
Qed.

(** ** [create_order] on every branch *)

(** [create_order] as one equation: 401 on a bad token, 400 on a failed
    reservation, 500 when a line cannot be built, and otherwise the order
    placed; on every failure the state is the state of the call. *)
Lemma create_order_cases order_data user_token w :
  create_order order_data user_token w =
  match verify_user_token user_token with
  | None => (Raise unauthorized, w)
  | Some user_info =>
      let reservation_result := reserve_products (requested_lines order_data) in
      if ReservationResult.success reservation_result then
        match build_items (zip (OrderCreate.items order_data)
                             (ReservationResult.reservations reservation_result)) [] 0%Q with
        | Ok (order_items, subtotal) =>
            (Ok (_convert_to_response (placed order_data user_info order_items subtotal w)),
             after_placed order_data user_info order_items subtotal w)
        | Raise _ =>
            (Raise (HTTPException HTTP_500_INTERNAL_SERVER_ERROR "Failed to create order"), w)
        end
      else
        (Raise (HTTPException HTTP_400_BAD_REQUEST
                  (reservation_failed_detail (ReservationResult.reservations reservation_result))),
         w)
  end.
Proof.
  unfold create_order.
  destruct (verify_user_token user_token) as [u|] eqn:Hv.
  - cbn zeta. destruct (ReservationResult.success _) eqn:Hs.
    + destruct (build_items _ _ _) as [[order_items subtotal]|e] eqn:Hb.
      * by rewrite (try_except_ok _ _ _ _ _ (create_order_body_run _ _ _ _ _ _ Hv Hs Hb)).
      * rewrite (try_except_err _ _ _ _ _ (create_order_body_items_raise _ _ _ _ _ Hv Hs Hb)).
        by rewrite (build_items_raise _ _ _ _ Hb).
    + by rewrite (try_except_err _ _ _ _ _
                    (create_order_body_reservation_failed _ _ _ _ Hv Hs)).
  - by rewrite (try_except_err _ _ _ _ _ (create_order_body_unauthorized _ _ _ Hv)).
Qed.

(** ** The amounts of a placed order *)

Local Open Scope Q_scope.

#[export] Instance tax_of_comp : Proper (Qeq ==> eq) tax_of.
Proof. intros x y E. unfold tax_of. by rewrite E. Qed.

#[export] Instance shipping_of_comp : Proper (Qeq ==> eq) shipping_of.
Proof. intros x y E. unfold shipping_of. by rewrite E. Qed.

Lemma tax_of_is_cents s : is_cents (tax_of s).
Proof. apply round2_is_cents. Qed.

Lemma tax_of_nonneg s : 0 <= s -> 0 <= tax_of s.
Proof. intros Hs. apply round2_nonneg. unfold tax_rate. lra. Qed.

Lemma shipping_of_cases s :
  (s < 100 /\ shipping_of s = 10) \/ (100 <= s /\ shipping_of s = 0).
Proof.
  unfold shipping_of. destruct (Qltb s 100) eqn:E.
  - left. by apply Qltb_lt in E.
  - right. by apply Qltb_ge in E.
Qed.

Lemma shipping_of_is_cents s : is_cents (shipping_of s).
Proof.
  destruct (shipping_of_cases s) as [[_ ->]|[_ ->]]; [by exists 1000%Z | by exists 0%Z].
Qed.

Lemma shipping_of_nonneg s : 0 <= shipping_of s.
Proof. destruct (shipping_of_cases s) as [[_ ->]|[_ ->]]; done. Qed.

(** Eight percent of a whole number of hundredths is never halfway
    between two hundredths: the rounding of the tax never meets a tie. *)
Lemma tax_no_tie s : is_cents s -> ~ is_tie (s * tax_rate * 100).
Proof.
  intros [c Hc]. rewrite Hc. unfold is_tie.
  generalize (Qfloor ((c # 100) * tax_rate * 100)). intros f.
  unfold tax_rate, Qeq, Qminus, Qplus, Qopp, Qmult, inject_Z. simpl. lia.
Qed.

(** The subtotal the loop accumulates is the sum of the line totals, and
    the subtotal the validator stores is that sum again. *)
Lemma build_items_subtotal lines order_items s :
  build_items lines [] 0 = Ok (order_items, s) ->
  s = qsum (total_price <$> order_items) /\ Forall item_ok order_items /\
  (length order_items <= length lines)%nat.
Proof. intros (new & -> & -> & Hall & Hlen)%build_items_spec. done. Qed.

Lemma item_ok_total_price_is_cents i : item_ok i -> is_cents (total_price i).
Proof. intros [_ ->]. apply calculate_total_price_is_cents. Qed.

Lemma items_subtotal_is_cents order_items :
  Forall item_ok order_items -> is_cents (qsum (total_price <$> order_items)).
Proof.
  intros Hall. apply is_cents_qsum, Forall_fmap.
  eapply Forall_impl; [done|]. apply item_ok_total_price_is_cents.
Qed.

Lemma calculate_subtotal_qsum order_items :
  Forall item_ok order_items ->
  calculate_subtotal (qsum (total_price <$> order_items)) order_items ==
  qsum (total_price <$> order_items).
Proof.
  intros Hall. destruct order_items as [|i l]; [done|].
  by apply calculate_subtotal_sum.
Qed.

Lemma items_subtotal_nonneg order_items :
  Forall item_ok order_items -> Forall (fun i => 0 <= unit_price i) order_items ->
  0 <= qsum (total_price <$> order_items).
Proof.
  intros Hok Hp. apply qsum_nonneg, Forall_fmap.
  rewrite Forall_forall in *. intros i Hi. destruct (Hok i Hi) as [Hq Ht].
  simpl. rewrite Ht. apply calculate_total_price_nonneg; [by apply Hp | lia].
Qed.

(** The unit price of a line is the price of the product reserved for it. *)
Lemma build_items_prices (P : Q -> Prop) lines acc s order_items s' :
  Forall (fun line => forall p, Reservation.product line.2 = Some p -> P (ProductInfo.price p))
    lines ->
  build_items lines acc s = Ok (order_items, s') ->
  Forall (fun i => P (unit_price i)) acc -> Forall (fun i => P (unit_price i)) order_items.
Proof.
  intros Hall. revert acc s.
  induction Hall as [|[item_data r] lines Hr _ IH]; intros acc s; simpl.
  - by intros [= <- <-].
  - destruct (Reservation.reserved r); [|apply IH].
    destruct (Reservation.product r) as [p|] eqn:Hp; [|done].
    unfold new_OrderItem. case_decide; [|done]. intros Hb Hacc.
    apply (IH _ _ Hb), Forall_app. split; [done|]. apply Forall_singleton, Hr, Hp.
Qed.

(** The prices of a placed order are prices the product service answered. *)
Lemma reserved_prices (P : Q -> Prop) items :
  (forall pid p, get_product_by_id pid = Some p -> P (ProductInfo.price p)) ->
  forall l : list OrderItemCreate.t,
  Forall (fun line : OrderItemCreate.t * Reservation.t =>
            forall p, Reservation.product line.2 = Some p -> P (ProductInfo.price p))
    (zip l (ReservationResult.reservations (reserve_products items))).
Proof.
  intros HP l. apply Forall_forall. intros [d r] Hin p Hp. simpl in *.
  apply elem_of_zip_r in Hin. unfold reserve_products in Hin. simpl in Hin.
  apply list_elem_of_fmap in Hin as (item & -> & _).
  eapply HP, reserve_one_product_lookup, Hp.
Qed.

(** *** The order placed from well-formed lines *)

Section Placed.
Context (order_data : OrderCreate.t) (user_info : UserInfo.t) (w : World).
Context (order_items : list OrderItem) (Hitems : Forall item_ok order_items).

Lemma placed_subtotal :
  subtotal (placed order_data user_info order_items (qsum (total_price <$> order_items)) w)
  == qsum (total_price <$> order_items).
Proof. by apply calculate_subtotal_qsum. Qed.

Lemma placed_tax_amount :
  let o := placed order_data user_info order_items (qsum (total_price <$> order_items)) w in
  tax_amount o = tax_of (subtotal o).
Proof. simpl. apply tax_of_comp. symmetry. by apply calculate_subtotal_qsum. Qed.

Lemma placed_shipping_cost :
  let o := placed order_data user_info order_items (qsum (total_price <$> order_items)) w in
  shipping_cost o = shipping_of (subtotal o).
Proof. simpl. apply shipping_of_comp. symmetry. by apply calculate_subtotal_qsum. Qed.

Lemma placed_amounts_ok s : amounts_ok (placed order_data user_info order_items s w).
Proof. by apply (new_Order_amounts_ok (order_dict _ _ _ _ _ _ _ _ _ _)). Qed.

(** The total is the sum of its parts: nothing is lost to rounding or to
    the floor at zero. *)
Lemma placed_total_amount :
  let o := placed order_data user_info order_items (qsum (total_price <$> order_items)) w in
  0 <= qsum (total_price <$> order_items) ->
  total_amount o == subtotal o + tax_amount o + shipping_cost o.
Proof.
  intros o Hs. subst o. set (s := qsum (total_price <$> order_items)) in *.
  change (calculate_total_amount (calculate_subtotal s order_items) (tax_of s)
            (shipping_of s) 0 ==
          calculate_subtotal s order_items + tax_of s + shipping_of s).
  pose proof (calculate_subtotal_qsum _ Hitems) as Hsub. fold s in Hsub.
  pose proof (tax_of_nonneg _ Hs). pose proof (shipping_of_nonneg s).
  rewrite calculate_total_amount_exact;
    [ring | | apply tax_of_is_cents | apply shipping_of_is_cents | apply is_cents_0 | ].
  - rewrite Hsub. by apply items_subtotal_is_cents.
  - rewrite Hsub. lra.
Qed.

End Placed.

(** The total written as one rounding of the exact sum, with the tax not
    rounded first, is the same amount. *)
Lemma total_one_rounding s :
  is_cents s ->
  round2 (s + tax_rate * s + shipping_of s) == s + tax_of s + shipping_of s.
Proof.
  intros Hs.
  assert (s + tax_rate * s + shipping_of s == (s + shipping_of s) + s * tax_rate) as E by ring.
  rewrite (round2_comp _ _ E).
  rewrite round2_add_cents; [unfold tax_of; ring | | by apply tax_no_tie].
  apply is_cents_plus; [done | apply shipping_of_is_cents].
Qed.

(** When every line builds, the order holds the requested lines, in the
    order of the request. *)
Lemma build_items_lines lines acc s order_items s' :
  Forall line_builds lines ->
  build_items lines acc s = Ok (order_items, s') ->
  (fun i => (product_id i, quantity i)) <$> order_items =
  ((fun i => (product_id i, quantity i)) <$> acc) ++
  ((fun line : OrderItemCreate.t * Reservation.t =>
      (OrderItemCreate.product_id line.1, OrderItemCreate.quantity line.1)) <$> lines).
Proof.
  intros Hall. revert acc s.
  induction Hall as [|[item_data r] lines (Hr & [p Hp] & Hq) _ IH]; intros acc s; simpl in *.
  - intros [= <- <-]. by rewrite app_nil_r.
  - rewrite Hr, Hp. unfold new_OrderItem. rewrite decide_True by done.
    intros Hb. rewrite (IH _ _ Hb), fmap_app, <- app_assoc. done.
Qed.

Lemma fmap_zip_fmap_fst {A B C} (h : A -> C) (k : A -> B) (l : list A) :
  (fun line : A * B => h line.1) <$> zip l (k <$> l) = h <$> l.
Proof. induction l; csimpl; congruence. Qed.

(** What a successful [create_order] has computed: the lines and the
    subtotal of the loop behind the response. *)
Lemma create_order_Ok_inv order_data user_token w resp :
  result_of (create_order order_data user_token) w = Ok resp ->
  exists user_info order_items,
    verify_user_token user_token = Some user_info /\
    build_items (zip (OrderCreate.items order_data)
                   (ReservationResult.reservations
                      (reserve_products (requested_lines order_data)))) [] 0
    = Ok (order_items, qsum (total_price <$> order_items)) /\
    Forall item_ok order_items /\
    resp = _convert_to_response
             (placed order_data user_info order_items (qsum (total_price <$> order_items)) w) /\
    state_after (create_order order_data user_token) w =
    after_placed order_data user_info order_items (qsum (total_price <$> order_items)) w.
Proof.
  unfold result_of, state_after. rewrite create_order_cases.
  destruct (verify_user_token user_token) as [u|]; [|done]. cbn zeta.
  destruct (ReservationResult.success _); [|done].
  destruct (build_items _ _ _) as [[order_items s]|] eqn:Hb; [|done].
  destruct (build_items_subtotal _ _ _ Hb) as (-> & Hok & _).
  intros [= <-]. by exists u, order_items.
Qed.

(** C1.  For every request on which [create_order] succeeds (the peers'
    prices being non-negative), the order returned has a subtotal equal to
    the sum of its line totals, a tax of 8 percent of the subtotal rounded
    to hundredths, a shipping cost of 10 below a subtotal of 100 and of 0
    from 100 on, and a total equal to the sum of the three, which is also
    the exact sum [subtotal + 0.08 * subtotal + shipping] rounded once. *)
Theorem create_order_totals order_data user_token w resp :
  (forall pid p, get_product_by_id pid = Some p -> 0 <= ProductInfo.price p) ->
  result_of (create_order order_data user_token) w = Ok resp ->
  let subtotal := OrderResponse.subtotal resp in
  let shipping := if Qltb subtotal 100 then 10 else 0 in
  subtotal == qsum (OrderItemResponse.total_price <$> OrderResponse.items resp) /\
  OrderResponse.tax_amount resp = round2 (subtotal * (8 # 100)) /\
  OrderResponse.shipping_cost resp = shipping /\
  OrderResponse.total_amount resp == subtotal + OrderResponse.tax_amount resp + shipping /\
  OrderResponse.total_amount resp == round2 (subtotal + (8 # 100) * subtotal + shipping).
Proof.
  intros Hprice (u & order_items & _ & Hb & Hok & -> & _)%create_order_Ok_inv.
  set (s := qsum (total_price <$> order_items)) in *.
  set (o := placed order_data u order_items s w).
  assert (0 <= s) as Hs.
  { apply items_subtotal_nonneg; [done|].
    eapply (build_items_prices (fun q => 0 <= q)); [by apply reserved_prices | done | done]. }
  pose proof (placed_subtotal order_data u w order_items Hok) as Hsub.
  pose proof (placed_tax_amount order_data u w order_items Hok) as Htax.
  pose proof (placed_shipping_cost order_data u w order_items Hok) as Hship.
  pose proof (placed_total_amount order_data u w order_items Hok Hs) as Htot.
  cbv zeta in *. fold s in Hsub, Htax, Hship, Htot. fold o in Hsub, Htax, Hship, Htot.
  change (subtotal o == qsum (OrderItemResponse.total_price <$> (item_response <$> items o)) /\
          tax_amount o = tax_of (subtotal o) /\ shipping_cost o = shipping_of (subtotal o) /\
          total_amount o == subtotal o + tax_amount o + shipping_of (subtotal o) /\
          total_amount o ==
          round2 (subtotal o + tax_rate * subtotal o + shipping_of (subtotal o))).
  rewrite <- list_fmap_compose.
  split_and!; [done | done | done | by rewrite <- Hship | ].
  rewrite total_one_rounding, Htot, <- Htax, <- Hship; [done|].
  rewrite Hsub. by apply items_subtotal_is_cents.
Qed.

Local Close Scope Q_scope.

(** *** The state after an order is placed *)

Lemma after_placed_stored order_data user_info order_items s w :
  coll_wf (orders w) ->
  let w' := after_placed order_data user_info order_items s w in
  coll_get (next_id (orders w)) (orders w') =
    Some (placed order_data user_info order_items s w) /\
  forall j, j <> next_id (orders w) -> coll_get j (orders w') = coll_get j (orders w).
Proof.
  intros Hwf. split; [exact (coll_get_insert_new _ _ Hwf)|].
  intros j Hne. exact (coll_get_insert_old _ _ _ Hne).
Qed.

Lemma after_placed_address order_data user_info order_items s w :
  coll_wf (shipping_addresses w) ->
  coll_get (next_id (shipping_addresses w))
    (shipping_addresses (after_placed order_data user_info order_items s w)) =
  Some (shipping_address (placed order_data user_info order_items s w)).
Proof. intros Hwf. exact (coll_get_insert_new _ _ Hwf). Qed.

Lemma after_placed_wf order_data user_info order_items s w :
  OrderRepository.world_wf w ->
  OrderRepository.world_wf (after_placed order_data user_info order_items s w).
Proof.
  intros (Ho & Ha & Ht). apply published_wf.
  split_and!; [exact (coll_insert_wf _ _ Ho) | exact (coll_insert_wf _ _ Ha) | ].
  cbn [orders clock]. rewrite coll_insert_docs. apply Forall_app. split.
  - eapply Forall_impl; [done|]. cbn beta. intros x [? ?]. lia.
  - apply Forall_singleton. cbn. lia.
Qed.

(** C6.  A failed [create_order] creates nothing: whatever it raises, the
    state is the state of the call (no order, no address, no message, no
    reading of the clock), and what it raises is an [HTTPException] with
    status 401, 400 or 500. *)
Theorem create_order_no_partial_order order_data user_token w e :
  result_of (create_order order_data user_token) w = Raise e ->
  state_after (create_order order_data user_token) w = w /\
  is_http e = true /\
  exn_status e ∈ [HTTP_401_UNAUTHORIZED; HTTP_400_BAD_REQUEST; HTTP_500_INTERNAL_SERVER_ERROR].
Proof.
  unfold result_of, state_after. rewrite create_order_cases.
  destruct (verify_user_token user_token) as [u|]; cbn zeta.
  - destruct (ReservationResult.success _).
    + destruct (build_items _ _ _) as [[order_items s]|]; [done|].
      intros [= <-]. split_and!; [done..|]. repeat constructor.
    + intros [= <-]. split_and!; [done..|]. repeat constructor.
  - intros [= <-]. split_and!; [done..|]. repeat constructor.
Qed.

(** C7.  A valid request with a valid token whose lines can all be served
    succeeds: the order is stored under a fresh identifier as pending and
    unpaid, for the user of the token, with the requested lines in the
    order of the request and the address stored beside it; the orders
    stored before are untouched and the state stays well formed. *)
Theorem create_order_succeeds order_data user_token user_info w :
  OrderRepository.world_wf w ->
  verify_user_token user_token = Some user_info ->
  OrderCreate.valid order_data = true ->
  Forall (fun line => exists p, can_serve line.1 line.2 p) (requested_lines order_data) ->
  let w' := state_after (create_order order_data user_token) w in
  exists order,
    result_of (create_order order_data user_token) w = Ok (_convert_to_response order) /\
    coll_get (next_id (orders w)) (orders w') = Some order /\
    id order = Some (next_id (orders w)) /\
    status order = OrderStatus.PENDING /\ payment_status order = PaymentStatus.PENDING /\
    user_id order = UserInfo.id user_info /\ user_email order = UserInfo.email user_info /\
    (fun i => (product_id i, quantity i)) <$> items order = requested_lines order_data /\
    amounts_ok order /\
    coll_get (next_id (shipping_addresses w)) (shipping_addresses w') =
      Some (shipping_address order) /\
    (forall j, j <> next_id (orders w) -> coll_get j (orders w') = coll_get j (orders w)) /\
    OrderRepository.world_wf w'.
Proof.
  intros Hwf Hv Hvalid Hs%reserve_products_success_can_serve w'.
  subst w'. unfold result_of, state_after.
  rewrite create_order_cases, Hv. cbn zeta. rewrite Hs.
  pose proof (success_lines_build _ Hvalid Hs) as Hlines.
  pose proof (build_items_ok _ [] 0%Q Hlines) as Hok.
  destruct (build_items _ _ _) as [[order_items s]|] eqn:Hb; [|done].
  destruct (build_items_subtotal _ _ _ Hb) as (-> & Hitems & _).
  destruct Hwf as (Ho & Ha & Ht).
  eexists. split_and!; try done.
  - exact (coll_get_insert_new _ _ Ho).
  - cbn. rewrite (build_items_lines _ _ _ _ _ Hlines Hb). cbn.
    unfold requested_lines. rewrite <- list_fmap_compose.
    apply (fmap_zip_fmap_fst
             (fun i => (OrderItemCreate.product_id i, OrderItemCreate.quantity i))).
  - by apply placed_amounts_ok.
  - exact (coll_get_insert_new _ _ Ha).
  - intros j Hne. exact (coll_get_insert_old _ _ _ Hne).
  - by apply after_placed_wf.
Qed.

(** ** The lifecycle handlers on every branch *)

(** The state after the repository has stored a status update of [o]. *)
Definition status_stored (status : OrderStatus.t) (notes : option string) (o : Order)
    (w : World) : World :=
  with_orders
    (coll_save (OrderRepository.status_updated status notes (clock w) o) (orders w))
    (with_clock (OrderRepository.status_updated_clock status notes (clock w) o) w).

(** The state after an optional publish. *)
Definition published_opt (send : option (Act KafkaProducer unit)) (w : World) : World :=
  match send with Some c => published c w | None => w end.

Lemma publish_opt_run send w :
  (forall c k, send = Some c -> result_of c k = Ok tt) ->
  (match send with Some c => publish c | None => ret tt end) w = (Ok tt, published_opt send w).
Proof. intros Ht. destruct send as [c|]; [|done]. apply publish_run. by apply Ht. Qed.

Lemma status_stored_get status notes o order_id w :
  coll_get order_id (orders w) = Some o ->
  coll_get order_id (orders (status_stored status notes o w)) =
    Some (OrderRepository.status_updated status notes (clock w) o) /\
  forall j, j <> order_id ->
    coll_get j (orders (status_stored status notes o w)) = coll_get j (orders w).
Proof.
  intros Hget.
  pose proof (OrderRepository.update_order_status_stored order_id status notes w o Hget) as Hst.
  unfold state_after in Hst.
  by rewrite (OrderRepository.update_order_status_run _ _ _ _ _ Hget) in Hst.
Qed.

Lemma status_stored_wf status notes o order_id w :
  coll_get order_id (orders w) = Some o ->
  OrderRepository.world_wf w -> OrderRepository.world_wf (status_stored status notes o w).
Proof.
  intros Hget Hwf.
  pose proof (OrderRepository.update_order_status_wf order_id status notes w Hwf) as Hst.
  unfold state_after in Hst.
  by rewrite (OrderRepository.update_order_status_run _ _ _ _ _ Hget) in Hst.
Qed.

Lemma cancel_order_cases order_id user_token w :
  cancel_order order_id user_token w =
  match verify_user_token user_token with
  | None => (Raise unauthorized, w)
  | Some user_info =>
      match coll_get order_id (orders w) with
      | None => (Raise not_found, w)
      | Some order =>
          if negb (bool_decide (user_id order = UserInfo.id user_info))
          then (Raise access_denied, w)
          else if negb (is_cancellable order) then (Raise (not_cancellable order), w)
          else
            let cancelled_order :=
              OrderRepository.status_updated OrderStatus.CANCELLED (Some cancel_reason)
                (clock w) order in
            (Ok (_convert_to_response cancelled_order),
             published (publish_order_cancelled_event (cancel_event_data cancelled_order))
               (status_stored OrderStatus.CANCELLED (Some cancel_reason) order w))
      end
  end.
Proof.
  unfold cancel_order. destruct (verify_user_token user_token) as [u|]; [|done].
  unfold OrderRepository.get_order_by_id. rewrite (bind_ok _ _ _ _ _ (OrderRepository.Order_get_run _ _)).
  destruct (coll_get order_id (orders w)) as [o|] eqn:Hget; [|done].
  destruct (negb (bool_decide _)); [done|]. destruct (negb (is_cancellable o)); [done|].
  rewrite (bind_ok _ _ _ _ _ (OrderRepository.update_order_status_run _ _ _ _ _ Hget)).
  rewrite (bind_ok _ _ _ _ _ (publish_run _ _ (cancelled_event_total _ _))). done.
Qed.

Lemma update_order_status_cases order_id status_update w :
  update_order_status order_id status_update w =
  let status := OrderStatusUpdate.status status_update in
  let notes := OrderStatusUpdate.notes status_update in
  match coll_get order_id (orders w) with
  | None => (Raise not_found, w)
  | Some order =>
      let order' := OrderRepository.status_updated status notes (clock w) order in
      (Ok (_convert_to_response order'),
       published_opt (status_event status notes order') (status_stored status notes order w))
  end.
Proof.
  unfold update_order_status. cbn zeta.
  destruct (coll_get order_id (orders w)) as [o|] eqn:Hget.
  - rewrite (bind_ok _ _ _ _ _ (OrderRepository.update_order_status_run _ _ _ _ _ Hget)).
    rewrite (bind_ok _ _ _ _ _ (publish_opt_run _ _
               (fun c k E => status_event_total _ _ _ c k E))). done.
  - by rewrite (bind_ok _ _ _ _ _ (OrderRepository.update_order_status_missing _ _ _ _ Hget)).
Qed.

(** The order and the state after [update_payment_status] has stored the
    payment status and, when one is given, the payment method. *)
Definition payment_recorded (payment_update : PaymentUpdate.t) (now : nat) (o : Order) : Order :=
  let o1 := OrderRepository.payment_updated (PaymentUpdate.payment_status payment_update)
              (PaymentUpdate.payment_transaction_id payment_update) now o in
  if truthy_str (PaymentUpdate.payment_method payment_update)
  then set_payment_method (PaymentUpdate.payment_method payment_update) o1 else o1.

Definition payment_stored (payment_update : PaymentUpdate.t) (o : Order) (w : World) : World :=
  let o1 := OrderRepository.payment_updated (PaymentUpdate.payment_status payment_update)
              (PaymentUpdate.payment_transaction_id payment_update) (clock w) o in
  let w1 := with_orders (coll_save o1 (orders w)) (with_clock (S (clock w)) w) in
  if truthy_str (PaymentUpdate.payment_method payment_update)
  then with_orders (coll_save (payment_recorded payment_update (clock w) o) (orders w1)) w1
  else w1.

Lemma update_payment_status_cases order_id payment_update w :
  update_payment_status order_id payment_update w =
  match coll_get order_id (orders w) with
  | None => (Raise not_found, w)
  | Some order =>
      let order' := payment_recorded payment_update (clock w) order in
      (Ok (_convert_to_response order'),
       published_opt (payment_event (PaymentUpdate.payment_status payment_update) order')
         (payment_stored payment_update order w))
  end.
Proof.
  unfold update_payment_status.
  destruct (coll_get order_id (orders w)) as [o|] eqn:Hget.
  - rewrite (bind_ok _ _ _ _ _ (OrderRepository.update_payment_status_run _ _ _ _ _ Hget)).
    unfold payment_stored. unfold payment_recorded. cbn zeta.
    destruct (truthy_str (PaymentUpdate.payment_method payment_update)).
    + unfold bind at 1. unfold bind at 1. rewrite OrderRepository.Order_save_run. unfold ret at 1.
      rewrite (bind_ok _ _ _ _ _ (publish_opt_run _ _
                 (fun c k E => payment_event_total _ _ c k E))). done.
    + rewrite bind_ret_l.
      rewrite (bind_ok _ _ _ _ _ (publish_opt_run _ _
                 (fun c k E => payment_event_total _ _ c k E))). done.
  - by rewrite (bind_ok _ _ _ _ _ (OrderRepository.update_payment_status_missing _ _ _ _ Hget)).
Qed.

Lemma get_order_by_id_cases order_id user_token w :
  get_order_by_id order_id user_token w =
  (match verify_user_token user_token with
   | None => Raise unauthorized
   | Some user_info =>
       match coll_get order_id (orders w) with
       | None => Raise not_found
       | Some order =>
           if bool_decide (user_id order = UserInfo.id user_info)
           then Ok (_convert_to_response order) else Raise access_denied
       end
   end, w).
Proof.
  unfold get_order_by_id. destruct (verify_user_token user_token) as [u|]; [|done].
  unfold OrderRepository.get_order_by_id. rewrite (bind_ok _ _ _ _ _ (OrderRepository.Order_get_run _ _)).
  destruct (coll_get order_id (orders w)) as [o|]; [|done]. by case_bool_decide.
Qed.

(** ** Cancellation *)

(** C3.  The owner of an order that is pending, confirmed or processing
    cancels it: the call succeeds, the order is stored as cancelled with a
    line for the reason appended to its notes, its lines and amounts are
    untouched, and so is every other order. *)
Theorem cancel_order_succeeds order_id user_token user_info order w :
  verify_user_token user_token = Some user_info ->
  coll_get order_id (orders w) = Some order ->
  user_id order = UserInfo.id user_info ->
  status order ∈ [OrderStatus.PENDING; OrderStatus.CONFIRMED; OrderStatus.PROCESSING] ->
  let w' := state_after (cancel_order order_id user_token) w in
  exists cancelled t,
    result_of (cancel_order order_id user_token) w = Ok (_convert_to_response cancelled) /\
    coll_get order_id (orders w') = Some cancelled /\
    status cancelled = OrderStatus.CANCELLED /\
    clock w < t /\
    notes cancelled =
      Some (if truthy_str (notes order)
            then default "" (notes order) +:+ newline +:+ isoformat t
                 +:+ ": Cancelled by customer"
            else isoformat t +:+ ": Cancelled by customer") /\
    OrderRepository.same_core order cancelled /\
    (forall j, j <> order_id -> coll_get j (orders w') = coll_get j (orders w)).
Proof.
  intros Hv Hget Hown Hst w'. subst w'. unfold result_of, state_after.
  rewrite cancel_order_cases, Hv, Hget, bool_decide_true by done. cbn [negb].
  assert (is_cancellable order = true) as -> by (by apply bool_decide_eq_true).
  cbn [negb fst snd]. rewrite published_orders.
  destruct (status_stored_get OrderStatus.CANCELLED (Some cancel_reason) _ _ _ Hget)
    as [Hnew Hold].
  destruct (OrderRepository.status_updated_notes_append OrderStatus.CANCELLED cancel_reason
              (clock w) order) as (t & line & Hlt & -> & Hnotes); [done|].
  eexists _, t. split_and!; [done | done | | done | | | done].
  - apply OrderRepository.status_updated_status.
  - rewrite Hnotes. by destruct (truthy_str (notes order)).
  - apply OrderRepository.status_updated_same_core.
Qed.

(** C4.  Cancelling an order that is shipped, delivered, cancelled or
    refunded is refused with status 400 and a detail naming the status;
    nothing is stored and nothing is published. *)
Theorem cancel_order_refused order_id user_token user_info order w :
  verify_user_token user_token = Some user_info ->
  coll_get order_id (orders w) = Some order ->
  user_id order = UserInfo.id user_info ->
  status order ∈ [OrderStatus.SHIPPED; OrderStatus.DELIVERED; OrderStatus.CANCELLED;
                  OrderStatus.REFUNDED] ->
  cancel_order order_id user_token w =
  (Raise (HTTPException HTTP_400_BAD_REQUEST
            ("Order cannot be cancelled in " +:+ OrderStatus.value (status order)
             +:+ " status")), w).
Proof.
  intros Hv Hget Hown Hst%is_cancellable_false.
  rewrite cancel_order_cases, Hv, Hget, bool_decide_true, Hst by done. done.
Qed.

(** The other refusals of [cancel_order], in the order the handler
    checks them: 401 on a token the user service does not accept, 404 on an
    unknown order, 403 on an order of another user; each leaves the state
    as it was. *)
Theorem cancel_order_denied order_id user_token w :
  (verify_user_token user_token = None ->
   cancel_order order_id user_token w = (Raise unauthorized, w)) /\
  (forall user_info, verify_user_token user_token = Some user_info ->
   coll_get order_id (orders w) = None ->
   cancel_order order_id user_token w = (Raise not_found, w)) /\
  (forall user_info order, verify_user_token user_token = Some user_info ->
   coll_get order_id (orders w) = Some order -> user_id order <> UserInfo.id user_info ->
   cancel_order order_id user_token w = (Raise access_denied, w)).
Proof.
  split_and!.
  - intros Hv. by rewrite cancel_order_cases, Hv.
  - intros u Hv Hget. by rewrite cancel_order_cases, Hv, Hget.
  - intros u o Hv Hget Hne. by rewrite cancel_order_cases, Hv, Hget, bool_decide_false.
Qed.

(** ** Events *)

(** The message a publish helper hands to the broker. *)
Definition order_message (event_data order_data : dict) : Message :=
  mkMessage order_topic (key_serializer (dict_get "id" order_data))
    (enriched_event order_service_name order_topic event_data).

Lemma published_broker event_data order_data w :
  let k := kafka_producer w in
  broker (kafka_producer (published (publish_order_event event_data order_data) w)) =
  if bool_decide (ready k) && net k (calls k)
  then broker k ++ [order_message event_data order_data] else broker k.
Proof. unfold publish_order_event. exact (send_event_broker_spec _ _ _ _ _). Qed.

(** C10.  A successful [create_order] hands the broker exactly one message
    when the producer is ready and the transport delivers, and none
    otherwise.  The message is on the topic [order-events], keyed by the
    identifier of the order; its payload says [order.created], while the
    [event_type] of its envelope is the name of the topic. *)
Theorem create_order_emits order_data user_token w resp :
  result_of (create_order order_data user_token) w = Ok resp ->
  let k := kafka_producer w in
  let k' := kafka_producer (state_after (create_order order_data user_token) w) in
  exists m,
    broker k' = (if bool_decide (ready k) && net k (calls k) then broker k ++ [m] else broker k) /\
    topic m = "order-events" /\
    key m = key_serializer (JStr (OrderResponse.id resp)) /\
    payload_event_type m = JStr "order.created" /\
    envelope_event_type m = JStr "order-events".
Proof.
  intros (u & order_items & _ & _ & _ & -> & ->)%create_order_Ok_inv. cbn zeta.
  eexists. split; [exact (send_event_broker_spec _ _ _ _ (kafka_producer w))|].
  by split_and!.
Qed.

(** C20.  Emission is best effort: whatever the state of the producer
    (disabled, without client, stopped, with a failing transport),
    [create_order] returns the same result and stores the same orders and
    addresses. *)
Theorem create_order_event_best_effort order_data user_token w k :
  let run w := create_order order_data user_token w in
  (run (with_kafka_producer k w)).1 = (run w).1 /\
  orders (run (with_kafka_producer k w)).2 = orders (run w).2 /\
  shipping_addresses (run (with_kafka_producer k w)).2 = shipping_addresses (run w).2.
Proof.
  cbn zeta. rewrite !create_order_cases.
  destruct (verify_user_token user_token) as [u|]; [|done]. cbn zeta.
  destruct (ReservationResult.success _); [|done].
  by destruct (build_items _ _ _) as [[order_items s]|].
Qed.

(** ** Reads *)

(** C36.  [get_order_by_id] returns an order only to its owner: when it
    succeeds the token is one the user service accepts, the order is stored
    and belongs to the user of the token; the state is not changed. *)
Theorem get_order_by_id_owner_only order_id user_token w resp :
  result_of (get_order_by_id order_id user_token) w = Ok resp ->
  exists user_info order,
    verify_user_token user_token = Some user_info /\
    coll_get order_id (orders w) = Some order /\
    user_id order = UserInfo.id user_info /\
    resp = _convert_to_response order /\
    state_after (get_order_by_id order_id user_token) w = w.
Proof.
  unfold result_of, state_after. rewrite get_order_by_id_cases. cbn [fst snd].
  destruct (verify_user_token user_token) as [u|]; [|done].
  destruct (coll_get order_id (orders w)) as [o|]; [|done].
  case_bool_decide; [|done]. intros [= <-]. by exists u, o.
Qed.

Lemma matches_user_id user_id status o :
  user_id <> "" ->
  OrderRepository.matches status None (Some user_id) o =
  OrderRepository.matches_user user_id status o.
Proof.
  intros Hne. unfold OrderRepository.matches, OrderRepository.matches_user.
  rewrite (proj2 (truthy_str_Some user_id) Hne), andb_true_r, andb_comm. f_equal.
  apply bool_decide_ext. naive_solver.
Qed.

Lemma get_user_orders_cases user_token status page per_page w :
  get_user_orders user_token status page per_page w =
  (match verify_user_token user_token with
   | None => Raise unauthorized
   | Some user_info =>
       if decide (page = 0 /\ per_page <> 0) then Raise negative_skip
       else if decide (per_page = 0) then Raise zero_division
       else
         let total := coll_count (OrderRepository.matches status None
                                    (Some (UserInfo.id user_info))) (orders w) in
         Ok (OrderListResponse.mk
               (_convert_to_response <$>
                  page_of page per_page
                    (sort_desc created_at
                       (coll_find (OrderRepository.matches_user (UserInfo.id user_info) status)
                          (orders w))))
               total page per_page (ceil_div total per_page))
   end, w).
Proof.
  unfold get_user_orders, skip_of, floor_div.
  destruct (verify_user_token user_token); [|done].
  destruct (decide (page = 0 /\ per_page <> 0)); [done|].
  unfold bind at 1. cbn [ret]. by destruct (decide (per_page = 0)).
Qed.

(** [get_user_orders], asked for a page from 1 on of a size from 1
    on, returns one page of the orders of the user of the token: at most
    [per_page] orders, each one a stored order of that user with the
    requested status, with the number of such orders as [total] and the
    number of pages it makes as [total_pages]. *)
Theorem get_user_orders_page user_token status page per_page w user_info :
  verify_user_token user_token = Some user_info ->
  UserInfo.id user_info <> "" ->
  1 <= page -> 1 <= per_page ->
  exists r,
    get_user_orders user_token status page per_page w = (Ok r, w) /\
    length (OrderListResponse.orders r) <= per_page /\
    Forall (fun resp => exists o, o ∈ docs (orders w) /\ resp = _convert_to_response o /\
                          user_id o = UserInfo.id user_info /\
                          forall s, status = Some s -> OrderModel.status o = s)
      (OrderListResponse.orders r) /\
    OrderListResponse.total r =
      coll_count (OrderRepository.matches_user (UserInfo.id user_info) status) (orders w) /\
    OrderListResponse.total_pages r = ceil_div (OrderListResponse.total r) per_page.
Proof.
  intros Hv Hne Hpage Hper. rewrite get_user_orders_cases, Hv.
  rewrite !decide_False by lia. eexists. split; [done|].
  cbn [OrderListResponse.orders OrderListResponse.total OrderListResponse.total_pages].
  split_and!; [| | |done].
  - rewrite length_fmap. by apply skip_limit_le.
  - apply Forall_fmap, Forall_forall. intros o Ho%skip_limit_elem_of.
    apply sort_desc_elem_of, coll_find_elem_of in Ho as [Hin Hq].
    apply andb_prop in Hq as [Hu%bool_decide_eq_true Hs].
    exists o. split_and!; [done..|]. intros s ->. by apply bool_decide_eq_true in Hs.
  - unfold coll_count, coll_find. f_equal. apply filter_ext. intros o.
    by apply matches_user_id.
Qed.

(** ** Status and payment updates *)

(** C35.  [update_order_status] sets any status on any stored order,
    whatever its current status: the order is returned and stored with the
    requested status and the reading of the clock as [updated_at], its
    payment status, lines and amounts are untouched, and so is every other
    order.  On an unknown identifier it raises 404 and changes nothing. *)
Theorem update_order_status_sets_status order_id status_update w :
  let w' := state_after (update_order_status order_id status_update) w in
  match coll_get order_id (orders w) with
  | Some order =>
      exists order',
        result_of (update_order_status order_id status_update) w =
          Ok (_convert_to_response order') /\
        coll_get order_id (orders w') = Some order' /\
        status order' = OrderStatusUpdate.status status_update /\
        updated_at order' = clock w /\
        payment_status order' = payment_status order /\
        OrderRepository.same_core order order' /\
        (forall j, j <> order_id -> coll_get j (orders w') = coll_get j (orders w))
  | None => update_order_status order_id status_update w = (Raise not_found, w)
  end.
Proof.
  intros w'. subst w'. unfold result_of, state_after. rewrite update_order_status_cases.
  cbn zeta. destruct (coll_get order_id (orders w)) as [o|] eqn:Hget; [|done].
  destruct (status_stored_get (OrderStatusUpdate.status status_update)
              (OrderStatusUpdate.notes status_update) _ _ _ Hget) as [Hnew Hold].
  cbn [fst snd].
  assert (forall send w0, orders (published_opt send w0) = orders w0) as ->
    by (by intros [c|] w0).
  eexists. split_and!; [done | done | | | | | done].
  - apply OrderRepository.status_updated_status.
  - apply OrderRepository.status_updated_updated_at.
  - apply OrderRepository.status_updated_payment_status.
  - apply OrderRepository.status_updated_same_core.
Qed.

Lemma payment_recorded_same_core payment_update now o :
  OrderRepository.same_core o (payment_recorded payment_update now o).
Proof.
  unfold payment_recorded. cbn zeta.
  destruct (truthy_str (PaymentUpdate.payment_method payment_update));
    [|apply OrderRepository.payment_updated_same_core].
  eapply OrderRepository.same_core_trans; [|apply OrderRepository.payment_updated_same_core].
  by repeat split.
Qed.

Lemma payment_recorded_id payment_update now o :
  id (payment_recorded payment_update now o) = id o.
Proof. apply payment_recorded_same_core. Qed.

Lemma payment_stored_get payment_update o order_id w :
  coll_get order_id (orders w) = Some o ->
  coll_get order_id (orders (payment_stored payment_update o w)) =
    Some (payment_recorded payment_update (clock w) o) /\
  forall j, j <> order_id ->
    coll_get j (orders (payment_stored payment_update o w)) = coll_get j (orders w).
Proof.
  intros Hget. pose proof (coll_get_id _ _ _ Hget) as Hid.
  destruct (OrderRepository.update_payment_status_stored order_id
              (PaymentUpdate.payment_status payment_update)
              (PaymentUpdate.payment_transaction_id payment_update) w o Hget) as [Hnew Hold].
  unfold state_after in Hnew, Hold.
  rewrite (OrderRepository.update_payment_status_run _ _ _ _ _ Hget) in Hnew, Hold.
  cbn [snd] in Hnew, Hold.
  unfold payment_stored, payment_recorded. cbn zeta.
  destruct (truthy_str (PaymentUpdate.payment_method payment_update)); [|done].
  assert (id (OrderRepository.payment_updated (PaymentUpdate.payment_status payment_update)
                (PaymentUpdate.payment_transaction_id payment_update) (clock w) o)
          = Some order_id) as Hid1
    by (rewrite OrderRepository.payment_updated_id; exact Hid).
  cbn [orders with_orders] in *. split.
  - apply coll_get_save_eq; [exact Hid1 | by rewrite Hnew].
  - intros j Hne. rewrite (coll_get_save_ne order_id); [by apply Hold | exact Hid1 | | done].
    by rewrite Hnew.
Qed.

(** [update_payment_status] records the payment status, and the
    transaction identifier and the payment method when they are given and
    not empty; the order status, the lines and the amounts are untouched:
    payment and order status are independent.  On an unknown identifier it
    raises 404 and changes nothing. *)
Theorem update_payment_status_records order_id payment_update w :
  let w' := state_after (update_payment_status order_id payment_update) w in
  match coll_get order_id (orders w) with
  | Some order =>
      exists order',
        result_of (update_payment_status order_id payment_update) w =
          Ok (_convert_to_response order') /\
        coll_get order_id (orders w') = Some order' /\
        payment_status order' = PaymentUpdate.payment_status payment_update /\
        status order' = status order /\
        payment_transaction_id order' =
          (if truthy_str (PaymentUpdate.payment_transaction_id payment_update)
           then PaymentUpdate.payment_transaction_id payment_update
           else payment_transaction_id order) /\
        payment_method order' =
          (if truthy_str (PaymentUpdate.payment_method payment_update)
           then PaymentUpdate.payment_method payment_update else payment_method order) /\
        OrderRepository.same_core order order' /\
        (forall j, j <> order_id -> coll_get j (orders w') = coll_get j (orders w))
  | None => update_payment_status order_id payment_update w = (Raise not_found, w)
  end.
Proof.
  intros w'. subst w'. unfold result_of, state_after. rewrite update_payment_status_cases.
  destruct (coll_get order_id (orders w)) as [o|] eqn:Hget; [|done].
  destruct (payment_stored_get payment_update _ _ _ Hget) as [Hnew Hold].
  cbn [fst snd].
  assert (forall send w0, orders (published_opt send w0) = orders w0) as ->
    by (by intros [c|] w0).
  eexists. split_and!; [done | done | | | | | apply payment_recorded_same_core | done];
    unfold payment_recorded, OrderRepository.payment_updated; cbn zeta;
    by destruct (truthy_str (PaymentUpdate.payment_method payment_update)),
         (truthy_str (PaymentUpdate.payment_transaction_id payment_update)).
Qed.

(** ** Reading back *)

(** The orders of a successful [get_user_orders], and none on a failure. *)
Definition listing_of (r : Res OrderListResponse.t) : list OrderResponse.t :=
  match r with Ok r => OrderListResponse.orders r | Raise _ => [] end.

Lemma concat_fmap_pages {A B} (f : A -> B) (g : nat -> list A) (l : list nat) :
  concat ((fun p => f <$> g p) <$> l) = f <$> concat (g <$> l).
Proof. induction l as [|p l IH]; [done|]. cbn. by rewrite fmap_app, IH. Qed.

Lemma get_user_orders_listing user_token status page per_page w user_info :
  verify_user_token user_token = Some user_info -> 1 <= page -> 1 <= per_page ->
  listing_of (result_of (get_user_orders user_token status page per_page) w) =
  _convert_to_response <$>
    page_of page per_page
      (sort_desc created_at
         (coll_find (OrderRepository.matches_user (UserInfo.id user_info) status) (orders w))).
Proof.
  intros Hv Hpage Hper. unfold result_of. rewrite get_user_orders_cases, Hv.
  by rewrite !decide_False by lia.
Qed.

(** C30.  Read page by page, from the first page to the last one the service
    announces, the listing of [get_user_orders] is the reference listing:
    every order of the user with the requested status, the most recent
    first, each one once. *)
Theorem user_orders_pages_cover user_token status per_page w user_info :
  verify_user_token user_token = Some user_info ->
  UserInfo.id user_info <> "" -> 1 <= per_page ->
  let page p := result_of (get_user_orders user_token status p per_page) w in
  let total_pages :=
    match page 1 with Ok r => OrderListResponse.total_pages r | Raise _ => 0 end in
  concat ((fun p => listing_of (page p)) <$> seq 1 total_pages) =
  _convert_to_response <$>
    sort_desc created_at
      (coll_find (OrderRepository.matches_user (UserInfo.id user_info) status) (orders w)).
Proof.
  intros Hv Hne Hper. cbv zeta.
  set (all := sort_desc _ _).
  assert (forall n, (fun p => listing_of (result_of (get_user_orders user_token status p per_page) w))
                      <$> seq 1 n
                    = (fun p => _convert_to_response <$> page_of p per_page all) <$> seq 1 n) as ->.
  { intros n. apply list_fmap_ext. intros i p [-> _]%lookup_seq.
    apply get_user_orders_listing; [done|lia|done]. }
  unfold result_of at 1. rewrite get_user_orders_cases, Hv, !decide_False by lia.
  cbn [fst OrderListResponse.total_pages].
  replace (coll_count _ _) with (length all).
  - by rewrite concat_fmap_pages, pages_cover by lia.
  - unfold all, coll_count, coll_find. rewrite sort_desc_length. f_equal.
    apply filter_ext. intros o. symmetry. by apply matches_user_id.
Qed.


End Handlers.
End OrderService.
