(* ===== verification/OrderSpec.v ===== *)
(** * The specification of the order store.

    What the order service promises about its state, whatever request it
    serves: an abstract transition relation [change] on the state, with
    three rules (nothing stored changes; an order is placed with its
    address; a stored order is saved in an evolved form), and the order
    [evolves] in which a stored order may move (its lines, amounts, owner
    and creation time are fixed, its milestones once set stay, its notes
    only grow).

    The first half derives the invariants of the store from [change] alone:
    well-formedness, derived amounts, persistence of every order, the
    broker as an append-only log, a clock that never goes back.  The second
    half is the refinement: each handler of [OrderService] that writes is a
    sequence of [change] steps.  [OrderApi] composes the two into
    invariants of the running process. *)

From S2P Require Import Prelude Money Json Collection OrderModel Kafka OrderSchemas.
From S2P Require Import External OrderRepository OrderService.
From stdpp Require Import relations.
Import OrderRepository.

(** ** How a stored order may evolve *)

Definition evolves (o o' : Order) : Prop :=
  same_core o o' /\
  (forall ms t, milestone ms o = Some (Some t) -> milestone ms o' = Some (Some t)) /\
  extends (default "" (notes o)) (default "" (notes o')).

(** The messages the broker has accepted. *)
Definition broker_of (w : World) : list Message := broker (kafka_producer w).

(** An order as it is when placed: pending, unpaid, no milestone. *)
Definition fresh (o : Order) : Prop :=
  status o = OrderStatus.PENDING /\ payment_status o = PaymentStatus.PENDING /\
  confirmed_at o = None /\ shipped_at o = None /\ delivered_at o = None.

(** A message of the order service: on its topic, in the envelope of its
    producer. *)
Definition order_message (m : Message) : Prop :=
  topic m = order_topic /\
  exists data, value m = enriched_event order_service_name order_topic data.

(** Time and the broker only move forward, and the broker grows by
    messages of the order service. *)
Definition forward (w w' : World) : Prop :=
  clock w <= clock w' /\ broker_of w `prefix_of` broker_of w' /\
  (Forall order_message (broker_of w) -> Forall order_message (broker_of w')).

Inductive change : World -> World -> Prop :=
| change_quiet w w' :
    orders w' = orders w -> shipping_addresses w' = shipping_addresses w ->
    forward w w' -> change w w'
| change_place w w' o a :
    orders w' = (coll_insert o (orders w)).2 ->
    shipping_addresses w' = (coll_insert a (shipping_addresses w)).2 ->
    amounts_ok o -> fresh o ->
    created_at o < clock w' -> updated_at o < clock w' ->
    forward w w' -> change w w'
| change_save w w' i o o' :
    coll_get i (orders w) = Some o -> id o' = Some i -> evolves o o' ->
    orders w' = coll_save o' (orders w) ->
    shipping_addresses w' = shipping_addresses w ->
    updated_at o' < clock w' ->
    forward w w' -> change w w'.

(** ** The order [evolves] *)

#[export] Instance same_core_preorder : PreOrder same_core.
Proof.
  split; [intros o; apply same_core_refl|].
  intros o1 o2 o3 H12 H23. eapply same_core_trans; [exact H12 | exact H23].
Qed.

#[export] Instance evolves_preorder : PreOrder evolves.
Proof.
  split.
  - intros o. by split_and!.
  - intros o1 o2 o3 (Hc1 & Hm1 & Hn1) (Hc2 & Hm2 & Hn2). split_and!.
    + by etrans.
    + intros ms t Hm. by apply Hm2, Hm1.
    + by etrans.
Qed.

#[export] Instance forward_preorder : PreOrder forward.
Proof.
  split; [by intros w|].
  intros w1 w2 w3 (Hc1 & Hb1 & Hm1) (Hc2 & Hb2 & Hm2).
  split_and!; [lia | by etrans | by intros ?%Hm1%Hm2].
Qed.

Lemma evolves_amounts_ok o o' : evolves o o' -> amounts_ok o -> amounts_ok o'.
Proof. intros (Hc & _ & _). by apply same_core_amounts_ok. Qed.

Lemma evolves_id o o' : evolves o o' -> id o' = id o.
Proof. by intros ((Hid & _) & _ & _). Qed.

Lemma status_updated_notes_extends status notes now o :
  extends (default "" (OrderModel.notes o))
    (default "" (OrderModel.notes (status_updated status notes now o))).
Proof.
  destruct (truthy_str notes) eqn:Ht.
  - destruct notes as [text|]; [|done].
    destruct (status_updated_notes_append status text now o) as (t & line & _ & _ & ->);
      [by apply truthy_str_Some|].
    destruct (truthy_str (OrderModel.notes o)) eqn:Ho; [apply extends_app|].
    apply truthy_str_false in Ho as [->| ->]; apply extends_nil.
  - by rewrite status_updated_notes_falsy.
Qed.

Lemma status_updated_evolves status notes now o :
  evolves o (status_updated status notes now o).
Proof.
  split_and!; [apply status_updated_same_core | | apply status_updated_notes_extends].
  intros ms t. apply status_updated_milestone_kept.
Qed.

Lemma payment_updated_evolves ps tx now o : evolves o (payment_updated ps tx now o).
Proof.
  split_and!; [apply payment_updated_same_core | intros ms t | ];
    unfold payment_updated; destruct (truthy_str tx); try done; by destruct ms.
Qed.

Lemma payment_recorded_evolves payment_update now o :
  evolves o (OrderService.payment_recorded payment_update now o).
Proof.
  unfold OrderService.payment_recorded. cbn zeta.
  destruct (truthy_str (PaymentUpdate.payment_method payment_update));
    [|apply payment_updated_evolves].
  etrans; [apply payment_updated_evolves|].
  split_and!; [by repeat split | by intros [] | done].
Qed.

(** ** Invariants of [change] *)

Section Invariants.
Implicit Types (w : World) (o : Order) (i : nat).

Lemma change_forward w w' : change w w' -> forward w w'.
Proof. by destruct 1. Qed.

(** Saving a stored order under its identifier replaces it in place. *)
Lemma saved_docs w i o o' :
  coll_get i (orders w) = Some o -> id o' = Some i ->
  docs (coll_save o' (orders w)) = replace_id i o' (docs (orders w)).
Proof. intros Hget Hid. rewrite (coll_save_stored i); [done | exact Hid | by rewrite Hget]. Qed.

Lemma change_docs (P : Order -> Prop) w w' :
  (forall o o', evolves o o' -> P o -> P o') ->
  (forall o i, amounts_ok o -> fresh o -> P (with_id i o)) ->
  change w w' -> Forall P (docs (orders w)) -> Forall P (docs (orders w')).
Proof.
  intros Hev Hfresh Hch Hall. destruct Hch as [w w' -> _ _|w w' o a -> _ Hok Hf _ _ _
                                              |w w' i o o' Hget Hid He -> _ _ _]; [done| |].
  - rewrite coll_insert_docs. apply Forall_app. split; [done|].
    apply Forall_singleton. by apply Hfresh.
  - rewrite (saved_docs _ _ _ _ Hget Hid). apply Forall_forall.
    intros x [->|Hx]%elem_of_replace_id.
    + apply (Hev o); [done|]. apply coll_get_Some in Hget as [Hin _].
      by eapply Forall_forall in Hall.
    + by eapply Forall_forall in Hall.
Qed.

Lemma change_wf w w' : world_wf w -> change w w' -> world_wf w'.
Proof.
  intros (Ho & Ha & Ht) Hch. pose proof (change_forward _ _ Hch) as [Hclock _].
  destruct Hch as [w w' Eo Ea _|w w' o a Eo Ea _ _ Hc Hu _|w w' i o o' Hget Hid He Eo Ea Hu _].
  - split_and!; [by rewrite Eo | by rewrite Ea |]. rewrite Eo.
    eapply Forall_impl; [done|]. cbn beta. intros x [? ?]. lia.
  - split_and!; [rewrite Eo; exact (coll_insert_wf _ _ Ho)
                | rewrite Ea; exact (coll_insert_wf _ _ Ha) |].
    rewrite Eo, coll_insert_docs. apply Forall_app. split.
    + eapply Forall_impl; [done|]. cbn beta. intros x [? ?]. lia.
    + apply Forall_singleton. by split.
  - assert (is_Some (coll_get i (orders w))) as Hs by (by rewrite Hget).
    split_and!; [rewrite Eo; by apply (coll_save_stored_wf i) | by rewrite Ea |].
    rewrite Eo, (saved_docs _ _ _ _ Hget Hid). apply Forall_forall.
    intros x [->|Hx]%elem_of_replace_id.
    + destruct He as ((_ & _ & _ & _ & _ & _ & _ & _ & _ & _ & _ & Hcr & _) & _).
      apply coll_get_Some in Hget as [Hin _].
      eapply Forall_forall in Ht as [? ?]; [|exact Hin]. split; [rewrite Hcr; lia | done].
    + eapply Forall_forall in Ht as [? ?]; [|exact Hx]. lia.
Qed.

(** A stored order stays stored, and only evolves. *)
Lemma change_evolves w w' i o :
  world_wf w -> coll_get i (orders w) = Some o -> change w w' ->
  exists o', coll_get i (orders w') = Some o' /\ evolves o o'.
Proof.
  intros (Ho & _ & _) Hget Hch.
  destruct Hch as [w w' Eo _ _|w w' o1 a Eo _ _ _ _ _ _|w w' j o1 o' Hgetj Hid He Eo _ _ _];
    rewrite Eo.
  - by exists o.
  - exists o. split; [|done]. rewrite coll_get_insert_old; [done|].
    intros ->. by rewrite (coll_get_fresh _ _ Ho) in Hget.
  - assert (is_Some (coll_get j (orders w))) as Hs by (by rewrite Hgetj).
    destruct (decide (j = i)) as [->|Hne].
    + exists o'. rewrite Hget in Hgetj. injection Hgetj as ->.
      split; [by apply coll_get_save_eq | done].
    + exists o. split; [|done]. by rewrite (coll_get_save_ne j).
Qed.

(** *** Along any sequence of changes *)

Lemma changes_forward w w' : rtc change w w' -> forward w w'.
Proof. induction 1; [reflexivity|]. etrans; [by apply change_forward | done]. Qed.

Lemma changes_wf w w' : rtc change w w' -> world_wf w -> world_wf w'.
Proof. induction 1; [done|]. intros Hwf. eauto using change_wf. Qed.

Lemma changes_docs (P : Order -> Prop) w w' :
  (forall o o', evolves o o' -> P o -> P o') ->
  (forall o i, amounts_ok o -> fresh o -> P (with_id i o)) ->
  rtc change w w' -> Forall P (docs (orders w)) -> Forall P (docs (orders w')).
Proof. intros Hev Hfresh. induction 1; [done|]. eauto using change_docs. Qed.

Lemma changes_evolves w w' i o :
  world_wf w -> coll_get i (orders w) = Some o -> rtc change w w' ->
  exists o', coll_get i (orders w') = Some o' /\ evolves o o'.
Proof.
  intros Hwf Hget Hch. revert o Hwf Hget.
  induction Hch as [|w w1 w' Hc _ IH]; intros o Hwf Hget; [by exists o|].
  destruct (change_evolves _ _ _ _ Hwf Hget Hc) as (o1 & Hget1 & He1).
  destruct (IH o1 (change_wf _ _ Hwf Hc) Hget1) as (o' & ? & ?).
  exists o'. split; [done | by etrans].
Qed.

(** The amounts of every stored order stay derived from its lines. *)
Lemma changes_amounts_ok w w' :
  rtc change w w' -> Forall amounts_ok (docs (orders w)) -> Forall amounts_ok (docs (orders w')).
Proof. apply changes_docs; [apply evolves_amounts_ok | by intros o i Hok _]. Qed.

End Invariants.

(** ** The handlers implement [change] *)

Ltac unfold_helpers :=
  unfold publish_order_created_event, publish_order_confirmed_event,
    publish_order_cancelled_event, publish_order_shipped_event,
    publish_order_delivered_event, publish_payment_completed_event,
    publish_payment_failed_event, publish_order_event.

Section Refinement.
Context `{Peers} `{Environment}.
Implicit Types (w : World) (o : Order) (i : nat).

(** A publish moves the broker forward and nothing else. *)
Lemma send_forward data key w :
  forward w (OrderService.published (send_event order_service_name order_topic data key) w).
Proof.
  split; [done|]. unfold broker_of, OrderService.published. cbn [kafka_producer with_kafka_producer].
  rewrite send_event_broker_spec. destruct (_ && _); [|done].
  split; [by apply prefix_app_r|]. intros Hall. apply Forall_app. split; [done|].
  apply Forall_singleton. split; [done|]. by exists data.
Qed.

Lemma status_event_forward status notes o w :
  forward w (OrderService.published_opt (OrderService.status_event status notes o) w).
Proof.
  unfold OrderService.status_event. destruct status; cbn [OrderService.published_opt];
    try reflexivity; unfold_helpers; apply send_forward.
Qed.

Lemma payment_event_forward ps o w :
  forward w (OrderService.published_opt (OrderService.payment_event ps o) w).
Proof.
  unfold OrderService.payment_event. destruct ps; cbn [OrderService.published_opt];
    try reflexivity; unfold_helpers; apply send_forward.
Qed.

(** Storing a status update, followed by anything that only moves the
    broker forward, is a [change]. *)
Lemma status_stored_change status notes o i w w' :
  coll_get i (orders w) = Some o ->
  forward (OrderService.status_stored status notes o w) w' ->
  orders w' = orders (OrderService.status_stored status notes o w) ->
  shipping_addresses w' = shipping_addresses w ->
  change w w'.
Proof.
  intros Hget [Hc Hb] Eo Ea.
  apply (change_save w w' i o (status_updated status notes (clock w) o));
    [done | | apply status_updated_evolves | done | done | |].
  - rewrite status_updated_id. exact (coll_get_id _ _ _ Hget).
  - rewrite status_updated_updated_at. cbn [OrderService.status_stored clock with_orders
      with_clock] in Hc. unfold status_updated_clock in Hc. lia.
  - split; [|done]. cbn [OrderService.status_stored clock with_orders with_clock] in Hc.
    unfold status_updated_clock in Hc. lia.
Qed.

Lemma create_order_change order_data user_token w :
  rtc change w (state_after (OrderService.create_order order_data user_token) w).
Proof.
  unfold state_after. rewrite OrderService.create_order_cases.
  destruct (verify_user_token user_token) as [u|]; [|done]. cbn zeta.
  destruct (ReservationResult.success _); [|done].
  destruct (OrderService.build_items _ _ _) as [[order_items s]|] eqn:Hb; [|done].
  destruct (OrderService.build_items_subtotal _ _ _ Hb) as (-> & Hitems & _).
  apply rtc_once.
  eapply (change_place _ _
            (OrderService.placed_document order_data u order_items _ w)
            (OrderService.new_ShippingAddress (OrderCreate.shipping_address order_data)));
    [done | done | | done | | |].
  - by apply (new_Order_amounts_ok (OrderService.order_dict _ _ _ _ _ _ _ _ _ _)).
  - cbn. lia.
  - cbn. lia.
  - unfold OrderService.after_placed. unfold_helpers.
    etrans; [|apply send_forward]. split; [cbn; lia | done].
Qed.

Lemma cancel_order_change order_id user_token w :
  rtc change w (state_after (OrderService.cancel_order order_id user_token) w).
Proof.
  unfold state_after. rewrite OrderService.cancel_order_cases.
  destruct (verify_user_token user_token) as [u|]; [|done].
  destruct (coll_get order_id (orders w)) as [o|] eqn:Hget; [|done].
  destruct (negb (bool_decide _)); [done|]. destruct (negb (is_cancellable o)); [done|].
  apply rtc_once. cbn [snd].
  eapply status_stored_change; [done | | done | done].
  unfold_helpers. apply send_forward.
Qed.

Lemma update_order_status_change order_id status_update w :
  rtc change w (state_after (OrderService.update_order_status order_id status_update) w).
Proof.
  unfold state_after. rewrite OrderService.update_order_status_cases. cbn zeta.
  destruct (coll_get order_id (orders w)) as [o|] eqn:Hget; [|done].
  apply rtc_once. cbn [snd].
  eapply status_stored_change; [done | apply status_event_forward | |];
    by destruct (OrderService.status_event _ _ _).
Qed.

Lemma update_payment_status_change order_id payment_update w :
  rtc change w (state_after (OrderService.update_payment_status order_id payment_update) w).
Proof.
  unfold state_after. rewrite OrderService.update_payment_status_cases.
  destruct (coll_get order_id (orders w)) as [o|] eqn:Hget; [|done]. cbn [snd].
  pose proof (coll_get_id _ _ _ Hget) as Hid.
  set (ps := PaymentUpdate.payment_status payment_update).
  set (tx := PaymentUpdate.payment_transaction_id payment_update).
  set (o1 := payment_updated ps tx (clock w) o).
  set (w1 := with_orders (coll_save o1 (orders w)) (with_clock (S (clock w)) w)).
  assert (id o1 = Some order_id) as Hid1 by (unfold o1; by rewrite payment_updated_id).
  assert (updated_at o1 = clock w) as Hup1
    by (unfold o1, payment_updated; by destruct (truthy_str tx)).
  assert (change w w1) as Hch1.
  { apply (change_save w w1 order_id o o1);
      [done | done | apply payment_updated_evolves | done | done | cbn; lia |].
    split; [cbn; lia | done]. }
  assert (coll_get order_id (orders w1) = Some o1) as Hget1
    by (apply coll_get_save_eq; [done | by rewrite Hget]).
  unfold OrderService.payment_stored, OrderService.payment_recorded. cbn zeta.
  fold ps tx o1 w1.
  destruct (truthy_str (PaymentUpdate.payment_method payment_update)).
  - eapply rtc_l; [exact Hch1|]. apply rtc_once.
    set (o2 := set_payment_method _ o1).
    apply (change_save w1 _ order_id o1 o2); [done | done | | | | |].
    + split_and!; [by repeat split | by intros [] | done].
    + by destruct (OrderService.payment_event ps o2).
    + by destruct (OrderService.payment_event ps o2).
    + destruct (OrderService.payment_event ps o2); cbn; lia.
    + etrans; [|apply payment_event_forward]. done.
  - apply rtc_once.
    apply (change_save w _ order_id o o1);
      [done | done | apply payment_updated_evolves | | | |].
    + by destruct (OrderService.payment_event ps o1).
    + by destruct (OrderService.payment_event ps o1).
    + destruct (OrderService.payment_event ps o1); cbn; lia.
    + etrans; [|apply payment_event_forward]. split; [cbn; lia | done].
Qed.

End Refinement.
