(* ===== verification/OrderApi.v ===== *)
(** * The HTTP interface of the order service:
    [src/order_service/app/controllers/order_controller.py] and
    [src/order_service/app/main.py].

    A request is a value of [Request]: the route with its path, query,
    header and body parameters.  [handle] is what the application answers:
    FastAPI validates the parameters (a failure is a 422 and the route
    function does not run), resolves the dependencies ([get_auth_token]),
    runs the route function, and turns an exception into a response with
    the two handlers [main.py] registers.  So [handle] never raises.

    The process runs [startup], then any sequence of requests, each to its
    end ([step]); [reachable] are the states it can be in.  The invariants
    of the service are proved by induction on that relation.

    An order identifier in a path is the allocation index of the document;
    a path segment that is not an identifier reads, in the source, as an
    identifier that is not stored. *)

From S2P Require Import Prelude Money Json Collection Http OrderModel Kafka OrderSchemas.
From S2P Require Import External OrderRepository OrderService OrderSpec.
From stdpp Require Import relations.
From Stdlib Require Import QArith.
Local Close Scope Q_scope.
Local Open Scope act_scope.

(** ** Requests and responses *)

Inductive Request : Type :=
| POST_orders (authorization : option string) (order_data : OrderCreate.t)
| GET_orders (authorization : option string) (status : option OrderStatus.t)
    (page per_page : nat)
| GET_order (authorization : option string) (order_id : nat)
| PATCH_cancel (authorization : option string) (order_id : nat)
| PATCH_status (order_id : nat) (status_update : OrderStatusUpdate.t)
| PATCH_payment (order_id : nat) (payment_update : PaymentUpdate.t)
| GET_admin_stats
| GET_admin_all (status : option OrderStatus.t) (payment_status : option PaymentStatus.t)
    (user_id : option string) (page per_page : nat)
| GET_health_check
| GET_status_options
| GET_root
| GET_health.

(** What a route of the order service returns when it succeeds. *)
Inductive OrderPayload : Type :=
| OrderBody (r : OrderResponse.t)
| OrderListBody (r : OrderListResponse.t)
| StatsBody (r : OrderStats.t)
| JsonBody (d : dict).

(** ** The dependency [get_auth_token] *)

Definition get_auth_token (authorization : string) : Res string :=
  if negb (String.prefix "Bearer " authorization) then
    Raise (HTTPException HTTP_401_UNAUTHORIZED "Invalid authorization header format")
  else
    match str_split space authorization !! 1 with
    | Some token => Ok token
    | None => Raise (PyException "IndexError" "list index out of range")
    end.

(** ** What a client may rely on in an answer *)

(** The status code the decorator of a route declares for its success. *)
Definition success_code (req : Request) : nat :=
  match req with
  | POST_orders _ _ => HTTP_201_CREATED
  | _ => HTTP_200_OK
  end.

(** The [Authorization] header of a request, on the routes that read it. *)
Definition authorization_of (req : Request) : option (option string) :=
  match req with
  | POST_orders a _ | GET_orders a _ _ _ | GET_order a _ | PATCH_cancel a _ => Some a
  | _ => None
  end.

Module OrderController.
Section Routes.
Context `{Peers} `{Environment}.

(** A route that depends on [get_auth_token].  FastAPI resolves the
    dependency before it validates the route's own parameters: a missing
    header is a validation error, a header that [get_auth_token] refuses is
    its exception, and only then do the other parameters ([valid]) count. *)
Definition with_token {A} (authorization : option string) (valid : bool) (code : nat)
    (wrap : A -> OrderPayload) (route : string -> Act World A)
    : Act World (HttpResponse OrderPayload) :=
  match authorization with
  | None => ret validation_error
  | Some authorization =>
      match get_auth_token authorization with
      | Raise e => ret (exception_handler e)
      | Ok token => if negb valid then ret validation_error else respond code wrap (route token)
      end
  end.

Definition create_order (authorization : option string) (order_data : OrderCreate.t)
    : Act World (HttpResponse OrderPayload) :=
  with_token authorization (OrderCreate.valid order_data) HTTP_201_CREATED OrderBody
    (fun token => OrderService.create_order order_data token).

Definition get_user_orders (authorization : option string) (status : option OrderStatus.t)
    (page per_page : nat) : Act World (HttpResponse OrderPayload) :=
  with_token authorization (valid_page page per_page) HTTP_200_OK OrderListBody
    (fun token => OrderService.get_user_orders token status page per_page).

Definition get_order (authorization : option string) (order_id : nat)
    : Act World (HttpResponse OrderPayload) :=
  with_token authorization true HTTP_200_OK OrderBody
    (fun token => OrderService.get_order_by_id order_id token).

Definition cancel_order (authorization : option string) (order_id : nat)
    : Act World (HttpResponse OrderPayload) :=
  with_token authorization true HTTP_200_OK OrderBody
    (fun token => OrderService.cancel_order order_id token).

Definition update_order_status (order_id : nat) (status_update : OrderStatusUpdate.t)
    : Act World (HttpResponse OrderPayload) :=
  respond HTTP_200_OK OrderBody (OrderService.update_order_status order_id status_update).

Definition update_payment_status (order_id : nat) (payment_update : PaymentUpdate.t)
    : Act World (HttpResponse OrderPayload) :=
  respond HTTP_200_OK OrderBody (OrderService.update_payment_status order_id payment_update).

Definition get_order_statistics : Act World (HttpResponse OrderPayload) :=
  respond HTTP_200_OK StatsBody OrderService.get_order_stats.

(** The body of [get_all_orders]: the repository is read directly. *)
Definition all_orders_page (status : option OrderStatus.t)
    (payment_status : option PaymentStatus.t) (user_id : option string) (page per_page : nat)
    : Act World OrderListResponse.t :=
  offset <- skip_of page per_page ;;
  orders <- OrderRepository.get_orders status payment_status user_id per_page offset ;;
  total_orders <- OrderRepository.count_orders status payment_status user_id ;;
  total_pages <- floor_div (total_orders + per_page - 1) per_page ;;
  let order_responses := OrderService._convert_to_response <$> orders in
  ret (OrderListResponse.mk order_responses total_orders page per_page total_pages).

Definition get_all_orders (status : option OrderStatus.t)
    (payment_status : option PaymentStatus.t) (user_id : option string) (page per_page : nat)
    : Act World (HttpResponse OrderPayload) :=
  validated (valid_page page per_page)
    (respond HTTP_200_OK OrderListBody
       (all_orders_page status payment_status user_id page per_page)).

Definition health_check : dict :=
  [("status", JStr "healthy"); ("service", JStr "order-service");
   ("timestamp", JStr "2024-01-01T00:00:00Z")].

Definition get_status_options : dict :=
  [("order_statuses", JList (JStr ∘ OrderStatus.value <$> OrderStatus.members));
   ("payment_statuses", JList (JStr ∘ PaymentStatus.value <$> PaymentStatus.members))].

(** The two routes of [main.py]. *)
Definition root : dict := [("message", JStr "Order Service API"); ("version", JStr "1.0.0")].
Definition health : dict := [("status", JStr "healthy"); ("service", JStr "order-service")].

(** ** The application *)

Definition handle (req : Request) : Act World (HttpResponse OrderPayload) :=
  match req with
  | POST_orders authorization order_data => create_order authorization order_data
  | GET_orders authorization status page per_page =>
      get_user_orders authorization status page per_page
  | GET_order authorization order_id => get_order authorization order_id
  | PATCH_cancel authorization order_id => cancel_order authorization order_id
  | PATCH_status order_id status_update => update_order_status order_id status_update
  | PATCH_payment order_id payment_update => update_payment_status order_id payment_update
  | GET_admin_stats => get_order_statistics
  | GET_admin_all status payment_status user_id page per_page =>
      get_all_orders status payment_status user_id page per_page
  | GET_health_check => ret (mkHttpResponse HTTP_200_OK (Payload (JsonBody health_check)))
  | GET_status_options => ret (mkHttpResponse HTTP_200_OK (Payload (JsonBody get_status_options)))
  | GET_root => ret (mkHttpResponse HTTP_200_OK (Payload (JsonBody root)))
  | GET_health => ret (mkHttpResponse HTTP_200_OK (Payload (JsonBody health)))
  end.

(** [lifespan]: the producer is started before the first request and
    stopped after the last. *)
Definition startup : Act World unit := zoom kafka_producer with_kafka_producer start.
Definition shutdown : Act World unit := zoom kafka_producer with_kafka_producer stop.

(** The process as it boots: empty collections, the producer configured
    from the environment, then [startup]. *)
Definition boot (kafka_enabled : bool) (net : nat -> bool) : World :=
  state_after startup
    (mkWorld coll_empty coll_empty (new_KafkaProducer kafka_enabled net) 0 0).

(** One request served to its end. *)
Inductive step : World -> World -> Prop :=
| step_request req w : step w (state_after (handle req) w).

(** The states of a running process. *)
Inductive reachable : World -> Prop :=
| reachable_boot kafka_enabled net : reachable (boot kafka_enabled net)
| reachable_step w w' : reachable w -> step w w' -> reachable w'.

(** The state after a list of requests, served in order. *)
Definition serve (reqs : list Request) (w : World) : World :=
  foldl (fun w req => state_after (handle req) w) w reqs.

(** ** Routes under the exception handlers *)

(** What a route with a token does, in one equation. *)
Lemma with_token_run {A} authorization valid code (wrap : A -> OrderPayload) route w :
  with_token authorization valid code wrap route w =
  match authorization with
  | None => (Ok validation_error, w)
  | Some authorization =>
      match get_auth_token authorization with
      | Raise e => (Ok (exception_handler e), w)
      | Ok token =>
          if valid then respond code wrap (route token) w else (Ok validation_error, w)
      end
  end.
Proof.
  unfold with_token. destruct authorization as [a|]; [|done].
  destruct (get_auth_token a); [|done]. by destruct valid.
Qed.

(** The state a request leaves is the state of the call or the state the
    route function left. *)
Lemma with_token_state {A} authorization valid code (wrap : A -> OrderPayload) route w :
  state_after (with_token authorization valid code wrap route) w = w \/
  exists token, state_after (with_token authorization valid code wrap route) w =
                state_after (route token) w.
Proof.
  unfold state_after. rewrite with_token_run.
  destruct authorization as [a|]; [|by left].
  destruct (get_auth_token a) as [token|]; [|by left].
  destruct valid; [|by left]. right. exists token. by rewrite respond_run.
Qed.

Lemma with_token_total {A} authorization valid code (wrap : A -> OrderPayload) route w :
  is_ok (result_of (with_token authorization valid code wrap route) w) = true.
Proof.
  unfold result_of. rewrite with_token_run.
  destruct authorization as [a|]; [|done].
  destruct (get_auth_token a) as [token|]; [|done].
  destruct valid; [|done]. by rewrite respond_run.
Qed.

(** ** The token dependency *)

Lemma get_auth_token_refused authorization :
  String.prefix "Bearer " authorization = false ->
  get_auth_token authorization =
  Raise (HTTPException HTTP_401_UNAUTHORIZED "Invalid authorization header format").
Proof. intros Hp. unfold get_auth_token. by rewrite Hp. Qed.

(** The token of a well-formed header is the text between the first
    space and the next one. *)
Lemma get_auth_token_bearer rest :
  get_auth_token ("Bearer " +:+ rest) = Ok (default "" (head (str_split space rest))).
Proof.
  unfold get_auth_token.
  assert (String.prefix "Bearer " ("Bearer " +:+ rest) = true) as ->
    by (destruct rest; reflexivity).
  cbn [negb]. cbv [String.append].
  rewrite !str_split_cons_ne by done. simpl.
  destruct (str_split space rest) eqn:E; [by apply str_split_nonempty in E | done].
Qed.

(** ** Every request is a sequence of [change] steps *)

Lemma with_token_change {A} authorization valid code (wrap : A -> OrderPayload) route w :
  (forall token, rtc change w (state_after (route token) w)) ->
  rtc change w (state_after (with_token authorization valid code wrap route) w).
Proof.
  intros Hroute. by destruct (with_token_state authorization valid code wrap route w)
    as [->|[token ->]].
Qed.

(** The listing of all orders reads and never writes. *)
Lemma all_orders_page_state status payment_status user_id page per_page w :
  state_after (all_orders_page status payment_status user_id page per_page) w = w.
Proof.
  unfold state_after, all_orders_page, skip_of, floor_div.
  destruct (decide (page = 0 /\ per_page <> 0)); [done|].
  unfold bind at 1. cbn [ret]. by destruct (decide (per_page = 0)).
Qed.

Lemma respond_change {A} code (wrap : A -> OrderPayload) (c : Act World A) w :
  rtc change w (state_after c w) -> rtc change w (state_after (respond code wrap c) w).
Proof. by rewrite respond_state. Qed.

Lemma handle_change req w : rtc change w (state_after (handle req) w).
Proof.
  destruct req; cbn [handle]; try done.
  - apply with_token_change. intros token. apply create_order_change.
  - apply with_token_change. intros token.
    unfold state_after. by rewrite OrderService.get_user_orders_cases.
  - apply with_token_change. intros token.
    unfold state_after. by rewrite OrderService.get_order_by_id_cases.
  - apply with_token_change. intros token. apply cancel_order_change.
  - apply respond_change, update_order_status_change.
  - apply respond_change, update_payment_status_change.
  - unfold get_all_orders, state_after. rewrite validated_run.
    destruct (valid_page page per_page); [|done].
    apply respond_change. by rewrite all_orders_page_state.
Qed.

Lemma step_change w w' : step w w' -> rtc change w w'.
Proof. destruct 1. apply handle_change. Qed.

Lemma steps_change w w' : rtc step w w' -> rtc change w w'.
Proof. induction 1; [done|]. etrans; [by apply step_change | done]. Qed.

(** The runs of the process are the lists of requests it serves. *)
Lemma serve_steps reqs w : rtc step w (serve reqs w).
Proof.
  revert w. induction reqs as [|req reqs IH]; intros w; [done|].
  eapply rtc_l; [apply (step_request req) | apply IH].
Qed.

Lemma steps_serve w w' : rtc step w w' -> exists reqs, w' = serve reqs w.
Proof.
  induction 1 as [w|w w1 w' [req w0] _ [reqs ->]]; [by exists []|]. by exists (req :: reqs).
Qed.

Lemma serve_reachable reqs w : reachable w -> reachable (serve reqs w).
Proof.
  revert w. induction reqs as [|req reqs IH]; intros w Hr; [done|].
  apply IH. eapply reachable_step; [done | apply step_request].
Qed.

(** [startup] and [shutdown] touch the producer only. *)
Lemma zoom_producer_frame {A} (c : Act KafkaProducer A) w :
  let w' := state_after (zoom kafka_producer with_kafka_producer c) w in
  orders w' = orders w /\ shipping_addresses w' = shipping_addresses w /\
  clock w' = clock w /\ draws w' = draws w /\
  kafka_producer w' = state_after c (kafka_producer w).
Proof. unfold state_after, zoom. by destruct (c (kafka_producer w)). Qed.

Lemma boot_orders kafka_enabled net : orders (boot kafka_enabled net) = coll_empty.
Proof. apply (zoom_producer_frame start). Qed.

Lemma boot_shipping_addresses kafka_enabled net :
  shipping_addresses (boot kafka_enabled net) = coll_empty.
Proof. apply (zoom_producer_frame start). Qed.

Lemma boot_wf kafka_enabled net : OrderRepository.world_wf (boot kafka_enabled net).
Proof.
  unfold OrderRepository.world_wf. rewrite boot_orders, boot_shipping_addresses.
  split_and!; [apply coll_wf_empty..|by constructor].
Qed.

Lemma reachable_wf w : reachable w -> OrderRepository.world_wf w.
Proof.
  induction 1 as [|w w' _ IH Hstep]; [apply boot_wf|].
  eapply changes_wf; [by apply step_change | done].
Qed.

Lemma reachable_amounts_ok w : reachable w -> Forall amounts_ok (docs (orders w)).
Proof.
  induction 1 as [|w w' _ IH Hstep]; [rewrite boot_orders; constructor|].
  eapply changes_amounts_ok; [by apply step_change | done].
Qed.

(** ** The process and the specification *)

(** C21.  Every state of the running service is reached from the state it
    boots in by transitions of the specification [change]: whatever the
    requests and their order, the store only ever places an order with its
    address or saves a stored order in an evolved form. *)
Theorem service_refines_lifecycle w :
  reachable w -> exists kafka_enabled net, rtc change (boot kafka_enabled net) w.
Proof.
  induction 1 as [kafka_enabled net|w w' _ (kafka_enabled & net & IH) Hstep].
  - by exists kafka_enabled, net.
  - exists kafka_enabled, net. etrans; [exact IH | by apply step_change].
Qed.

(** C22.  In every state of the running service the collections are well
    formed (identifiers unique and below the next one, no document stamped
    in the future), and every stored order has its total derived from its
    subtotal, tax, shipping and discount, never negative, in whole
    hundredths. *)
Theorem reachable_invariant w :
  reachable w ->
  OrderRepository.world_wf w /\
  Forall (fun o => amounts_ok o /\ (0 <= total_amount o)%Q /\ is_cents (total_amount o))
    (docs (orders w)).
Proof.
  intros Hr. split; [by apply reachable_wf|].
  eapply Forall_impl; [by apply reachable_amounts_ok|]. cbn beta.
  intros o Hok. split; [done|]. destruct Hok as (_ & _ & ->).
  split; [apply calculate_total_amount_nonneg | apply calculate_total_amount_is_cents].
Qed.

(** C37.  Whatever requests the service serves, an order that is stored
    stays stored under its identifier, and only evolves: its lines, amounts,
    owner, address and creation time are those it was placed with, a
    milestone that was stamped keeps its time, and its notes only grow. *)
Theorem stored_orders_only_evolve w w' i o :
  reachable w -> rtc step w w' -> coll_get i (orders w) = Some o ->
  exists o', coll_get i (orders w') = Some o' /\ evolves o o'.
Proof.
  intros Hr Hsteps Hget.
  eapply changes_evolves; [by apply reachable_wf | done | by apply steps_change].
Qed.

(** Whatever requests the service serves, the clock never goes back
    and the broker is an append-only log: the messages it held are a prefix
    of those it holds. *)
Theorem broker_append_only w w' :
  rtc step w w' -> clock w <= clock w' /\ broker_of w `prefix_of` broker_of w'.
Proof. intros (? & ? & _)%steps_change%changes_forward. done. Qed.

(** The broker of a running order service holds messages of the order
    service only: each on the topic [order-events], in the envelope of its
    producer. *)
Lemma reachable_broker w : reachable w -> Forall order_message (broker_of w).
Proof.
  induction 1 as [kafka_enabled net|w w' _ IH Hstep].
  - unfold broker_of, boot, startup.
    destruct (zoom_producer_frame start
                (mkWorld coll_empty coll_empty (new_KafkaProducer kafka_enabled net) 0 0))
      as (_ & _ & _ & _ & ->).
    rewrite start_broker. constructor.
  - destruct (changes_forward w w' (step_change _ _ Hstep)) as (_ & _ & Hm). by apply Hm.
Qed.

(** ** Answers *)

Lemma prefix_inv s1 s2 : String.prefix s1 s2 = true -> exists t, s2 = s1 +:+ t.
Proof.
  revert s2. induction s1 as [|a s1 IH]; intros s2 Hp; [by exists s2|].
  destruct s2 as [|b s2]; [done|]. cbn in Hp.
  destruct (Ascii.ascii_dec a b) as [->|]; [|done].
  destruct (IH _ Hp) as [t ->]. by exists t.
Qed.

(** [get_auth_token] answers with a token or refuses the header: the
    index it reads is always there. *)
Lemma get_auth_token_cases authorization :
  get_auth_token authorization =
  Raise (HTTPException HTTP_401_UNAUTHORIZED "Invalid authorization header format") \/
  exists token, get_auth_token authorization = Ok token.
Proof.
  destruct (String.prefix "Bearer " authorization) eqn:Hp.
  - right. apply prefix_inv in Hp as [rest ->]. eexists. apply get_auth_token_bearer.
  - left. by apply get_auth_token_refused.
Qed.

Lemma with_token_answers {A} authorization valid code (wrap : A -> OrderPayload) route w :
  (forall token e, result_of (route token) w = Raise e -> known e = true) ->
  exists r, result_of (with_token authorization valid code wrap route) w = Ok r /\
            answers code r = true.
Proof.
  intros Hknown. unfold result_of at 1. rewrite with_token_run.
  destruct authorization as [a|]; [|by eexists].
  destruct (get_auth_token_cases a) as [->|[token ->]];
    [eexists; split; [done | by vm_compute]|].
  destruct valid; [|by eexists]. apply respond_answers, Hknown.
Qed.

(** The exceptions of the handlers of [OrderService]. *)
Lemma create_order_known order_data token w e :
  result_of (OrderService.create_order order_data token) w = Raise e -> known e = true.
Proof.
  unfold result_of. rewrite OrderService.create_order_cases.
  destruct (verify_user_token token); [|by intros [= <-]]. cbn zeta.
  destruct (ReservationResult.success _); [|by intros [= <-]].
  by destruct (OrderService.build_items _ _ _) as [[? ?]|]; [|intros [= <-]].
Qed.

Lemma get_user_orders_known token status page per_page w e :
  result_of (OrderService.get_user_orders token status page per_page) w = Raise e ->
  known e = true.
Proof.
  unfold result_of. rewrite OrderService.get_user_orders_cases.
  destruct (verify_user_token token); [|by intros [= <-]].
  by repeat case_decide; intros [= <-].
Qed.

Lemma get_order_by_id_known order_id token w e :
  result_of (OrderService.get_order_by_id order_id token) w = Raise e -> known e = true.
Proof.
  unfold result_of. rewrite OrderService.get_order_by_id_cases.
  destruct (verify_user_token token); [|by intros [= <-]].
  destruct (coll_get order_id (orders w)); [|by intros [= <-]].
  by case_bool_decide; [|intros [= <-]].
Qed.

Lemma cancel_order_known order_id token w e :
  result_of (OrderService.cancel_order order_id token) w = Raise e -> known e = true.
Proof.
  unfold result_of. rewrite OrderService.cancel_order_cases.
  destruct (verify_user_token token); [|by intros [= <-]].
  destruct (coll_get order_id (orders w)); [|by intros [= <-]].
  destruct (negb (bool_decide _)); [by intros [= <-]|].
  by destruct (negb (is_cancellable _)); [intros [= <-]|].
Qed.

Lemma update_order_status_known order_id status_update w e :
  result_of (OrderService.update_order_status order_id status_update) w = Raise e ->
  known e = true.
Proof.
  unfold result_of. rewrite OrderService.update_order_status_cases. cbn zeta.
  by destruct (coll_get order_id (orders w)); [|intros [= <-]].
Qed.

Lemma update_payment_status_known order_id payment_update w e :
  result_of (OrderService.update_payment_status order_id payment_update) w = Raise e ->
  known e = true.
Proof.
  unfold result_of. rewrite OrderService.update_payment_status_cases.
  by destruct (coll_get order_id (orders w)); [|intros [= <-]].
Qed.

(** C38.  The application answers every request, in every state: no
    exception leaves it.  The answer is the payload under the status code
    the route declares (201 for a placed order, 200 otherwise), or the
    error envelope under the status code it carries, which is one of 400,
    401, 403, 404 and 500, or the validation error under 422. *)
Theorem handle_answers req w :
  exists r, result_of (handle req) w = Ok r /\ answers (success_code req) r = true.
Proof.
  destruct req; cbn [handle success_code]; try by eexists.
  - apply with_token_answers; intros ? ?; apply create_order_known.
  - apply with_token_answers; intros ? ?; apply get_user_orders_known.
  - apply with_token_answers; intros ? ?; apply get_order_by_id_known.
  - apply with_token_answers; intros ? ?; apply cancel_order_known.
  - apply respond_answers, update_order_status_known.
  - apply respond_answers, update_payment_status_known.
  - unfold get_all_orders, result_of. rewrite validated_run.
    destruct (valid_page page per_page); [|by eexists].
    apply respond_answers. intros e. unfold result_of, all_orders_page, skip_of, floor_div.
    destruct (decide (page = 0 /\ per_page <> 0)); [by intros [= <-]|].
    unfold bind at 1. cbn [ret]. by destruct (decide (per_page = 0)); intros [= <-].
Qed.

(** On the routes that read the token, a request without the
    [Authorization] header is answered 422 by the framework and a header
    that does not start with [Bearer ] is answered 401 with the message of
    [get_auth_token]; in both cases the handler does not run and the state
    is the one before the request. *)
Theorem token_required req a w :
  authorization_of req = Some a ->
  match a with
  | None => handle req w = (Ok validation_error, w)
  | Some h =>
      String.prefix "Bearer " h = false ->
      handle req w =
      (Ok (mkHttpResponse HTTP_401_UNAUTHORIZED
             (ErrorBody "Invalid authorization header format" HTTP_401_UNAUTHORIZED)), w)
  end.
Proof.
  destruct req; intros [= <-]; cbn [handle];
    unfold create_order, get_user_orders, get_order, cancel_order;
    rewrite with_token_run; (destruct authorization as [h|]; [|done]);
    intros Hp; by rewrite (get_auth_token_refused _ Hp).
Qed.

(** The routes that list orders check the page before anything
    else they do: a page below 1, or a page size outside 1..100, is
    answered 422 and nothing is read or written; on the route of the user
    this holds once the token has been read from the header. *)
Theorem invalid_page_unprocessable status payment_status user_id page per_page w :
  valid_page page per_page = false ->
  handle (GET_admin_all status payment_status user_id page per_page) w
    = (Ok validation_error, w) /\
  forall rest,
    handle (GET_orders (Some ("Bearer " +:+ rest)) status page per_page) w
    = (Ok validation_error, w).
Proof.
  intros Hv. split.
  - cbn [handle]. unfold get_all_orders. by rewrite validated_run, Hv.
  - intros rest. cbn [handle]. unfold get_user_orders.
    by rewrite with_token_run, get_auth_token_bearer, Hv.
Qed.

End Routes.
End OrderController.
