(* ===== verification/ProductModel.v ===== *)
(** * The documents and schemas of the product service:
    [src/product_service/app/models/product.py] and
    [src/product_service/app/schemas/product_schemas.py].

    One record per document and per pydantic class, each in a module of
    its name so that the fields keep the names of the source.  The [Field]
    constraints of a class are its [valid] predicate: FastAPI checks it on a
    request body before the route function runs, and the constructor of a
    document ([new_Category], [new_Product]) checks it again.  A length is
    the length of the string in characters; a price or a weight is an exact
    rational, a stock an integer.

    An identifier that travels as a string ([category_id] of a product, a
    path parameter) is the printed form of the allocation index; a lookup
    by such a string ([coll_get_str]) finds the document whose printed
    identifier it is, and nothing when the string is no identifier. *)

From S2P Require Import Prelude Money Json Collection.
From Stdlib Require Import QArith.
Local Close Scope Q_scope.

(** ** Constraints of [Field] *)

(** [gt=0] and [ge=0] on a [float]; the constraints on lengths are
    [length_in] of the prelude. *)
Definition Qpos (q : Q) : bool := Qltb 0 q.
Definition Qnonneg (q : Q) : bool := negb (Qltb q 0).

(** ** Documents *)

Module Category.
Record t : Type := mk {
  id : option nat;
  name : string;
  description : option string;
  is_active : bool;
  created_at : nat;
  updated_at : nat;
}.

Definition valid (c : t) : bool :=
  length_in 2 100 (name c) && opt_ok (length_in 0 500) (description c).

Definition set_id (v : option nat) (c : t) : t :=
  mk v (name c) (description c) (is_active c) (created_at c) (updated_at c).
Definition set_name (v : string) (c : t) : t :=
  mk (id c) v (description c) (is_active c) (created_at c) (updated_at c).
Definition set_description (v : option string) (c : t) : t :=
  mk (id c) (name c) v (is_active c) (created_at c) (updated_at c).
Definition set_is_active (v : bool) (c : t) : t :=
  mk (id c) (name c) (description c) v (created_at c) (updated_at c).
Definition set_updated_at (v : nat) (c : t) : t :=
  mk (id c) (name c) (description c) (is_active c) (created_at c) v.
End Category.

Module Product.
Record t : Type := mk {
  id : option nat;
  name : string;
  description : string;
  price : Q;
  category_id : option string;
  category_name : option string;
  sku : option string;
  stock_quantity : Z;
  is_available : bool;
  is_active : bool;
  image_urls : list string;
  tags : list string;
  weight : option Q;
  dimensions : option dict;
  created_at : nat;
  updated_at : nat;
}.

Definition valid (p : t) : bool :=
  length_in 2 200 (name p) && length_in 10 2000 (description p) && Qpos (price p) &&
  opt_ok (length_in 0 50) (sku p) && bool_decide (0 <= stock_quantity p)%Z &&
  opt_ok Qpos (weight p).

Definition set_id (v : option nat) (p : t) : t :=
  mk v (name p) (description p) (price p) (category_id p) (category_name p) (sku p)
    (stock_quantity p) (is_available p) (is_active p) (image_urls p) (tags p) (weight p)
    (dimensions p) (created_at p) (updated_at p).
Definition set_name (v : string) (p : t) : t :=
  mk (id p) v (description p) (price p) (category_id p) (category_name p) (sku p)
    (stock_quantity p) (is_available p) (is_active p) (image_urls p) (tags p) (weight p)
    (dimensions p) (created_at p) (updated_at p).
Definition set_description (v : string) (p : t) : t :=
  mk (id p) (name p) v (price p) (category_id p) (category_name p) (sku p)
    (stock_quantity p) (is_available p) (is_active p) (image_urls p) (tags p) (weight p)
    (dimensions p) (created_at p) (updated_at p).
Definition set_price (v : Q) (p : t) : t :=
  mk (id p) (name p) (description p) v (category_id p) (category_name p) (sku p)
    (stock_quantity p) (is_available p) (is_active p) (image_urls p) (tags p) (weight p)
    (dimensions p) (created_at p) (updated_at p).
Definition set_category_id (v : option string) (p : t) : t :=
  mk (id p) (name p) (description p) (price p) v (category_name p) (sku p)
    (stock_quantity p) (is_available p) (is_active p) (image_urls p) (tags p) (weight p)
    (dimensions p) (created_at p) (updated_at p).
Definition set_category_name (v : option string) (p : t) : t :=
  mk (id p) (name p) (description p) (price p) (category_id p) v (sku p)
    (stock_quantity p) (is_available p) (is_active p) (image_urls p) (tags p) (weight p)
    (dimensions p) (created_at p) (updated_at p).
Definition set_sku (v : option string) (p : t) : t :=
  mk (id p) (name p) (description p) (price p) (category_id p) (category_name p) v
    (stock_quantity p) (is_available p) (is_active p) (image_urls p) (tags p) (weight p)
    (dimensions p) (created_at p) (updated_at p).
Definition set_stock_quantity (v : Z) (p : t) : t :=
  mk (id p) (name p) (description p) (price p) (category_id p) (category_name p) (sku p)
    v (is_available p) (is_active p) (image_urls p) (tags p) (weight p)
    (dimensions p) (created_at p) (updated_at p).
Definition set_is_available (v : bool) (p : t) : t :=
  mk (id p) (name p) (description p) (price p) (category_id p) (category_name p) (sku p)
    (stock_quantity p) v (is_active p) (image_urls p) (tags p) (weight p)
    (dimensions p) (created_at p) (updated_at p).
Definition set_is_active (v : bool) (p : t) : t :=
  mk (id p) (name p) (description p) (price p) (category_id p) (category_name p) (sku p)
    (stock_quantity p) (is_available p) v (image_urls p) (tags p) (weight p)
    (dimensions p) (created_at p) (updated_at p).
Definition set_image_urls (v : list string) (p : t) : t :=
  mk (id p) (name p) (description p) (price p) (category_id p) (category_name p) (sku p)
    (stock_quantity p) (is_available p) (is_active p) v (tags p) (weight p)
    (dimensions p) (created_at p) (updated_at p).
Definition set_tags (v : list string) (p : t) : t :=
  mk (id p) (name p) (description p) (price p) (category_id p) (category_name p) (sku p)
    (stock_quantity p) (is_available p) (is_active p) (image_urls p) v (weight p)
    (dimensions p) (created_at p) (updated_at p).
Definition set_weight (v : option Q) (p : t) : t :=
  mk (id p) (name p) (description p) (price p) (category_id p) (category_name p) (sku p)
    (stock_quantity p) (is_available p) (is_active p) (image_urls p) (tags p) v
    (dimensions p) (created_at p) (updated_at p).
Definition set_dimensions (v : option dict) (p : t) : t :=
  mk (id p) (name p) (description p) (price p) (category_id p) (category_name p) (sku p)
    (stock_quantity p) (is_available p) (is_active p) (image_urls p) (tags p) (weight p)
    v (created_at p) (updated_at p).
Definition set_updated_at (v : nat) (p : t) : t :=
  mk (id p) (name p) (description p) (price p) (category_id p) (category_name p) (sku p)
    (stock_quantity p) (is_available p) (is_active p) (image_urls p) (tags p) (weight p)
    (dimensions p) (created_at p) v.
End Product.

#[export] Instance Category_document : Document Category.t :=
  {| doc_id := Category.id; with_id := fun i => Category.set_id (Some i);
     doc_id_with_id := fun _ _ => eq_refl |}.

#[export] Instance Product_document : Document Product.t :=
  {| doc_id := Product.id; with_id := fun i => Product.set_id (Some i);
     doc_id_with_id := fun _ _ => eq_refl |}.

(** ** Schemas *)

Module CategoryCreate.
Record t : Type := mk {
  name : string;
  description : option string;
}.
Definition valid (c : t) : bool :=
  length_in 2 100 (name c) && opt_ok (length_in 0 500) (description c).
End CategoryCreate.

Module CategoryUpdate.
Record t : Type := mk {
  name : option string;
  description : option string;
  is_active : option bool;
}.
Definition valid (u : t) : bool :=
  opt_ok (length_in 2 100) (name u) && opt_ok (length_in 0 500) (description u).
End CategoryUpdate.

Module CategoryResponse.
Record t : Type := mk {
  id : string;
  name : string;
  description : option string;
  is_active : bool;
  created_at : nat;
  updated_at : nat;
}.
End CategoryResponse.

Module ProductCreate.
Record t : Type := mk {
  name : string;
  description : string;
  price : Q;
  category_id : option string;
  sku : option string;
  stock_quantity : Z;
  is_available : bool;
  image_urls : list string;
  tags : list string;
  weight : option Q;
  dimensions : option dict;
}.
Definition valid (p : t) : bool :=
  length_in 2 200 (name p) && length_in 10 2000 (description p) && Qpos (price p) &&
  opt_ok (length_in 0 50) (sku p) && bool_decide (0 <= stock_quantity p)%Z &&
  opt_ok Qpos (weight p).
End ProductCreate.

Module ProductUpdate.
Record t : Type := mk {
  name : option string;
  description : option string;
  price : option Q;
  category_id : option string;
  sku : option string;
  stock_quantity : option Z;
  is_available : option bool;
  is_active : option bool;
  image_urls : option (list string);
  tags : option (list string);
  weight : option Q;
  dimensions : option dict;
}.
Definition valid (u : t) : bool :=
  opt_ok (length_in 2 200) (name u) && opt_ok (length_in 10 2000) (description u) &&
  opt_ok Qpos (price u) && opt_ok (length_in 0 50) (sku u) &&
  opt_ok (fun q => bool_decide (0 <= q)%Z) (stock_quantity u) && opt_ok Qpos (weight u).
End ProductUpdate.

Module ProductResponse.
Record t : Type := mk {
  id : string;
  name : string;
  description : string;
  price : Q;
  category_id : option string;
  category_name : option string;
  sku : option string;
  stock_quantity : Z;
  is_available : bool;
  is_active : bool;
  image_urls : list string;
  tags : list string;
  weight : option Q;
  dimensions : option dict;
  created_at : nat;
  updated_at : nat;
}.
End ProductResponse.

Module ProductListResponse.
Record t : Type := mk {
  products : list ProductResponse.t;
  total : nat;
  page : nat;
  per_page : nat;
  total_pages : nat;
}.
End ProductListResponse.

Module ProductSearchQuery.
Record t : Type := mk {
  query : option string;
  category_id : option string;
  min_price : option Q;
  max_price : option Q;
  tags : option (list string);
  is_available : option bool;
  page : nat;
  per_page : nat;
}.
Definition valid (q : t) : bool :=
  opt_ok Qnonneg (min_price q) && opt_ok Qnonneg (max_price q) &&
  bool_decide (1 <= page q) && bool_decide (1 <= per_page q <= 100).
End ProductSearchQuery.

(** The [data] of a [StandardResponse] is the dictionary of a category or
    of a product response. *)
Inductive ResponseData : Type :=
| CategoryData (c : CategoryResponse.t)
| ProductData (p : ProductResponse.t).

Module StandardResponse.
Record t : Type := mk {
  success : bool;
  message : string;
  data : option ResponseData;
}.
End StandardResponse.

(** ** Constructors of the documents *)

Definition validation_failed (model : string) : exn :=
  PyException "ValidationError" ("validation error for " +:+ model).

(** The [Category] built from the keys of [CategoryCreate.dict()]; the two
    timestamp defaults read the clock at [t1] and [t2]. *)
Definition new_Category (d : CategoryCreate.t) (t1 t2 : nat) : Res Category.t :=
  let c := Category.mk None (CategoryCreate.name d) (CategoryCreate.description d) true t1 t2 in
  if Category.valid c then Ok c else Raise (validation_failed "Category").

(** The [Product] built from the keys of [ProductCreate.dict()] and the
    key [category_name] the service adds. *)
Definition new_Product (d : ProductCreate.t) (category_name : option string) (t1 t2 : nat)
    : Res Product.t :=
  let p :=
    Product.mk None (ProductCreate.name d) (ProductCreate.description d) (ProductCreate.price d)
      (ProductCreate.category_id d) category_name (ProductCreate.sku d)
      (ProductCreate.stock_quantity d) (ProductCreate.is_available d) true
      (ProductCreate.image_urls d) (ProductCreate.tags d) (ProductCreate.weight d)
      (ProductCreate.dimensions d) t1 t2 in
  if Product.valid p then Ok p else Raise (validation_failed "Product").

(** ** Lemmas *)

Lemma new_Category_valid d t1 t2 :
  CategoryCreate.valid d = true ->
  new_Category d t1 t2 =
  Ok (Category.mk None (CategoryCreate.name d) (CategoryCreate.description d) true t1 t2).
Proof.
  intros Hv. unfold new_Category. cbv zeta.
  change (Category.valid _) with (CategoryCreate.valid d). by rewrite Hv.
Qed.

Lemma new_Product_valid d category_name t1 t2 :
  ProductCreate.valid d = true ->
  new_Product d category_name t1 t2 =
  Ok (Product.mk None (ProductCreate.name d) (ProductCreate.description d)
        (ProductCreate.price d) (ProductCreate.category_id d) category_name
        (ProductCreate.sku d) (ProductCreate.stock_quantity d) (ProductCreate.is_available d)
        true (ProductCreate.image_urls d) (ProductCreate.tags d) (ProductCreate.weight d)
        (ProductCreate.dimensions d) t1 t2).
Proof.
  intros Hv. unfold new_Product. cbv zeta.
  change (Product.valid _) with (ProductCreate.valid d). by rewrite Hv.
Qed.

(** What a constructor returns is valid, whatever it was given. *)
Lemma new_Product_Ok d category_name t1 t2 p :
  new_Product d category_name t1 t2 = Ok p -> Product.valid p = true /\ Product.id p = None.
Proof. unfold new_Product. case_match eqn:Hv; [|done]. by intros [= <-]. Qed.

Lemma new_Category_Ok d t1 t2 c :
  new_Category d t1 t2 = Ok c -> Category.valid c = true /\ Category.id c = None.
Proof. unfold new_Category. case_match eqn:Hv; [|done]. by intros [= <-]. Qed.

Lemma Product_valid_stock p : Product.valid p = true -> (0 <= Product.stock_quantity p)%Z.
Proof.
  unfold Product.valid. rewrite !andb_true_iff, bool_decide_eq_true. naive_solver.
Qed.

Lemma Product_valid_price p : Product.valid p = true -> (0 < Product.price p)%Q.
Proof.
  unfold Product.valid, Qpos. rewrite !andb_true_iff. intros (((((_ & _) & Hp) & _) & _) & _).
  by apply Qltb_lt.
Qed.
