(* ===== verification/ProductRepository.v ===== *)
(** * The repositories of the product service:
    [src/product_service/app/repositories/product_repository.py].

    The state of the product service process ([Catalog]): the [categories]
    and [products] collections, the Kafka producer and the logical clock.
    Every static method of [CategoryRepository] and [ProductRepository] is
    an action on it.  A method that takes an identifier takes it as the
    string of the path or of the field; [ObjectId(s)] raising on a string
    that is no identifier, caught by [except Exception], is the lookup
    [coll_get_str] finding nothing.

    [update_category] and [update_product] assign the items of a
    dictionary with [setattr]; a dictionary is the list of its items
    ([CategoryField], [ProductField]), in insertion order.  Assignment does
    not validate, so the repositories store what they are given.

    The text search of [search_products] uses Mongo's [$regex] operator,
    which is outside the sources: it is the parameter [regex_search] of
    the class [Mongo]. *)

From S2P Require Import Prelude Money Json Collection Kafka ProductModel.
From Stdlib Require Import QArith.
Local Close Scope Q_scope.
Local Open Scope act_scope.

(** ** The state of the process *)

Record Catalog : Type := mkCatalog {
  categories : Collection Category.t;
  products : Collection Product.t;
  catalog_producer : KafkaProducer;
  catalog_clock : nat;
}.

Definition with_categories (c : Collection Category.t) (w : Catalog) : Catalog :=
  mkCatalog c (products w) (catalog_producer w) (catalog_clock w).
Definition with_products (c : Collection Product.t) (w : Catalog) : Catalog :=
  mkCatalog (categories w) c (catalog_producer w) (catalog_clock w).
Definition with_catalog_producer (k : KafkaProducer) (w : Catalog) : Catalog :=
  mkCatalog (categories w) (products w) k (catalog_clock w).
Definition with_catalog_clock (t : nat) (w : Catalog) : Catalog :=
  mkCatalog (categories w) (products w) (catalog_producer w) t.

(** [datetime.utcnow()]: the reading, and the clock moves on. *)
Definition catalog_utcnow : Act Catalog nat :=
  fun w => (Ok (catalog_clock w), with_catalog_clock (S (catalog_clock w)) w).

(** Mongo's [{"$regex": pattern, "$options": "i"}] on a string field. *)
Class Mongo : Type := {
  regex_search : string -> string -> bool;
}.

(** [await Category.get(ObjectId(s))], [insert], [save], and the same for
    [Product]. *)
Definition Category_get (category_id : string) : Act Catalog (option Category.t) :=
  gets (fun w => coll_get_str category_id (categories w)).

Definition Category_insert (category : Category.t) : Act Catalog Category.t :=
  fun w => let '(c, cs) := coll_insert category (categories w) in (Ok c, with_categories cs w).

Definition Category_save (category : Category.t) : Act Catalog unit :=
  modify (fun w => with_categories (coll_save category (categories w)) w).

Definition Product_get (product_id : string) : Act Catalog (option Product.t) :=
  gets (fun w => coll_get_str product_id (products w)).

Definition Product_insert (product : Product.t) : Act Catalog Product.t :=
  fun w => let '(p, ps) := coll_insert product (products w) in (Ok p, with_products ps w).

Definition Product_save (product : Product.t) : Act Catalog unit :=
  modify (fun w => with_products (coll_save product (products w)) w).

(** ** The class [CategoryRepository] *)

(** One item of the dictionary [update_category] assigns. *)
Inductive CategoryField : Type :=
| Category_name (v : string)
| Category_description (v : string)
| Category_is_active (v : bool).

(** One item of the dictionary [update_product] assigns. *)
Inductive ProductField : Type :=
| Product_name (v : string)
| Product_description (v : string)
| Product_price (v : Q)
| Product_category_id (v : string)
| Product_sku (v : string)
| Product_stock_quantity (v : Z)
| Product_is_available (v : bool)
| Product_is_active (v : bool)
| Product_image_urls (v : list string)
| Product_tags (v : list string)
| Product_weight (v : Q)
| Product_dimensions (v : dict)
| Product_category_name (v : string).

Module CategoryRepository.

Definition create_category (category_data : CategoryCreate.t) : Act Catalog Category.t :=
  t1 <- catalog_utcnow ;;
  t2 <- catalog_utcnow ;;
  category <- of_res (new_Category category_data t1 t2) ;;
  Category_insert category.

Definition get_category_by_id (category_id : string) : Act Catalog (option Category.t) :=
  Category_get category_id.

Definition get_category_by_name (name : string) : Act Catalog (option Category.t) :=
  gets (fun w => coll_find_one (fun c => bool_decide (Category.name c = name)) (categories w)).

Definition get_all_categories (skip limit : nat) (active_only : bool)
    : Act Catalog (list Category.t) :=
  gets (fun w => skip_limit skip limit
                   (if active_only then coll_find Category.is_active (categories w)
                    else docs (categories w))).

(** [setattr(category, field, value)]. *)
Definition setattr (u : CategoryField) (c : Category.t) : Category.t :=
  match u with
  | Category_name v => Category.set_name v c
  | Category_description v => Category.set_description (Some v) c
  | Category_is_active v => Category.set_is_active v c
  end.

Definition update_category (category_id : string) (update_data : list CategoryField)
    : Act Catalog (option Category.t) :=
  found <- Category_get category_id ;;
  match found with
  | Some category =>
      let category := foldl (fun c u => setattr u c) category update_data in
      now <- catalog_utcnow ;;
      let category := Category.set_updated_at now category in
      Category_save category ;;
      ret (Some category)
  | None => ret None
  end.

(** Soft delete: the document stays, inactive. *)
Definition delete_category (category_id : string) : Act Catalog bool :=
  found <- Category_get category_id ;;
  match found with
  | Some category =>
      let category := Category.set_is_active false category in
      now <- catalog_utcnow ;;
      let category := Category.set_updated_at now category in
      Category_save category ;;
      ret true
  | None => ret false
  end.

End CategoryRepository.

(** ** The class [ProductRepository] *)

Module ProductRepository.
Section Queries.
Context `{Mongo}.

Definition create_product (product_data : ProductCreate.t) (category_name : option string)
    : Act Catalog Product.t :=
  t1 <- catalog_utcnow ;;
  t2 <- catalog_utcnow ;;
  product <- of_res (new_Product product_data category_name t1 t2) ;;
  Product_insert product.

Definition get_product_by_id (product_id : string) : Act Catalog (option Product.t) :=
  Product_get product_id.

Definition get_product_by_sku (sku : string) : Act Catalog (option Product.t) :=
  gets (fun w => coll_find_one (fun p => bool_decide (Product.sku p = Some sku)) (products w)).

Definition get_all_products (skip limit : nat) (active_only : bool)
    : Act Catalog (list Product.t) :=
  gets (fun w => skip_limit skip limit
                   (if active_only then coll_find Product.is_active (products w)
                    else docs (products w))).

Definition get_products_by_category (category_id : string) (skip limit : nat)
    : Act Catalog (list Product.t) :=
  gets (fun w => skip_limit skip limit
                   (coll_find (fun p => bool_decide (Product.category_id p = Some category_id)
                                        && Product.is_active p) (products w))).

(** The text filter: the query matches the name or the description as a
    case-insensitive regular expression, or is one of the tags. *)
Definition text_matches (query : string) (p : Product.t) : bool :=
  regex_search query (Product.name p) || regex_search query (Product.description p) ||
  bool_decide (query ∈ Product.tags p).

(** The conjunction of the filters [search_products] collects: a filter
    that is absent (or, for the strings and the list, empty) constrains
    nothing. *)
Definition search_filter (query category_id : option string) (min_price max_price : option Q)
    (tags : option (list string)) (is_available : option bool) (p : Product.t) : bool :=
  Product.is_active p &&
  (if truthy_str query then text_matches (default "" query) p else true) &&
  (if truthy_str category_id then bool_decide (Product.category_id p = category_id) else true) &&
  match min_price with Some m => negb (Qltb (Product.price p) m) | None => true end &&
  match max_price with Some m => negb (Qltb m (Product.price p)) | None => true end &&
  match tags with
  | Some (t :: ts) => existsb (fun x => bool_decide (x ∈ t :: ts)) (Product.tags p)
  | _ => true
  end &&
  match is_available with Some a => Bool.eqb (Product.is_available p) a | None => true end.

Definition search_products (query category_id : option string) (min_price max_price : option Q)
    (tags : option (list string)) (is_available : option bool) (skip limit : nat)
    : Act Catalog (list Product.t) :=
  gets (fun w => skip_limit skip limit
                   (coll_find (search_filter query category_id min_price max_price tags
                                 is_available) (products w))).

(** [count_products(filters)]: without filters, the active products. *)
Definition count_products (filters : option (Product.t -> bool)) : Act Catalog nat :=
  gets (fun w => coll_count (default Product.is_active filters) (products w)).

(** [setattr(product, field, value)]. *)
Definition setattr (u : ProductField) (p : Product.t) : Product.t :=
  match u with
  | Product_name v => Product.set_name v p
  | Product_description v => Product.set_description v p
  | Product_price v => Product.set_price v p
  | Product_category_id v => Product.set_category_id (Some v) p
  | Product_sku v => Product.set_sku (Some v) p
  | Product_stock_quantity v => Product.set_stock_quantity v p
  | Product_is_available v => Product.set_is_available v p
  | Product_is_active v => Product.set_is_active v p
  | Product_image_urls v => Product.set_image_urls v p
  | Product_tags v => Product.set_tags v p
  | Product_weight v => Product.set_weight (Some v) p
  | Product_dimensions v => Product.set_dimensions (Some v) p
  | Product_category_name v => Product.set_category_name (Some v) p
  end.

Definition update_product (product_id : string) (update_data : list ProductField)
    : Act Catalog (option Product.t) :=
  found <- Product_get product_id ;;
  match found with
  | Some product =>
      let product := foldl (fun p u => setattr u p) product update_data in
      now <- catalog_utcnow ;;
      let product := Product.set_updated_at now product in
      Product_save product ;;
      ret (Some product)
  | None => ret None
  end.

(** Soft delete: the document stays, inactive. *)
Definition delete_product (product_id : string) : Act Catalog bool :=
  found <- Product_get product_id ;;
  match found with
  | Some product =>
      let product := Product.set_is_active false product in
      now <- catalog_utcnow ;;
      let product := Product.set_updated_at now product in
      Product_save product ;;
      ret true
  | None => ret false
  end.

(** [update_stock]: the change is refused when it would leave a negative
    quantity; otherwise the quantity and the availability are stored. *)
Definition update_stock (product_id : string) (quantity_change : Z)
    : Act Catalog (option Product.t) :=
  found <- Product_get product_id ;;
  match found with
  | Some product =>
      let new_quantity := (Product.stock_quantity product + quantity_change)%Z in
      if bool_decide (new_quantity < 0)%Z then ret None
      else
        let product := Product.set_stock_quantity new_quantity product in
        let product := Product.set_is_available (bool_decide (0 < new_quantity)%Z) product in
        now <- catalog_utcnow ;;
        let product := Product.set_updated_at now product in
        Product_save product ;;
        ret (Some product)
  | None => ret None
  end.

End Queries.
End ProductRepository.

(** ** Invariant of the state *)

(** The collections are well formed and every stored document satisfies
    the constraints of its model. *)
Definition catalog_wf (w : Catalog) : Prop :=
  coll_wf (categories w) /\ coll_wf (products w) /\
  Forall (fun c => Category.valid c = true) (docs (categories w)) /\
  Forall (fun p => Product.valid p = true) (docs (products w)).

(** ** The pure content of the mutations *)

(** The product [update_stock] stores. *)
Definition restocked (quantity_change : Z) (now : nat) (p : Product.t) : Product.t :=
  let new_quantity := (Product.stock_quantity p + quantity_change)%Z in
  Product.set_updated_at now
    (Product.set_is_available (bool_decide (0 < new_quantity)%Z)
       (Product.set_stock_quantity new_quantity p)).

(** The product [update_product] stores. *)
Definition patched (update_data : list ProductField) (now : nat) (p : Product.t) : Product.t :=
  Product.set_updated_at now (foldl (fun p u => ProductRepository.setattr u p) p update_data).

(** The product [delete_product] stores. *)
Definition retired (now : nat) (p : Product.t) : Product.t :=
  Product.set_updated_at now (Product.set_is_active false p).

(** The state after a product has been saved at the clock's reading. *)
Definition product_stored (p : Product.t) (w : Catalog) : Catalog :=
  with_products (coll_save p (products w)) (with_catalog_clock (S (catalog_clock w)) w).

Definition category_stored (c : Category.t) (w : Catalog) : Catalog :=
  with_categories (coll_save c (categories w)) (with_catalog_clock (S (catalog_clock w)) w).

(** No two products carry the same SKU, unless it is empty, and no two
    categories the same name. *)
Definition sku_unique (w : Catalog) : Prop :=
  unique_key Product.sku truthy_str (products w).

Definition names_unique (w : Catalog) : Prop :=
  unique_key Category.name (fun _ => true) (categories w).

Definition catalog_ok (w : Catalog) : Prop :=
  catalog_wf w /\ sku_unique w /\ names_unique w.

(** The state after a product or a category has been inserted: the
    constructor read the clock twice. *)
Definition product_inserted (p : Product.t) (w : Catalog) : Catalog :=
  with_products (coll_insert p (products w)).2
    (with_catalog_clock (S (S (catalog_clock w))) w).

Definition category_inserted (c : Category.t) (w : Catalog) : Catalog :=
  with_categories (coll_insert c (categories w)).2
    (with_catalog_clock (S (S (catalog_clock w))) w).

(** The constraint the schemas put on an item of an update. *)
Definition field_ok (u : ProductField) : bool :=
  match u with
  | Product_name v => length_in 2 200 v
  | Product_description v => length_in 10 2000 v
  | Product_price v => Qpos v
  | Product_sku v => length_in 0 50 v
  | Product_stock_quantity v => bool_decide (0 <= v)%Z
  | Product_weight v => Qpos v
  | _ => true
  end.

Definition category_field_ok (u : CategoryField) : bool :=
  match u with
  | Category_name v => length_in 2 100 v
  | Category_description v => length_in 0 500 v
  | Category_is_active _ => true
  end.

(** The SKU and the name an update dictionary assigns, if any: the last
    assignment wins. *)
Definition assigned_sku (update_data : list ProductField) : option string :=
  last (omap (fun u => match u with Product_sku v => Some v | _ => None end) update_data).

Definition assigned_name (update_data : list CategoryField) : option string :=
  last (omap (fun u => match u with Category_name v => Some v | _ => None end) update_data).

(** ** The methods, in one equation each *)

Section Runs.
Context `{Mongo}.
Implicit Types (w : Catalog) (p : Product.t) (c : Category.t).

Lemma update_stock_run product_id quantity_change w :
  ProductRepository.update_stock product_id quantity_change w =
  match coll_get_str product_id (products w) with
  | Some p =>
      if bool_decide (Product.stock_quantity p + quantity_change < 0)%Z then (Ok None, w)
      else
        let p' := restocked quantity_change (catalog_clock w) p in
        (Ok (Some p'), product_stored p' w)
  | None => (Ok None, w)
  end.
Proof.
  unfold ProductRepository.update_stock, Product_get, bind, gets.
  destruct (coll_get_str product_id (products w)) as [p|]; [|done].
  by case_bool_decide.
Qed.

Lemma update_product_run product_id update_data w :
  ProductRepository.update_product product_id update_data w =
  match coll_get_str product_id (products w) with
  | Some p =>
      let p' := patched update_data (catalog_clock w) p in (Ok (Some p'), product_stored p' w)
  | None => (Ok None, w)
  end.
Proof.
  unfold ProductRepository.update_product, Product_get, bind, gets.
  by destruct (coll_get_str product_id (products w)) as [p|].
Qed.

Lemma delete_product_run product_id w :
  ProductRepository.delete_product product_id w =
  match coll_get_str product_id (products w) with
  | Some p => (Ok true, product_stored (retired (catalog_clock w) p) w)
  | None => (Ok false, w)
  end.
Proof.
  unfold ProductRepository.delete_product, Product_get, bind, gets.
  by destruct (coll_get_str product_id (products w)) as [p|].
Qed.

Lemma create_product_run product_data category_name w :
  ProductCreate.valid product_data = true ->
  ProductRepository.create_product product_data category_name w =
  let p := Product.mk None (ProductCreate.name product_data)
             (ProductCreate.description product_data) (ProductCreate.price product_data)
             (ProductCreate.category_id product_data) category_name
             (ProductCreate.sku product_data) (ProductCreate.stock_quantity product_data)
             (ProductCreate.is_available product_data) true
             (ProductCreate.image_urls product_data) (ProductCreate.tags product_data)
             (ProductCreate.weight product_data) (ProductCreate.dimensions product_data)
             (catalog_clock w) (S (catalog_clock w)) in
  (Ok (coll_insert p (products w)).1,
   with_products (coll_insert p (products w)).2
     (with_catalog_clock (S (S (catalog_clock w))) w)).
Proof.
  intros Hv. unfold ProductRepository.create_product, bind, catalog_utcnow.
  cbn [catalog_clock with_catalog_clock].
  by rewrite (new_Product_valid _ _ _ _ Hv).
Qed.

Lemma create_category_run category_data w :
  CategoryCreate.valid category_data = true ->
  CategoryRepository.create_category category_data w =
  let c := Category.mk None (CategoryCreate.name category_data)
             (CategoryCreate.description category_data) true
             (catalog_clock w) (S (catalog_clock w)) in
  (Ok (coll_insert c (categories w)).1,
   with_categories (coll_insert c (categories w)).2
     (with_catalog_clock (S (S (catalog_clock w))) w)).
Proof.
  intros Hv. unfold CategoryRepository.create_category, bind, catalog_utcnow.
  cbn [catalog_clock with_catalog_clock].
  by rewrite (new_Category_valid _ _ _ Hv).
Qed.

Lemma update_category_run category_id update_data w :
  CategoryRepository.update_category category_id update_data w =
  match coll_get_str category_id (categories w) with
  | Some c =>
      let c' := Category.set_updated_at (catalog_clock w)
                  (foldl (fun c u => CategoryRepository.setattr u c) c update_data) in
      (Ok (Some c'), category_stored c' w)
  | None => (Ok None, w)
  end.
Proof.
  unfold CategoryRepository.update_category, Category_get, bind, gets.
  by destruct (coll_get_str category_id (categories w)) as [c|].
Qed.

Lemma delete_category_run category_id w :
  CategoryRepository.delete_category category_id w =
  match coll_get_str category_id (categories w) with
  | Some c =>
      (Ok true,
       category_stored (Category.set_updated_at (catalog_clock w)
                          (Category.set_is_active false c)) w)
  | None => (Ok false, w)
  end.
Proof.
  unfold CategoryRepository.delete_category, Category_get, bind, gets.
  by destruct (coll_get_str category_id (categories w)) as [c|].
Qed.

End Runs.

(** ** What an update keeps *)

Section Fields.
Context `{Mongo}.
Implicit Types (p : Product.t) (c : Category.t).

Lemma setattr_id u p : Product.id (ProductRepository.setattr u p) = Product.id p.
Proof. by destruct u. Qed.

Lemma setattr_created_at u p :
  Product.created_at (ProductRepository.setattr u p) = Product.created_at p.
Proof. by destruct u. Qed.

Lemma setattr_valid u p :
  field_ok u = true -> Product.valid p = true ->
  Product.valid (ProductRepository.setattr u p) = true.
Proof.
  destruct u; cbn [field_ok]; intros Hu; unfold Product.valid; cbn;
    rewrite ?andb_true_iff; naive_solver.
Qed.

Lemma setattr_sku u p :
  Product.sku (ProductRepository.setattr u p) =
  match u with Product_sku v => Some v | _ => Product.sku p end.
Proof. by destruct u. Qed.

Lemma patched_id update_data now p : Product.id (patched update_data now p) = Product.id p.
Proof.
  unfold patched. cbn. revert p.
  induction update_data as [|u l IH]; intros p; [done|]. cbn. by rewrite IH, setattr_id.
Qed.

Lemma patched_valid update_data now p :
  Forall (fun u => field_ok u = true) update_data -> Product.valid p = true ->
  Product.valid (patched update_data now p) = true.
Proof.
  unfold patched. intros Hall. change (Product.valid (Product.set_updated_at now ?q))
    with (Product.valid q). revert p.
  induction Hall as [|u l Hu _ IH]; intros p Hp; [done|]. cbn. by apply IH, setattr_valid.
Qed.

Lemma patched_sku update_data now p :
  Product.sku (patched update_data now p) = default (Product.sku p) (Some <$> assigned_sku update_data).
Proof.
  unfold patched, assigned_sku. cbn. revert p.
  induction update_data as [|u l IH] using rev_ind; intros p; [done|].
  rewrite foldl_app, omap_app. cbn. rewrite setattr_sku.
  destruct u; cbn; rewrite ?app_nil_r; try apply IH. by rewrite last_snoc.
Qed.

Lemma restocked_id quantity_change now p :
  Product.id (restocked quantity_change now p) = Product.id p.
Proof. done. Qed.

Lemma restocked_valid quantity_change now p :
  (0 <= Product.stock_quantity p + quantity_change)%Z -> Product.valid p = true ->
  Product.valid (restocked quantity_change now p) = true.
Proof.
  intros Hq. unfold Product.valid. cbn. rewrite !andb_true_iff, !bool_decide_eq_true.
  naive_solver.
Qed.

Lemma retired_valid now p : Product.valid (retired now p) = Product.valid p.
Proof. done. Qed.

Lemma category_setattr_id u c : Category.id (CategoryRepository.setattr u c) = Category.id c.
Proof. by destruct u. Qed.

Lemma category_setattr_valid u c :
  category_field_ok u = true -> Category.valid c = true ->
  Category.valid (CategoryRepository.setattr u c) = true.
Proof.
  destruct u; cbn [category_field_ok]; intros Hu; unfold Category.valid; cbn;
    rewrite ?andb_true_iff; naive_solver.
Qed.

Lemma category_setattr_name u c :
  Category.name (CategoryRepository.setattr u c) =
  match u with Category_name v => v | _ => Category.name c end.
Proof. by destruct u. Qed.

Lemma category_foldl_id update_data c :
  Category.id (foldl (fun c u => CategoryRepository.setattr u c) c update_data) = Category.id c.
Proof.
  revert c. induction update_data as [|u l IH]; intros c; [done|].
  cbn. by rewrite IH, category_setattr_id.
Qed.

Lemma category_foldl_valid update_data c :
  Forall (fun u => category_field_ok u = true) update_data -> Category.valid c = true ->
  Category.valid (foldl (fun c u => CategoryRepository.setattr u c) c update_data) = true.
Proof.
  intros Hall. revert c.
  induction Hall as [|u l Hu _ IH]; intros c Hc; [done|]. cbn. by apply IH, category_setattr_valid.
Qed.

Lemma category_foldl_name update_data c :
  Category.name (foldl (fun c u => CategoryRepository.setattr u c) c update_data) =
  default (Category.name c) (assigned_name update_data).
Proof.
  unfold assigned_name. revert c.
  induction update_data as [|u l IH] using rev_ind; intros c; [done|].
  rewrite foldl_app, omap_app. cbn. rewrite category_setattr_name.
  destruct u; cbn; rewrite ?app_nil_r; try apply IH. by rewrite last_snoc.
Qed.

End Fields.

(** ** The invariant under a store *)

Section Stores.
Implicit Types (w : Catalog) (p : Product.t) (c : Category.t).

(** Saving a valid product over the stored one keeps the invariant when
    its SKU is the stored one's, is empty, or is carried by no product. *)
Lemma product_stored_ok s p p' w :
  catalog_ok w -> coll_get_str s (products w) = Some p ->
  Product.id p' = Product.id p -> Product.valid p' = true ->
  (Product.sku p' = Product.sku p \/ truthy_str (Product.sku p') = false \/
   forall x, x ∈ docs (products w) -> Product.sku x <> Product.sku p') ->
  catalog_ok (product_stored p' w).
Proof.
  intros ((Hc & Hp & Hvc & Hvp) & Hsku & Hnames) Hget Hid Hv Hcase.
  destruct (coll_save_str_docs s p p' _ Hp Hget Hid) as (i & Hi & Hdocs & Hwf').
  unfold catalog_ok, catalog_wf. split_and!; [done | done | done | | | exact Hnames].
  - by apply (Forall_coll_save_str _ s p).
  - by apply (unique_key_save _ _ s p).
Qed.

(** Inserting a valid product keeps the invariant when its SKU is empty
    or carried by no product. *)
Lemma product_inserted_ok p w :
  catalog_ok w -> Product.valid p = true ->
  (truthy_str (Product.sku p) = false \/
   forall x, x ∈ docs (products w) -> Product.sku x <> Product.sku p) ->
  catalog_ok (product_inserted p w).
Proof.
  intros ((Hc & Hp & Hvc & Hvp) & Hsku & Hnames) Hv Hcase.
  unfold catalog_ok, catalog_wf.
  split_and!; [done | exact (coll_insert_wf _ _ Hp) | done | | | exact Hnames].
  - by apply Forall_coll_insert.
  - by apply unique_key_insert.
Qed.

(** The same for a category and its name. *)
Lemma category_stored_ok s c c' w :
  catalog_ok w -> coll_get_str s (categories w) = Some c ->
  Category.id c' = Category.id c -> Category.valid c' = true ->
  (Category.name c' = Category.name c \/
   forall x, x ∈ docs (categories w) -> Category.name x <> Category.name c') ->
  catalog_ok (category_stored c' w).
Proof.
  intros ((Hc & Hp & Hvc & Hvp) & Hsku & Hnames) Hget Hid Hv Hcase.
  destruct (coll_save_str_docs s c c' _ Hc Hget Hid) as (i & Hi & Hdocs & Hwf').
  unfold catalog_ok, catalog_wf. split_and!; [done | done | | done | exact Hsku |].
  - by apply (Forall_coll_save_str _ s c).
  - apply (unique_key_save _ _ s c); [done..|]. destruct Hcase; auto.
Qed.

Lemma category_inserted_ok c w :
  catalog_ok w -> Category.valid c = true ->
  (forall x, x ∈ docs (categories w) -> Category.name x <> Category.name c) ->
  catalog_ok (category_inserted c w).
Proof.
  intros ((Hc & Hp & Hvc & Hvp) & Hsku & Hnames) Hv Hfresh.
  unfold catalog_ok, catalog_wf.
  split_and!; [exact (coll_insert_wf _ _ Hc) | done | | done | exact Hsku |].
  - by apply Forall_coll_insert.
  - apply unique_key_insert; [done..|]. by right.
Qed.

(** [find_one] finding nothing says no stored document satisfies the
    query. *)
Lemma no_sku_found sku w x :
  coll_find_one (fun p => bool_decide (Product.sku p = Some sku)) (products w) = None ->
  x ∈ docs (products w) -> Product.sku x <> Some sku.
Proof. apply (find_one_key_None Product.sku). Qed.

Lemma no_name_found name w x :
  coll_find_one (fun c => bool_decide (Category.name c = name)) (categories w) = None ->
  x ∈ docs (categories w) -> Category.name x <> name.
Proof. apply (find_one_key_None Category.name). Qed.

End Stores.
