(* ===== verification/EventLoop.v ===== *)
(** * The event loop.

    The handlers of a service are coroutines of one asyncio event loop:
    between two awaits a task runs alone, at an await the loop may resume
    another task.  A coroutine is given here by its [resume], which runs a
    task to its next await; a [turn] resumes one task of the pool in
    flight and a [schedule] is the order in which the loop resumes them.

    The section [Invariant] is the rule by which a property of the state
    is shown to hold under every schedule: it is enough that resuming one
    task keeps it, together with what the tasks in flight have learned of
    the state. *)

From S2P Require Import Prelude.
Local Open Scope act_scope.

Section EventLoop.
Context {W T : Type} (resume : T -> Act W T).
Implicit Types (w : W) (t : T) (pool : list T) (turns : list nat).

(** The tasks in flight; a turn resumes one of them. *)
Definition turn (i : nat) pool : Act W (list T) :=
  match pool !! i with
  | Some t => t' <- resume t ;; ret (<[i := t']> pool)
  | None => ret pool
  end.

Fixpoint schedule turns pool : Act W (list T) :=
  match turns with
  | [] => ret pool
  | i :: turns => pool' <- turn i pool ;; schedule turns pool'
  end.

(** One turn of a schedule, given what the task resumed does. *)
Lemma schedule_cons i turns pool w t t' w' :
  pool !! i = Some t -> resume t w = (Ok t', w') ->
  schedule (i :: turns) pool w = schedule turns (<[i:=t']> pool) w'.
Proof.
  intros Hi Hr. cbn [schedule]. unfold bind at 1, turn. rewrite Hi. unfold bind. by rewrite Hr.
Qed.

(** A turn that names no task of the pool changes nothing. *)
Lemma schedule_idle i turns pool w :
  pool !! i = None -> schedule (i :: turns) pool w = schedule turns pool w.
Proof. intros Hi. cbn [schedule]. unfold bind, turn. by rewrite Hi. Qed.

Section Invariant.
Context (inv : W -> Prop) (task_ok : W -> T -> Prop).
Context (Htotal : forall t w, exists t', result_of (resume t) w = Ok t').
Context (Hkeeps : forall t w,
  inv w -> task_ok w t ->
  inv (state_after (resume t) w) /\
  (forall t', result_of (resume t) w = Ok t' -> task_ok (state_after (resume t) w) t') /\
  (forall t0, task_ok w t0 -> task_ok (state_after (resume t) w) t0)).

Lemma turn_ok i pool w :
  inv w -> Forall (task_ok w) pool ->
  exists pool', turn i pool w = (Ok pool', state_after (turn i pool) w) /\
    length pool' = length pool /\
    inv (state_after (turn i pool) w) /\
    Forall (task_ok (state_after (turn i pool) w)) pool'.
Proof.
  intros Hinv Hpool. unfold turn, state_after.
  destruct (pool !! i) as [t|] eqn:Hi; [|by exists pool].
  pose proof (Forall_lookup_1 _ _ _ _ Hpool Hi) as Ht.
  destruct (Htotal t w) as [t' Hr]. destruct (Hkeeps t w Hinv Ht) as (Hinv' & Hnew & Hold).
  unfold bind, result_of, state_after in *. destruct (resume t w) as [r w']. cbn in *. subst r.
  exists (<[i:=t']> pool). rewrite length_insert. split_and!; [done..|].
  apply Forall_insert; [|by apply Hnew]. eapply Forall_impl; [exact Hpool|exact Hold].
Qed.

(** Every schedule returns, with as many tasks as it was given, and
    keeps the invariant. *)
Lemma schedule_ok turns pool w :
  inv w -> Forall (task_ok w) pool ->
  exists pool', schedule turns pool w = (Ok pool', state_after (schedule turns pool) w) /\
    length pool' = length pool /\
    inv (state_after (schedule turns pool) w) /\
    Forall (task_ok (state_after (schedule turns pool) w)) pool'.
Proof.
  revert pool w. induction turns as [|i turns IH]; intros pool w Hinv Hpool; [by exists pool|].
  destruct (turn_ok i pool w Hinv Hpool) as (pool1 & Hturn & Hlen & Hinv1 & Hpool1).
  destruct (IH pool1 _ Hinv1 Hpool1) as (pool' & Hrun & Hlen' & Hinv' & Hpool').
  unfold state_after in *. cbn [schedule]. unfold bind. rewrite Hturn.
  exists pool'. split_and!; [by rewrite Hrun|congruence|done|done].
Qed.

End Invariant.
End EventLoop.

(** Two schedules of two tasks of two awaits each: the second task
    resumed between the two awaits of the first, and one task after the
    other. *)
Definition interleaved : list nat := [0; 1; 0; 1].
Definition in_turn : list nat := [0; 0; 1; 1].

(** One turn of a schedule, given what the task resumed does. *)
Ltac resumes i H := erewrite (schedule_cons _ i); [|reflexivity|exact H].
