(* ===== verification/StockRace.v ===== *)
(** * Concurrent stock updates.

    [ProductRepository.update_stock] of
    [src/product_service/app/repositories/product_repository.py] reads the
    product, computes the new quantity and saves the product, with an
    [await] at the read and one at the save.  Requests of the product
    service run as tasks of one event loop: between two awaits a task runs
    alone, at an await another task may run.  No lock and no transaction
    spans the two awaits.

    Here a call is a [StockUpdate.Task] resumed one await at a time, by the
    event loop of [EventLoop]; a schedule is the order in which the loop
    resumes the tasks of a pool.  Resumed without interruption a task is
    [update_stock] itself.
    Under every schedule the catalogue stays well formed and no stock
    becomes negative: each task saves a quantity it has checked.  But the
    quantity it saves is computed from the product it read, so an update
    that is saved between its read and its save is lost. *)

From S2P Require Import Prelude Money Json Collection Http Kafka Events ProductModel.
From S2P Require Import ProductRepository EventLoop.
Local Open Scope act_scope.

(** ** A call, await by await *)

Module StockUpdate.

Inductive Task : Type :=
(** called, not yet past [await Product.get] *)
| Called (product_id : string) (quantity_change : Z)
(** past the read and the check, at [await product.save()] with the
    product it is about to write *)
| Saving (product : Product.t)
| Returned (result : option Product.t).

(** The task runs to its next await. *)
Definition resume (t : Task) : Act Catalog Task :=
  match t with
  | Called product_id quantity_change =>
      found <- Product_get product_id ;;
      match found with
      | Some product =>
          let new_quantity := (Product.stock_quantity product + quantity_change)%Z in
          if bool_decide (new_quantity < 0)%Z then ret (Returned None)
          else
            let product := Product.set_stock_quantity new_quantity product in
            let product :=
              Product.set_is_available (bool_decide (0 < new_quantity)%Z) product in
            now <- catalog_utcnow ;;
            let product := Product.set_updated_at now product in
            ret (Saving product)
      | None => ret (Returned None)
      end
  | Saving product => Product_save product ;; ret (Returned (Some product))
  | Returned result => ret (Returned result)
  end.

End StockUpdate.
Import StockUpdate.

(** ** What the tasks keep *)

(** A task at its save holds a valid product under a stored identifier. *)
Definition task_ok (w : Catalog) (t : Task) : Prop :=
  match t with
  | Saving p =>
      Product.valid p = true /\
      exists s p0, coll_get_str s (products w) = Some p0 /\ Product.id p = Product.id p0
  | _ => True
  end.

Definition stocks_ok (w : Catalog) : Prop :=
  Forall (fun p => (0 <= Product.stock_quantity p)%Z) (docs (products w)).

Section Race.
Implicit Types (w : Catalog) (t : Task) (pool : list Task) (p : Product.t).

(** ** One task alone *)

Lemma resume_called product_id quantity_change w :
  resume (Called product_id quantity_change) w =
  match coll_get_str product_id (products w) with
  | Some p =>
      if bool_decide (Product.stock_quantity p + quantity_change < 0)%Z
      then (Ok (Returned None), w)
      else (Ok (Saving (restocked quantity_change (catalog_clock w) p)),
            with_catalog_clock (S (catalog_clock w)) w)
  | None => (Ok (Returned None), w)
  end.
Proof.
  unfold resume, Product_get, bind, gets.
  destruct (coll_get_str product_id (products w)) as [p|]; [|done]. by case_bool_decide.
Qed.

Lemma resume_saving p w :
  resume (Saving p) w = (Ok (Returned (Some p)), with_products (coll_save p (products w)) w).
Proof. done. Qed.

Lemma resume_total t w : exists t', result_of (resume t) w = Ok t'.
Proof.
  destruct t as [product_id quantity_change|p|r]; unfold result_of;
    rewrite ?resume_called, ?resume_saving; [|by eexists..].
  destruct (coll_get_str _ _) as [p|]; [|by eexists]. case_bool_decide; by eexists.
Qed.

(** Resumed twice without interruption, a call is [update_stock]. *)
Theorem update_stock_by_awaits product_id quantity_change w :
  (t <- resume (Called product_id quantity_change) ;; resume t) w =
  (r <- ProductRepository.update_stock product_id quantity_change ;; ret (Returned r)) w.
Proof.
  unfold bind. rewrite resume_called, update_stock_run.
  destruct (coll_get_str product_id (products w)) as [p|]; [|done].
  by case_bool_decide.
Qed.

(** ** Every schedule *)

Lemma task_ok_clock n w t : task_ok w t -> task_ok (with_catalog_clock n w) t.
Proof. by destruct t. Qed.

Lemma catalog_wf_clock n w : catalog_wf w -> catalog_wf (with_catalog_clock n w).
Proof. done. Qed.

(** A save by one task keeps the product of every other task stored. *)
Lemma task_ok_save p w t :
  coll_wf (products w) -> task_ok w (Saving p) -> task_ok w t ->
  task_ok (with_products (coll_save p (products w)) w) t.
Proof.
  intros Hwf (_ & s & p0 & Hget & Hid) Ht. destruct t as [| p1 |]; [done| |done].
  destruct Ht as (Hv1 & s1 & p01 & Hget1 & Hid1). split; [done|]. cbn [products with_products].
  destruct (decide (s1 = s)) as [->|Hne].
  - exists s, p. split; [by apply (coll_get_str_save_eq s p0)|]. congruence.
  - exists s1, p01. split; [|done]. by rewrite (coll_get_str_save_ne s s1 p0).
Qed.

Lemma catalog_wf_save p w :
  catalog_wf w -> task_ok w (Saving p) ->
  catalog_wf (with_products (coll_save p (products w)) w).
Proof.
  intros (Hc & Hp & Hvc & Hvp) (Hv & s & p0 & Hget & Hid).
  destruct (coll_save_str_docs s p0 p _ Hp Hget Hid) as (i & _ & _ & Hwf').
  split_and!; [done|done|done|]. by apply (Forall_coll_save_str _ s p0).
Qed.

(** One turn keeps the catalogue well formed and the tasks in order. *)
Lemma resume_ok t w :
  catalog_wf w -> task_ok w t ->
  catalog_wf (state_after (resume t) w) /\
  (forall t', result_of (resume t) w = Ok t' -> task_ok (state_after (resume t) w) t') /\
  (forall t0, task_ok w t0 -> task_ok (state_after (resume t) w) t0).
Proof.
  intros Hwf Ht. destruct t as [product_id quantity_change|p|r]; unfold result_of, state_after.
  - rewrite resume_called.
    destruct (coll_get_str _ _) as [p|] eqn:Hget; [|by split_and!; [|intros ? [= <-]|]].
    case_bool_decide as Hq; [by split_and!; [|intros ? [= <-]|]|]. cbn [fst snd].
    split_and!; [done| |intros t0; apply task_ok_clock].
    intros t' [= <-]. split; [|by exists product_id, p].
    apply restocked_valid; [lia|]. destruct Hwf as (_ & _ & _ & Hvp).
    rewrite Forall_forall in Hvp. by apply Hvp, (coll_get_str_Some product_id).
  - rewrite resume_saving. cbn [fst snd].
    split_and!; [by apply catalog_wf_save|by intros t' [= <-]|].
    intros t0. apply task_ok_save; [by destruct Hwf as (_ & ? & _)|done].
  - by split_and!; [|intros ? [= <-]|].
Qed.

Lemma catalog_wf_stocks w : catalog_wf w -> stocks_ok w.
Proof.
  intros (_ & _ & _ & Hvp). eapply Forall_impl; [exact Hvp|]. apply Product_valid_stock.
Qed.

(** C19.  Whatever calls of [update_stock] are in flight and in whatever order
    the event loop resumes them, it returns a pool of as many tasks, the
    catalogue stays well formed (unique identifiers, valid documents) and
    no product is left with a negative stock. *)
Theorem schedule_keeps_stock calls turns w :
  catalog_wf w ->
  let pool := (fun c : string * Z => Called c.1 c.2) <$> calls in
  exists pool',
    schedule resume turns pool w = (Ok pool', state_after (schedule resume turns pool) w) /\
    length pool' = length calls /\
    catalog_wf (state_after (schedule resume turns pool) w) /\
    stocks_ok (state_after (schedule resume turns pool) w).
Proof.
  intros Hwf pool.
  destruct (schedule_ok resume catalog_wf task_ok resume_total resume_ok turns pool w Hwf)
    as (pool' & Hrun & Hlen & Hwf' & _).
  { apply Forall_fmap, Forall_true. done. }
  exists pool'. unfold pool in Hlen. rewrite length_fmap in Hlen.
  split_and!; [done..|by apply catalog_wf_stocks].
Qed.

(** ** The lost update *)

(** Two calls on the same product, under the schedule [interleaved] (the
    second resumed between the read and the save of the first) and under
    [in_turn]. *)

Lemma resume_accepted product_id c p w :
  coll_get_str product_id (products w) = Some p -> (0 <= Product.stock_quantity p + c)%Z ->
  resume (Called product_id c) w =
  (Ok (Saving (restocked c (catalog_clock w) p)), with_catalog_clock (S (catalog_clock w)) w).
Proof. intros Hget Hc. by rewrite resume_called, Hget, bool_decide_eq_false_2 by lia. Qed.

Lemma resume_refused product_id c p w :
  coll_get_str product_id (products w) = Some p -> (Product.stock_quantity p + c < 0)%Z ->
  resume (Called product_id c) w = (Ok (Returned None), w).
Proof. intros Hget Hc. by rewrite resume_called, Hget, bool_decide_eq_true_2 by lia. Qed.

(** A product saved over a stored one is found under its identifier. *)
Lemma saved_found product_id p p' (c : Collection Product.t) :
  coll_wf c -> coll_get_str product_id c = Some p -> Product.id p' = Product.id p ->
  coll_wf (coll_save p' c) /\ coll_get_str product_id (coll_save p' c) = Some p'.
Proof.
  intros Hwf Hget Hid. split; [|by apply (coll_get_str_save_eq product_id p)].
  by destruct (coll_save_str_docs product_id p p' c Hwf Hget Hid) as (i & _ & _ & Hwf').
Qed.

Section Runs.
Context (product_id : string) (c1 c2 : Z) (p : Product.t) (w : Catalog).
Context (Hwf : coll_wf (products w)) (Hget : coll_get_str product_id (products w) = Some p).
Context (H1 : (0 <= Product.stock_quantity p + c1)%Z).

Let p1 : Product.t := restocked c1 (catalog_clock w) p.
Let w1 : Catalog := with_catalog_clock (S (catalog_clock w)) w.
Let pool : list Task := [Called product_id c1; Called product_id c2].

(** The second call reads before the first has saved. *)
Lemma interleaved_run :
  (0 <= Product.stock_quantity p + c2)%Z ->
  let p2 := restocked c2 (S (catalog_clock w)) p in
  schedule resume interleaved pool w =
  (Ok [Returned (Some p1); Returned (Some p2)],
   with_products (coll_save p2 (coll_save p1 (products w)))
     (with_catalog_clock (S (S (catalog_clock w))) w)).
Proof.
  intros H2 p2. unfold interleaved, pool.
  resumes 0 (resume_accepted product_id c1 p w Hget H1).
  resumes 1 (resume_accepted product_id c2 p w1 Hget H2).
  resumes 0 (resume_saving p1 (with_catalog_clock (S (S (catalog_clock w))) w1)).
  by resumes 1 (resume_saving p2 (with_products (coll_save p1 (products w))
                                    (with_catalog_clock (S (S (catalog_clock w))) w1))).
Qed.

(** The second call reads what the first has saved. *)
Lemma in_turn_run :
  schedule resume in_turn pool w =
  if bool_decide (Product.stock_quantity p1 + c2 < 0)%Z
  then (Ok [Returned (Some p1); Returned None], with_products (coll_save p1 (products w)) w1)
  else
    let p12 := restocked c2 (S (catalog_clock w)) p1 in
    (Ok [Returned (Some p1); Returned (Some p12)],
     with_products (coll_save p12 (coll_save p1 (products w)))
       (with_catalog_clock (S (S (catalog_clock w))) w)).
Proof.
  destruct (saved_found product_id p p1 _ Hwf Hget eq_refl) as [_ Hget1].
  unfold in_turn, pool.
  resumes 0 (resume_accepted product_id c1 p w Hget H1).
  resumes 0 (resume_saving p1 w1).
  set (w2 := with_products _ _). case_bool_decide as Hq.
  - by resumes 1 (resume_refused product_id c2 p1 w2 Hget1 Hq).
  - resumes 1 (resume_accepted product_id c2 p1 w2 Hget1 ltac:(lia)).
    by resumes 1 (resume_saving (restocked c2 (catalog_clock w2) p1)
                    (with_catalog_clock (S (catalog_clock w2)) w2)).
Qed.

End Runs.

(** C17.  Two changes that each leave the stock of a stored product at zero or
    above are both accepted when the calls interleave, whatever their sum,
    and the product is left with the stock of the second alone: the first
    change is lost.  One after the other, the second is applied to the
    stock the first left. *)
Theorem update_stock_lost_update product_id c1 c2 p w :
  coll_wf (products w) -> coll_get_str product_id (products w) = Some p ->
  (0 <= Product.stock_quantity p + c1)%Z -> (0 <= Product.stock_quantity p + c2)%Z ->
  let pool := [Called product_id c1; Called product_id c2] in
  let p1 := restocked c1 (catalog_clock w) p in
  let p2 := restocked c2 (S (catalog_clock w)) p in
  result_of (schedule resume interleaved pool) w
  = Ok [Returned (Some p1); Returned (Some p2)] /\
  coll_get_str product_id (products (state_after (schedule resume interleaved pool) w))
  = Some p2 /\
  Product.stock_quantity p2 = (Product.stock_quantity p + c2)%Z /\
  coll_get_str product_id (products (state_after (schedule resume in_turn pool) w)) =
    if bool_decide (Product.stock_quantity p + c1 + c2 < 0)%Z then Some p1
    else Some (restocked c2 (S (catalog_clock w)) p1).
Proof.
  intros Hwf Hget H1 H2 pool p1 p2. subst pool.
  destruct (saved_found product_id p p1 _ Hwf Hget eq_refl) as [Hwf1 Hget1].
  unfold result_of, state_after.
  rewrite (interleaved_run product_id c1 c2 p w Hget H1 H2). cbn [fst snd products with_products].
  split_and!; [done| |done|].
  - by apply (saved_found product_id p1).
  - rewrite (in_turn_run product_id c1 c2 p w Hwf Hget H1). fold p1.
    change (Product.stock_quantity p + c1 + c2)%Z with (Product.stock_quantity p1 + c2)%Z.
    case_bool_decide; [done|]. cbn [snd products with_products].
    by apply (saved_found product_id p1).
Qed.

End Race.
