(* ===== verification/ProductService.v ===== *)
(** * The service layer of the product service:
    [src/product_service/app/services/product_service.py].

    The methods of [CategoryService] and [ProductService] as actions on
    [Catalog], composed from the repositories the way the source composes
    them: the same lookups in the same order, the same exceptions.  An
    [if x:] on an optional string is Python truthiness ([truthy_str]): an
    empty SKU or category identifier skips the check it guards.

    The lemmas named [_cases] give each method in one equation; the
    theorems state what the service guarantees: a stock that never goes
    negative, uniqueness of SKUs and of category names, soft deletion, and
    what the paginated answers count. *)

From S2P Require Import Prelude Money Json Collection Http Kafka ProductModel.
From S2P Require Import ProductRepository.
From Stdlib Require Import QArith.
Local Close Scope Q_scope.
Local Open Scope act_scope.

(** ** Responses *)

Definition category_response (category : Category.t) : CategoryResponse.t :=
  CategoryResponse.mk (str_id (Category.id category)) (Category.name category)
    (Category.description category) (Category.is_active category)
    (Category.created_at category) (Category.updated_at category).

Definition product_response (product : Product.t) : ProductResponse.t :=
  ProductResponse.mk (str_id (Product.id product)) (Product.name product)
    (Product.description product) (Product.price product) (Product.category_id product)
    (Product.category_name product) (Product.sku product) (Product.stock_quantity product)
    (Product.is_available product) (Product.is_active product) (Product.image_urls product)
    (Product.tags product) (Product.weight product) (Product.dimensions product)
    (Product.created_at product) (Product.updated_at product).

(** ** The dictionaries of the updates *)

(** [{k: v for k, v in update_data.dict().items() if v is not None}]. *)
Definition category_update_dict (u : CategoryUpdate.t) : list CategoryField :=
  omap id [Category_name <$> CategoryUpdate.name u;
           Category_description <$> CategoryUpdate.description u;
           Category_is_active <$> CategoryUpdate.is_active u].

Definition product_update_dict (u : ProductUpdate.t) : list ProductField :=
  omap id [Product_name <$> ProductUpdate.name u;
           Product_description <$> ProductUpdate.description u;
           Product_price <$> ProductUpdate.price u;
           Product_category_id <$> ProductUpdate.category_id u;
           Product_sku <$> ProductUpdate.sku u;
           Product_stock_quantity <$> ProductUpdate.stock_quantity u;
           Product_is_available <$> ProductUpdate.is_available u;
           Product_is_active <$> ProductUpdate.is_active u;
           Product_image_urls <$> ProductUpdate.image_urls u;
           Product_tags <$> ProductUpdate.tags u;
           Product_weight <$> ProductUpdate.weight u;
           Product_dimensions <$> ProductUpdate.dimensions u].

(** ** The exceptions *)

Definition category_exists : exn :=
  HTTPException HTTP_400_BAD_REQUEST "Category with this name already exists".
Definition category_not_found : exn := HTTPException HTTP_404_NOT_FOUND "Category not found".
Definition category_update_failed : exn :=
  HTTPException HTTP_500_INTERNAL_SERVER_ERROR "Failed to update category".
Definition category_delete_failed : exn :=
  HTTPException HTTP_500_INTERNAL_SERVER_ERROR "Failed to delete category".
Definition sku_exists : exn :=
  HTTPException HTTP_400_BAD_REQUEST "Product with this SKU already exists".
Definition unknown_category : exn := HTTPException HTTP_400_BAD_REQUEST "Category not found".
Definition product_not_found : exn := HTTPException HTTP_404_NOT_FOUND "Product not found".
Definition product_update_failed : exn :=
  HTTPException HTTP_500_INTERNAL_SERVER_ERROR "Failed to update product".
Definition product_delete_failed : exn :=
  HTTPException HTTP_500_INTERNAL_SERVER_ERROR "Failed to delete product".
Definition stock_refused : exn :=
  HTTPException HTTP_400_BAD_REQUEST "Product not found or insufficient stock".

(** ** The class [CategoryService] *)

Module CategoryService.

Definition create_category (category_data : CategoryCreate.t) : Act Catalog CategoryResponse.t :=
  existing_category <-
    CategoryRepository.get_category_by_name (CategoryCreate.name category_data) ;;
  raise_if (bool_decide (is_Some existing_category)) category_exists ;;
  category <- CategoryRepository.create_category category_data ;;
  ret (category_response category).

Definition get_category_by_id (category_id : string) : Act Catalog CategoryResponse.t :=
  category <- CategoryRepository.get_category_by_id category_id ;;
  match category with
  | None => raise category_not_found
  | Some category => ret (category_response category)
  end.

Definition get_all_categories (skip limit : nat) (active_only : bool)
    : Act Catalog (list CategoryResponse.t) :=
  categories <- CategoryRepository.get_all_categories skip limit active_only ;;
  ret (category_response <$> categories).

Definition update_category (category_id : string) (update_data : CategoryUpdate.t)
    : Act Catalog CategoryResponse.t :=
  existing_category <- CategoryRepository.get_category_by_id category_id ;;
  match existing_category with
  | None => raise category_not_found
  | Some existing_category =>
      (if truthy_str (CategoryUpdate.name update_data)
          && negb (bool_decide (CategoryUpdate.name update_data
                                = Some (Category.name existing_category)))
       then
         name_conflict <-
           CategoryRepository.get_category_by_name (default "" (CategoryUpdate.name update_data)) ;;
         raise_if (bool_decide (is_Some name_conflict)) category_exists
       else ret tt) ;;
      let update_dict := category_update_dict update_data in
      updated_category <- CategoryRepository.update_category category_id update_dict ;;
      match updated_category with
      | None => raise category_update_failed
      | Some updated_category => ret (category_response updated_category)
      end
  end.

Definition delete_category (category_id : string) : Act Catalog string :=
  category <- CategoryRepository.get_category_by_id category_id ;;
  match category with
  | None => raise category_not_found
  | Some _ =>
      success <- CategoryRepository.delete_category category_id ;;
      raise_if (negb success) category_delete_failed ;;
      ret "Category deleted successfully"
  end.

End CategoryService.

(** ** The class [ProductService] *)

Module ProductService.
Section Handlers.
Context `{Mongo}.

Definition create_product (product_data : ProductCreate.t) : Act Catalog ProductResponse.t :=
  (if truthy_str (ProductCreate.sku product_data) then
     existing_product <-
       ProductRepository.get_product_by_sku (default "" (ProductCreate.sku product_data)) ;;
     raise_if (bool_decide (is_Some existing_product)) sku_exists
   else ret tt) ;;
  category_name <-
    (if truthy_str (ProductCreate.category_id product_data) then
       category <- CategoryRepository.get_category_by_id
                     (default "" (ProductCreate.category_id product_data)) ;;
       match category with
       | None => raise unknown_category
       | Some category => ret (Some (Category.name category))
       end
     else ret None) ;;
  product <- ProductRepository.create_product product_data category_name ;;
  ret (product_response product).

Definition get_product_by_id (product_id : string) : Act Catalog ProductResponse.t :=
  product <- ProductRepository.get_product_by_id product_id ;;
  match product with
  | Some product =>
      if negb (Product.is_active product) then raise product_not_found
      else ret (product_response product)
  | None => raise product_not_found
  end.

(** [page = skip // limit + 1] and [total_pages = math.ceil(total / limit)]:
    both divisions raise on a limit of 0. *)
Definition get_all_products (skip limit : nat) : Act Catalog ProductListResponse.t :=
  products <- ProductRepository.get_all_products skip limit true ;;
  total <- ProductRepository.count_products None ;;
  let product_responses := product_response <$> products in
  page <- floor_div skip limit ;;
  total_pages <- floor_div (total + limit - 1) limit ;;
  ret (ProductListResponse.mk product_responses total (page + 1) limit total_pages).

(** [total = len(products)]: the number of products of the page. *)
Definition search_products (search_query : ProductSearchQuery.t)
    : Act Catalog ProductListResponse.t :=
  skip <- skip_of (ProductSearchQuery.page search_query)
            (ProductSearchQuery.per_page search_query) ;;
  products <-
    ProductRepository.search_products (ProductSearchQuery.query search_query)
      (ProductSearchQuery.category_id search_query) (ProductSearchQuery.min_price search_query)
      (ProductSearchQuery.max_price search_query) (ProductSearchQuery.tags search_query)
      (ProductSearchQuery.is_available search_query) skip
      (ProductSearchQuery.per_page search_query) ;;
  let total := length products in
  let product_responses := product_response <$> products in
  total_pages <-
    (if bool_decide (0 < total)
     then floor_div (total + ProductSearchQuery.per_page search_query - 1)
            (ProductSearchQuery.per_page search_query)
     else ret 1) ;;
  ret (ProductListResponse.mk product_responses total (ProductSearchQuery.page search_query)
         (ProductSearchQuery.per_page search_query) total_pages).

Definition update_product (product_id : string) (update_data : ProductUpdate.t)
    : Act Catalog ProductResponse.t :=
  existing_product <- ProductRepository.get_product_by_id product_id ;;
  match existing_product with
  | None => raise product_not_found
  | Some existing_product =>
      (if truthy_str (ProductUpdate.sku update_data)
          && negb (bool_decide (ProductUpdate.sku update_data = Product.sku existing_product))
       then
         sku_conflict <-
           ProductRepository.get_product_by_sku (default "" (ProductUpdate.sku update_data)) ;;
         raise_if (bool_decide (is_Some sku_conflict)) sku_exists
       else ret tt) ;;
      let update_dict := product_update_dict update_data in
      update_dict <-
        (if truthy_str (ProductUpdate.category_id update_data) then
           category <- CategoryRepository.get_category_by_id
                         (default "" (ProductUpdate.category_id update_data)) ;;
           match category with
           | None => raise unknown_category
           | Some category => ret (update_dict ++ [Product_category_name (Category.name category)])
           end
         else ret update_dict) ;;
      updated_product <- ProductRepository.update_product product_id update_dict ;;
      match updated_product with
      | None => raise product_update_failed
      | Some updated_product => ret (product_response updated_product)
      end
  end.

Definition delete_product (product_id : string) : Act Catalog string :=
  product <- ProductRepository.get_product_by_id product_id ;;
  match product with
  | None => raise product_not_found
  | Some _ =>
      success <- ProductRepository.delete_product product_id ;;
      raise_if (negb success) product_delete_failed ;;
      ret "Product deleted successfully"
  end.

Definition update_stock (product_id : string) (quantity_change : Z)
    : Act Catalog ProductResponse.t :=
  product <- ProductRepository.update_stock product_id quantity_change ;;
  match product with
  | None => raise stock_refused
  | Some product => ret (product_response product)
  end.

End Handlers.
End ProductService.

(** ** The pure content of the handlers *)

(** The documents [create_product] and [create_category] build in state
    [w], before they have an identifier. *)
Definition product_document (d : ProductCreate.t) (category_name : option string)
    (w : Catalog) : Product.t :=
  Product.mk None (ProductCreate.name d) (ProductCreate.description d) (ProductCreate.price d)
    (ProductCreate.category_id d) category_name (ProductCreate.sku d)
    (ProductCreate.stock_quantity d) (ProductCreate.is_available d) true
    (ProductCreate.image_urls d) (ProductCreate.tags d) (ProductCreate.weight d)
    (ProductCreate.dimensions d) (catalog_clock w) (S (catalog_clock w)).

Definition category_document (d : CategoryCreate.t) (w : Catalog) : Category.t :=
  Category.mk None (CategoryCreate.name d) (CategoryCreate.description d) true
    (catalog_clock w) (S (catalog_clock w)).

(** The answer and the state of a creation that goes through. *)
Definition product_created (d : ProductCreate.t) (category_name : option string)
    (w : Catalog) : Res ProductResponse.t * Catalog :=
  let p := product_document d category_name w in
  (Ok (product_response (coll_insert p (products w)).1), product_inserted p w).

(** The answer and the state of an update that goes through. *)
Definition product_patched (update_dict : list ProductField) (p : Product.t) (w : Catalog)
    : Res ProductResponse.t * Catalog :=
  let p' := patched update_dict (catalog_clock w) p in
  (Ok (product_response p'), product_stored p' w).

(** Whether a product carries the SKU, a category the name. *)
Definition sku_taken (sku : string) (w : Catalog) : bool :=
  bool_decide (is_Some (coll_find_one (fun p => bool_decide (Product.sku p = Some sku))
                          (products w))).

Definition name_taken (name : string) (w : Catalog) : bool :=
  bool_decide (is_Some (coll_find_one (fun c => bool_decide (Category.name c = name))
                          (categories w))).

(** ** The handlers, in one equation each *)

(** The check of a SKU and the lookup of a category, which
    [create_product] and [update_product] share. *)
Ltac sku_branch :=
  unfold ProductRepository.get_product_by_sku; unfold bind at 1; unfold gets at 1;
  rewrite raise_if_run; case_bool_decide; [done|].

Ltac category_branch :=
  unfold bind at 1;
  match goal with
  | |- context [truthy_str ?c] =>
      destruct (truthy_str c);
      [unfold CategoryRepository.get_category_by_id, Category_get; unfold bind at 1;
       unfold gets at 1; destruct (coll_get_str _ (categories _)) as [?|]; [|done]
      |]; cbn [ret]
  end.

Section Cases.
Context `{Mongo}.
Implicit Types (w : Catalog) (p : Product.t) (c : Category.t).

Lemma update_stock_cases product_id quantity_change w :
  ProductService.update_stock product_id quantity_change w =
  match coll_get_str product_id (products w) with
  | Some p =>
      if bool_decide (Product.stock_quantity p + quantity_change < 0)%Z
      then (Raise stock_refused, w)
      else
        let p' := restocked quantity_change (catalog_clock w) p in
        (Ok (product_response p'), product_stored p' w)
  | None => (Raise stock_refused, w)
  end.
Proof.
  unfold ProductService.update_stock, bind. rewrite update_stock_run.
  destruct (coll_get_str _ _) as [p|]; [|done]. by case_bool_decide.
Qed.

Lemma get_product_by_id_cases product_id w :
  ProductService.get_product_by_id product_id w =
  (match coll_get_str product_id (products w) with
   | Some p => if Product.is_active p then Ok (product_response p) else Raise product_not_found
   | None => Raise product_not_found
   end, w).
Proof.
  unfold ProductService.get_product_by_id, ProductRepository.get_product_by_id, Product_get,
    bind, gets.
  destruct (coll_get_str _ _) as [p|]; [|done]. by destruct (Product.is_active p).
Qed.

Lemma delete_product_cases product_id w :
  ProductService.delete_product product_id w =
  match coll_get_str product_id (products w) with
  | Some p =>
      (Ok "Product deleted successfully", product_stored (retired (catalog_clock w) p) w)
  | None => (Raise product_not_found, w)
  end.
Proof.
  unfold ProductService.delete_product, ProductRepository.get_product_by_id, Product_get.
  unfold bind at 1. unfold gets at 1.
  destruct (coll_get_str product_id (products w)) as [p|] eqn:Hget; [|done].
  unfold bind. by rewrite delete_product_run, Hget.
Qed.

Lemma create_product_cases product_data w :
  ProductCreate.valid product_data = true ->
  ProductService.create_product product_data w =
  if truthy_str (ProductCreate.sku product_data)
     && sku_taken (default "" (ProductCreate.sku product_data)) w
  then (Raise sku_exists, w)
  else if truthy_str (ProductCreate.category_id product_data) then
    match coll_get_str (default "" (ProductCreate.category_id product_data)) (categories w) with
    | None => (Raise unknown_category, w)
    | Some c => product_created product_data (Some (Category.name c)) w
    end
  else product_created product_data None w.
Proof.
  intros Hv. unfold ProductService.create_product, sku_taken.
  assert (forall cn, (product <- ProductRepository.create_product product_data cn ;;
                      ret (product_response product)) w = product_created product_data cn w)
    as Hnew by (intros cn; unfold bind; by rewrite create_product_run).
  unfold bind at 1.
  destruct (truthy_str (ProductCreate.sku product_data)); cbn [andb];
    [sku_branch|cbn [ret]]; category_branch; apply Hnew.
Qed.

Lemma update_product_cases product_id update_data w :
  ProductService.update_product product_id update_data w =
  match coll_get_str product_id (products w) with
  | None => (Raise product_not_found, w)
  | Some p =>
      if truthy_str (ProductUpdate.sku update_data)
         && negb (bool_decide (ProductUpdate.sku update_data = Product.sku p))
         && sku_taken (default "" (ProductUpdate.sku update_data)) w
      then (Raise sku_exists, w)
      else if truthy_str (ProductUpdate.category_id update_data) then
        match coll_get_str (default "" (ProductUpdate.category_id update_data))
                (categories w) with
        | None => (Raise unknown_category, w)
        | Some c =>
            product_patched
              (product_update_dict update_data ++ [Product_category_name (Category.name c)])
              p w
        end
      else product_patched (product_update_dict update_data) p w
  end.
Proof.
  unfold ProductService.update_product, ProductRepository.get_product_by_id, Product_get,
    sku_taken.
  unfold bind at 1. unfold gets at 1.
  destruct (coll_get_str product_id (products w)) as [p|] eqn:Hget; [|done].
  assert (forall l, (updated_product <- ProductRepository.update_product product_id l ;;
                     match updated_product with
                     | Some updated_product => ret (product_response updated_product)
                     | None => raise product_update_failed
                     end) w = product_patched l p w) as Hupd.
  { intros l. unfold bind. by rewrite update_product_run, Hget. }
  unfold bind at 1.
  destruct (truthy_str (ProductUpdate.sku update_data)
            && negb (bool_decide (ProductUpdate.sku update_data = Product.sku p))); cbn [andb];
    [sku_branch|cbn [ret]]; category_branch; apply Hupd.
Qed.

Lemma create_category_cases category_data w :
  CategoryCreate.valid category_data = true ->
  CategoryService.create_category category_data w =
  if name_taken (CategoryCreate.name category_data) w then (Raise category_exists, w)
  else
    let c := category_document category_data w in
    (Ok (category_response (coll_insert c (categories w)).1), category_inserted c w).
Proof.
  intros Hv. unfold CategoryService.create_category, name_taken,
    CategoryRepository.get_category_by_name.
  unfold bind at 1. unfold gets at 1. unfold bind at 1. rewrite raise_if_run.
  case_bool_decide; [done|]. unfold bind. by rewrite create_category_run.
Qed.

Lemma update_category_cases category_id update_data w :
  CategoryService.update_category category_id update_data w =
  match coll_get_str category_id (categories w) with
  | None => (Raise category_not_found, w)
  | Some c =>
      if truthy_str (CategoryUpdate.name update_data)
         && negb (bool_decide (CategoryUpdate.name update_data = Some (Category.name c)))
         && name_taken (default "" (CategoryUpdate.name update_data)) w
      then (Raise category_exists, w)
      else
        let c' := Category.set_updated_at (catalog_clock w)
                    (foldl (fun c u => CategoryRepository.setattr u c) c
                       (category_update_dict update_data)) in
        (Ok (category_response c'), category_stored c' w)
  end.
Proof.
  unfold CategoryService.update_category, CategoryRepository.get_category_by_id, Category_get,
    name_taken.
  unfold bind at 1. unfold gets at 1.
  destruct (coll_get_str category_id (categories w)) as [c|] eqn:Hget; [|done].
  unfold bind at 1.
  destruct (truthy_str (CategoryUpdate.name update_data)
            && negb (bool_decide (CategoryUpdate.name update_data = Some (Category.name c))));
    cbn [andb].
  - unfold CategoryRepository.get_category_by_name. unfold bind at 1. unfold gets at 1.
    rewrite raise_if_run. case_bool_decide; [done|].
    unfold bind. by rewrite update_category_run, Hget.
  - cbn [ret]. unfold bind. by rewrite update_category_run, Hget.
Qed.

Lemma delete_category_cases category_id w :
  CategoryService.delete_category category_id w =
  match coll_get_str category_id (categories w) with
  | Some c =>
      (Ok "Category deleted successfully",
       category_stored (Category.set_updated_at (catalog_clock w)
                          (Category.set_is_active false c)) w)
  | None => (Raise category_not_found, w)
  end.
Proof.
  unfold CategoryService.delete_category, CategoryRepository.get_category_by_id, Category_get.
  unfold bind at 1. unfold gets at 1.
  destruct (coll_get_str category_id (categories w)) as [c|] eqn:Hget; [|done].
  unfold bind. by rewrite delete_category_run, Hget.
Qed.

Lemma get_category_by_id_cases category_id w :
  CategoryService.get_category_by_id category_id w =
  (match coll_get_str category_id (categories w) with
   | Some c => Ok (category_response c)
   | None => Raise category_not_found
   end, w).
Proof.
  unfold CategoryService.get_category_by_id, CategoryRepository.get_category_by_id,
    Category_get, bind, gets.
  by destruct (coll_get_str _ _).
Qed.

(** The two listings read and never write; they raise on a page size of
    0, and the search on page 0. *)
Lemma get_all_products_cases skip limit w :
  ProductService.get_all_products skip limit w =
  (if decide (limit = 0) then Raise zero_division
   else
     let total := coll_count Product.is_active (products w) in
     Ok (ProductListResponse.mk
           (product_response <$> skip_limit skip limit (coll_find Product.is_active (products w)))
           total (skip / limit + 1) limit (ceil_div total limit)), w).
Proof.
  unfold ProductService.get_all_products, floor_div, bind,
    ProductRepository.get_all_products, ProductRepository.count_products, gets.
  by destruct (decide (limit = 0)).
Qed.

Lemma search_products_cases q w :
  ProductService.search_products q w =
  (let page := ProductSearchQuery.page q in
   let per_page := ProductSearchQuery.per_page q in
   if decide (page = 0 /\ per_page <> 0) then Raise negative_skip
   else
     let found :=
       skip_limit ((page - 1) * per_page) per_page
         (coll_find (ProductRepository.search_filter (ProductSearchQuery.query q)
                       (ProductSearchQuery.category_id q) (ProductSearchQuery.min_price q)
                       (ProductSearchQuery.max_price q) (ProductSearchQuery.tags q)
                       (ProductSearchQuery.is_available q)) (products w)) in
     if decide (0 < length found /\ per_page = 0) then Raise zero_division
     else
       Ok (ProductListResponse.mk (product_response <$> found) (length found) page per_page
             (if bool_decide (0 < length found) then ceil_div (length found) per_page else 1)),
   w).
Proof.
  unfold ProductService.search_products, skip_of, floor_div. cbn zeta.
  destruct (decide (_ /\ _)) as [|Hp]; [done|].
  unfold bind at 1. cbn [ret]. unfold ProductRepository.search_products.
  unfold bind at 1. unfold gets.
  set (found := skip_limit _ _ _). unfold bind.
  case_bool_decide as Hlen.
  - destruct (decide (ProductSearchQuery.per_page q = 0)) as [E|E].
    + by rewrite decide_True.
    + rewrite decide_False by naive_solver. done.
  - rewrite decide_False by naive_solver. done.
Qed.

End Cases.

(** ** The dictionaries of the updates *)

Section Dicts.
Context {U : Type}.
Implicit Types (l : list (option U)) (P : U -> Prop).

Lemma Forall_omap_id_cons P (o : option U) l :
  Forall P (omap id (o :: l)) <-> (forall u, o = Some u -> P u) /\ Forall P (omap id l).
Proof. destruct o as [u|]; cbn; [rewrite Forall_cons|]; naive_solver. Qed.

(** An item the selector ignores does not count. *)
Lemma omap_skip {A V} (f : U -> option V) (ctor : A -> U) (x : option A) l :
  (forall a, f (ctor a) = None) -> omap f (omap id ((ctor <$> x) :: l)) = omap f (omap id l).
Proof. intros Hf. destruct x as [a|]; cbn; [by rewrite Hf | done]. Qed.

Lemma omap_pick {A V} (f : U -> option V) (ctor : A -> U) (g : A -> V) (x : option A) l :
  (forall a, f (ctor a) = Some (g a)) ->
  omap f (omap id ((ctor <$> x) :: l)) = option_list (g <$> x) ++ omap f (omap id l).
Proof. intros Hf. destruct x as [a|]; cbn; [by rewrite Hf | done]. Qed.

End Dicts.

Lemma product_update_dict_ok u :
  ProductUpdate.valid u = true -> Forall (fun x => field_ok x = true) (product_update_dict u).
Proof.
  unfold ProductUpdate.valid, product_update_dict. rewrite !andb_true_iff.
  intros (((((Hn & Hd) & Hp) & Hs) & Hq) & Hw).
  rewrite !Forall_omap_id_cons. split_and!; try done; intros x Hx;
    match type of Hx with _ <$> ?o = _ => destruct o; [|done] end;
    by injection Hx as <-.
Qed.

Lemma assigned_sku_dict u extra :
  Forall (fun x => match x with Product_sku _ => False | _ => True end) extra ->
  assigned_sku (product_update_dict u ++ extra) = ProductUpdate.sku u.
Proof.
  intros Hextra. unfold assigned_sku. rewrite omap_app.
  replace (omap _ extra) with (@nil string)
    by (induction Hextra as [|[] ? ? ? IH]; cbn; done).
  rewrite app_nil_r. unfold product_update_dict. rewrite !omap_skip by done.
  rewrite (omap_pick _ Product_sku id) by done. rewrite !omap_skip by done.
  by destruct (ProductUpdate.sku u).
Qed.

Lemma category_update_dict_ok u :
  CategoryUpdate.valid u = true ->
  Forall (fun x => category_field_ok x = true) (category_update_dict u).
Proof.
  unfold CategoryUpdate.valid, category_update_dict. rewrite !andb_true_iff. intros (Hn & Hd).
  rewrite !Forall_omap_id_cons. split_and!; try done; intros x Hx;
    match type of Hx with _ <$> ?o = _ => destruct o; [|done] end;
    by injection Hx as <-.
Qed.

Lemma assigned_name_dict u : assigned_name (category_update_dict u) = CategoryUpdate.name u.
Proof.
  unfold assigned_name, category_update_dict.
  rewrite (omap_pick _ Category_name id) by done. rewrite !omap_skip by done.
  by destruct (CategoryUpdate.name u).
Qed.

(** ** Every handler keeps the invariant *)

Section Preservation.
Context `{Mongo}.
Implicit Types (w : Catalog) (p : Product.t) (c : Category.t).

Lemma catalog_ok_product w p :
  catalog_ok w -> p ∈ docs (products w) -> Product.valid p = true.
Proof. intros ((_ & _ & _ & Hvp) & _) Hin. by eapply Forall_forall in Hvp. Qed.

Lemma catalog_ok_category w c :
  catalog_ok w -> c ∈ docs (categories w) -> Category.valid c = true.
Proof. intros ((_ & _ & Hvc & _) & _) Hin. by eapply Forall_forall in Hvc. Qed.

Lemma sku_taken_false sku w x :
  sku_taken sku w = false -> x ∈ docs (products w) -> Product.sku x <> Some sku.
Proof.
  unfold sku_taken. intros Ht%bool_decide_eq_false. apply no_sku_found.
  by destruct (coll_find_one _ _); [destruct Ht|].
Qed.

Lemma name_taken_false name w x :
  name_taken name w = false -> x ∈ docs (categories w) -> Category.name x <> name.
Proof.
  unfold name_taken. intros Ht%bool_decide_eq_false. apply no_name_found.
  by destruct (coll_find_one _ _); [destruct Ht|].
Qed.

Lemma update_stock_ok product_id quantity_change w :
  catalog_ok w ->
  catalog_ok (state_after (ProductService.update_stock product_id quantity_change) w).
Proof.
  intros Hok. unfold state_after. rewrite update_stock_cases.
  destruct (coll_get_str product_id (products w)) as [p|] eqn:Hget; [|done].
  case_bool_decide as Hneg; [done|]. cbn [snd].
  pose proof (coll_get_str_Some _ _ _ Hget) as [Hin _].
  eapply product_stored_ok; [done | done | done | | by left].
  apply restocked_valid; [lia | by eapply catalog_ok_product].
Qed.

Lemma delete_product_ok product_id w :
  catalog_ok w -> catalog_ok (state_after (ProductService.delete_product product_id) w).
Proof.
  intros Hok. unfold state_after. rewrite delete_product_cases.
  destruct (coll_get_str product_id (products w)) as [p|] eqn:Hget; [|done]. cbn [snd].
  pose proof (coll_get_str_Some _ _ _ Hget) as [Hin _].
  eapply product_stored_ok; [done | done | done | | by left].
  rewrite retired_valid. by eapply catalog_ok_product.
Qed.

(** The SKU of a new or updated product is acceptable once the check of
    the service has passed. *)
Lemma sku_checked (sku : option string) (guard : bool) w :
  truthy_str sku && guard && sku_taken (default "" sku) w = false ->
  guard = false \/ truthy_str sku = false \/
  forall x, x ∈ docs (products w) -> Product.sku x <> sku.
Proof.
  destruct guard; [|by left]. destruct (truthy_str sku) eqn:Ht; [|by right; left].
  cbn [andb]. intros Hfree. right. right. intros x Hx.
  destruct sku as [s|]; [|done]. by apply (sku_taken_false _ w).
Qed.

Lemma create_product_ok product_data w :
  catalog_ok w -> ProductCreate.valid product_data = true ->
  catalog_ok (state_after (ProductService.create_product product_data) w).
Proof.
  intros Hok Hv. unfold state_after. rewrite create_product_cases by done.
  destruct (truthy_str _ && sku_taken _ w) eqn:Hsku; [done|].
  assert (forall cn, catalog_ok (product_created product_data cn w).2) as Hnew.
  { intros cn. apply product_inserted_ok; [done | exact Hv |].
    rewrite <- (andb_true_r (truthy_str _)) in Hsku.
    by destruct (sku_checked _ _ _ Hsku) as [?|[?|?]]; [|left|right]. }
  destruct (truthy_str (ProductCreate.category_id product_data)); [|apply Hnew].
  destruct (coll_get_str _ (categories w)); [apply Hnew | done].
Qed.

Lemma product_patched_ok product_id update_data extra p w :
  catalog_ok w -> ProductUpdate.valid update_data = true ->
  coll_get_str product_id (products w) = Some p ->
  Forall (fun x => field_ok x = true) extra ->
  Forall (fun x => match x with Product_sku _ => False | _ => True end) extra ->
  truthy_str (ProductUpdate.sku update_data)
    && negb (bool_decide (ProductUpdate.sku update_data = Product.sku p))
    && sku_taken (default "" (ProductUpdate.sku update_data)) w = false ->
  catalog_ok (product_patched (product_update_dict update_data ++ extra) p w).2.
Proof.
  intros Hok Hv Hget Hextra Hnosku Hsku. cbn [product_patched snd].
  pose proof (coll_get_str_Some _ _ _ Hget) as [Hin _].
  eapply product_stored_ok; [done | done | apply patched_id | |].
  - apply patched_valid; [|by eapply catalog_ok_product].
    apply Forall_app. split; [by apply product_update_dict_ok | done].
  - rewrite patched_sku, assigned_sku_dict by done.
    destruct (ProductUpdate.sku update_data) as [s|] eqn:Es; [|by left]. cbn.
    destruct (sku_checked _ _ _ Hsku) as [Hg|[Hf|Hfree]]; [left | by right; left | by right; right].
    by apply negb_false_iff, bool_decide_eq_true in Hg.
Qed.

Lemma update_product_ok product_id update_data w :
  catalog_ok w -> ProductUpdate.valid update_data = true ->
  catalog_ok (state_after (ProductService.update_product product_id update_data) w).
Proof.
  intros Hok Hv. unfold state_after. rewrite update_product_cases.
  destruct (coll_get_str product_id (products w)) as [p|] eqn:Hget; [|done].
  destruct (_ && _ && sku_taken _ w) eqn:Hsku; [done|].
  destruct (truthy_str (ProductUpdate.category_id update_data)).
  - destruct (coll_get_str _ (categories w)) as [c|]; [|done].
    eapply product_patched_ok;
      [done | done | done | by repeat constructor | by repeat constructor | done].
  - rewrite <- (app_nil_r (product_update_dict update_data)).
    eapply product_patched_ok; [done | done | done | done | done | done].
Qed.

Lemma create_category_ok category_data w :
  catalog_ok w -> CategoryCreate.valid category_data = true ->
  catalog_ok (state_after (CategoryService.create_category category_data) w).
Proof.
  intros Hok Hv. unfold state_after. rewrite create_category_cases by done.
  destruct (name_taken _ w) eqn:Hname; [done|]. cbn [snd].
  apply category_inserted_ok; [done | exact Hv |].
  intros x Hx. by apply (name_taken_false _ w).
Qed.

Lemma update_category_ok category_id update_data w :
  catalog_ok w -> CategoryUpdate.valid update_data = true ->
  catalog_ok (state_after (CategoryService.update_category category_id update_data) w).
Proof.
  intros Hok Hv. unfold state_after. rewrite update_category_cases.
  destruct (coll_get_str category_id (categories w)) as [c|] eqn:Hget; [|done].
  destruct (_ && _ && name_taken _ w) eqn:Hname; [done|]. cbn [snd].
  pose proof (coll_get_str_Some _ _ _ Hget) as [Hin _].
  eapply category_stored_ok; [done | done | apply category_foldl_id | |].
  - apply category_foldl_valid; [by apply category_update_dict_ok|].
    by eapply catalog_ok_category.
  - change (Category.name (Category.set_updated_at _ ?x)) with (Category.name x).
    rewrite category_foldl_name, assigned_name_dict.
    destruct (CategoryUpdate.name update_data) as [n|] eqn:En; [|by left]. cbn.
    assert (truthy_str (Some n) = true) as Ht.
    { apply truthy_str_Some. intros ->. unfold CategoryUpdate.valid in Hv.
      rewrite En in Hv. apply andb_true_iff in Hv as [Hl%bool_decide_eq_true _].
      cbn in Hl. lia. }
    rewrite Ht in Hname. cbn [andb default] in Hname.
    destruct (bool_decide (Some n = Some (Category.name c))) eqn:Hsame; cbn in Hname.
    + left. by apply bool_decide_eq_true in Hsame as [= ->].
    + right. intros x Hx. by apply (name_taken_false _ w).
Qed.

Lemma delete_category_ok category_id w :
  catalog_ok w -> catalog_ok (state_after (CategoryService.delete_category category_id) w).
Proof.
  intros Hok. unfold state_after. rewrite delete_category_cases.
  destruct (coll_get_str category_id (categories w)) as [c|] eqn:Hget; [|done]. cbn [snd].
  pose proof (coll_get_str_Some _ _ _ Hget) as [Hin _].
  eapply category_stored_ok; [done | done | done | | by left].
  change (Category.valid (Category.set_updated_at _ (Category.set_is_active _ ?x)))
    with (Category.valid x). by eapply catalog_ok_category.
Qed.

End Preservation.

(** ** What the product service guarantees *)

Section Guarantees.
Context `{Mongo}.
Implicit Types (w : Catalog) (p : Product.t) (c : Category.t).

(** A product saved over the stored one is found under its identifier,
    and the other lookups are unchanged. *)
Lemma product_stored_get s p p' w :
  catalog_ok w -> coll_get_str s (products w) = Some p -> Product.id p' = Product.id p ->
  coll_get_str s (products (product_stored p' w)) = Some p' /\
  (forall s', s' <> s ->
     coll_get_str s' (products (product_stored p' w)) = coll_get_str s' (products w)) /\
  length (docs (products (product_stored p' w))) = length (docs (products w)) /\
  categories (product_stored p' w) = categories w.
Proof.
  intros ((_ & Hp & _) & _) Hget Hid. cbn [product_stored products categories with_products
    with_catalog_clock]. split_and!; [| | |done].
  - by apply (coll_get_str_save_eq s p).
  - intros s' Hne. by apply (coll_get_str_save_ne s s' p).
  - destruct (coll_save_str_docs s p p' _ Hp Hget Hid) as (i & _ & -> & _).
    apply length_replace_id.
Qed.

(** C8.  [update_stock] never stores a negative quantity.  On a stored
    product, a change that would make the quantity negative is refused
    with 400 and nothing is written; any other change is stored: the
    quantity is the sum, the product is available exactly when the
    quantity is positive, [updated_at] is the reading of the clock, the
    other fields and the other products are untouched. *)
Theorem update_stock_never_negative product_id quantity_change w p :
  catalog_ok w ->
  coll_get_str product_id (products w) = Some p ->
  if bool_decide (Product.stock_quantity p + quantity_change < 0)%Z then
    ProductService.update_stock product_id quantity_change w = (Raise stock_refused, w)
  else
    exists p' w',
      ProductService.update_stock product_id quantity_change w
        = (Ok (product_response p'), w') /\
      coll_get_str product_id (products w') = Some p' /\
      Product.stock_quantity p' = (Product.stock_quantity p + quantity_change)%Z /\
      (0 <= Product.stock_quantity p')%Z /\
      Product.is_available p' = bool_decide (0 < Product.stock_quantity p')%Z /\
      Product.updated_at p' = catalog_clock w /\
      Product.set_updated_at 0 (Product.set_is_available true (Product.set_stock_quantity 0 p'))
        = Product.set_updated_at 0 (Product.set_is_available true (Product.set_stock_quantity 0 p)) /\
      (forall s, s <> product_id ->
         coll_get_str s (products w') = coll_get_str s (products w)) /\
      categories w' = categories w.
Proof.
  intros Hok Hget. rewrite update_stock_cases, Hget. case_bool_decide as Hneg; [done|].
  eexists _, _. split; [done|].
  destruct (product_stored_get product_id p (restocked quantity_change (catalog_clock w) p) w)
    as (Hstored & Hothers & _ & Hcats); [done..|].
  split_and!; [done | done | cbn; lia | done | done | done | done | done].
Qed.

(** An identifier that is not stored is refused in the same way. *)
Lemma update_stock_unknown product_id quantity_change w :
  coll_get_str product_id (products w) = None ->
  ProductService.update_stock product_id quantity_change w = (Raise stock_refused, w).
Proof. intros Hget. by rewrite update_stock_cases, Hget. Qed.

(** Deleting a product is a soft delete: the document stays in
    the collection with [is_active] false and a new [updated_at], every
    other field as it was; [get_product_by_id] then answers 404, while
    [update_stock] still accepts the product. *)
Theorem delete_product_soft product_id w p :
  catalog_ok w ->
  coll_get_str product_id (products w) = Some p ->
  exists w',
    ProductService.delete_product product_id w = (Ok "Product deleted successfully", w') /\
    coll_get_str product_id (products w')
      = Some (Product.set_updated_at (catalog_clock w) (Product.set_is_active false p)) /\
    length (docs (products w')) = length (docs (products w)) /\
    (forall s, s <> product_id ->
       coll_get_str s (products w') = coll_get_str s (products w)) /\
    result_of (ProductService.get_product_by_id product_id) w' = Raise product_not_found /\
    forall quantity_change,
      (0 <= Product.stock_quantity p + quantity_change)%Z ->
      is_ok (result_of (ProductService.update_stock product_id quantity_change) w') = true.
Proof.
  intros Hok Hget. rewrite delete_product_cases, Hget. eexists. split; [done|].
  destruct (product_stored_get product_id p (retired (catalog_clock w) p) w)
    as (Hstored & Hothers & Hlen & _); [done..|].
  split_and!; [done | done | done | |].
  - unfold result_of. by rewrite get_product_by_id_cases, Hstored.
  - intros q Hq. unfold result_of. rewrite update_stock_cases, Hstored.
    by rewrite bool_decide_false by (cbn; lia).
Qed.

(** C39.  [create_product] keeps SKUs unique: a request whose SKU is not
    empty and is carried by a stored product, active or not, is refused
    with 400 and nothing is written.  A request with an empty SKU or none
    is not checked. *)
Theorem create_product_sku_conflict product_data sku w p :
  ProductCreate.valid product_data = true ->
  ProductCreate.sku product_data = Some sku -> sku <> "" ->
  p ∈ docs (products w) -> Product.sku p = Some sku ->
  ProductService.create_product product_data w = (Raise sku_exists, w).
Proof.
  intros Hv Hs Hne Hin Hp. rewrite create_product_cases by done. rewrite Hs.
  rewrite (proj2 (truthy_str_Some sku) Hne). cbn [andb].
  change (default "" (Some sku)) with sku.
  destruct (sku_taken sku w) eqn:Ht; [done|]. by destruct (sku_taken_false _ _ _ Ht Hin).
Qed.

(** A product that is created is stored under a fresh identifier,
    active, with the name of its category copied from the category the
    request names: the request is refused with 400 when that category is
    not stored. *)
Theorem create_product_denormalises product_data w resp w' :
  catalog_ok w -> ProductCreate.valid product_data = true ->
  ProductService.create_product product_data w = (Ok resp, w') ->
  exists p,
    coll_get (next_id (products w)) (products w') = Some p /\
    resp = product_response p /\
    Product.is_active p = true /\
    Product.stock_quantity p = ProductCreate.stock_quantity product_data /\
    docs (products w') = docs (products w) ++ [p] /\
    (if truthy_str (ProductCreate.category_id product_data) then
       exists c, coll_get_str (default "" (ProductCreate.category_id product_data))
                   (categories w) = Some c /\
                 Product.category_name p = Some (Category.name c)
     else Product.category_name p = None).
Proof.
  intros ((_ & Hp & _) & _) Hv. rewrite create_product_cases by done.
  destruct (truthy_str _ && sku_taken _ w); [done|].
  assert (forall cn, product_created product_data cn w = (Ok resp, w') ->
            exists p, coll_get (next_id (products w)) (products w') = Some p /\
              resp = product_response p /\ Product.is_active p = true /\
              Product.stock_quantity p = ProductCreate.stock_quantity product_data /\
              docs (products w') = docs (products w) ++ [p] /\
              Product.category_name p = cn) as Hnew.
  { intros cn [= <- <-]. eexists. split; [exact (coll_get_insert_new _ _ Hp)|]. done. }
  destruct (truthy_str (ProductCreate.category_id product_data)).
  - destruct (coll_get_str _ (categories w)) as [c|] eqn:Hc; [|done].
    intros (p & ? & ? & ? & ? & ? & ?)%Hnew. exists p. split_and!; [done..|]. by exists c.
  - intros (p & ? & ? & ? & ? & ? & ?)%Hnew. by exists p.
Qed.

Lemma ceil_div_le total per_page : 0 < total <= per_page -> ceil_div total per_page = 1.
Proof.
  intros Ht. unfold ceil_div. symmetry. apply (Nat.div_unique _ _ _ (total - 1)); lia.
Qed.

(** [search_products] answers with one page of the active
    products that match the filters, and counts that page: [total] is the
    number of products returned, at most [per_page], and [total_pages] is
    always 1, however many products match. *)
Theorem search_products_counts_the_page q w :
  ProductSearchQuery.valid q = true ->
  exists r,
    ProductService.search_products q w = (Ok r, w) /\
    ProductListResponse.total r = length (ProductListResponse.products r) /\
    ProductListResponse.total r <= ProductSearchQuery.per_page q /\
    ProductListResponse.total_pages r = 1 /\
    Forall (fun resp => exists p, p ∈ docs (products w) /\ resp = product_response p /\
                          Product.is_active p = true)
      (ProductListResponse.products r).
Proof.
  unfold ProductSearchQuery.valid. rewrite !andb_true_iff, !bool_decide_eq_true.
  intros ((_ & Hpage) & Hper). rewrite search_products_cases. cbn zeta.
  rewrite !decide_False by lia. eexists. split; [done|].
  cbn [ProductListResponse.total ProductListResponse.products ProductListResponse.total_pages].
  set (found := skip_limit _ _ _).
  assert (length found <= ProductSearchQuery.per_page q) as Hlen
    by (apply skip_limit_le; lia).
  split_and!; [by rewrite length_fmap | done | |].
  - case_bool_decide; [|done]. apply ceil_div_le. lia.
  - apply Forall_fmap, Forall_forall. intros p Hp%skip_limit_elem_of.
    apply coll_find_elem_of in Hp as [Hin Hq]. exists p. split_and!; [done..|].
    unfold ProductRepository.search_filter in Hq. rewrite !andb_true_iff in Hq. naive_solver.
Qed.

(** [get_all_products] with a page size from 1 on answers with at
    most that many active products, the number of all active products as
    [total], the page the offset falls in, and the number of pages the
    total makes. *)
Theorem get_all_products_page skip limit w :
  1 <= limit ->
  exists r,
    ProductService.get_all_products skip limit w = (Ok r, w) /\
    length (ProductListResponse.products r) <= limit /\
    Forall (fun resp => exists p, p ∈ docs (products w) /\ resp = product_response p /\
                          Product.is_active p = true)
      (ProductListResponse.products r) /\
    ProductListResponse.total r = coll_count Product.is_active (products w) /\
    ProductListResponse.page r = skip / limit + 1 /\
    ProductListResponse.total_pages r = ceil_div (ProductListResponse.total r) limit.
Proof.
  intros Hl. rewrite get_all_products_cases. rewrite decide_False by lia.
  eexists. split; [done|]. cbn. split_and!; [| |done..].
  - rewrite length_fmap. apply skip_limit_le. lia.
  - apply Forall_fmap, Forall_forall. intros p Hp%skip_limit_elem_of.
    apply coll_find_elem_of in Hp as [Hin Hq]. by exists p.
Qed.

End Guarantees.

(** ** The exceptions of the handlers *)

(** Every exception a handler of the product service raises is one the
    application turns into a status code of the error envelope. *)
Section Exceptions.
Context `{Mongo}.

Lemma catalog_utcnow_known : raises_known catalog_utcnow.
Proof. by apply raises_known_total. Qed.

Lemma Product_insert_known p : raises_known (Product_insert p).
Proof. by apply raises_known_total. Qed.

Lemma Category_insert_known c : raises_known (Category_insert c).
Proof. by apply raises_known_total. Qed.

Lemma create_product_repo_known d cn : raises_known (ProductRepository.create_product d cn).
Proof.
  unfold ProductRepository.create_product.
  repeat (apply raises_known_bind; [|intros ?]);
    [apply catalog_utcnow_known.. | | apply Product_insert_known].
  apply of_res_known. unfold new_Product. intros e. by case_match; [|intros [= <-]].
Qed.

Lemma create_category_repo_known d : raises_known (CategoryRepository.create_category d).
Proof.
  unfold CategoryRepository.create_category.
  repeat (apply raises_known_bind; [|intros ?]);
    [apply catalog_utcnow_known.. | | apply Category_insert_known].
  apply of_res_known. unfold new_Category. intros e. by case_match; [|intros [= <-]].
Qed.

End Exceptions.

#[export] Hint Resolve catalog_utcnow_known Product_insert_known Category_insert_known
  create_product_repo_known create_category_repo_known : known.

(** Unfold the methods of the repositories, and the primitives of the
    documents. *)
Ltac unfold_repo :=
  unfold CategoryRepository.get_category_by_id, CategoryRepository.get_category_by_name,
    CategoryRepository.get_all_categories, CategoryRepository.update_category,
    CategoryRepository.delete_category, ProductRepository.get_product_by_id,
    ProductRepository.get_product_by_sku, ProductRepository.get_all_products,
    ProductRepository.count_products, ProductRepository.search_products,
    ProductRepository.update_product, ProductRepository.delete_product,
    ProductRepository.update_stock, Category_get, Product_get.

Ltac unfold_save := unfold Category_save, Product_save.

Ltac unfold_service :=
  unfold CategoryService.create_category, CategoryService.get_category_by_id,
    CategoryService.get_all_categories, CategoryService.update_category,
    CategoryService.delete_category, ProductService.create_product,
    ProductService.get_product_by_id, ProductService.get_all_products,
    ProductService.search_products, ProductService.update_product,
    ProductService.delete_product, ProductService.update_stock.

Section HandlersKnown.
Context `{Mongo}.

Lemma create_category_known d : raises_known (CategoryService.create_category d).
Proof. unfold_service. unfold_repo. unfold_save. known. Qed.

Lemma get_category_by_id_known s : raises_known (CategoryService.get_category_by_id s).
Proof. unfold_service. unfold_repo. unfold_save. known. Qed.

Lemma update_category_known s u : raises_known (CategoryService.update_category s u).
Proof. unfold_service. unfold_repo. unfold_save. known. Qed.

Lemma delete_category_known s : raises_known (CategoryService.delete_category s).
Proof. unfold_service. unfold_repo. unfold_save. known. Qed.

Lemma create_product_known d : raises_known (ProductService.create_product d).
Proof. unfold_service. unfold_repo. unfold_save. known. Qed.

Lemma get_product_by_id_known s : raises_known (ProductService.get_product_by_id s).
Proof. unfold_service. unfold_repo. unfold_save. known. Qed.

Lemma update_product_known s u : raises_known (ProductService.update_product s u).
Proof. unfold_service. unfold_repo. unfold_save. known. Qed.

Lemma delete_product_known s : raises_known (ProductService.delete_product s).
Proof. unfold_service. unfold_repo. unfold_save. known. Qed.

Lemma update_stock_known s q : raises_known (ProductService.update_stock s q).
Proof. unfold_service. unfold_repo. unfold_save. known. Qed.

End HandlersKnown.

#[export] Hint Resolve create_category_known get_category_by_id_known update_category_known
  delete_category_known create_product_known get_product_by_id_known update_product_known
  delete_product_known update_stock_known : known.
