(* ===== verification/ProductApi.v ===== *)
(** * The HTTP surface of the product service:
    [src/product_service/app/controllers/product_controller.py] and
    [src/product_service/app/main.py].

    A request is a route with its parameters as FastAPI hands them over;
    each route function of the two routers is a definition of
    [ProductController], built from the pieces of [Http]: the validation
    of the parameters ([validated]), the [try]/[except] of the route
    ([reraise_http] where the source re-raises an [HTTPException],
    [mask_errors] where it does not), and the exception handlers of the
    application ([respond]).  [handle] dispatches in the order the routes
    are declared: [GET /api/v1/products/search] is declared before
    [GET /api/v1/products/{product_id}], so the identifier [search] names
    the search route.

    The process is the step relation of [OrderApi] on the state [Catalog]:
    [boot] is the lifespan's startup on an empty database, a [step] serves
    one request.  The theorems are about every reachable state: the
    catalogue stays well formed (validated documents, unique SKUs and
    category names), the producer is never given a message, and every
    request is answered with a well-formed answer. *)

From S2P Require Import Prelude Money Json Collection Http Kafka Events ProductModel.
From S2P Require Import ProductRepository ProductService.
From Stdlib Require Import QArith.
Local Close Scope Q_scope.
Local Open Scope act_scope.

(** ** Requests and payloads *)

Inductive ProductRequest : Type :=
| POST_categories (category_data : CategoryCreate.t)
| GET_categories (skip limit : nat) (active_only : bool)
| GET_category (category_id : string)
| PUT_category (category_id : string) (update_data : CategoryUpdate.t)
| DELETE_category (category_id : string)
| POST_products (product_data : ProductCreate.t)
| GET_products (page per_page : nat)
| GET_products_search (query category_id : option string) (min_price max_price : option Q)
    (tags : option string) (is_available : option bool) (page per_page : nat)
| GET_product (product_id : string)
| PUT_product (product_id : string) (update_data : ProductUpdate.t)
| DELETE_product (product_id : string)
(** [quantity_change] is a required query parameter: [None] when the
    request does not carry it *)
| PATCH_product_stock (product_id : string) (quantity_change : option Z)
| GET_product_root
| GET_product_health.

Inductive ProductPayload : Type :=
| StandardBody (r : StandardResponse.t)
| CategoryBody (c : CategoryResponse.t)
| CategoryListBody (l : list CategoryResponse.t)
| ProductBody (p : ProductResponse.t)
| ProductListBody (l : ProductListResponse.t)
| InfoBody (d : dict).

Definition comma : Ascii.ascii := Ascii.ascii_of_nat 44.

(** [StandardResponse(success=True, message=..., data=...)]. *)
Definition standard (message : string) (data : option ResponseData) : ProductPayload :=
  StandardBody (StandardResponse.mk true message data).

(** The status code a route declares. *)
Definition product_success_code (req : ProductRequest) : nat :=
  match req with
  | POST_categories _ | POST_products _ => HTTP_201_CREATED
  | _ => HTTP_200_OK
  end.

(** [[tag.strip() for tag in tags.split(",")]] when [tags] is given and not
    empty. *)
Definition tag_list (tags : option string) : option (list string) :=
  if truthy_str tags then Some (strip <$> str_split comma (default "" tags)) else None.

(** The constructor of [ProductSearchQuery], which validates its fields. *)
Definition new_ProductSearchQuery (q : ProductSearchQuery.t) : Res ProductSearchQuery.t :=
  if ProductSearchQuery.valid q then Ok q else Raise (validation_failed "ProductSearchQuery").

(** ** The route functions *)

Module ProductController.
Section Routes.
Context `{Mongo}.

Definition create_category (category_data : CategoryCreate.t)
    : Act Catalog (HttpResponse ProductPayload) :=
  validated (CategoryCreate.valid category_data)
    (respond HTTP_201_CREATED
       (fun category => standard "Category created successfully" (Some (CategoryData category)))
       (reraise_http (CategoryService.create_category category_data))).

Definition get_all_categories (skip limit : nat) (active_only : bool)
    : Act Catalog (HttpResponse ProductPayload) :=
  validated (bool_decide (1 <= limit <= 100))
    (respond HTTP_200_OK CategoryListBody
       (mask_errors (CategoryService.get_all_categories skip limit active_only))).

Definition get_category_by_id (category_id : string)
    : Act Catalog (HttpResponse ProductPayload) :=
  respond HTTP_200_OK CategoryBody
    (reraise_http (CategoryService.get_category_by_id category_id)).

Definition update_category (category_id : string) (update_data : CategoryUpdate.t)
    : Act Catalog (HttpResponse ProductPayload) :=
  validated (CategoryUpdate.valid update_data)
    (respond HTTP_200_OK
       (fun category => standard "Category updated successfully" (Some (CategoryData category)))
       (reraise_http (CategoryService.update_category category_id update_data))).

Definition delete_category (category_id : string)
    : Act Catalog (HttpResponse ProductPayload) :=
  respond HTTP_200_OK (fun message => standard message None)
    (reraise_http (CategoryService.delete_category category_id)).

Definition create_product (product_data : ProductCreate.t)
    : Act Catalog (HttpResponse ProductPayload) :=
  validated (ProductCreate.valid product_data)
    (respond HTTP_201_CREATED
       (fun product => standard "Product created successfully" (Some (ProductData product)))
       (reraise_http (ProductService.create_product product_data))).

Definition get_all_products (page per_page : nat)
    : Act Catalog (HttpResponse ProductPayload) :=
  validated (valid_page page per_page)
    (respond HTTP_200_OK ProductListBody
       (mask_errors
          (let skip := (page - 1) * per_page in
           ProductService.get_all_products skip per_page))).

Definition search_products (query category_id : option string) (min_price max_price : option Q)
    (tags : option string) (is_available : option bool) (page per_page : nat)
    : Act Catalog (HttpResponse ProductPayload) :=
  validated (opt_ok Qnonneg min_price && opt_ok Qnonneg max_price && valid_page page per_page)
    (respond HTTP_200_OK ProductListBody
       (mask_errors
          (let tag_list := tag_list tags in
           search_query <-
             of_res (new_ProductSearchQuery
                       (ProductSearchQuery.mk query category_id min_price max_price tag_list
                          is_available page per_page)) ;;
           ProductService.search_products search_query))).

Definition get_product_by_id (product_id : string)
    : Act Catalog (HttpResponse ProductPayload) :=
  respond HTTP_200_OK ProductBody
    (reraise_http (ProductService.get_product_by_id product_id)).

Definition update_product (product_id : string) (update_data : ProductUpdate.t)
    : Act Catalog (HttpResponse ProductPayload) :=
  validated (ProductUpdate.valid update_data)
    (respond HTTP_200_OK
       (fun product => standard "Product updated successfully" (Some (ProductData product)))
       (reraise_http (ProductService.update_product product_id update_data))).

Definition delete_product (product_id : string)
    : Act Catalog (HttpResponse ProductPayload) :=
  respond HTTP_200_OK (fun message => standard message None)
    (reraise_http (ProductService.delete_product product_id)).

Definition update_product_stock (product_id : string) (quantity_change : option Z)
    : Act Catalog (HttpResponse ProductPayload) :=
  validated (bool_decide (is_Some quantity_change))
    (respond HTTP_200_OK
       (fun product => standard "Stock updated successfully" (Some (ProductData product)))
       (reraise_http (ProductService.update_stock product_id (default 0%Z quantity_change)))).

Definition root : dict := [("message", JStr "Product Service API"); ("version", JStr "1.0.0")].
Definition health_check : dict :=
  [("status", JStr "healthy"); ("service", JStr "product-service")].

(** ** The application *)

(** The routes in the order of their declaration: the product router
    matches [/search] before [/{product_id}], with the defaults of the
    search parameters. *)
Definition handle (req : ProductRequest) : Act Catalog (HttpResponse ProductPayload) :=
  match req with
  | POST_categories category_data => create_category category_data
  | GET_categories skip limit active_only => get_all_categories skip limit active_only
  | GET_category category_id => get_category_by_id category_id
  | PUT_category category_id update_data => update_category category_id update_data
  | DELETE_category category_id => delete_category category_id
  | POST_products product_data => create_product product_data
  | GET_products page per_page => get_all_products page per_page
  | GET_products_search query category_id min_price max_price tags is_available page per_page =>
      search_products query category_id min_price max_price tags is_available page per_page
  | GET_product product_id =>
      if String.eqb product_id "search"
      then search_products None None None None None None 1 20
      else get_product_by_id product_id
  | PUT_product product_id update_data => update_product product_id update_data
  | DELETE_product product_id => delete_product product_id
  | PATCH_product_stock product_id quantity_change =>
      update_product_stock product_id quantity_change
  | GET_product_root => ret (mkHttpResponse HTTP_200_OK (Payload (InfoBody root)))
  | GET_product_health => ret (mkHttpResponse HTTP_200_OK (Payload (InfoBody health_check)))
  end.

(** [lifespan]: the producer is started before the first request and
    stopped after the last. *)
Definition startup : Act Catalog unit :=
  zoom catalog_producer with_catalog_producer ProductProducer.start.
Definition shutdown : Act Catalog unit :=
  zoom catalog_producer with_catalog_producer ProductProducer.stop.

(** The process as it boots: an empty database, the producer configured
    from the environment, then [startup]. *)
Definition boot (kafka_enabled : bool) (net : nat -> bool) : Catalog :=
  state_after startup (mkCatalog coll_empty coll_empty (new_KafkaProducer kafka_enabled net) 0).

(** One request served to its end. *)
Inductive step : Catalog -> Catalog -> Prop :=
| step_request req w : step w (state_after (handle req) w).

(** The states of a running process. *)
Inductive reachable : Catalog -> Prop :=
| reachable_boot kafka_enabled net : reachable (boot kafka_enabled net)
| reachable_step w w' : reachable w -> step w w' -> reachable w'.

(** The state after a list of requests, served in order. *)
Definition serve (reqs : list ProductRequest) (w : Catalog) : Catalog :=
  foldl (fun w req => state_after (handle req) w) w reqs.

End Routes.
End ProductController.

(** ** What the actions leave alone *)

Section Frames.
Context `{Mongo} {B : Type} (f : Catalog -> B).
Hypothesis f_clock : forall t w, f (with_catalog_clock t w) = f w.
Hypothesis f_categories : forall c w, f (with_categories c w) = f w.
Hypothesis f_products : forall c w, f (with_products c w) = f w.

Lemma keeps_catalog_utcnow : keeps f catalog_utcnow.
Proof. intros w. apply f_clock. Qed.

Lemma keeps_Category_insert c : keeps f (Category_insert c).
Proof.
  intros w. unfold state_after, Category_insert.
  destruct (coll_insert c (categories w)). apply f_categories.
Qed.

Lemma keeps_Product_insert p : keeps f (Product_insert p).
Proof.
  intros w. unfold state_after, Product_insert.
  destruct (coll_insert p (products w)). apply f_products.
Qed.

Lemma keeps_Category_save c : keeps f (Category_save c).
Proof. apply keeps_modify. intros w. apply f_categories. Qed.

Lemma keeps_Product_save p : keeps f (Product_save p).
Proof. apply keeps_modify. intros w. apply f_products. Qed.

Lemma keeps_create_category d : keeps f (CategoryRepository.create_category d).
Proof.
  unfold CategoryRepository.create_category.
  repeat (apply keeps_bind; [|intros ?]);
    [apply keeps_catalog_utcnow.. | apply keeps_of_res | apply keeps_Category_insert].
Qed.

Lemma keeps_create_product d cn : keeps f (ProductRepository.create_product d cn).
Proof.
  unfold ProductRepository.create_product.
  repeat (apply keeps_bind; [|intros ?]);
    [apply keeps_catalog_utcnow.. | apply keeps_of_res | apply keeps_Product_insert].
Qed.

End Frames.

#[export] Hint Resolve keeps_catalog_utcnow keeps_Category_insert
  keeps_Product_insert keeps_Category_save keeps_Product_save
  keeps_create_category keeps_create_product : keeps.

Ltac unfold_controller :=
  unfold ProductController.create_category, ProductController.get_all_categories,
    ProductController.get_category_by_id, ProductController.update_category,
    ProductController.delete_category, ProductController.create_product,
    ProductController.get_all_products, ProductController.search_products,
    ProductController.get_product_by_id, ProductController.update_product,
    ProductController.delete_product, ProductController.update_product_stock.

(** ** The routes, one by one *)

Section Routes.
Context `{Mongo}.

(** Whatever of the state the clock and the collections do not hold is
    left alone by every request. *)
Lemma handle_keeps {B} (f : Catalog -> B) req :
  (forall t w, f (with_catalog_clock t w) = f w) ->
  (forall c w, f (with_categories c w) = f w) ->
  (forall c w, f (with_products c w) = f w) ->
  keeps f (ProductController.handle req).
Proof.
  intros Hclock Hcategories Hproducts.
  destruct req; cbn [ProductController.handle]; unfold_controller; unfold_service;
    unfold_repo; keeps.
Qed.

(** The routes that read leave the state as it is. *)
Lemma get_all_categories_reads skip limit active_only w :
  state_after (ProductController.get_all_categories skip limit active_only) w = w.
Proof.
  apply keeps_id. unfold_controller. unfold_service. unfold_repo. keeps.
Qed.

Lemma get_category_by_id_reads category_id w :
  state_after (ProductController.get_category_by_id category_id) w = w.
Proof.
  apply keeps_id. unfold_controller. unfold_service. unfold_repo. keeps.
Qed.

Lemma get_all_products_reads page per_page w :
  state_after (ProductController.get_all_products page per_page) w = w.
Proof.
  apply keeps_id. unfold_controller. unfold_service. unfold_repo. keeps.
Qed.

Lemma search_products_reads query category_id min_price max_price tags is_available page
    per_page w :
  state_after (ProductController.search_products query category_id min_price max_price tags
                 is_available page per_page) w = w.
Proof.
  apply keeps_id. unfold_controller. unfold_service. unfold_repo. keeps.
Qed.

Lemma get_product_by_id_reads product_id w :
  state_after (ProductController.get_product_by_id product_id) w = w.
Proof.
  apply keeps_id. unfold_controller. unfold_service. unfold_repo. keeps.
Qed.

(** A route that writes runs its service method when its parameters
    validate, and leaves the state as it is when they do not. *)
Lemma writes_state {A} valid code (wrap : A -> ProductPayload) (c : Act Catalog A) w :
  state_after (validated valid (respond code wrap (reraise_http c))) w =
  if valid then state_after c w else w.
Proof. rewrite route_state. by rewrite reraise_http_state. Qed.

Lemma handle_ok req w :
  catalog_ok w -> catalog_ok (state_after (ProductController.handle req) w).
Proof.
  intros Hok. destruct req; cbn [ProductController.handle];
    rewrite ?get_all_categories_reads, ?get_category_by_id_reads, ?get_all_products_reads,
      ?search_products_reads; try done; unfold_controller;
    rewrite ?writes_state, ?respond_state, ?reraise_http_state.
  - destruct (CategoryCreate.valid _) eqn:Hv; [by apply create_category_ok | done].
  - destruct (CategoryUpdate.valid _) eqn:Hv; [by apply update_category_ok | done].
  - by apply delete_category_ok.
  - destruct (ProductCreate.valid _) eqn:Hv; [by apply create_product_ok | done].
  - destruct (String.eqb _ _);
      [by rewrite (search_products_reads None None None None None None 1 20)
      | by rewrite (get_product_by_id_reads product_id)].
  - destruct (ProductUpdate.valid _) eqn:Hv; [by apply update_product_ok | done].
  - by apply delete_product_ok.
  - destruct (bool_decide _); [by apply update_stock_ok | done].
Qed.

End Routes.

(** ** The process *)

Section Process.
Context `{Mongo}.

Lemma boot_frame kafka_enabled net :
  let w := ProductController.boot kafka_enabled net in
  categories w = coll_empty /\ products w = coll_empty /\ broker (catalog_producer w) = [].
Proof.
  pose proof (start_broker (new_KafkaProducer kafka_enabled net)) as Hb.
  unfold ProductController.boot, ProductController.startup, ProductProducer.start, state_after,
    zoom in *. cbn [catalog_producer] in *. by destruct (start _) as [r k].
Qed.

Lemma catalog_ok_empty w :
  categories w = coll_empty -> products w = coll_empty -> catalog_ok w.
Proof.
  intros Hc Hp. unfold catalog_ok, catalog_wf, sku_unique, names_unique. rewrite Hc, Hp.
  split_and!; try apply coll_wf_empty; try (by constructor);
    intros x1 x2 Hin; by apply elem_of_nil in Hin.
Qed.

Lemma boot_ok kafka_enabled net : catalog_ok (ProductController.boot kafka_enabled net).
Proof. destruct (boot_frame kafka_enabled net) as (Hc & Hp & _). by apply catalog_ok_empty. Qed.

Lemma reachable_ok w : ProductController.reachable w -> catalog_ok w.
Proof.
  induction 1 as [kafka_enabled net|w w' _ IH Hstep]; [apply boot_ok|].
  destruct Hstep as [req w]. by apply handle_ok.
Qed.

Lemma serve_ok reqs w : catalog_ok w -> catalog_ok (ProductController.serve reqs w).
Proof.
  revert w. induction reqs as [|req reqs IH]; intros w Hok; [done|].
  cbn. by apply IH, handle_ok.
Qed.

Lemma catalog_serve_reachable reqs w :
  ProductController.reachable w -> ProductController.reachable (ProductController.serve reqs w).
Proof.
  revert w. induction reqs as [|req reqs IH]; intros w Hw; [done|].
  cbn. apply IH. eapply ProductController.reachable_step; [exact Hw | constructor].
Qed.

(** The stored products satisfy the constraints of the model and are
    found under their identifiers. *)
Lemma catalog_ok_product_found w p :
  catalog_ok w -> p ∈ docs (products w) ->
  Product.valid p = true /\ coll_get_str (str_id (Product.id p)) (products w) = Some p.
Proof.
  intros ((_ & Hwf & _ & Hvalid) & _) Hin. rewrite Forall_forall in Hvalid.
  split; [by apply Hvalid | exact (coll_get_str_elem_of (products w) p Hwf Hin)].
Qed.

(** C9.  The catalogue of a running product service is well formed at
    every moment: whatever requests were served since the boot, valid or
    not, the identifiers of the stored documents are unique, every stored
    category and product satisfies the constraints of its model, no two
    products carry the same non-empty SKU and no two categories the same
    name: a non-empty SKU names one stored product, a name one stored
    category. *)
Theorem catalog_invariant w :
  ProductController.reachable w ->
  catalog_ok w /\
  (forall p1 p2, p1 ∈ docs (products w) -> p2 ∈ docs (products w) ->
     truthy_str (Product.sku p1) = true -> Product.sku p1 = Product.sku p2 -> p1 = p2) /\
  (forall c1 c2, c1 ∈ docs (categories w) -> c2 ∈ docs (categories w) ->
     Category.name c1 = Category.name c2 -> c1 = c2).
Proof.
  intros Hok%reachable_ok. split; [done|].
  destruct Hok as ((Hc & Hp & _) & Hsku & Hnames).
  split; intros x1 x2 H1 H2.
  - intros Ht He. eapply coll_wf_id_inj; [done..|]. by apply Hsku.
  - intros He. eapply coll_wf_id_inj; [done..|]. by apply Hnames.
Qed.

(** C40.  Every product stored by a running product service is a value
    of its model: it satisfies the constraints the fields of [Product]
    declare, although the updates assign the fields without validating
    them.  So no sequence of requests brings the stock of a product below
    zero or its price to zero or below; and a product is found under the
    identifier it carries. *)
Theorem catalog_stock_never_negative w p :
  ProductController.reachable w -> p ∈ docs (products w) ->
  Product.valid p = true /\
  (0 <= Product.stock_quantity p)%Z /\ (0 < Product.price p)%Q /\
  coll_get_str (str_id (Product.id p)) (products w) = Some p.
Proof.
  intros Hreach%reachable_ok Hin.
  destruct (catalog_ok_product_found w p) as [Hvalid Hget]; [done..|].
  split_and!; [done | by apply Product_valid_stock | by apply Product_valid_price | done].
Qed.

(** The product service publishes nothing: whatever requests it
    serves, the broker holds no message of its producer.  The publish
    helpers of [Events.ProductProducer] are called by none of the routes. *)
Theorem product_service_never_publishes w :
  ProductController.reachable w -> broker (catalog_producer w) = [].
Proof.
  induction 1 as [kafka_enabled net|w w' _ IH Hstep]; [apply boot_frame|].
  destruct Hstep as [req w]. by rewrite (handle_keeps catalog_producer req).
Qed.

(** Every request to the product service is answered, and the
    answer is well formed: the payload under the status code the route
    declares (201 for the two creations, 200 otherwise), the error
    envelope under one of 400, 401, 403, 404 and 500, or the validation
    error under 422. *)
Theorem product_handle_answers req w :
  exists r, result_of (ProductController.handle req) w = Ok r /\
            answers (product_success_code req) r = true.
Proof.
  destruct req; cbn [ProductController.handle product_success_code];
    try destruct (String.eqb _ _); unfold_controller;
    first [ apply route_answers | apply respond_answers_known | by eexists ];
    auto with known.
Qed.

(** Over HTTP, a stock change that would leave a negative quantity
    is answered 400 with the message of the service and writes nothing;
    a request without the query parameter [quantity_change] is answered
    422 and writes nothing either, whatever its body. *)
Theorem stock_patch_refused product_id quantity_change w p :
  coll_get_str product_id (products w) = Some p ->
  (Product.stock_quantity p + quantity_change < 0)%Z ->
  ProductController.handle (PATCH_product_stock product_id (Some quantity_change)) w =
    (Ok (mkHttpResponse HTTP_400_BAD_REQUEST
           (ErrorBody "Product not found or insufficient stock" HTTP_400_BAD_REQUEST)), w) /\
  ProductController.handle (PATCH_product_stock product_id None) w = (Ok validation_error, w).
Proof.
  intros Hget Hneg. split; [|done]. cbn [ProductController.handle]. unfold_controller.
  rewrite validated_run, respond_run, reraise_http_run. cbn [bool_decide default].
  rewrite bool_decide_true by done. rewrite update_stock_cases, Hget.
  by rewrite bool_decide_true.
Qed.

End Process.
