(* ===== verification/Lifespan.v ===== *)
(** * The lifespans of the order and product applications.

    [lifespan] of [src/order_service/app/main.py] and of
    [src/product_service/app/main.py]: connect to the database and start
    the producer, serve, stop the producer and close the connection.  A
    process is the connection of [Database] beside the state of the
    application; the code before [yield] and the code after it are actions
    on the process, and between the two the application serves the
    requests it is sent.

    The theorems relate the process of the controllers ([boot], [serve]) to
    the lifespan: when the database answers, the lifespan is the boot, the
    requests, the shutdown, and it ends with nothing held open; when it
    does not, the exception leaves the lifespan before the application is
    started, and the code after [yield] never runs. *)

From S2P Require Import Prelude Money Json Collection Http Database Kafka Events External.
From S2P Require Import OrderModel OrderSchemas OrderRepository OrderService OrderApi.
From S2P Require Import ProductModel ProductRepository ProductService ProductApi.
Local Open Scope act_scope.

(** ** A process *)

Record Process (W : Type) : Type := mkProcess {
  connection : Connection;
  app : W;
}.
Arguments mkProcess {W} connection app.
Arguments connection {W} p.
Arguments app {W} p.

Section Lifespan.
Context {W Req : Type}.
Implicit Types (p : Process W).

Definition on_connection {A} (c : Act Connection A) : Act (Process W) A :=
  zoom connection (fun v p => mkProcess v (app p)) c.

Definition on_app {A} (c : Act W A) : Act (Process W) A :=
  zoom app (fun v p => mkProcess (connection p) v) c.

(** While the context of the lifespan is open the application serves its
    requests; what a request raises is answered by the exception
    handlers and never reaches the lifespan. *)
Definition serving (serve : list Req -> W -> W) (reqs : list Req) : Act (Process W) unit :=
  modify (fun p => mkProcess (connection p) (serve reqs (app p))).

(** The shape the lifespans share. *)
Definition lifespan_of (connect close : Act Connection unit) (startup shutdown : Act W unit)
    (serve : list Req -> W -> W) (reqs : list Req) : Act (Process W) unit :=
  on_connection connect ;;
  on_app startup ;;
  serving serve reqs ;;
  on_app shutdown ;;
  on_connection close.

Context (connect close : Act Connection unit) `{!ConnectionModule connect close}.
Context (startup shutdown : Act W unit) (serve : list Req -> W -> W).
Hypothesis startup_total : forall w, result_of startup w = Ok tt.
Hypothesis shutdown_total : forall w, result_of shutdown w = Ok tt.

(** The database answers: the lifespan is the boot, the requests, the
    shutdown, and the connection is closed at the end. *)
Lemma lifespan_connected reqs p :
  is_ok (result_of connect (connection p)) = true ->
  lifespan_of connect close startup shutdown serve reqs p =
  (Ok tt, mkProcess (state_after close (state_after connect (connection p)))
            (state_after shutdown (serve reqs (state_after startup (app p))))).
Proof.
  intros Hc. pose proof (close_total (state_after connect (connection p))) as Ht.
  pose proof (startup_total (app p)) as Hs.
  pose proof (shutdown_total (serve reqs (state_after startup (app p)))) as Hd.
  unfold lifespan_of, on_connection, on_app, serving, bind, zoom, modify, result_of,
    state_after in *.
  destruct (connect (connection p)) as [[[]|e] c']; [|done]. cbn in *.
  destruct (startup (app p)) as [r w1]; cbn in *; subst r.
  destruct (shutdown (serve reqs w1)) as [r w2]; cbn in *; subst r.
  destruct (close c') as [r c'']. cbn in *. by subst.
Qed.

(** The database does not answer: the exception leaves the lifespan, the
    application is never started, and the connection is left as
    [connect] left it. *)
Lemma lifespan_not_connected reqs p e :
  result_of connect (connection p) = Raise e ->
  lifespan_of connect close startup shutdown serve reqs p =
  (Raise e, mkProcess (state_after connect (connection p)) (app p)).
Proof.
  intros Hc. unfold lifespan_of, bind, on_connection, zoom, result_of, state_after in *.
  destruct (connect (connection p)) as [r c']. cbn in *. by subst.
Qed.

End Lifespan.

(** ** The producer across a lifespan *)

(** After [stop] no client is running. *)
Lemma stop_not_running k : producer (state_after Kafka.stop k) <> Some Running.
Proof. unfold state_after, Kafka.stop, bind, get. by destruct (producer k) eqn:E; cbn; rewrite ?E. Qed.

Lemma zoom_total {W V} (proj : W -> V) upd (c : Act V unit) w :
  result_of c (proj w) = Ok tt -> result_of (zoom proj upd c) w = Ok tt.
Proof. unfold result_of, zoom. by destruct (c (proj w)). Qed.

(** ** The order service *)

Module OrderProcess.
Section Process.
Context `{MongoServer} `{Peers} `{Environment}.

(** The process before its lifespan: no connection, empty collections, the
    producer configured from the environment. *)
Definition fresh (kafka_enabled : bool) (net : nat -> bool) : Process World :=
  mkProcess disconnected
    (mkWorld coll_empty coll_empty (new_KafkaProducer kafka_enabled net) 0 0).

Definition lifespan (reqs : list Request) : Act (Process World) unit :=
  on_connection OrderConnection.connect_to_mongo ;;
  on_app OrderController.startup ;;
  serving OrderController.serve reqs ;;
  on_app OrderController.shutdown ;;
  on_connection OrderConnection.close_mongo_connection.

End Process.
End OrderProcess.

(** ** The product service *)

Module ProductProcess.
Section Process.
Context `{MongoServer} `{Mongo}.

Definition fresh (kafka_enabled : bool) (net : nat -> bool) : Process Catalog :=
  mkProcess ProductConnection.db
    (mkCatalog coll_empty coll_empty (new_KafkaProducer kafka_enabled net) 0).

Definition lifespan (reqs : list ProductRequest) : Act (Process Catalog) unit :=
  on_connection ProductConnection.connect_to_mongo ;;
  on_app ProductController.startup ;;
  serving ProductController.serve reqs ;;
  on_app ProductController.shutdown ;;
  on_connection ProductConnection.close_mongo_connection.

End Process.
End ProductProcess.

(** ** The lifespans and the processes of the controllers *)

Section Order.
Context `{MongoServer} `{Peers} `{Environment}.

Lemma order_startup_total w : result_of OrderController.startup w = Ok tt.
Proof. apply zoom_total, start_total. Qed.

Lemma order_shutdown_total w : result_of OrderController.shutdown w = Ok tt.
Proof. apply zoom_total, stop_total. Qed.

(** C32.  When the database answers the ping and the models initialise, the
    lifespan of the order service returns; the application it ran is the
    process of the controller, booted, serving the requests in their order
    and shut down; at the end the client is closed and no producer is
    running. *)
Theorem order_lifespan_serves kafka_enabled net reqs :
  is_ok (result_of OrderConnection.connect_to_mongo disconnected) = true ->
  let p' := state_after (OrderProcess.lifespan reqs) (OrderProcess.fresh kafka_enabled net) in
  result_of (OrderProcess.lifespan reqs) (OrderProcess.fresh kafka_enabled net) = Ok tt /\
  app p' = state_after OrderController.shutdown
             (OrderController.serve reqs (OrderController.boot kafka_enabled net)) /\
  released (connection p') = true /\
  producer (kafka_producer (app p')) <> Some Running.
Proof.
  intros Hc. cbv zeta. unfold result_of at 1, state_after at 1 2 3 4.
  change (OrderProcess.lifespan reqs) with
    (lifespan_of OrderConnection.connect_to_mongo OrderConnection.close_mongo_connection
       OrderController.startup OrderController.shutdown OrderController.serve reqs).
  rewrite (lifespan_connected _ _ _ _ _ order_startup_total order_shutdown_total) by done.
  cbn [fst snd app connection]. split_and!; [done|done|apply close_released|].
  set (w := OrderController.serve _ _).
  pose proof (stop_not_running (kafka_producer w)) as Hn.
  unfold OrderController.shutdown, state_after, zoom in *.
  by destruct (stop (kafka_producer w)).
Qed.

(** C33.  When the ping fails, [connect_to_mongo] re-raises and the exception
    leaves the lifespan: no request is served, the producer is never
    started, and the client made for the ping stays open in the global,
    because the code after [yield] does not run. *)
Theorem order_lifespan_without_database kafka_enabled net reqs e :
  ping (default "mongodb://localhost:27017" (getenv "MONGODB_URL")) = Raise e ->
  OrderProcess.lifespan reqs (OrderProcess.fresh kafka_enabled net) =
  (Raise e, mkProcess order_assigned (app (OrderProcess.fresh kafka_enabled net))) /\
  released order_assigned = false.
Proof.
  intros Hping. split; [|done].
  change (OrderProcess.lifespan reqs) with
    (lifespan_of OrderConnection.connect_to_mongo OrderConnection.close_mongo_connection
       OrderController.startup OrderController.shutdown OrderController.serve reqs).
  rewrite (lifespan_not_connected _ _ _ _ _ _ _ e);
    unfold result_of, state_after; rewrite order_connect_run; [done|]. cbn. by rewrite Hping.
Qed.

End Order.

Section Product.
Context `{MongoServer} `{Mongo}.

Lemma product_startup_total w : result_of ProductController.startup w = Ok tt.
Proof. apply zoom_total, start_total. Qed.

Lemma product_shutdown_total w : result_of ProductController.shutdown w = Ok tt.
Proof. apply zoom_total, stop_total. Qed.

(** The lifespan of the product service never pings: it runs the
    application whenever the models initialise, and then it is the process
    of the controller, booted, serving and shut down, with the client
    closed at the end. *)
Theorem product_lifespan_serves kafka_enabled net reqs :
  is_ok (result_of ProductConnection.connect_to_mongo ProductConnection.db) = true ->
  let p' := state_after (ProductProcess.lifespan reqs) (ProductProcess.fresh kafka_enabled net) in
  result_of (ProductProcess.lifespan reqs) (ProductProcess.fresh kafka_enabled net) = Ok tt /\
  app p' = state_after ProductController.shutdown
             (ProductController.serve reqs (ProductController.boot kafka_enabled net)) /\
  released (connection p') = true.
Proof.
  intros Hc. cbv zeta. unfold result_of at 1, state_after at 1 2 3.
  change (ProductProcess.lifespan reqs) with
    (lifespan_of ProductConnection.connect_to_mongo ProductConnection.close_mongo_connection
       ProductController.startup ProductController.shutdown ProductController.serve reqs).
  rewrite (lifespan_connected _ _ _ _ _ product_startup_total product_shutdown_total) by done.
  cbn [fst snd app connection]. split_and!; [done|done|apply close_released].
Qed.

End Product.
