(* ===== verification/UserModel.v ===== *)
(** * The document and schemas of the user service:
    [src/user_service/app/models/user.py] and
    [src/user_service/app/schemas/user_schemas.py].

    The document [User] and one record per pydantic class, each in a
    module of its name.  The [Field] constraints of a class are its [valid]
    predicate.  [EmailStr] is the validator of the library
    [email-validator]: what it accepts is the parameter [is_email]; the
    normalisation it applies to an accepted address is not modelled, an
    address is the string that was sent.

    [unique=True] on the field [email] of the document is an argument
    pydantic does not know and Beanie does not read (an index is declared
    with [Indexed]): no index is created, and the addresses are kept unique
    by the service alone. *)

From S2P Require Import Prelude Json Collection.

(** What [EmailStr] accepts: not the empty string. *)
Class EmailValidator : Type := {
  is_email : string -> bool;
  is_email_empty : is_email "" = false;
}.

(** ** The document *)

Module User.
Record t : Type := mk {
  id : option nat;
  name : string;
  email : string;
  password_hash : string;
  is_active : bool;
  created_at : nat;
  updated_at : nat;
}.

Definition valid `{EmailValidator} (u : t) : bool :=
  length_in 2 100 (name u) && is_email (email u).

Definition set_id (v : option nat) (u : t) : t :=
  mk v (name u) (email u) (password_hash u) (is_active u) (created_at u) (updated_at u).
Definition set_name (v : string) (u : t) : t :=
  mk (id u) v (email u) (password_hash u) (is_active u) (created_at u) (updated_at u).
Definition set_email (v : string) (u : t) : t :=
  mk (id u) (name u) v (password_hash u) (is_active u) (created_at u) (updated_at u).
Definition set_password_hash (v : string) (u : t) : t :=
  mk (id u) (name u) (email u) v (is_active u) (created_at u) (updated_at u).
Definition set_is_active (v : bool) (u : t) : t :=
  mk (id u) (name u) (email u) (password_hash u) v (created_at u) (updated_at u).
Definition set_updated_at (v : nat) (u : t) : t :=
  mk (id u) (name u) (email u) (password_hash u) (is_active u) (created_at u) v.
End User.

#[export] Instance User_document : Document User.t :=
  {| doc_id := User.id; with_id := fun i => User.set_id (Some i);
     doc_id_with_id := fun _ _ => eq_refl |}.

(** ** Schemas *)

Module UserCreate.
Record t : Type := mk {
  name : string;
  email : string;
  password : string;
}.
Definition valid `{EmailValidator} (u : t) : bool :=
  length_in 2 100 (name u) && is_email (email u) && length_in 8 128 (password u).
End UserCreate.

Module UserLogin.
Record t : Type := mk {
  email : string;
  password : string;
}.
Definition valid `{EmailValidator} (u : t) : bool := is_email (email u).
End UserLogin.

Module UserUpdate.
Record t : Type := mk {
  name : option string;
  email : option string;
}.
Definition valid `{EmailValidator} (u : t) : bool :=
  opt_ok (length_in 2 100) (name u) && opt_ok is_email (email u).
End UserUpdate.

Module UserPasswordUpdate.
Record t : Type := mk {
  current_password : string;
  new_password : string;
}.
Definition valid (u : t) : bool := length_in 8 128 (new_password u).
End UserPasswordUpdate.

(** The response carries no password and no hash. *)
Module UserResponse.
Record t : Type := mk {
  id : string;
  name : string;
  email : string;
  is_active : bool;
  created_at : nat;
  updated_at : nat;
}.
End UserResponse.

Module UserLoginResponse.
Record t : Type := mk {
  access_token : string;
  token_type : string;
  user : UserResponse.t;
}.
End UserLoginResponse.

(** [StandardResponse] of the user service: its [data] is the dictionary
    of a user response. *)
Module UserStandardResponse.
Record t : Type := mk {
  success : bool;
  message : string;
  data : option UserResponse.t;
}.
End UserStandardResponse.

(** ** Constructor of the document *)

(** The [User] built from the keys [name], [email] and [password_hash] of
    the dictionary [user_data]; the two timestamp defaults read the clock
    at [t1] and [t2]. *)
Definition new_User `{EmailValidator} (name email password_hash : string) (t1 t2 : nat)
    : Res User.t :=
  let u := User.mk None name email password_hash true t1 t2 in
  if User.valid u then Ok u
  else Raise (PyException "ValidationError" "validation error for User").

(** ** Lemmas *)

Section Lemmas.
Context `{EmailValidator}.

(** A request that validates builds a valid document, whatever the hash. *)
Lemma new_User_valid d password_hash t1 t2 :
  UserCreate.valid d = true ->
  new_User (UserCreate.name d) (UserCreate.email d) password_hash t1 t2 =
  Ok (User.mk None (UserCreate.name d) (UserCreate.email d) password_hash true t1 t2).
Proof.
  unfold UserCreate.valid, new_User, User.valid. cbn.
  rewrite !andb_true_iff. by intros [[-> ->] _].
Qed.

Lemma new_User_Ok name email password_hash t1 t2 u :
  new_User name email password_hash t1 t2 = Ok u ->
  User.valid u = true /\ User.id u = None /\ User.is_active u = true /\ User.email u = email.
Proof. unfold new_User. cbv zeta. case_match; [|done]. by intros [= <-]. Qed.

End Lemmas.
