(* ===== verification/UserRepository.v ===== *)
(** * The repository of the user service:
    [src/user_service/app/repositories/user_repository.py].

    The state of the process is [Accounts]: the collection [users] and a
    logical clock.  The user service starts no Kafka producer (its
    [main.py] does not import the module that defines one), so the state
    holds none.  Every method of [UserRepository] is an action on
    [Accounts]; an identifier is the string a client sends, and an update
    dictionary is a list of typed field items, as in the product service.

    [accounts_ok] is the invariant of the state: well-formed identifiers,
    documents that satisfy the constraints of the model, one document per
    email address. *)

From S2P Require Import Prelude Json Collection UserModel.
Local Open Scope act_scope.

(** ** The state of the process *)

Record Accounts : Type := mkAccounts {
  users : Collection User.t;
  accounts_clock : nat;
}.

Definition with_users (c : Collection User.t) (w : Accounts) : Accounts :=
  mkAccounts c (accounts_clock w).
Definition with_accounts_clock (t : nat) (w : Accounts) : Accounts :=
  mkAccounts (users w) t.

(** [datetime.utcnow()]: the reading, and the clock moves on. *)
Definition accounts_utcnow : Act Accounts nat :=
  fun w => (Ok (accounts_clock w), with_accounts_clock (S (accounts_clock w)) w).

(** [await User.get(ObjectId(s))], [insert] and [save]. *)
Definition User_get (user_id : string) : Act Accounts (option User.t) :=
  gets (fun w => coll_get_str user_id (users w)).

Definition User_insert (user : User.t) : Act Accounts User.t :=
  fun w => let '(u, us) := coll_insert user (users w) in (Ok u, with_users us w).

Definition User_save (user : User.t) : Act Accounts unit :=
  modify (fun w => with_users (coll_save user (users w)) w).

(** One item of the dictionary [update_user] assigns. *)
Inductive UserField : Type :=
| User_name (v : string)
| User_email (v : string)
| User_password_hash (v : string).

(** ** The class [UserRepository] *)

Module UserRepository.
Section Methods.
Context `{EmailValidator}.

Definition create_user (name email password_hash : string) : Act Accounts User.t :=
  t1 <- accounts_utcnow ;;
  t2 <- accounts_utcnow ;;
  user <- of_res (new_User name email password_hash t1 t2) ;;
  User_insert user.

Definition get_user_by_id (user_id : string) : Act Accounts (option User.t) :=
  User_get user_id.

Definition get_user_by_email (email : string) : Act Accounts (option User.t) :=
  gets (fun w => coll_find_one (fun u => bool_decide (User.email u = email)) (users w)).

(** [setattr(user, field, value)]. *)
Definition setattr (f : UserField) (u : User.t) : User.t :=
  match f with
  | User_name v => User.set_name v u
  | User_email v => User.set_email v u
  | User_password_hash v => User.set_password_hash v u
  end.

Definition update_user (user_id : string) (update_data : list UserField)
    : Act Accounts (option User.t) :=
  found <- User_get user_id ;;
  match found with
  | Some user =>
      let user := foldl (fun u f => setattr f u) user update_data in
      now <- accounts_utcnow ;;
      let user := User.set_updated_at now user in
      User_save user ;;
      ret (Some user)
  | None => ret None
  end.

(** Soft delete: the document stays, inactive. *)
Definition delete_user (user_id : string) : Act Accounts bool :=
  found <- User_get user_id ;;
  match found with
  | Some user =>
      let user := User.set_is_active false user in
      now <- accounts_utcnow ;;
      let user := User.set_updated_at now user in
      User_save user ;;
      ret true
  | None => ret false
  end.

Definition get_all_users (skip limit : nat) : Act Accounts (list User.t) :=
  gets (fun w => skip_limit skip limit (coll_find User.is_active (users w))).

Definition user_exists (email : string) : Act Accounts bool :=
  user <- gets (fun w =>
            coll_find_one (fun u => bool_decide (User.email u = email)) (users w)) ;;
  ret (bool_decide (is_Some user)).

End Methods.
End UserRepository.

(** ** Invariant of the state *)

(** No two users carry the same email address. *)
Definition emails_unique (w : Accounts) : Prop :=
  unique_key User.email (fun _ => true) (users w).

Definition accounts_ok `{EmailValidator} (w : Accounts) : Prop :=
  coll_wf (users w) /\ Forall (fun u => User.valid u = true) (docs (users w)) /\
  emails_unique w.

(** ** The pure content of the mutations *)

(** The user [update_user] stores. *)
Definition updated (update_data : list UserField) (now : nat) (u : User.t) : User.t :=
  User.set_updated_at now (foldl (fun u f => UserRepository.setattr f u) u update_data).

(** The state after a user has been saved at the clock's reading, and
    after one has been inserted (the constructor read the clock twice). *)
Definition user_stored (u : User.t) (w : Accounts) : Accounts :=
  with_users (coll_save u (users w)) (with_accounts_clock (S (accounts_clock w)) w).

Definition user_inserted (u : User.t) (w : Accounts) : Accounts :=
  with_users (coll_insert u (users w)).2
    (with_accounts_clock (S (S (accounts_clock w))) w).

(** The constraint the schemas put on an item of an update. *)
Definition user_field_ok `{EmailValidator} (f : UserField) : bool :=
  match f with
  | User_name v => length_in 2 100 v
  | User_email v => is_email v
  | User_password_hash _ => true
  end.

(** The address an update dictionary assigns, if any. *)
Definition assigned_email (update_data : list UserField) : option string :=
  last (omap (fun f => match f with User_email v => Some v | _ => None end) update_data).

(** ** The methods, in one equation each *)

Section Runs.
Context `{EmailValidator}.
Implicit Types (w : Accounts) (u : User.t).

Lemma create_user_run name email password_hash w :
  length_in 2 100 name && is_email email = true ->
  UserRepository.create_user name email password_hash w =
  let u := User.mk None name email password_hash true (accounts_clock w)
             (S (accounts_clock w)) in
  (Ok (coll_insert u (users w)).1, user_inserted u w).
Proof.
  intros Hv. unfold UserRepository.create_user, bind, accounts_utcnow, of_res, new_User.
  cbn [accounts_clock with_accounts_clock]. unfold User.valid. cbn [User.name User.email].
  by rewrite Hv.
Qed.

Lemma update_user_run user_id update_data w :
  UserRepository.update_user user_id update_data w =
  match coll_get_str user_id (users w) with
  | Some u => let u' := updated update_data (accounts_clock w) u in (Ok (Some u'), user_stored u' w)
  | None => (Ok None, w)
  end.
Proof.
  unfold UserRepository.update_user, User_get, bind, gets.
  by destruct (coll_get_str user_id (users w)) as [u|].
Qed.

Lemma delete_user_run user_id w :
  UserRepository.delete_user user_id w =
  match coll_get_str user_id (users w) with
  | Some u =>
      (Ok true,
       user_stored (User.set_updated_at (accounts_clock w) (User.set_is_active false u)) w)
  | None => (Ok false, w)
  end.
Proof.
  unfold UserRepository.delete_user, User_get, bind, gets.
  by destruct (coll_get_str user_id (users w)) as [u|].
Qed.

Lemma user_exists_run email w :
  UserRepository.user_exists email w =
  (Ok (bool_decide (is_Some (coll_find_one (fun u => bool_decide (User.email u = email))
                               (users w)))), w).
Proof. done. Qed.

(** [user_exists] answers whether a stored user carries the address. *)
Lemma user_exists_spec email w :
  result_of (UserRepository.user_exists email) w = Ok true <->
  exists u, u ∈ docs (users w) /\ User.email u = email.
Proof.
  unfold result_of. rewrite user_exists_run. cbn. split.
  - intros [= Hex%bool_decide_eq_true]. destruct Hex as [u Hu].
    apply coll_find_one_Some in Hu as [Hin Hq%bool_decide_eq_true]. by exists u.
  - intros (u & Hin & He). f_equal. apply bool_decide_eq_true.
    destruct (coll_find_one _ _) eqn:Hf; [done|].
    by destruct (find_one_key_None User.email email (users w) u Hf Hin).
Qed.

End Runs.

(** ** What an update keeps *)

Section Fields.
Context `{EmailValidator}.
Implicit Types (u : User.t) (f : UserField).

Lemma setattr_keeps f u :
  User.id (UserRepository.setattr f u) = User.id u /\
  User.is_active (UserRepository.setattr f u) = User.is_active u /\
  User.created_at (UserRepository.setattr f u) = User.created_at u.
Proof. by destruct f. Qed.

Lemma user_setattr_valid f u :
  user_field_ok f = true -> User.valid u = true -> User.valid (UserRepository.setattr f u) = true.
Proof.
  destruct f; unfold User.valid; cbn; rewrite !andb_true_iff; naive_solver.
Qed.

Lemma updated_keeps update_data now u :
  User.id (updated update_data now u) = User.id u /\
  User.is_active (updated update_data now u) = User.is_active u /\
  User.created_at (updated update_data now u) = User.created_at u.
Proof.
  unfold updated. cbn. revert u.
  induction update_data as [|f l IH]; intros u; [done|].
  cbn. destruct (IH (UserRepository.setattr f u)) as (-> & -> & ->). apply setattr_keeps.
Qed.

Lemma updated_valid update_data now u :
  Forall (fun f => user_field_ok f = true) update_data -> User.valid u = true ->
  User.valid (updated update_data now u) = true.
Proof.
  unfold updated. change (User.valid (User.set_updated_at _ ?x)) with (User.valid x).
  intros Hall. revert u. induction Hall as [|f l Hf _ IH]; intros u Hv; [done|].
  cbn. by apply IH, user_setattr_valid.
Qed.

(** The address after an update is the one the dictionary assigns, or the
    stored one. *)
Lemma updated_email update_data now u :
  User.email (updated update_data now u) = default (User.email u) (assigned_email update_data).
Proof.
  unfold updated, assigned_email. cbn. revert u.
  induction update_data as [|f l IH] using rev_ind; intros u; [done|].
  rewrite foldl_app, omap_app. cbn. destruct f; cbn; rewrite ?app_nil_r, ?last_snoc; try done;
    apply IH.
Qed.

End Fields.

(** ** The invariant under the writes *)

Section Stores.
Context `{EmailValidator}.
Implicit Types (w : Accounts) (u : User.t).

(** Saving a valid user over the stored one keeps the invariant when its
    address is the stored one's or is carried by no user. *)
Lemma user_stored_ok s u u' w :
  accounts_ok w -> coll_get_str s (users w) = Some u ->
  User.id u' = User.id u -> User.valid u' = true ->
  (User.email u' = User.email u \/
   forall x, x ∈ docs (users w) -> User.email x <> User.email u') ->
  accounts_ok (user_stored u' w).
Proof.
  intros (Hwf & Hv & Hu) Hget Hid Hv' Hcase.
  destruct (coll_save_str_docs s u u' _ Hwf Hget Hid) as (i & Hi & Hdocs & Hwf').
  split_and!; [done | by apply (Forall_coll_save_str _ s u) |].
  apply (unique_key_save _ _ s u); [done..|]. destruct Hcase; auto.
Qed.

(** Inserting a valid user keeps the invariant when no user carries its
    address. *)
Lemma user_inserted_ok u w :
  accounts_ok w -> User.valid u = true ->
  (forall x, x ∈ docs (users w) -> User.email x <> User.email u) ->
  accounts_ok (user_inserted u w).
Proof.
  intros (Hwf & Hv & Hu) Hv' Hfresh.
  split_and!; [exact (coll_insert_wf _ _ Hwf) | by apply Forall_coll_insert |].
  apply unique_key_insert; [done..|]. by right.
Qed.

End Stores.
