(* ===== verification/UserService.v ===== *)
(** * The service layer of the user service:
    [src/user_service/app/services/user_service.py].

    The six methods of [UserService] as actions on [Accounts].  The class
    [AuthUtils] they call ([app.utils.auth]) is not among the sources: it is
    the interface [Auth] here, four functions of which nothing is assumed
    but what a theorem states as a hypothesis (that a password verifies
    against its own hash, for the theorem on login).

    The theorems: an address is registered once, a registered user can log
    in and the token is made for their identifier, every stored user stays
    active (the soft delete of the repository is called by nothing), and
    the invariant [accounts_ok] is kept by every method. *)

From S2P Require Import Prelude Json Collection Http UserModel UserRepository.
Local Open Scope act_scope.

(** ** [AuthUtils] *)

Class Auth : Type := {
  (** [AuthUtils.hash_password(password)] *)
  hash_password : string -> string;
  (** [AuthUtils.verify_password(plain_password, hashed_password)] *)
  verify_password : string -> string -> bool;
  (** [AuthUtils.create_access_token(data)] *)
  create_access_token : dict -> string;
  (** [AuthUtils.verify_token(token)]: the payload, or the exception *)
  verify_token : string -> Res dict;
}.

(** ** Responses and exceptions *)

Definition user_response (user : User.t) : UserResponse.t :=
  UserResponse.mk (str_id (User.id user)) (User.name user) (User.email user)
    (User.is_active user) (User.created_at user) (User.updated_at user).

Definition email_registered : exn :=
  HTTPException HTTP_400_BAD_REQUEST "User with this email already exists".
Definition incorrect_credentials : exn :=
  HTTPException HTTP_401_UNAUTHORIZED "Incorrect email or password".
Definition user_not_found : exn := HTTPException HTTP_404_NOT_FOUND "User not found".
Definition email_exists : exn := HTTPException HTTP_400_BAD_REQUEST "Email already exists".
Definition user_update_failed : exn :=
  HTTPException HTTP_500_INTERNAL_SERVER_ERROR "Failed to update user".
Definition wrong_password : exn :=
  HTTPException HTTP_400_BAD_REQUEST "Current password is incorrect".
Definition password_update_failed : exn :=
  HTTPException HTTP_500_INTERNAL_SERVER_ERROR "Failed to update password".

(** The claims of a token: [{"sub": str(user.id), "email": user.email}]. *)
Definition token_data (user : User.t) : dict :=
  [("sub", JStr (str_id (User.id user))); ("email", JStr (User.email user))].

(** The dictionary of an update: the fields that are not [None]. *)
Definition user_update_dict (u : UserUpdate.t) : list UserField :=
  omap id [User_name <$> UserUpdate.name u; User_email <$> UserUpdate.email u].

(** ** The class [UserService] *)

Module UserService.
Section Handlers.
Context `{EmailValidator} `{Auth}.

Definition register_user (user_data : UserCreate.t) : Act Accounts UserResponse.t :=
  registered <- UserRepository.user_exists (UserCreate.email user_data) ;;
  raise_if registered email_registered ;;
  let password_hash := hash_password (UserCreate.password user_data) in
  user <- UserRepository.create_user (UserCreate.name user_data)
            (UserCreate.email user_data) password_hash ;;
  ret (user_response user).

Definition authenticate_user (email password : string) : Act Accounts (option User.t) :=
  user <- UserRepository.get_user_by_email email ;;
  match user with
  | None => ret None
  | Some user =>
      if negb (User.is_active user) then ret None
      else if negb (verify_password password (User.password_hash user)) then ret None
      else ret (Some user)
  end.

(** The dictionary [login_user] returns is the keyword arguments of
    [UserLoginResponse]: it is that record here. *)
Definition login_user (email password : string) : Act Accounts UserLoginResponse.t :=
  user <- authenticate_user email password ;;
  match user with
  | None => raise incorrect_credentials
  | Some user =>
      let access_token := create_access_token (token_data user) in
      ret (UserLoginResponse.mk access_token "bearer" (user_response user))
  end.

Definition get_user_profile (user_id : string) : Act Accounts UserResponse.t :=
  user <- UserRepository.get_user_by_id user_id ;;
  match user with
  | None => raise user_not_found
  | Some user =>
      if negb (User.is_active user) then raise user_not_found
      else ret (user_response user)
  end.

Definition update_user_profile (user_id : string) (update_data : UserUpdate.t)
    : Act Accounts UserResponse.t :=
  user <- UserRepository.get_user_by_id user_id ;;
  match user with
  | None => raise user_not_found
  | Some user =>
      if negb (User.is_active user) then raise user_not_found
      else
        (if truthy_str (UserUpdate.email update_data)
            && negb (bool_decide (UserUpdate.email update_data = Some (User.email user)))
         then
           taken <- UserRepository.user_exists (default "" (UserUpdate.email update_data)) ;;
           raise_if taken email_exists
         else ret tt) ;;
        let update_dict := user_update_dict update_data in
        updated_user <- UserRepository.update_user user_id update_dict ;;
        match updated_user with
        | None => raise user_update_failed
        | Some updated_user => ret (user_response updated_user)
        end
  end.

Definition update_user_password (user_id : string) (password_data : UserPasswordUpdate.t)
    : Act Accounts string :=
  user <- UserRepository.get_user_by_id user_id ;;
  match user with
  | None => raise user_not_found
  | Some user =>
      if negb (User.is_active user) then raise user_not_found
      else if negb (verify_password (UserPasswordUpdate.current_password password_data)
                      (User.password_hash user))
      then raise wrong_password
      else
        let new_password_hash :=
          hash_password (UserPasswordUpdate.new_password password_data) in
        updated_user <- UserRepository.update_user user_id
                          [User_password_hash new_password_hash] ;;
        match updated_user with
        | None => raise password_update_failed
        | Some _ => ret "Password updated successfully"
        end
  end.

End Handlers.
End UserService.

(** ** The handlers, in one equation each *)

(** Whether a stored user carries the address. *)
Definition email_taken (email : string) (w : Accounts) : bool :=
  bool_decide (is_Some (coll_find_one (fun u => bool_decide (User.email u = email)) (users w))).

(** The document [register_user] builds. *)
Definition user_document `{Auth} (d : UserCreate.t) (w : Accounts) : User.t :=
  User.mk None (UserCreate.name d) (UserCreate.email d) (hash_password (UserCreate.password d))
    true (accounts_clock w) (S (accounts_clock w)).

Ltac unfold_user_repo :=
  unfold UserRepository.get_user_by_id, UserRepository.get_user_by_email,
    UserRepository.get_all_users, User_get.

Section Cases.
Context `{EmailValidator} `{Auth}.
Implicit Types (w : Accounts) (u : User.t).

Lemma register_user_cases d w :
  UserCreate.valid d = true ->
  UserService.register_user d w =
  if email_taken (UserCreate.email d) w then (Raise email_registered, w)
  else (Ok (user_response (coll_insert (user_document d w) (users w)).1),
        user_inserted (user_document d w) w).
Proof.
  intros Hv. unfold UserService.register_user. unfold bind at 1.
  rewrite user_exists_run. fold (email_taken (UserCreate.email d) w).
  unfold bind at 1. rewrite raise_if_run. destruct (email_taken _ w); [done|].
  unfold bind. rewrite create_user_run; [done|].
  unfold UserCreate.valid in Hv. by apply andb_true_iff in Hv as [-> _].
Qed.

Lemma authenticate_user_cases email password w :
  UserService.authenticate_user email password w =
  (Ok (match coll_find_one (fun u => bool_decide (User.email u = email)) (users w) with
       | Some u =>
           if User.is_active u && verify_password password (User.password_hash u)
           then Some u else None
       | None => None
       end), w).
Proof.
  unfold UserService.authenticate_user. unfold_user_repo. unfold bind, gets.
  destruct (coll_find_one _ _) as [u|]; [|done].
  destruct (User.is_active u); [|done]. by destruct (verify_password _ _).
Qed.

Lemma login_user_cases email password w :
  UserService.login_user email password w =
  (match result_of (UserService.authenticate_user email password) w with
   | Ok (Some u) =>
       Ok (UserLoginResponse.mk (create_access_token (token_data u)) "bearer" (user_response u))
   | _ => Raise incorrect_credentials
   end, w).
Proof.
  unfold UserService.login_user, bind, result_of. rewrite authenticate_user_cases. cbn [fst].
  by destruct (match coll_find_one _ _ with Some _ => _ | None => _ end).
Qed.

Lemma get_user_profile_cases user_id w :
  UserService.get_user_profile user_id w =
  (match coll_get_str user_id (users w) with
   | Some u => if User.is_active u then Ok (user_response u) else Raise user_not_found
   | None => Raise user_not_found
   end, w).
Proof.
  unfold UserService.get_user_profile. unfold_user_repo. unfold bind, gets.
  destruct (coll_get_str _ _) as [u|]; [|done]. by destruct (User.is_active u).
Qed.

Lemma update_user_profile_cases user_id update_data w :
  UserService.update_user_profile user_id update_data w =
  match coll_get_str user_id (users w) with
  | Some u =>
      if negb (User.is_active u) then (Raise user_not_found, w)
      else if truthy_str (UserUpdate.email update_data)
              && negb (bool_decide (UserUpdate.email update_data = Some (User.email u)))
              && email_taken (default "" (UserUpdate.email update_data)) w
      then (Raise email_exists, w)
      else
        let u' := updated (user_update_dict update_data) (accounts_clock w) u in
        (Ok (user_response u'), user_stored u' w)
  | None => (Raise user_not_found, w)
  end.
Proof.
  unfold UserService.update_user_profile. unfold_user_repo. unfold bind at 1. unfold gets at 1.
  destruct (coll_get_str user_id (users w)) as [u|] eqn:Hget; [|done].
  destruct (User.is_active u); [|done]. cbn [negb]. unfold bind at 1.
  destruct (truthy_str _ && negb _).
  - unfold bind at 1. rewrite user_exists_run.
    fold (email_taken (default "" (UserUpdate.email update_data)) w).
    rewrite raise_if_run. cbn [andb]. destruct (email_taken _ w); [done|].
    unfold bind. by rewrite update_user_run, Hget.
  - cbn [andb]. unfold bind, ret. by rewrite update_user_run, Hget.
Qed.

Lemma update_user_password_cases user_id password_data w :
  UserService.update_user_password user_id password_data w =
  match coll_get_str user_id (users w) with
  | Some u =>
      if negb (User.is_active u) then (Raise user_not_found, w)
      else if negb (verify_password (UserPasswordUpdate.current_password password_data)
                      (User.password_hash u))
      then (Raise wrong_password, w)
      else
        let u' := updated [User_password_hash
                             (hash_password (UserPasswordUpdate.new_password password_data))]
                    (accounts_clock w) u in
        (Ok "Password updated successfully", user_stored u' w)
  | None => (Raise user_not_found, w)
  end.
Proof.
  unfold UserService.update_user_password. unfold_user_repo. unfold bind at 1. unfold gets at 1.
  destruct (coll_get_str user_id (users w)) as [u|] eqn:Hget; [|done].
  destruct (User.is_active u); [|done]. cbn [negb]. destruct (verify_password _ _); [|done].
  cbn [negb]. unfold bind. by rewrite update_user_run, Hget.
Qed.

End Cases.

(** ** The dictionary of an update *)

Section Dicts.
Context `{EmailValidator}.

Lemma user_update_dict_ok u :
  UserUpdate.valid u = true -> Forall (fun f => user_field_ok f = true) (user_update_dict u).
Proof.
  unfold UserUpdate.valid, user_update_dict. rewrite andb_true_iff. intros [Hn He].
  destruct u as [[n|] [e|]]; cbn in *; repeat constructor; done.
Qed.

Lemma assigned_email_dict u : assigned_email (user_update_dict u) = UserUpdate.email u.
Proof. by destruct u as [[n|] [e|]]. Qed.

End Dicts.

(** ** The invariant under the handlers *)

(** Every stored user is active. *)
Definition all_active (w : Accounts) : Prop :=
  Forall (fun u => User.is_active u = true) (docs (users w)).

Definition accounts_inv `{EmailValidator} (w : Accounts) : Prop :=
  accounts_ok w /\ all_active w.

Section Preservation.
Context `{EmailValidator} `{Auth}.
Implicit Types (w : Accounts) (u : User.t).

Lemma email_taken_false email w x :
  email_taken email w = false -> x ∈ docs (users w) -> User.email x <> email.
Proof.
  unfold email_taken. intros Hf%bool_decide_eq_false Hin.
  apply (find_one_key_None User.email email (users w)); [|done].
  destruct (coll_find_one _ _); [by destruct Hf | done].
Qed.

Lemma email_taken_true email w u :
  u ∈ docs (users w) -> User.email u = email -> email_taken email w = true.
Proof.
  intros Hin He. destruct (email_taken email w) eqn:Ht; [done|].
  by destruct (email_taken_false _ _ _ Ht Hin).
Qed.

(** A user saved over the stored one, as active as it was, keeps the
    invariant under the condition of [user_stored_ok]. *)
Lemma user_stored_inv s u u' w :
  accounts_inv w -> coll_get_str s (users w) = Some u ->
  User.id u' = User.id u -> User.valid u' = true -> User.is_active u' = User.is_active u ->
  (User.email u' = User.email u \/
   forall x, x ∈ docs (users w) -> User.email x <> User.email u') ->
  accounts_inv (user_stored u' w).
Proof.
  intros [Hok Hact] Hget Hid Hv Ha Hcase. split; [by eapply user_stored_ok|].
  apply (Forall_coll_save_str _ s u); [apply Hok | done..|].
  rewrite Ha. pose proof (coll_get_str_Some _ _ _ Hget) as [Hin _].
  unfold all_active in Hact. rewrite Forall_forall in Hact. by apply Hact.
Qed.

Lemma register_user_inv d w :
  accounts_inv w -> UserCreate.valid d = true ->
  accounts_inv (state_after (UserService.register_user d) w).
Proof.
  intros [Hok Hact] Hv. unfold state_after. rewrite register_user_cases by done.
  destruct (email_taken _ w) eqn:Ht; [done|]. cbn [snd]. split.
  - apply user_inserted_ok; [done | | intros x Hx; by apply (email_taken_false _ w)].
    unfold UserCreate.valid in Hv. apply andb_true_iff in Hv as [Hv _]. exact Hv.
  - by apply Forall_coll_insert.
Qed.

Lemma update_user_profile_inv user_id update_data w :
  accounts_inv w -> UserUpdate.valid update_data = true ->
  accounts_inv (state_after (UserService.update_user_profile user_id update_data) w).
Proof.
  intros Hinv Hv. unfold state_after. rewrite update_user_profile_cases.
  destruct (coll_get_str user_id (users w)) as [u|] eqn:Hget; [|done].
  destruct (User.is_active u); [|done]. cbn [negb].
  destruct (_ && _ && email_taken _ w) eqn:Ht; [done|]. cbn [snd].
  pose proof (coll_get_str_Some _ _ _ Hget) as [Hin _].
  destruct Hinv as [Hok Hact]. pose proof Hok as (_ & Hvalid & _).
  rewrite Forall_forall in Hvalid.
  eapply user_stored_inv; [done | done | apply updated_keeps | | apply updated_keeps |].
  - apply updated_valid; [by apply user_update_dict_ok | by apply Hvalid].
  - rewrite updated_email, assigned_email_dict.
    destruct (UserUpdate.email update_data) as [e|] eqn:He; [|by left]. cbn [default] in *.
    destruct (decide (e = User.email u)) as [->|Hne]; [by left|]. right.
    rewrite bool_decide_false in Ht by congruence. cbn [negb] in Ht. rewrite andb_true_r in Ht.
    destruct (truthy_str (Some e)) eqn:Hte; cbn [andb] in Ht.
    + intros x Hx. by apply (email_taken_false _ w).
    + apply truthy_str_false in Hte as [?| [= ->]]; [done|].
      unfold UserUpdate.valid in Hv. rewrite He in Hv.
      apply andb_true_iff in Hv as [_ Hv]. cbn in Hv. by rewrite is_email_empty in Hv.
Qed.

Lemma update_user_password_inv user_id password_data w :
  accounts_inv w ->
  accounts_inv (state_after (UserService.update_user_password user_id password_data) w).
Proof.
  intros Hinv. unfold state_after. rewrite update_user_password_cases.
  destruct (coll_get_str user_id (users w)) as [u|] eqn:Hget; [|done].
  destruct (User.is_active u); [|done]. cbn [negb].
  destruct (verify_password _ _); [|done]. cbn [negb snd].
  pose proof (coll_get_str_Some _ _ _ Hget) as [Hin _].
  destruct Hinv as [Hok Hact]. pose proof Hok as (_ & Hvalid & _).
  rewrite Forall_forall in Hvalid.
  eapply user_stored_inv; [done | done | done | | done | by left].
  apply updated_valid; [by repeat constructor | by apply Hvalid].
Qed.

(** The methods that read leave the state as it is. *)
Lemma login_user_state email password w :
  state_after (UserService.login_user email password) w = w.
Proof. unfold state_after. by rewrite login_user_cases. Qed.

Lemma get_user_profile_state user_id w :
  state_after (UserService.get_user_profile user_id) w = w.
Proof. unfold state_after. by rewrite get_user_profile_cases. Qed.

(** Under the invariant, the credentials of a stored user authenticate
    exactly when the password verifies against the stored hash. *)
Lemma authenticate_stored email password w u :
  accounts_inv w -> u ∈ docs (users w) -> User.email u = email ->
  result_of (UserService.authenticate_user email password) w =
  Ok (if verify_password password (User.password_hash u) then Some u else None).
Proof.
  intros [(Hwf & _ & Hu) Hact] Hin <-. unfold result_of. rewrite authenticate_user_cases.
  cbn [fst]. rewrite (find_one_key_Some User.email (fun _ => true)) by done.
  unfold all_active in Hact. rewrite Forall_forall in Hact. by rewrite (Hact u Hin).
Qed.

End Preservation.

(** ** What the service guarantees *)

Section Guarantees.
Context `{EmailValidator} `{Auth}.
Implicit Types (w : Accounts) (u : User.t).

(** C12.  An address is registered once: a registration under the
    address of a stored user is refused with 400 and nothing is written,
    whatever the name and the password. *)
Theorem register_user_once d w u :
  UserCreate.valid d = true -> u ∈ docs (users w) -> User.email u = UserCreate.email d ->
  UserService.register_user d w = (Raise email_registered, w).
Proof.
  intros Hv Hin He. rewrite register_user_cases by done.
  by rewrite (email_taken_true _ _ u).
Qed.

(** A registration under a new address stores the user, active, under a
    fresh identifier, with the hash of the password and not the password;
    the answer carries neither. *)
Lemma register_user_stores d w :
  accounts_inv w -> UserCreate.valid d = true -> email_taken (UserCreate.email d) w = false ->
  exists u w',
    UserService.register_user d w = (Ok (user_response u), w') /\
    accounts_inv w' /\
    docs (users w') = docs (users w) ++ [u] /\
    User.id u = Some (next_id (users w)) /\
    User.name u = UserCreate.name d /\ User.email u = UserCreate.email d /\
    User.password_hash u = hash_password (UserCreate.password d) /\
    User.is_active u = true.
Proof.
  intros Hinv Hv Ht. pose proof (register_user_inv d w Hinv Hv) as Hinv'.
  unfold state_after in Hinv'. rewrite register_user_cases in Hinv' |- * by done.
  rewrite Ht in Hinv' |- *. eexists _, _. split; [done|]. by split_and!.
Qed.

(** C26.  A registered user can log in: after a successful registration,
    when a password verifies against its own hash, the login with the
    address and the password of the registration succeeds, does not change
    the state, and answers with the user that was registered and the token
    made for their identifier and address; with a password that does not
    verify against the stored hash it is refused with 401. *)
Theorem login_after_register d w r w' :
  (forall p, verify_password p (hash_password p) = true) ->
  accounts_inv w -> UserCreate.valid d = true ->
  UserService.register_user d w = (Ok r, w') ->
  exists u,
    u ∈ docs (users w') /\ r = user_response u /\
    UserService.login_user (UserCreate.email d) (UserCreate.password d) w' =
      (Ok (UserLoginResponse.mk (create_access_token (token_data u)) "bearer" r), w') /\
    forall password,
      verify_password password (User.password_hash u) = false ->
      UserService.login_user (UserCreate.email d) password w' = (Raise incorrect_credentials, w').
Proof.
  intros Hhash Hinv Hv Hrun.
  destruct (email_taken (UserCreate.email d) w) eqn:Ht;
    [by rewrite register_user_cases, Ht in Hrun|].
  destruct (register_user_stores d w Hinv Hv Ht)
    as (u & w2 & Hrun' & Hinv' & Hdocs & _ & _ & He & Hp & _).
  rewrite Hrun in Hrun'. injection Hrun' as -> ->.
  assert (u ∈ docs (users w2)) as Hin
    by (rewrite Hdocs; apply elem_of_app; right; apply list_elem_of_singleton; done).
  exists u. split_and!; [done..| |].
  - rewrite login_user_cases, (authenticate_stored _ _ _ u) by done.
    by rewrite Hp, Hhash.
  - intros password Hno. rewrite login_user_cases, (authenticate_stored _ _ _ u) by done.
    by rewrite Hno.
Qed.

(** A password change is guarded by the current password and replaces
    the hash, nothing else of the user: afterwards the new password logs
    in. *)
Lemma update_user_password_spec user_id password_data w u :
  (forall p, verify_password p (hash_password p) = true) ->
  accounts_inv w -> coll_get_str user_id (users w) = Some u ->
  if verify_password (UserPasswordUpdate.current_password password_data) (User.password_hash u)
  then
    exists u' w',
      UserService.update_user_password user_id password_data w
        = (Ok "Password updated successfully", w') /\
      coll_get_str user_id (users w') = Some u' /\
      User.password_hash u' = hash_password (UserPasswordUpdate.new_password password_data) /\
      User.email u' = User.email u /\ User.name u' = User.name u /\
      is_ok (result_of (UserService.login_user (User.email u)
                          (UserPasswordUpdate.new_password password_data)) w') = true
  else
    UserService.update_user_password user_id password_data w = (Raise wrong_password, w).
Proof.
  intros Hhash Hinv Hget. pose proof (update_user_password_inv user_id password_data w Hinv) as Hinv'.
  unfold state_after in Hinv'. rewrite update_user_password_cases, Hget in Hinv' |- *.
  pose proof (coll_get_str_Some _ _ _ Hget) as [Hin _].
  destruct Hinv as [Hok Hact]. unfold all_active in Hact. rewrite Forall_forall in Hact.
  rewrite (Hact u Hin) in Hinv' |- *. cbn [negb] in *.
  destruct (verify_password _ (User.password_hash u)); [|done]. cbn [negb snd] in *.
  set (u' := updated _ _ u) in *. exists u', (user_stored u' w).
  assert (coll_get_str user_id (users (user_stored u' w)) = Some u') as Hget'.
  { apply (coll_get_str_save_eq _ u); [apply Hok | done | done]. }
  split_and!; [done..|].
  pose proof (coll_get_str_Some _ _ _ Hget') as [Hin' _].
  unfold result_of. rewrite login_user_cases, (authenticate_stored _ _ _ u') by done.
  cbn [fst]. change (User.password_hash u') with
    (hash_password (UserPasswordUpdate.new_password password_data)). by rewrite Hhash.
Qed.

End Guarantees.
