(* ===== verification/RegisterRace.v ===== *)
(** * Concurrent registrations.

    [UserService.register_user] of
    [src/user_service/app/services/user_service.py] asks the repository
    whether the address is registered, with an [await] at the query, and
    then has the repository insert the user, with an [await] at the
    insert.  No lock and no transaction spans the two awaits, and the
    collection has no unique index on the address: [unique=True] in
    [src/user_service/app/models/user.py] is an argument of pydantic's
    [Field], which Beanie does not turn into an index.

    Here a registration is a [Registration.Task] resumed one await at a
    time by the event loop of [EventLoop].  Resumed without interruption
    it is [register_user].  Under every schedule the identifiers stay
    unique and the documents valid and active.  But two registrations
    under one address that both pass the check before either inserts are
    both answered with the user they created: the address is stored
    twice, and every login under it is checked against the password of the
    first. *)

From S2P Require Import Prelude Json Collection Http UserModel UserRepository UserService.
From S2P Require Import EventLoop.
Local Open Scope act_scope.

(** ** A registration, await by await *)

Module Registration.

Inductive Task : Type :=
(** called, not yet past [await self.user_repository.user_exists] *)
| Called (user_data : UserCreate.t)
(** past the check, at [await user.insert()] with the document built *)
| Inserting (user : User.t)
| Returned (result : Res UserResponse.t).

Section Resume.
Context `{EmailValidator} `{Auth}.

(** The task runs to its next await. *)
Definition resume (t : Task) : Act Accounts Task :=
  match t with
  | Called user_data =>
      registered <- UserRepository.user_exists (UserCreate.email user_data) ;;
      if registered then ret (Returned (Raise email_registered))
      else
        let password_hash := hash_password (UserCreate.password user_data) in
        t1 <- accounts_utcnow ;;
        t2 <- accounts_utcnow ;;
        match new_User (UserCreate.name user_data) (UserCreate.email user_data)
                password_hash t1 t2 with
        | Ok user => ret (Inserting user)
        | Raise e => ret (Returned (Raise e))
        end
  | Inserting user => user <- User_insert user ;; ret (Returned (Ok (user_response user)))
  | Returned result => ret (Returned result)
  end.

End Resume.
End Registration.
Import Registration.

(** The handler as a task that has returned, with its answer or its
    exception. *)
Definition returned (c : Act Accounts UserResponse.t) : Act Accounts Task :=
  fun w => (Ok (Returned (c w).1), (c w).2).

(** ** What the tasks keep *)

(** What every schedule keeps of the state: unique identifiers, valid
    documents, active users. *)
Definition documents_ok `{EmailValidator} (w : Accounts) : Prop :=
  coll_wf (users w) /\ Forall (fun u => User.valid u = true) (docs (users w)) /\ all_active w.

(** A task at its insert holds a valid document of an active user. *)
Definition insert_ok `{EmailValidator} (w : Accounts) (t : Task) : Prop :=
  match t with
  | Inserting u => User.valid u = true /\ User.is_active u = true
  | _ => True
  end.

(** The state after the check of a registration: the constructor of the
    document has read the clock twice. *)
Definition checked (w : Accounts) : Accounts :=
  with_accounts_clock (S (S (accounts_clock w))) w.

(** The users two registrations store when the second checks before the
    first inserts, and the state they leave. *)
Definition first_stored `{Auth} (d1 : UserCreate.t) (w : Accounts) : User.t :=
  with_id (next_id (users w)) (user_document d1 w).

Definition second_stored `{Auth} (d2 : UserCreate.t) (w : Accounts) : User.t :=
  with_id (S (next_id (users w))) (user_document d2 (checked w)).

Definition twice_stored `{Auth} (d1 d2 : UserCreate.t) (w : Accounts) : Accounts :=
  with_users
    (coll_insert (user_document d2 (checked w))
       (coll_insert (user_document d1 w) (users w)).2).2
    (checked (checked w)).

Lemma twice_stored_docs `{Auth} d1 d2 w :
  docs (users (twice_stored d1 d2 w))
  = docs (users w) ++ [first_stored d1 w; second_stored d2 w].
Proof. cbn. by rewrite <- app_assoc. Qed.

Section Race.
Context `{EmailValidator} `{Auth}.
Implicit Types (w : Accounts) (t : Task) (u : User.t) (d : UserCreate.t).

(** ** One task alone *)

Lemma register_called d w :
  resume (Called d) w =
  if email_taken (UserCreate.email d) w then (Ok (Returned (Raise email_registered)), w)
  else match new_User (UserCreate.name d) (UserCreate.email d)
               (hash_password (UserCreate.password d))
               (accounts_clock w) (S (accounts_clock w)) with
       | Ok u => (Ok (Inserting u), checked w)
       | Raise e => (Ok (Returned (Raise e)), checked w)
       end.
Proof.
  unfold resume. unfold bind at 1. rewrite user_exists_run.
  fold (email_taken (UserCreate.email d) w). destruct (email_taken _ w); [done|].
  unfold bind, accounts_utcnow. cbn [accounts_clock with_accounts_clock].
  by destruct (new_User _ _ _ _ _).
Qed.

Lemma register_inserting u w :
  resume (Inserting u) w =
  (Ok (Returned (Ok (user_response (coll_insert u (users w)).1))),
   with_users (coll_insert u (users w)).2 w).
Proof. done. Qed.

Lemma register_resume_total t w : exists t', result_of (resume t) w = Ok t'.
Proof.
  destruct t as [d|u|r]; unfold result_of; rewrite ?register_called, ?register_inserting;
    [|by eexists..].
  destruct (email_taken _ w); [by eexists|]. destruct (new_User _ _ _ _ _); by eexists.
Qed.

(** The handler on every request, the ones the schema would refuse
    included. *)
Lemma register_user_run d w :
  UserService.register_user d w =
  if email_taken (UserCreate.email d) w then (Raise email_registered, w)
  else match new_User (UserCreate.name d) (UserCreate.email d)
               (hash_password (UserCreate.password d))
               (accounts_clock w) (S (accounts_clock w)) with
       | Ok u => (Ok (user_response (coll_insert u (users w)).1),
                  with_users (coll_insert u (users w)).2 (checked w))
       | Raise e => (Raise e, checked w)
       end.
Proof.
  unfold UserService.register_user. unfold bind at 1. rewrite user_exists_run.
  fold (email_taken (UserCreate.email d) w). unfold bind at 1. rewrite raise_if_run.
  destruct (email_taken _ w); [done|].
  unfold UserRepository.create_user, bind, accounts_utcnow, of_res.
  cbn [accounts_clock with_accounts_clock]. by destruct (new_User _ _ _ _ _).
Qed.

(** Resumed twice without interruption, a registration is
    [register_user]: same answer or exception, same state. *)
Theorem register_user_by_awaits d w :
  (t <- resume (Called d) ;; resume t) w = returned (UserService.register_user d) w.
Proof.
  unfold returned, bind. rewrite register_called, register_user_run.
  destruct (email_taken _ w); [done|]. by destruct (new_User _ _ _ _ _).
Qed.

(** ** Every schedule *)

Lemma documents_ok_insert u w :
  documents_ok w -> User.valid u = true -> User.is_active u = true ->
  documents_ok (with_users (coll_insert u (users w)).2 w).
Proof.
  intros (Hwf & Hv & Ha) Hvu Hau.
  split_and!; [exact (coll_insert_wf _ _ Hwf) | by apply Forall_coll_insert |].
  by apply Forall_coll_insert.
Qed.

(** One turn keeps the documents in order and the tasks at their insert
    with a valid document. *)
Lemma register_resume_ok t w :
  documents_ok w -> insert_ok w t ->
  documents_ok (state_after (resume t) w) /\
  (forall t', result_of (resume t) w = Ok t' -> insert_ok (state_after (resume t) w) t') /\
  (forall t0, insert_ok w t0 -> insert_ok (state_after (resume t) w) t0).
Proof.
  intros Hok Ht. destruct t as [d|u|r]; unfold result_of, state_after.
  - rewrite register_called. destruct (email_taken _ w); [by split_and!; [|intros ? [= <-]|]|].
    destruct (new_User _ _ _ _ _) as [u|e] eqn:Hnew; (split_and!; [done| |done]).
    + intros t' [= <-]. by apply new_User_Ok in Hnew as (? & _ & ? & _).
    + by intros t' [= <-].
  - rewrite register_inserting. destruct Ht as [Hv Ha].
    split_and!; [by apply documents_ok_insert|by intros t' [= <-]|done].
  - by split_and!; [|intros ? [= <-]|].
Qed.

(** Whatever registrations are in flight and in whatever order the
    event loop resumes them, every task is resumed without an exception
    and the users stay well formed: unique identifiers, valid documents,
    active users. *)
Theorem schedule_keeps_documents ds turns w :
  documents_ok w ->
  let pool := Called <$> ds in
  exists pool',
    schedule resume turns pool w = (Ok pool', state_after (schedule resume turns pool) w) /\
    length pool' = length ds /\
    documents_ok (state_after (schedule resume turns pool) w).
Proof.
  intros Hok pool.
  destruct (schedule_ok resume documents_ok insert_ok register_resume_total register_resume_ok
              turns pool w Hok) as (pool' & Hrun & Hlen & Hok' & _).
  { apply Forall_fmap, Forall_true. done. }
  exists pool'. unfold pool in Hlen. rewrite length_fmap in Hlen. by split_and!.
Qed.

(** ** The duplicate *)

Lemma register_accepted d w :
  UserCreate.valid d = true -> email_taken (UserCreate.email d) w = false ->
  resume (Called d) w = (Ok (Inserting (user_document d w)), checked w).
Proof. intros Hv Ht. by rewrite register_called, Ht, new_User_valid. Qed.

Lemma register_refused d w :
  email_taken (UserCreate.email d) w = true ->
  resume (Called d) w = (Ok (Returned (Raise email_registered)), w).
Proof. intros Ht. by rewrite register_called, Ht. Qed.

(** A query that finds nothing in a collection finds, after inserts, the
    first of the inserted documents it matches. *)
Lemma coll_find_one_new (q : User.t -> bool) (c c' : Collection User.t) l :
  docs c' = docs c ++ l -> coll_find_one q c = None ->
  coll_find_one q c' = head (List.filter q l).
Proof.
  unfold coll_find_one, coll_find. intros ->. rewrite List.filter_app.
  by destruct (List.filter q (docs c)).
Qed.

Section Runs.
Context (d1 d2 : UserCreate.t) (w : Accounts).
Context (Hv1 : UserCreate.valid d1 = true) (Hv2 : UserCreate.valid d2 = true).
Context (He : UserCreate.email d1 = UserCreate.email d2).
Context (Hnew : email_taken (UserCreate.email d1) w = false).

Let pool : list Task := [Called d1; Called d2].
Let u1 : User.t := first_stored d1 w.
Let u2 : User.t := second_stored d2 w.

(** The second registration checks before the first has inserted. *)
Lemma registrations_interleaved :
  schedule resume interleaved pool w =
  (Ok [Returned (Ok (user_response u1)); Returned (Ok (user_response u2))], twice_stored d1 d2 w).
Proof.
  unfold interleaved, pool.
  resumes 0 (register_accepted d1 w Hv1 Hnew).
  resumes 1 (register_accepted d2 (checked w) Hv2 ltac:(by rewrite <- He)).
  resumes 0 (register_inserting (user_document d1 w) (checked (checked w))).
  by resumes 1 (register_inserting (user_document d2 (checked w))
                  (with_users (coll_insert (user_document d1 w) (users w)).2
                     (checked (checked w)))).
Qed.

(** The second registration checks after the first has inserted. *)
Lemma registrations_in_turn :
  schedule resume in_turn pool w =
  (Ok [Returned (Ok (user_response u1)); Returned (Raise email_registered)],
   with_users (coll_insert (user_document d1 w) (users w)).2 (checked w)).
Proof.
  unfold in_turn, pool.
  resumes 0 (register_accepted d1 w Hv1 Hnew).
  resumes 0 (register_inserting (user_document d1 w) (checked w)).
  set (w1 := with_users _ _).
  assert (email_taken (UserCreate.email d2) w1 = true) as Ht.
  { apply (email_taken_true _ _ u1); [|by rewrite <- He].
    apply elem_of_app. right. by apply list_elem_of_singleton. }
  resumes 1 (register_refused d2 w1 Ht).
  by resumes 1 (eq_refl : resume (Returned (Raise email_registered)) w1 = _).
Qed.

(** A query on the address finds the first of the two users. *)
Lemma twice_stored_find :
  coll_find_one (fun u => bool_decide (User.email u = UserCreate.email d2))
    (users (twice_stored d1 d2 w)) = Some u1.
Proof.
  unfold email_taken in Hnew. apply bool_decide_eq_false in Hnew. rewrite He in Hnew.
  rewrite (coll_find_one_new _ (users w) _ [u1; u2] (twice_stored_docs d1 d2 w)).
  - cbn. by rewrite bool_decide_eq_true_2 by (by rewrite <- He).
  - by destruct (coll_find_one _ (users w)); [destruct Hnew|].
Qed.

End Runs.

(** C18.  Two registrations that validate, under one address that no
    stored user carries: when the calls interleave both are answered with
    the user they created, two users are stored under the address, with
    different identifiers, and the addresses are not unique any more.  One
    after the other, the second is refused with 400. *)
Theorem register_user_duplicates d1 d2 w :
  UserCreate.valid d1 = true -> UserCreate.valid d2 = true ->
  UserCreate.email d1 = UserCreate.email d2 ->
  email_taken (UserCreate.email d1) w = false ->
  let pool := [Called d1; Called d2] in
  let u1 := first_stored d1 w in
  let u2 := second_stored d2 w in
  let w' := state_after (schedule resume interleaved pool) w in
  result_of (schedule resume interleaved pool) w
  = Ok [Returned (Ok (user_response u1)); Returned (Ok (user_response u2))] /\
  docs (users w') = docs (users w) ++ [u1; u2] /\
  User.email u1 = User.email u2 /\ User.id u1 <> User.id u2 /\
  ~ emails_unique w' /\
  result_of (schedule resume in_turn pool) w
  = Ok [Returned (Ok (user_response u1)); Returned (Raise email_registered)].
Proof.
  intros Hv1 Hv2 He Hnew pool u1 u2 w'. subst pool w'. unfold result_of, state_after.
  rewrite (registrations_interleaved d1 d2 w Hv1 Hv2 He Hnew).
  rewrite (registrations_in_turn d1 d2 w Hv1 He Hnew). cbn [fst snd].
  assert (User.id u1 <> User.id u2) as Hid by (cbn; intros [=]; lia).
  split_and!; [done|by rewrite twice_stored_docs|done|done| |done].
  intros Hu. apply Hid, (Hu u1 u2); [| |done|done];
    rewrite twice_stored_docs, elem_of_app; right; repeat constructor.
Qed.

(** C27.  After the two registrations have interleaved, a login under the
    address is checked against the password of the first registration
    alone: the user the second registration was answered with is never
    authenticated. *)
Theorem duplicate_login_first d1 d2 w password :
  UserCreate.valid d1 = true -> UserCreate.valid d2 = true ->
  UserCreate.email d1 = UserCreate.email d2 ->
  email_taken (UserCreate.email d1) w = false ->
  let w' := state_after (schedule resume interleaved [Called d1; Called d2]) w in
  UserService.authenticate_user (UserCreate.email d2) password w' =
  (Ok (if verify_password password (hash_password (UserCreate.password d1))
       then Some (first_stored d1 w) else None), w').
Proof.
  intros Hv1 Hv2 He Hnew w'. subst w'. unfold state_after.
  rewrite (registrations_interleaved d1 d2 w Hv1 Hv2 He Hnew). cbn [snd].
  by rewrite authenticate_user_cases, (twice_stored_find d1 d2 w He Hnew).
Qed.

End Race.
