(* ===== verification/UserApi.v ===== *)
(** * The HTTP surface of the user service:
    [src/user_service/app/controllers/user_controller.py] and
    [src/user_service/app/main.py].

    The six routes of the router and the two of the application, built
    from the pieces of [Http] as in [ProductApi].  Four routes depend on
    [get_current_user], which reads the credentials through FastAPI's
    [HTTPBearer] ([http_bearer] here: 403 without a usable [Authorization]
    header) and hands the token to [AuthUtils.verify_token].  An exception
    of the dependency is answered by the exception handlers before the body
    of the request is validated.

    The process keeps the invariant [accounts_inv] in every reachable
    state: identifiers and email addresses are unique, the stored users
    satisfy the constraints of the model, and every stored user is active,
    because no route calls the soft delete of the repository. *)

From S2P Require Import Prelude Json Collection Http UserModel UserRepository UserService.
Local Open Scope act_scope.

(** ** Requests and payloads *)

Inductive UserRequest : Type :=
| POST_register (user_data : UserCreate.t)
| POST_login (user_credentials : UserLogin.t)
| GET_profile (authorization : option string)
| PUT_profile (authorization : option string) (update_data : UserUpdate.t)
| PATCH_profile_password (authorization : option string) (password_data : UserPasswordUpdate.t)
| GET_profile_by_id (authorization : option string) (user_id : string)
| GET_user_root
| GET_user_health.

Inductive UserPayload : Type :=
| UserStandardBody (r : UserStandardResponse.t)
| LoginBody (r : UserLoginResponse.t)
| UserBody (r : UserResponse.t)
| UserInfoBody (d : dict).

(** [StandardResponse(success=True, message=..., data=...)]. *)
Definition user_standard (message : string) (data : option UserResponse.t) : UserPayload :=
  UserStandardBody (UserStandardResponse.mk true message data).

Definition user_success_code (req : UserRequest) : nat :=
  match req with
  | POST_register _ => HTTP_201_CREATED
  | _ => HTTP_200_OK
  end.

(** ** [HTTPBearer] *)

(** [s.partition(c)]: what is before the first [c] and what is after. *)
Fixpoint partition (c : Ascii.ascii) (s : string) : string * string :=
  match s with
  | EmptyString => (EmptyString, EmptyString)
  | String a s' =>
      if Ascii.eqb a c then (EmptyString, s')
      else let '(before, after) := partition c s' in (String a before, after)
  end.

(** [s.lower()] on ASCII. *)
Definition lower_ascii (c : Ascii.ascii) : Ascii.ascii :=
  let n := Ascii.nat_of_ascii c in
  if bool_decide (65 <= n <= 90) then Ascii.ascii_of_nat (n + 32) else c.

Fixpoint lower (s : string) : string :=
  match s with
  | EmptyString => EmptyString
  | String c s' => String (lower_ascii c) (lower s')
  end.

Definition not_authenticated : exn := HTTPException HTTP_403_FORBIDDEN "Not authenticated".
Definition invalid_credentials : exn :=
  HTTPException HTTP_403_FORBIDDEN "Invalid authentication credentials".

(** The security scheme [HTTPBearer()]: the credentials of an
    [Authorization] header of the form [Bearer <credentials>]. *)
Definition http_bearer (authorization : option string) : Res string :=
  let '(scheme, credentials) := partition space (default "" authorization) in
  if negb (truthy_str authorization && negb (String.eqb scheme "")
           && negb (String.eqb credentials ""))
  then Raise not_authenticated
  else if negb (String.eqb (lower scheme) "bearer") then Raise invalid_credentials
  else Ok credentials.

(** [current_user.get("sub")] as the identifier handed to the service.  A
    payload without a string under [sub] names no stored user: the
    repository turns whatever [ObjectId] makes of it into [None]. *)
Definition sub_of (current_user : dict) : string :=
  match dict_get "sub" current_user with
  | JStr s => s
  | _ => ""
  end.

(** ** The route functions *)

Module UserController.
Section Routes.
Context `{EmailValidator} `{Auth}.

(** The dependency [get_current_user]. *)
Definition get_current_user (authorization : option string) : Res dict :=
  match http_bearer authorization with
  | Ok token => verify_token token
  | Raise e => Raise e
  end.

(** A route that depends on [get_current_user]. *)
Definition with_current_user {A} (authorization : option string) (valid : bool) (code : nat)
    (wrap : A -> UserPayload) (route : dict -> Act Accounts A)
    : Act Accounts (HttpResponse UserPayload) :=
  match get_current_user authorization with
  | Ok current_user => validated valid (respond code wrap (route current_user))
  | Raise e => ret (exception_handler e)
  end.

Definition register_user (user_data : UserCreate.t)
    : Act Accounts (HttpResponse UserPayload) :=
  validated (UserCreate.valid user_data)
    (respond HTTP_201_CREATED
       (fun user => user_standard "User registered successfully" (Some user))
       (reraise_http (UserService.register_user user_data))).

Definition login_user (user_credentials : UserLogin.t)
    : Act Accounts (HttpResponse UserPayload) :=
  validated (UserLogin.valid user_credentials)
    (respond HTTP_200_OK LoginBody
       (reraise_http (UserService.login_user (UserLogin.email user_credentials)
                        (UserLogin.password user_credentials)))).

Definition get_user_profile (authorization : option string)
    : Act Accounts (HttpResponse UserPayload) :=
  with_current_user authorization true HTTP_200_OK UserBody
    (fun current_user =>
       reraise_http (let user_id := sub_of current_user in
                     UserService.get_user_profile user_id)).

Definition update_user_profile (authorization : option string) (update_data : UserUpdate.t)
    : Act Accounts (HttpResponse UserPayload) :=
  with_current_user authorization (UserUpdate.valid update_data) HTTP_200_OK
    (fun updated_user => user_standard "Profile updated successfully" (Some updated_user))
    (fun current_user =>
       reraise_http (let user_id := sub_of current_user in
                     UserService.update_user_profile user_id update_data)).

Definition update_user_password (authorization : option string)
    (password_data : UserPasswordUpdate.t) : Act Accounts (HttpResponse UserPayload) :=
  with_current_user authorization (UserPasswordUpdate.valid password_data) HTTP_200_OK
    (fun message => user_standard message None)
    (fun current_user =>
       reraise_http (let user_id := sub_of current_user in
                     UserService.update_user_password user_id password_data)).

Definition get_user_by_id (authorization : option string) (user_id : string)
    : Act Accounts (HttpResponse UserPayload) :=
  with_current_user authorization true HTTP_200_OK UserBody
    (fun _ => reraise_http (UserService.get_user_profile user_id)).

Definition root : dict := [("message", JStr "User Service API"); ("version", JStr "1.0.0")].
Definition health_check : dict :=
  [("status", JStr "healthy"); ("service", JStr "user-service")].

(** ** The application *)

Definition handle (req : UserRequest) : Act Accounts (HttpResponse UserPayload) :=
  match req with
  | POST_register user_data => register_user user_data
  | POST_login user_credentials => login_user user_credentials
  | GET_profile authorization => get_user_profile authorization
  | PUT_profile authorization update_data => update_user_profile authorization update_data
  | PATCH_profile_password authorization password_data =>
      update_user_password authorization password_data
  | GET_profile_by_id authorization user_id => get_user_by_id authorization user_id
  | GET_user_root => ret (mkHttpResponse HTTP_200_OK (Payload (UserInfoBody root)))
  | GET_user_health => ret (mkHttpResponse HTTP_200_OK (Payload (UserInfoBody health_check)))
  end.

(** The process as it boots: [lifespan] connects to an empty database and
    starts nothing else. *)
Definition boot : Accounts := mkAccounts coll_empty 0.

(** One request served to its end. *)
Inductive step : Accounts -> Accounts -> Prop :=
| step_request req w : step w (state_after (handle req) w).

(** The states of a running process. *)
Inductive reachable : Accounts -> Prop :=
| reachable_boot : reachable boot
| reachable_step w w' : reachable w -> step w w' -> reachable w'.

(** The state after a list of requests, served in order. *)
Definition serve (reqs : list UserRequest) (w : Accounts) : Accounts :=
  foldl (fun w req => state_after (handle req) w) w reqs.

End Routes.
End UserController.

Ltac unfold_user_controller :=
  unfold UserController.register_user, UserController.login_user,
    UserController.get_user_profile, UserController.update_user_profile,
    UserController.update_user_password, UserController.get_user_by_id.

(** ** The routes, one by one *)

Section Routes.
Context `{EmailValidator} `{Auth}.

Lemma with_current_user_run {A} authorization valid code (wrap : A -> UserPayload) route w :
  UserController.with_current_user authorization valid code wrap route w =
  match UserController.get_current_user authorization with
  | Ok current_user =>
      if valid then respond code wrap (route current_user) w else (Ok validation_error, w)
  | Raise e => (Ok (exception_handler e), w)
  end.
Proof.
  unfold UserController.with_current_user.
  destruct (UserController.get_current_user _); [apply validated_run | done].
Qed.

(** A route with the dependency leaves the state as it is, or as its
    function left it. *)
Lemma with_current_user_inv {A} (I : Accounts -> Prop) authorization valid code
    (wrap : A -> UserPayload) route w :
  I w -> (forall current_user, valid = true -> I (state_after (route current_user) w)) ->
  I (state_after (UserController.with_current_user authorization valid code wrap route) w).
Proof.
  intros Hw Hroute. unfold state_after. rewrite with_current_user_run.
  destruct (UserController.get_current_user _) as [cu|]; [|done].
  destruct valid; [|done]. rewrite respond_run. by apply Hroute.
Qed.

Lemma user_handle_inv req w :
  accounts_inv w -> accounts_inv (state_after (UserController.handle req) w).
Proof.
  intros Hinv. destruct req; cbn [UserController.handle]; unfold_user_controller; try done;
    try (apply with_current_user_inv; [done|]; intros cu Hv);
    rewrite ?route_state, ?respond_state, ?reraise_http_state;
    try case_match; try done;
    auto using register_user_inv, update_user_profile_inv, update_user_password_inv.
  all: by rewrite ?login_user_state, ?get_user_profile_state.
Qed.

(** The exceptions of the service are known. *)
Lemma create_user_known name email password_hash :
  raises_known (UserRepository.create_user name email password_hash).
Proof.
  unfold UserRepository.create_user.
  repeat (apply raises_known_bind; [|intros ?]); try (by apply raises_known_total).
  apply of_res_known. unfold new_User. intros e. by case_match; [|intros [= <-]].
Qed.

Lemma service_known :
  (forall d, raises_known (UserService.register_user d)) /\
  (forall e p, raises_known (UserService.login_user e p)) /\
  (forall s, raises_known (UserService.get_user_profile s)) /\
  (forall s u, raises_known (UserService.update_user_profile s u)) /\
  (forall s p, raises_known (UserService.update_user_password s p)).
Proof.
  pose proof create_user_known.
  split_and!; intros;
    unfold UserService.register_user, UserService.login_user, UserService.authenticate_user,
      UserService.get_user_profile, UserService.update_user_profile,
      UserService.update_user_password, UserRepository.user_exists,
      UserRepository.get_user_by_email, UserRepository.get_user_by_id,
      UserRepository.update_user, User_get, User_save, accounts_utcnow;
    known; by apply raises_known_total.
Qed.

(** A route with the dependency is answered well when the exceptions of
    the dependency and of its function are known. *)
Lemma with_current_user_answers {A} authorization valid code (wrap : A -> UserPayload)
    route w :
  (forall token e, verify_token token = Raise e -> known e = true) ->
  (forall current_user, raises_known (route current_user)) ->
  exists r,
    result_of (UserController.with_current_user authorization valid code wrap route) w = Ok r /\
    answers code r = true.
Proof.
  intros Htoken Hroute. unfold result_of. rewrite with_current_user_run.
  destruct (UserController.get_current_user authorization) as [cu|e] eqn:Hcu.
  - destruct valid; [by apply respond_answers_known | by eexists].
  - eexists. split; [done|]. apply exception_handler_answers.
    unfold UserController.get_current_user, http_bearer in Hcu.
    destruct (partition _ _) as [scheme credentials]. repeat case_match; simplify_eq; try done.
    by eapply Htoken.
Qed.

End Routes.

(** ** The process *)

Section Process.
Context `{EmailValidator} `{Auth}.

Lemma boot_inv : accounts_inv UserController.boot.
Proof.
  split; [|by constructor].
  split_and!; [apply coll_wf_empty | by constructor | apply unique_key_empty].
Qed.

Lemma reachable_inv w : UserController.reachable w -> accounts_inv w.
Proof.
  induction 1 as [|w w' _ IH Hstep]; [apply boot_inv|].
  destruct Hstep as [req w]. by apply user_handle_inv.
Qed.

Lemma accounts_serve_reachable reqs w :
  UserController.reachable w -> UserController.reachable (UserController.serve reqs w).
Proof.
  revert w. induction reqs as [|req reqs IH]; intros w Hw; [done|].
  cbn. apply IH. eapply UserController.reachable_step; [exact Hw | constructor].
Qed.

(** C25.  In every state the user service reaches from its boot,
    whatever requests it served, the stored identifiers are unique, every
    stored user satisfies the constraints of the model and is active, and
    an email address names one stored user: the lookup by address finds
    that user. *)
Theorem accounts_invariant w u :
  UserController.reachable w -> u ∈ docs (users w) ->
  accounts_inv w /\ User.is_active u = true /\ User.valid u = true /\
  coll_find_one (fun x => bool_decide (User.email x = User.email u)) (users w) = Some u /\
  coll_get_str (str_id (User.id u)) (users w) = Some u.
Proof.
  intros Hinv%reachable_inv Hin. split; [done|].
  destruct Hinv as [(Hwf & Hvalid & Hu) Hact].
  unfold all_active in Hact. rewrite Forall_forall in Hact, Hvalid.
  split_and!; [by apply Hact | by apply Hvalid | |].
  - by apply (find_one_key_Some User.email (fun _ => true)).
  - exact (coll_get_str_elem_of (users w) u Hwf Hin).
Qed.

(** Every request is answered, and the answer is well formed, when the
    exceptions of [verify_token] are among those the handlers know. *)
Theorem user_handle_answers req w :
  (forall token e, verify_token token = Raise e -> known e = true) ->
  exists r, result_of (UserController.handle req) w = Ok r /\
            answers (user_success_code req) r = true.
Proof.
  intros Htoken. destruct service_known as (Hr & Hl & Hg & Hu & Hp).
  destruct req; cbn [UserController.handle user_success_code]; unfold_user_controller;
    first [ apply route_answers | apply with_current_user_answers; [done|intros ?]
          | by eexists ];
    by apply reraise_http_known.
Qed.

(** Without credentials the four routes of the profile answer 403 and
    change nothing: with no [Authorization] header, with a header that has
    no space-separated credentials, or with a scheme other than [Bearer]. *)
Theorem profile_requires_credentials authorization update_data password_data user_id req w :
  req ∈ [GET_profile authorization; PUT_profile authorization update_data;
         PATCH_profile_password authorization password_data;
         GET_profile_by_id authorization user_id] ->
  is_ok (http_bearer authorization) = false ->
  exists detail,
    detail ∈ ["Not authenticated"; "Invalid authentication credentials"] /\
    UserController.handle req w =
      (Ok (mkHttpResponse HTTP_403_FORBIDDEN (ErrorBody detail HTTP_403_FORBIDDEN)), w).
Proof.
  intros Hreq Hb.
  assert (exists detail,
            detail ∈ ["Not authenticated"; "Invalid authentication credentials"] /\
            UserController.get_current_user authorization =
              Raise (HTTPException HTTP_403_FORBIDDEN detail)) as (detail & Hd & Hcu).
  { unfold UserController.get_current_user. unfold http_bearer in *.
    destruct (partition _ _) as [scheme credentials].
    repeat case_match; simplify_eq; eexists; (split; [|done]); repeat constructor. }
  exists detail. split; [done|].
  repeat (apply elem_of_cons in Hreq as [->|Hreq]); [..|by apply elem_of_nil in Hreq];
    cbn [UserController.handle]; unfold_user_controller;
    by rewrite with_current_user_run, Hcu.
Qed.

End Process.
