(* ===== verification/UserScenario.v ===== *)
(** * A concrete user service: the theorems of the user service applied.

    An address validator that asks for an [@], a password hash and a
    token that are readable strings, and a process in which one user has
    registered.  On this instance the routes evaluate, and every theorem
    of the user service that has hypotheses is applied at an input on
    which they hold. *)

From S2P Require Import Prelude Json Collection Http UserModel UserRepository UserService.
From S2P Require Import EventLoop RegisterRace UserApi.
Import Registration.

(** ** The validator, the hash and the token *)

Definition at_sign : Ascii.ascii := Ascii.ascii_of_nat 64.

#[export] Instance at_sign_validator : EmailValidator := {|
  is_email s := existsb (Ascii.eqb at_sign) (String.list_ascii_of_string s);
  is_email_empty := eq_refl;
|}.

Definition bad_token : exn :=
  HTTPException HTTP_401_UNAUTHORIZED "Could not validate credentials".

#[export] Instance plain_auth : Auth := {|
  hash_password p := "hash:" +:+ p;
  verify_password p h := String.eqb h ("hash:" +:+ p);
  create_access_token data := "token:" +:+ sub_of data;
  verify_token t :=
    if String.prefix "token:" t
    then Ok [("sub", JStr (String.substring 6 (String.length t - 6) t))]
    else Raise bad_token;
|}.

(** ** The requests *)

Definition ada : UserCreate.t := UserCreate.mk "Ada" "ada@example.com" "correct horse".

(** A second registration under the address of the first. *)
Definition ada_again : UserCreate.t := UserCreate.mk "Ada L." "ada@example.com" "battery staple".

Definition registered : Accounts := UserController.serve [POST_register ada] UserController.boot.

(** Ada as she is stored. *)
Definition stored_ada : User.t :=
  User.mk (Some 0) "Ada" "ada@example.com" "hash:correct horse" true 0 1.

Lemma registered_reachable : UserController.reachable registered.
Proof. apply accounts_serve_reachable, UserController.reachable_boot. Qed.

Lemma registered_ada : docs (users registered) = [stored_ada].
Proof. by vm_compute. Qed.

Lemma stored_ada_registered : stored_ada ∈ docs (users registered).
Proof. rewrite registered_ada. by apply list_elem_of_singleton. Qed.

(** ** The theorems of the service at this instance *)

Lemma register_user_once_witness :
  UserService.register_user ada_again registered = (Raise email_registered, registered).
Proof.
  exact (register_user_once ada_again registered stored_ada eq_refl stored_ada_registered
           eq_refl).
Defined.

Lemma login_after_register_witness :
  exists u,
    u ∈ docs (users registered) /\
    user_response stored_ada = user_response u /\
    UserService.login_user "ada@example.com" "correct horse" registered =
      (Ok (UserLoginResponse.mk (create_access_token (token_data u)) "bearer"
             (user_response stored_ada)), registered) /\
    forall password,
      verify_password password (User.password_hash u) = false ->
      UserService.login_user "ada@example.com" password registered =
        (Raise incorrect_credentials, registered).
Proof.
  apply (login_after_register ada UserController.boot (user_response stored_ada) registered).
  - intros p. apply String.eqb_refl.
  - apply boot_inv.
  - reflexivity.
  - by vm_compute.
Defined.

Lemma accounts_invariant_witness :
  accounts_inv registered /\ User.is_active stored_ada = true /\ User.valid stored_ada = true /\
  coll_find_one (fun x => bool_decide (User.email x = User.email stored_ada)) (users registered)
    = Some stored_ada /\
  coll_get_str (str_id (User.id stored_ada)) (users registered) = Some stored_ada.
Proof. exact (accounts_invariant registered stored_ada registered_reachable stored_ada_registered). Defined.

Lemma profile_requires_credentials_witness :
  exists detail,
    detail ∈ ["Not authenticated"; "Invalid authentication credentials"] /\
    UserController.handle (GET_profile (Some "Basic YWRhOmFkYQ==")) registered =
      (Ok (mkHttpResponse HTTP_403_FORBIDDEN (ErrorBody detail HTTP_403_FORBIDDEN)), registered).
Proof.
  apply (profile_requires_credentials (Some "Basic YWRhOmFkYQ==") (UserUpdate.mk None None)
           (UserPasswordUpdate.mk "" "") "0").
  - repeat constructor.
  - reflexivity.
Defined.

Lemma user_handle_answers_witness :
  exists r, result_of (UserController.handle (GET_profile (Some "Bearer token:0"))) registered
            = Ok r /\
            answers (user_success_code (GET_profile (Some "Bearer token:0"))) r = true.
Proof.
  apply user_handle_answers. intros token e. cbn. destruct (String.prefix _ _); [done|].
  by intros [= <-].
Defined.

(** ** The routes, evaluated *)

(** Ada reads her profile with the token of her login. *)
Example ada_reads_her_profile :
  result_of (UserController.handle (GET_profile (Some "Bearer token:0"))) registered =
  Ok (mkHttpResponse HTTP_200_OK (Payload (UserBody (user_response stored_ada)))).
Proof. by vm_compute. Qed.

(** ** Concurrent registrations at this instance *)

(** The two registrations under Ada's address, before either is stored. *)
Definition two_registrations : list UserCreate.t := [ada; ada_again].

Lemma boot_documents_ok : documents_ok UserController.boot.
Proof. split_and!; [apply coll_wf_empty|constructor|constructor]. Qed.

Example ada_registers_by_awaits :
  (t <- resume (Called ada) ;; resume t)%act registered
  = returned (UserService.register_user ada) registered.
Proof. by vm_compute. Qed.

Lemma schedule_keeps_documents_witness :
  let pool := Called <$> two_registrations in
  exists pool',
    schedule resume interleaved pool UserController.boot
    = (Ok pool', state_after (schedule resume interleaved pool) UserController.boot) /\
    length pool' = length two_registrations /\
    documents_ok (state_after (schedule resume interleaved pool) UserController.boot).
Proof.
  exact (schedule_keeps_documents two_registrations interleaved UserController.boot
           boot_documents_ok).
Defined.

Lemma register_user_duplicates_witness :
  let pool := [Called ada; Called ada_again] in
  let u1 := first_stored ada UserController.boot in
  let u2 := second_stored ada_again UserController.boot in
  let w' := state_after (schedule resume interleaved pool) UserController.boot in
  result_of (schedule resume interleaved pool) UserController.boot
  = Ok [Returned (Ok (user_response u1)); Returned (Ok (user_response u2))] /\
  docs (users w') = docs (users UserController.boot) ++ [u1; u2] /\
  User.email u1 = User.email u2 /\ User.id u1 <> User.id u2 /\
  ~ emails_unique w' /\
  result_of (schedule resume in_turn pool) UserController.boot
  = Ok [Returned (Ok (user_response u1)); Returned (Raise email_registered)].
Proof.
  exact (register_user_duplicates ada ada_again UserController.boot eq_refl eq_refl eq_refl
           eq_refl).
Defined.

Lemma duplicate_login_first_witness :
  let w' :=
    state_after (schedule resume interleaved [Called ada; Called ada_again])
      UserController.boot in
  UserService.authenticate_user "ada@example.com" "battery staple" w' =
  (Ok (if verify_password "battery staple" (hash_password "correct horse")
       then Some (first_stored ada UserController.boot) else None), w').
Proof.
  exact (duplicate_login_first ada ada_again UserController.boot "battery staple" eq_refl
           eq_refl eq_refl eq_refl).
Defined.

(** Both registrations are answered with a user, under the identifiers 0
    and 1; the second user then logs in with the password of its
    registration and is refused. *)
Example two_adas :
  let w' :=
    state_after (schedule resume interleaved [Called ada; Called ada_again])
      UserController.boot in
  (fun u => (User.id u, User.name u, User.email u)) <$> docs (users w')
  = [(Some 0, "Ada", "ada@example.com"); (Some 1, "Ada L.", "ada@example.com")] /\
  result_of (UserService.login_user "ada@example.com" "battery staple") w'
  = Raise incorrect_credentials.
Proof. by vm_compute. Qed.
