(* ===== verification/NotificationModel.v ===== *)
(** * The document of the notification service:
    [src/notification_service/app/models/notification.py].

    The two enumerations with their values, the document [Notification],
    and the dictionary [notification_data] from which the consumer has a
    notification built.  The values of that dictionary come out of a Kafka
    message, so two of them are JSON values of any shape: the constructor
    [new_Notification] is the validation pydantic runs on them (a type that
    is a member of the enumeration, a recipient and a source service that
    are strings), and it fails as [Notification(...)] fails.

    [py_str] is the text an f-string puts in place of a JSON value; the
    text of a float, a list or a dictionary is the parameter [repr_other]. *)

From S2P Require Import Prelude Json Collection.
From Stdlib Require Import QArith.
Local Close Scope Q_scope.

(** ** The enumerations *)

Module NotificationType.
Inductive t : Type := EMAIL | SMS | PUSH | IN_APP.

Definition value (s : t) : string :=
  match s with
  | EMAIL => "email"
  | SMS => "sms"
  | PUSH => "push"
  | IN_APP => "in_app"
  end.

Definition members : list t := [EMAIL; SMS; PUSH; IN_APP].

#[export] Instance eq_dec : EqDecision t.
Proof. solve_decision. Defined.

(** [NotificationType(v)]: the member with the value [v]. *)
Definition of_value (v : string) : option t :=
  List.find (fun m => String.eqb (value m) v) members.
End NotificationType.
Export (hints) NotificationType.

Module NotificationStatus.
Inductive t : Type := PENDING | SENT | FAILED | DELIVERED.

Definition value (s : t) : string :=
  match s with
  | PENDING => "pending"
  | SENT => "sent"
  | FAILED => "failed"
  | DELIVERED => "delivered"
  end.

Definition members : list t := [PENDING; SENT; FAILED; DELIVERED].

#[export] Instance eq_dec : EqDecision t.
Proof. solve_decision. Defined.

(** [NotificationStatus(v)]: the member with the value [v]. *)
Definition of_value (v : string) : option t :=
  List.find (fun m => String.eqb (value m) v) members.
End NotificationStatus.
Export (hints) NotificationStatus.

(** ** The document *)

Record Notification : Type := mkNotification {
  id : option nat;
  type : NotificationType.t;
  recipient : string;
  subject : option string;
  message : string;
  status : NotificationStatus.t;
  sent_at : option nat;
  delivered_at : option nat;
  event_type : string;
  event_data : dict;
  source_service : string;
  template_id : option string;
  priority : Z;
  retry_count : Z;
  max_retries : Z;
  created_at : nat;
  updated_at : nat;
}.

Definition set_id (v : option nat) (n : Notification) : Notification :=
  mkNotification v (type n) (recipient n) (subject n) (message n) (status n) (sent_at n)
    (delivered_at n) (event_type n) (event_data n) (source_service n) (template_id n)
    (priority n) (retry_count n) (max_retries n) (created_at n) (updated_at n).
Definition set_status (v : NotificationStatus.t) (n : Notification) : Notification :=
  mkNotification (id n) (type n) (recipient n) (subject n) (message n) v (sent_at n)
    (delivered_at n) (event_type n) (event_data n) (source_service n) (template_id n)
    (priority n) (retry_count n) (max_retries n) (created_at n) (updated_at n).
Definition set_sent_at (v : option nat) (n : Notification) : Notification :=
  mkNotification (id n) (type n) (recipient n) (subject n) (message n) (status n) v
    (delivered_at n) (event_type n) (event_data n) (source_service n) (template_id n)
    (priority n) (retry_count n) (max_retries n) (created_at n) (updated_at n).
Definition set_delivered_at (v : option nat) (n : Notification) : Notification :=
  mkNotification (id n) (type n) (recipient n) (subject n) (message n) (status n) (sent_at n)
    v (event_type n) (event_data n) (source_service n) (template_id n)
    (priority n) (retry_count n) (max_retries n) (created_at n) (updated_at n).
Definition set_retry_count (v : Z) (n : Notification) : Notification :=
  mkNotification (id n) (type n) (recipient n) (subject n) (message n) (status n) (sent_at n)
    (delivered_at n) (event_type n) (event_data n) (source_service n) (template_id n)
    (priority n) v (max_retries n) (created_at n) (updated_at n).
Definition set_updated_at (v : nat) (n : Notification) : Notification :=
  mkNotification (id n) (type n) (recipient n) (subject n) (message n) (status n) (sent_at n)
    (delivered_at n) (event_type n) (event_data n) (source_service n) (template_id n)
    (priority n) (retry_count n) (max_retries n) (created_at n) v.

#[export] Instance Notification_document : Document Notification :=
  {| doc_id := id; with_id := fun i => set_id (Some i);
     doc_id_with_id := fun _ _ => eq_refl |}.

(** ** The dictionary a notification is built from *)

(** The keys the consumer gives: the other fields take their defaults. *)
Module NotificationData.
Record t : Type := mk {
  type : string;
  recipient : json;
  subject : string;
  message : string;
  event_type : string;
  event_data : dict;
  source_service : json;
  priority : Z;
}.
End NotificationData.

Definition notification_invalid : exn :=
  PyException "ValidationError" "validation error for Notification".

(** The [Notification] built from the keys of [notification_data]; the two
    timestamp defaults read the clock at [t1] and [t2]. *)
Definition new_Notification (d : NotificationData.t) (t1 t2 : nat) : Res Notification :=
  match NotificationType.of_value (NotificationData.type d),
        json_str (NotificationData.recipient d),
        json_str (NotificationData.source_service d) with
  | Some type, Some recipient, Some source_service =>
      Ok (mkNotification None type recipient (Some (NotificationData.subject d))
            (NotificationData.message d) NotificationStatus.PENDING None None
            (NotificationData.event_type d) (NotificationData.event_data d) source_service
            None (NotificationData.priority d) 0 3 t1 t2)
  | _, _, _ => Raise notification_invalid
  end.

(** The dictionary of a notification in an answer: [notification.dict()]
    with the identifier as a string. *)
Definition notification_dict (n : Notification) : dict :=
  [("id", JStr (str_id (id n)));
   ("type", JStr (NotificationType.value (type n)));
   ("recipient", JStr (recipient n));
   ("subject", json_of_opt_str (subject n));
   ("message", JStr (message n));
   ("status", JStr (NotificationStatus.value (status n)));
   ("sent_at", json_of_opt_nat isoformat (sent_at n));
   ("delivered_at", json_of_opt_nat isoformat (delivered_at n));
   ("event_type", JStr (event_type n));
   ("event_data", JDict (event_data n));
   ("source_service", JStr (source_service n));
   ("template_id", json_of_opt_str (template_id n));
   ("priority", JInt (priority n));
   ("retry_count", JInt (retry_count n));
   ("max_retries", JInt (max_retries n));
   ("created_at", JStr (isoformat (created_at n)));
   ("updated_at", JStr (isoformat (updated_at n)))].

(** ** Formatting *)

(** The text of the values an f-string of the consumer may meet that this
    development does not print itself. *)
Class PyRepr : Type := {
  repr_other : json -> string;
}.

(** [f"{x}"] for a JSON value. *)
Definition py_str `{PyRepr} (j : json) : string :=
  match j with
  | JNull => "None"
  | JBool true => "True"
  | JBool false => "False"
  | JInt z => pretty z
  | JStr s => s
  | _ => repr_other j
  end.

(** ** Lemmas *)

Lemma NotificationType_of_value_value m :
  NotificationType.of_value (NotificationType.value m) = Some m.
Proof. by destruct m. Qed.

Lemma NotificationStatus_of_value_value m :
  NotificationStatus.of_value (NotificationStatus.value m) = Some m.
Proof. by destruct m. Qed.

(** A value that is read back is the value of the member found. *)
Lemma NotificationType_of_value_Some v m :
  NotificationType.of_value v = Some m -> NotificationType.value m = v.
Proof.
  unfold NotificationType.of_value. intros Hf.
  apply find_some in Hf as [_ Hv]. by apply String.eqb_eq.
Qed.

Lemma NotificationStatus_of_value_Some v m :
  NotificationStatus.of_value v = Some m -> NotificationStatus.value m = v.
Proof.
  unfold NotificationStatus.of_value. intros Hf.
  apply find_some in Hf as [_ Hv]. by apply String.eqb_eq.
Qed.

(** What a notification that has been built looks like. *)
Lemma new_Notification_Ok d t1 t2 n :
  new_Notification d t1 t2 = Ok n ->
  id n = None /\ status n = NotificationStatus.PENDING /\ retry_count n = 0%Z /\
  max_retries n = 3%Z /\ sent_at n = None /\ delivered_at n = None /\
  NotificationType.value (type n) = NotificationData.type d /\
  NotificationData.recipient d = JStr (recipient n) /\
  priority n = NotificationData.priority d /\ created_at n = t1 /\ updated_at n = t2.
Proof.
  unfold new_Notification.
  destruct (NotificationType.of_value _) as [ty|] eqn:Hty; [|done].
  destruct (NotificationData.recipient d) as [| | | |r| |] eqn:Hr; try done.
  destruct (json_str (NotificationData.source_service d)) as [s|]; [|done].
  cbn [json_str]. intros [= <-]. cbn. split_and!; try done.
  by apply NotificationType_of_value_Some.
Qed.
