(* ===== verification/NotificationRepository.v ===== *)
(** * The repository of the notification service:
    [src/notification_service/app/repositories/notification_repository.py].

    The state the repository works on is [Inbox]: the collection
    [notifications] and a logical clock.  Every method of
    [NotificationRepository] is an action on it.  A limit and an offset are
    Python integers that reach MongoDB as they are: a negative offset is
    refused by the driver ([negative_skip]), a limit of zero is no limit and
    a negative limit is its absolute value ([find_page]).

    [delete_notification] is the one method of the four services that
    removes a document; no route and no handler calls it. *)

From S2P Require Import Prelude Json Collection NotificationModel.
Local Open Scope act_scope.

(** ** The state *)

Record Inbox : Type := mkInbox {
  notifications : Collection Notification;
  inbox_clock : nat;
}.

Definition with_notifications (c : Collection Notification) (w : Inbox) : Inbox :=
  mkInbox c (inbox_clock w).
Definition with_inbox_clock (t : nat) (w : Inbox) : Inbox :=
  mkInbox (notifications w) t.

(** [datetime.utcnow()]: the reading, and the clock moves on. *)
Definition inbox_utcnow : Act Inbox nat :=
  fun w => (Ok (inbox_clock w), with_inbox_clock (S (inbox_clock w)) w).

(** [await Notification.get(s)], [insert], [save] and [delete]. *)
Definition Notification_get (notification_id : string) : Act Inbox (option Notification) :=
  gets (fun w => coll_get_str notification_id (notifications w)).

Definition Notification_insert (n : Notification) : Act Inbox Notification :=
  fun w => let '(n', c) := coll_insert n (notifications w) in (Ok n', with_notifications c w).

Definition Notification_save (n : Notification) : Act Inbox unit :=
  modify (fun w => with_notifications (coll_save n (notifications w)) w).

Definition Notification_delete (n : Notification) : Act Inbox unit :=
  modify (fun w =>
            match id n with
            | Some i => with_notifications (coll_delete i (notifications w)) w
            | None => w
            end).

(** One item of the dictionary [update_notification] assigns. *)
Inductive NotificationField : Type :=
| Notification_status (v : NotificationStatus.t)
| Notification_updated_at (v : nat)
| Notification_sent_at (v : nat)
| Notification_delivered_at (v : nat)
| Notification_retry_count (v : Z).

(** [.skip(offset).limit(limit).to_list()] with Python integers. *)
Definition find_page {W D} (offset limit : Z) (l : list D) : Act W (list D) :=
  if bool_decide (offset < 0)%Z then raise negative_skip
  else ret (skip_limit (Z.to_nat offset) (Z.abs_nat limit) l).

(** ** The class [NotificationRepository] *)

Module NotificationRepository.

Definition create_notification (notification_data : NotificationData.t)
    : Act Inbox Notification :=
  t1 <- inbox_utcnow ;;
  t2 <- inbox_utcnow ;;
  notification <- of_res (new_Notification notification_data t1 t2) ;;
  Notification_insert notification.

Definition get_notification_by_id (notification_id : string)
    : Act Inbox (option Notification) :=
  Notification_get notification_id.

(** The query of [get_notifications] and [count_notifications]: a
    recipient that is given and not empty, a status that is given. *)
Definition matches (recipient : option string) (status : option NotificationStatus.t)
    (n : Notification) : bool :=
  (if truthy_str recipient then bool_decide (NotificationModel.recipient n = default "" recipient)
   else true) &&
  match status with
  | Some s => bool_decide (NotificationModel.status n = s)
  | None => true
  end.

Definition get_notifications (recipient : option string) (status : option NotificationStatus.t)
    (limit offset : Z) : Act Inbox (list Notification) :=
  found <- gets (fun w => coll_find (matches recipient status) (notifications w)) ;;
  find_page offset limit (sort_desc created_at found).

(** [setattr(notification, key, value)]. *)
Definition setattr (f : NotificationField) (n : Notification) : Notification :=
  match f with
  | Notification_status v => set_status v n
  | Notification_updated_at v => set_updated_at v n
  | Notification_sent_at v => set_sent_at (Some v) n
  | Notification_delivered_at v => set_delivered_at (Some v) n
  | Notification_retry_count v => set_retry_count v n
  end.

Definition update_notification (notification_id : string) (update_data : list NotificationField)
    : Act Inbox (option Notification) :=
  found <- Notification_get notification_id ;;
  match found with
  | None => ret None
  | Some notification =>
      let notification := foldl (fun n f => setattr f n) notification update_data in
      Notification_save notification ;;
      ret (Some notification)
  end.

Definition delete_notification (notification_id : string) : Act Inbox bool :=
  found <- Notification_get notification_id ;;
  match found with
  | Some notification => Notification_delete notification ;; ret true
  | None => ret false
  end.

Definition get_notifications_by_event_type (event_type : string) (limit : Z)
    : Act Inbox (list Notification) :=
  found <- gets (fun w =>
             coll_find (fun n => bool_decide (NotificationModel.event_type n = event_type))
               (notifications w)) ;;
  find_page 0 limit (sort_desc created_at found).

Definition get_pending_notifications (limit : Z) : Act Inbox (list Notification) :=
  found <- gets (fun w =>
             coll_find (fun n => bool_decide (status n = NotificationStatus.PENDING))
               (notifications w)) ;;
  find_page 0 limit (sort_asc created_at found).

Definition get_failed_notifications (max_retries limit : Z) : Act Inbox (list Notification) :=
  found <- gets (fun w =>
             coll_find (fun n => bool_decide (status n = NotificationStatus.FAILED)
                                 && bool_decide (retry_count n < max_retries)%Z)
               (notifications w)) ;;
  find_page 0 limit (sort_asc created_at found).

Definition count_notifications (recipient : option string)
    (status : option NotificationStatus.t) : Act Inbox nat :=
  gets (fun w => coll_count (matches recipient status) (notifications w)).

End NotificationRepository.

(** ** The pure content of the writes *)

(** The notification [update_notification] stores. *)
Definition assigned (update_data : list NotificationField) (n : Notification) : Notification :=
  foldl (fun n f => NotificationRepository.setattr f n) n update_data.

(** The state after a notification has been saved. *)
Definition notification_stored (n : Notification) (w : Inbox) : Inbox :=
  with_notifications (coll_save n (notifications w)) w.

(** ** The methods, in one equation each *)

Section Runs.
Implicit Types (w : Inbox) (n : Notification).

Lemma find_page_run {W D} offset limit (l : list D) (w : W) :
  find_page offset limit l w =
  if bool_decide (offset < 0)%Z then (Raise negative_skip, w)
  else (Ok (skip_limit (Z.to_nat offset) (Z.abs_nat limit) l), w).
Proof. unfold find_page. by case_bool_decide. Qed.

Lemma create_notification_run d w :
  NotificationRepository.create_notification d w =
  match new_Notification d (inbox_clock w) (S (inbox_clock w)) with
  | Ok n =>
      (Ok (coll_insert n (notifications w)).1,
       with_notifications (coll_insert n (notifications w)).2
         (with_inbox_clock (S (S (inbox_clock w))) w))
  | Raise e => (Raise e, with_inbox_clock (S (S (inbox_clock w))) w)
  end.
Proof.
  unfold NotificationRepository.create_notification, bind, inbox_utcnow, of_res.
  cbn [inbox_clock with_inbox_clock]. by destruct (new_Notification _ _ _).
Qed.

Lemma update_notification_run notification_id update_data w :
  NotificationRepository.update_notification notification_id update_data w =
  match coll_get_str notification_id (notifications w) with
  | Some n => (Ok (Some (assigned update_data n)), notification_stored (assigned update_data n) w)
  | None => (Ok None, w)
  end.
Proof.
  unfold NotificationRepository.update_notification, Notification_get, bind, gets.
  by destruct (coll_get_str notification_id (notifications w)) as [n|].
Qed.

(** The reads leave the state as it is; the listing fails on a negative
    offset only. *)
Lemma get_notifications_run recipient status limit offset w :
  NotificationRepository.get_notifications recipient status limit offset w =
  if bool_decide (offset < 0)%Z then (Raise negative_skip, w)
  else (Ok (skip_limit (Z.to_nat offset) (Z.abs_nat limit)
              (sort_desc created_at
                 (coll_find (NotificationRepository.matches recipient status)
                    (notifications w)))), w).
Proof.
  unfold NotificationRepository.get_notifications, bind, gets. apply find_page_run.
Qed.

End Runs.

(** ** What an update keeps *)

Section Fields.
Implicit Types (n : Notification) (f : NotificationField).

(** An update touches the status, the three times and the retry count:
    the identifier, the type, the recipient, the text and the event of a
    notification are those it was created with. *)
Definition same_notice (n n' : Notification) : Prop :=
  id n' = id n /\ type n' = type n /\ recipient n' = recipient n /\
  subject n' = subject n /\ message n' = message n /\ event_type n' = event_type n /\
  event_data n' = event_data n /\ source_service n' = source_service n /\
  priority n' = priority n /\ max_retries n' = max_retries n /\ created_at n' = created_at n.

#[export] Instance same_notice_refl : Reflexive same_notice.
Proof. intros n. by repeat split. Qed.

#[export] Instance same_notice_trans : Transitive same_notice.
Proof. intros n1 n2 n3 H12 H23. unfold same_notice in *. naive_solver congruence. Qed.

Lemma setattr_same_notice f n : same_notice n (NotificationRepository.setattr f n).
Proof. by destruct f. Qed.

Lemma assigned_same_notice update_data n : same_notice n (assigned update_data n).
Proof.
  unfold assigned. revert n. induction update_data as [|f l IH]; intros n; [done|].
  cbn. etrans; [apply setattr_same_notice | apply IH].
Qed.

End Fields.
