(* ===== verification/NotificationService.v ===== *)
(** * The service layer of the notification service:
    [src/notification_service/app/services/notification_service.py].

    The methods of [NotificationService] as actions on [Inbox].  The four
    senders are the mocks of the source: they log and record the status
    [sent] (and [delivered], for an email).  [_send_notification] wraps
    them in the [try]/[except] that records a failure and counts a retry;
    its branch for an unsupported type cannot be taken, the type of a
    stored notification being a member of the enumeration.

    The theorems state the life of a notification: what is stored after
    it has been created and sent, that the object the service returns is
    the one read before the sending, that sending never fails and so no
    notification is ever recorded as failed, and what the sweep
    [retry_failed_notifications] does. *)

From S2P Require Import Prelude Json Collection Http NotificationModel NotificationRepository.
Local Open Scope act_scope.

(** ** The class [NotificationService] *)

Definition invalid_notification_type (notification_type : string) : exn :=
  PyException "ValueError" ("Invalid notification type: " +:+ notification_type).

Module NotificationService.
Import NotificationStatus.

Definition update_notification_status (notification_id : string) (status : NotificationStatus.t)
    (delivered_at : option nat) : Act Inbox (option Notification) :=
  now <- inbox_utcnow ;;
  let update_data := [Notification_status status; Notification_updated_at now] in
  update_data <-
    (if bool_decide (status = SENT) then
       sent <- inbox_utcnow ;; ret (update_data ++ [Notification_sent_at sent])
     else if bool_decide (status = DELIVERED) && bool_decide (is_Some delivered_at) then
       ret (update_data ++ [Notification_delivered_at (default 0 delivered_at)])
     else ret update_data) ;;
  NotificationRepository.update_notification notification_id update_data.

Definition _send_email_notification (notification : Notification) : Act Inbox unit :=
  update_notification_status (str_id (id notification)) SENT None ;;
  now <- inbox_utcnow ;;
  update_notification_status (str_id (id notification)) DELIVERED (Some now) ;;
  ret tt.

Definition _send_sms_notification (notification : Notification) : Act Inbox unit :=
  update_notification_status (str_id (id notification)) SENT None ;; ret tt.

Definition _send_push_notification (notification : Notification) : Act Inbox unit :=
  update_notification_status (str_id (id notification)) SENT None ;; ret tt.

Definition _send_in_app_notification (notification : Notification) : Act Inbox unit :=
  update_notification_status (str_id (id notification)) SENT None ;; ret tt.

Definition _send_notification (notification : Notification) : Act Inbox unit :=
  try_except
    (match type notification with
     | NotificationType.EMAIL => _send_email_notification notification
     | NotificationType.SMS => _send_sms_notification notification
     | NotificationType.PUSH => _send_push_notification notification
     | NotificationType.IN_APP => _send_in_app_notification notification
     end)
    (fun e =>
       update_notification_status (str_id (id notification)) FAILED None ;;
       now <- inbox_utcnow ;;
       NotificationRepository.update_notification (str_id (id notification))
         [Notification_retry_count (retry_count notification + 1);
          Notification_updated_at now] ;;
       raise e).

(** The [except] of [create_notification] logs and raises again: it is not
    written. *)
Definition create_notification (notification_data : NotificationData.t)
    : Act Inbox Notification :=
  let notification_type := NotificationData.type notification_data in
  raise_if (negb (bool_decide
                    (notification_type ∈ NotificationType.value <$> NotificationType.members)))
    (invalid_notification_type notification_type) ;;
  notification <- NotificationRepository.create_notification notification_data ;;
  _send_notification notification ;;
  ret notification.

Definition get_notifications (recipient : option string) (status : option NotificationStatus.t)
    (limit offset : Z) : Act Inbox (list Notification) :=
  NotificationRepository.get_notifications recipient status limit offset.

Definition get_notification_by_id (notification_id : string)
    : Act Inbox (option Notification) :=
  NotificationRepository.get_notification_by_id notification_id.

(** The loop of [retry_failed_notifications]: an exception of a sending is
    logged and the loop goes on. *)
Fixpoint retry_loop (max_retries : Z) (failed_notifications : list Notification)
    (retry_count : nat) : Act Inbox nat :=
  match failed_notifications with
  | [] => ret retry_count
  | notification :: rest =>
      retry_count <-
        (if bool_decide (NotificationModel.retry_count notification < max_retries)%Z then
           try_except (_send_notification notification ;; ret (retry_count + 1))
             (fun _ => ret retry_count)
         else ret retry_count) ;;
      retry_loop max_retries rest retry_count
  end.

Definition retry_failed_notifications (max_retries : Z) : Act Inbox nat :=
  failed_notifications <-
    NotificationRepository.get_notifications None (Some FAILED) 100 0 ;;
  retry_loop max_retries failed_notifications 0.

End NotificationService.

(** ** The pure content of a sending *)

(** The stored notification after [update_notification_status] recorded
    [sent] at the clock reading [t], and after the email sender recorded
    the delivery that follows. *)
Definition sent_form (t : nat) (n : Notification) : Notification :=
  set_sent_at (Some (S t)) (set_updated_at t (set_status NotificationStatus.SENT n)).

Definition delivered_form (t : nat) (n : Notification) : Notification :=
  set_delivered_at (Some (2 + t))
    (set_updated_at (3 + t) (set_status NotificationStatus.DELIVERED (sent_form t n))).

(** What the sender of a type leaves stored, and where it leaves the
    clock. *)
Definition dispatched (ty : NotificationType.t) (t : nat) (n : Notification) : Notification :=
  match ty with
  | NotificationType.EMAIL => delivered_form t n
  | _ => sent_form t n
  end.

Definition dispatch_ticks (ty : NotificationType.t) : nat :=
  match ty with NotificationType.EMAIL => 4 | _ => 2 end.

(** ** The methods, in one equation each *)

Section Runs.
Implicit Types (w : Inbox) (n : Notification).

Lemma update_notification_status_sent s w :
  NotificationService.update_notification_status s NotificationStatus.SENT None w =
  NotificationRepository.update_notification s
    [Notification_status NotificationStatus.SENT; Notification_updated_at (inbox_clock w);
     Notification_sent_at (S (inbox_clock w))]
    (with_inbox_clock (S (S (inbox_clock w))) w).
Proof. done. Qed.

Lemma update_notification_status_delivered s t w :
  NotificationService.update_notification_status s NotificationStatus.DELIVERED (Some t) w =
  NotificationRepository.update_notification s
    [Notification_status NotificationStatus.DELIVERED; Notification_updated_at (inbox_clock w);
     Notification_delivered_at t]
    (with_inbox_clock (S (inbox_clock w)) w).
Proof. done. Qed.

(** [update_notification_status] never raises. *)
Lemma update_notification_status_total s st d w :
  is_ok (result_of (NotificationService.update_notification_status s st d) w) = true.
Proof.
  unfold result_of, NotificationService.update_notification_status, bind, inbox_utcnow.
  repeat case_bool_decide; cbn; rewrite ?update_notification_run;
    by destruct (coll_get_str _ _).
Qed.

(** Sending a notification that is stored leaves it stored in the form
    its sender records, and nothing else changes but the clock.  The
    notification handed over names the stored one by its identifier: its
    other fields are not read, but for the type. *)
Lemma send_stored n n0 w :
  coll_wf (notifications w) ->
  coll_get_str (str_id (id n)) (notifications w) = Some n0 ->
  NotificationService._send_notification n w =
  (Ok tt, with_inbox_clock (dispatch_ticks (type n) + inbox_clock w)
            (notification_stored (dispatched (type n) (inbox_clock w) n0) w)).
Proof.
  intros Hwf Hget. unfold NotificationService._send_notification, try_except.
  assert (forall w1, notifications w1 = notifications w ->
            NotificationService.update_notification_status (str_id (id n))
              NotificationStatus.SENT None w1
            = (Ok (Some (sent_form (inbox_clock w1) n0)),
               notification_stored (sent_form (inbox_clock w1) n0)
                 (with_inbox_clock (S (S (inbox_clock w1))) w1))) as Hsent.
  { intros w1 Hw1. rewrite update_notification_status_sent, update_notification_run.
    cbn [notifications with_inbox_clock]. by rewrite Hw1, Hget. }
  destruct (type n);
    unfold NotificationService._send_email_notification,
      NotificationService._send_sms_notification,
      NotificationService._send_push_notification,
      NotificationService._send_in_app_notification;
    unfold bind at 1; rewrite Hsent by done; try done.
  unfold bind at 1. unfold inbox_utcnow at 1. unfold bind.
  rewrite update_notification_status_delivered, update_notification_run.
  cbn [notifications with_inbox_clock notification_stored with_notifications inbox_clock].
  rewrite (coll_get_str_save_eq _ n0) by done. cbn [ret dispatched dispatch_ticks].
  unfold notification_stored, with_notifications, with_inbox_clock.
  cbn [notifications inbox_clock]. by rewrite (coll_save_save (str_id (id n)) n0).
Qed.

(** The same when the notification is not stored: nothing is written, and
    nothing fails. *)
Lemma send_missing n w :
  coll_get_str (str_id (id n)) (notifications w) = None ->
  NotificationService._send_notification n w =
  (Ok tt, with_inbox_clock (dispatch_ticks (type n) + inbox_clock w) w).
Proof.
  intros Hget. unfold NotificationService._send_notification, try_except.
  assert (forall w1, notifications w1 = notifications w ->
            NotificationService.update_notification_status (str_id (id n))
              NotificationStatus.SENT None w1
            = (Ok None, with_inbox_clock (S (S (inbox_clock w1))) w1)) as Hsent.
  { intros w1 Hw1. rewrite update_notification_status_sent, update_notification_run.
    cbn [notifications with_inbox_clock]. by rewrite Hw1, Hget. }
  destruct (type n);
    unfold NotificationService._send_email_notification,
      NotificationService._send_sms_notification,
      NotificationService._send_push_notification,
      NotificationService._send_in_app_notification;
    unfold bind at 1; rewrite Hsent by done; try done.
  unfold bind at 1. unfold inbox_utcnow at 1. unfold bind.
  rewrite update_notification_status_delivered, update_notification_run.
  cbn [notifications with_inbox_clock inbox_clock]. by rewrite Hget.
Qed.

(** Sending never fails: the branch of [_send_notification] that records
    a failure is never taken. *)
Lemma send_total n w :
  coll_wf (notifications w) ->
  result_of (NotificationService._send_notification n) w = Ok tt.
Proof.
  intros Hwf. unfold result_of.
  destruct (coll_get_str (str_id (id n)) (notifications w)) as [n0|] eqn:Hget.
  - by rewrite (send_stored n n0).
  - by rewrite send_missing.
Qed.

(** [create_notification], on each of its branches: a type that is no
    member of the enumeration is refused before anything is read; a
    recipient or a source that is no string fails the construction, after
    the two readings of the clock; else the notification is inserted and
    sent, and the object returned is the inserted one. *)
Lemma create_notification_cases d w :
  coll_wf (notifications w) ->
  NotificationService.create_notification d w =
  if bool_decide (NotificationData.type d ∈ NotificationType.value <$> NotificationType.members)
  then
    match new_Notification d (inbox_clock w) (S (inbox_clock w)) with
    | Ok n =>
        let n' := (coll_insert n (notifications w)).1 in
        (Ok n',
         mkInbox (coll_save (dispatched (type n) (2 + inbox_clock w) n')
                    (coll_insert n (notifications w)).2)
           (dispatch_ticks (type n) + (2 + inbox_clock w)))
    | Raise e => (Raise e, with_inbox_clock (2 + inbox_clock w) w)
    end
  else (Raise (invalid_notification_type (NotificationData.type d)), w).
Proof.
  intros Hwf. unfold NotificationService.create_notification.
  unfold bind at 1. rewrite raise_if_run. case_bool_decide; [|done]. cbn [negb].
  unfold bind at 1. rewrite create_notification_run.
  destruct (new_Notification _ _ _) as [n|e]; [|done]. unfold bind.
  set (c := coll_insert n (notifications w)).
  rewrite (send_stored c.1 c.1).
  - done.
  - by apply coll_insert_wf.
  - exact (coll_get_str_insert_new n (notifications w) Hwf).
Qed.

(** The branch of a dictionary that validates. *)
Lemma create_notification_valid d n w :
  coll_wf (notifications w) ->
  new_Notification d (inbox_clock w) (S (inbox_clock w)) = Ok n ->
  NotificationService.create_notification d w =
  let n' := (coll_insert n (notifications w)).1 in
  (Ok n',
   mkInbox (coll_save (dispatched (type n) (2 + inbox_clock w) n')
              (coll_insert n (notifications w)).2)
     (dispatch_ticks (type n) + (2 + inbox_clock w))).
Proof.
  intros Hwf Hn. rewrite create_notification_cases, Hn by done.
  case_bool_decide as Hin; [done|]. exfalso. apply Hin.
  apply new_Notification_Ok in Hn as (_ & _ & _ & _ & _ & _ & <- & _).
  apply list_elem_of_fmap. exists (type n). split; [done|].
  destruct (type n); repeat constructor.
Qed.

(** What is stored after it: the notification in the form its sender
    left, under the next identifier, and one document more. *)
Lemma create_notification_stored d n w :
  coll_wf (notifications w) ->
  new_Notification d (inbox_clock w) (S (inbox_clock w)) = Ok n ->
  let w' := state_after (NotificationService.create_notification d) w in
  let i := next_id (notifications w) in
  coll_get_str (str_id (Some i)) (notifications w')
  = Some (dispatched (type n) (2 + inbox_clock w) (set_id (Some i) n)) /\
  length (docs (notifications w')) = S (length (docs (notifications w))).
Proof.
  intros Hwf Hn. unfold state_after. rewrite (create_notification_valid d n) by done.
  cbn [snd notifications]. pose proof (coll_get_str_insert_new n _ Hwf) as Hget.
  pose proof (coll_insert_wf n _ Hwf) as Hwf'.
  assert (doc_id (dispatched (type n) (2 + inbox_clock w) (coll_insert n (notifications w)).1)
          = doc_id (coll_insert n (notifications w)).1) as Hid by by destruct (type n).
  split.
  - rewrite <- (coll_insert_id n). exact (coll_get_str_save_eq _ _ _ _ Hwf' Hget Hid).
  - destruct (coll_save_str_docs _ _ _ _ Hwf' Hget Hid) as (j & _ & -> & _).
    rewrite length_replace_id, coll_insert_docs, length_app. cbn. lia.
Qed.

(** An email whose recipient and source are strings: what the inbox holds
    under the next identifier once it has been created. *)
Definition email_of (d : NotificationData.t) (recipient source : string) (n : Notification)
    : Prop :=
  type n = NotificationType.EMAIL /\ NotificationModel.recipient n = recipient /\
  source_service n = source /\ status n = NotificationStatus.DELIVERED /\
  subject n = Some (NotificationData.subject d) /\ message n = NotificationData.message d /\
  event_type n = NotificationData.event_type d /\
  event_data n = NotificationData.event_data d /\
  priority n = NotificationData.priority d /\ retry_count n = 0%Z /\ is_Some (sent_at n) /\
  is_Some (delivered_at n).

Lemma email_created d recipient source w :
  coll_wf (notifications w) ->
  NotificationData.type d = "email" ->
  NotificationData.recipient d = JStr recipient ->
  NotificationData.source_service d = JStr source ->
  let w' := state_after (NotificationService.create_notification d) w in
  (exists n, coll_get_str (str_id (Some (next_id (notifications w)))) (notifications w') = Some n
             /\ email_of d recipient source n) /\
  length (docs (notifications w')) = S (length (docs (notifications w))).
Proof.
  intros Hwf Hty Hr Hs.
  assert (exists n, new_Notification d (inbox_clock w) (S (inbox_clock w)) = Ok n /\
                    email_of d recipient source
                      (dispatched (type n) (2 + inbox_clock w)
                         (set_id (Some (next_id (notifications w))) n))) as (n & Hn & Hmail).
  { unfold new_Notification. rewrite Hty, Hr, Hs. cbn. eexists. split; [done|].
    unfold email_of. cbn. by split_and!. }
  destruct (create_notification_stored d n w Hwf Hn) as [Hget Hlen]. eauto.
Qed.

(** Sending returns, and the collection stays well formed. *)
Lemma send_run n w :
  coll_wf (notifications w) ->
  NotificationService._send_notification n w =
  (Ok tt, state_after (NotificationService._send_notification n) w).
Proof.
  intros Hwf. pose proof (send_total n w Hwf) as Hr. unfold result_of, state_after in *.
  destruct (NotificationService._send_notification n w). cbn in *. by subst.
Qed.

Lemma send_wf n w :
  coll_wf (notifications w) ->
  coll_wf (notifications (state_after (NotificationService._send_notification n) w)).
Proof.
  intros Hwf. unfold state_after.
  destruct (coll_get_str (str_id (id n)) (notifications w)) as [n0|] eqn:Hget.
  - rewrite (send_stored n n0) by done. cbn.
    by destruct (coll_save_str_docs _ n0 (dispatched (type n) (inbox_clock w) n0) _ Hwf Hget)
      as (i & _ & _ & Hwf'); [destruct (type n)|].
  - by rewrite send_missing.
Qed.

(** The loop of the sweep counts every notification of the list whose
    retry count is below the bound: none of the sendings fails. *)
Lemma retry_loop_run max_retries l rc w :
  coll_wf (notifications w) ->
  result_of (NotificationService.retry_loop max_retries l rc) w =
  Ok (rc + length (List.filter (fun n => bool_decide (retry_count n < max_retries)%Z) l)).
Proof.
  revert rc w. induction l as [|n l IH]; intros rc w Hwf; cbn.
  - unfold result_of, ret. cbn. f_equal. lia.
  - unfold result_of, bind in *. case_bool_decide; cbn.
    + unfold try_except, bind. rewrite send_run by done. cbn.
      rewrite IH by by apply send_wf. f_equal. lia.
    + by rewrite IH.
Qed.

End Runs.

(** ** The invariant of the inbox *)

(** No stored notification is recorded as failed, and none has been
    retried. *)
Definition never_failed (n : Notification) : Prop :=
  status n <> NotificationStatus.FAILED /\ retry_count n = 0%Z.

(** The collection is well formed and every stored notification has the
    property [P]. *)
Definition inbox_all (P : Notification -> Prop) (w : Inbox) : Prop :=
  coll_wf (notifications w) /\ Forall P (docs (notifications w)).

Definition inbox_ok : Inbox -> Prop := inbox_all never_failed.

(** An email that has gone through its sender: delivered, never retried,
    created before it was sent, sent before it was delivered, and last
    updated after that. *)
Definition delivered_email (n : Notification) : Prop :=
  type n = NotificationType.EMAIL /\ status n = NotificationStatus.DELIVERED /\
  retry_count n = 0%Z /\
  exists s d, sent_at n = Some s /\ delivered_at n = Some d /\
              created_at n < s /\ s < d /\ d < updated_at n.

Section Invariant.
Implicit Types (w : Inbox) (n : Notification).

Lemma dispatched_never_failed ty t n :
  retry_count n = 0%Z -> never_failed (dispatched ty t n).
Proof. by destruct ty. Qed.

Lemma dispatched_same_notice ty t n : same_notice n (dispatched ty t n).
Proof. by destruct ty. Qed.

Lemma dispatched_status ty t n :
  status (dispatched ty t n) =
  if decide (ty = NotificationType.EMAIL) then NotificationStatus.DELIVERED
  else NotificationStatus.SENT.
Proof. by destruct ty. Qed.

Lemma inbox_ok_found s n w :
  inbox_ok w -> coll_get_str s (notifications w) = Some n -> never_failed n.
Proof.
  intros [_ Hall] [Hin _]%coll_get_str_Some. rewrite Forall_forall in Hall. by apply Hall.
Qed.

Lemma send_ok n w :
  inbox_ok w -> inbox_ok (state_after (NotificationService._send_notification n) w).
Proof.
  intros Hok. split; [apply send_wf, Hok|]. destruct Hok as [Hwf Hall]. unfold state_after.
  destruct (coll_get_str (str_id (id n)) (notifications w)) as [n0|] eqn:Hget.
  - rewrite (send_stored n n0) by done. cbn.
    eapply Forall_coll_save_str; [done | done | by destruct (type n) | done |].
    apply dispatched_never_failed. by eapply (inbox_ok_found _ n0 w).
  - by rewrite send_missing.
Qed.

(** [create_notification] adds one notification, in the form its sender
    left, and touches no other: a property of all stored notifications
    that the new one has is maintained. *)
Lemma create_notification_all (P : Notification -> Prop) d w :
  (forall n i,
     new_Notification d (inbox_clock w) (S (inbox_clock w)) = Ok n ->
     P (dispatched (type n) (2 + inbox_clock w) (set_id (Some i) n))) ->
  inbox_all P w -> inbox_all P (state_after (NotificationService.create_notification d) w).
Proof.
  intros HP [Hwf Hall]. unfold state_after. rewrite create_notification_cases by done.
  case_bool_decide; [|done].
  destruct (new_Notification _ _ _) as [n|e] eqn:Hn; [|done]. cbn [snd].
  pose proof (coll_get_str_insert_new n _ Hwf) as Hget.
  pose proof (coll_insert_wf n _ Hwf) as Hwf'.
  assert (doc_id (dispatched (type n) (2 + inbox_clock w) (coll_insert n (notifications w)).1)
          = Some (next_id (notifications w))) as Hid by by destruct (type n).
  split; cbn [notifications].
  - by destruct (coll_save_str_docs _ _ _ _ Hwf' Hget (eq_trans Hid (eq_sym (coll_insert_id n _))))
      as (i & _ & _ & Hwf'').
  - rewrite coll_save_insert_docs by done. apply Forall_app. split; [done|].
    apply Forall_singleton. by apply HP.
Qed.

Lemma create_notification_ok d w :
  inbox_ok w -> inbox_ok (state_after (NotificationService.create_notification d) w).
Proof.
  apply create_notification_all. intros n i (_ & _ & Hrc & _)%new_Notification_Ok.
  by apply dispatched_never_failed.
Qed.

(** An email that is created is stored as a delivered email. *)
Lemma create_email_delivered d :
  NotificationData.type d = "email" ->
  preserves (inbox_all delivered_email) (NotificationService.create_notification d).
Proof.
  intros Hty w. apply create_notification_all. intros n i Hn.
  unfold new_Notification in Hn. rewrite Hty in Hn. cbn in Hn.
  repeat case_match; simplify_eq. unfold delivered_email, dispatched, delivered_form, sent_form.
  cbn. split_and!; [done..|]. eexists _, _. split_and!; [done | done | lia..].
Qed.

Lemma inbox_all_impl (P Q : Notification -> Prop) w :
  (forall n, P n -> Q n) -> inbox_all P w -> inbox_all Q w.
Proof. intros HPQ [Hwf Hall]. split; [done|]. by eapply Forall_impl. Qed.

Lemma delivered_never_failed n : delivered_email n -> never_failed n.
Proof. intros (_ & Hst & Hrc & _). split; [by rewrite Hst | done]. Qed.

Lemma inbox_all_empty (P : Notification -> Prop) t : inbox_all P (mkInbox coll_empty t).
Proof. split; [apply coll_wf_empty | constructor]. Qed.

(** What the queries of the statistics count when every notification is
    a delivered email. *)
Lemma count_delivered st w :
  inbox_all delivered_email w ->
  coll_count (NotificationRepository.matches None st) (notifications w) =
  match st with
  | None | Some NotificationStatus.DELIVERED => length (docs (notifications w))
  | _ => 0
  end.
Proof.
  intros [_ Hall]. unfold coll_count, coll_find, NotificationRepository.matches. cbn.
  induction Hall as [|n l (_ & Hst & _) _ IH]; [by destruct st as [[]|]|].
  cbn. rewrite Hst. destruct st as [[]|]; cbn; try case_bool_decide; try done;
    cbn in *; by rewrite ?IH.
Qed.

(** The query of the sweep finds nothing. *)
Lemma no_failed_found w :
  inbox_ok w ->
  coll_find (NotificationRepository.matches None (Some NotificationStatus.FAILED))
    (notifications w) = [].
Proof.
  intros [_ Hall]. apply coll_find_none. eapply Forall_impl; [exact Hall|].
  intros n [Hst _]. unfold NotificationRepository.matches. cbn.
  by rewrite bool_decide_eq_false.
Qed.

Lemma get_notifications_keeps recipient status limit offset :
  keeps Datatypes.id (NotificationService.get_notifications recipient status limit offset).
Proof.
  intros w. unfold state_after, NotificationService.get_notifications.
  rewrite get_notifications_run. by case_bool_decide.
Qed.

Lemma retry_failed_keeps max_retries w :
  inbox_ok w ->
  state_after (NotificationService.retry_failed_notifications max_retries) w = w.
Proof.
  intros Hok. unfold state_after, NotificationService.retry_failed_notifications, bind.
  rewrite get_notifications_run. cbn. by rewrite no_failed_found.
Qed.

Lemma retry_failed_preserves max_retries :
  preserves inbox_ok (NotificationService.retry_failed_notifications max_retries).
Proof. intros w Hok. by rewrite retry_failed_keeps. Qed.

End Invariant.

#[export] Hint Resolve create_notification_ok send_ok : shop.
#[export] Hint Extern 1 (preserves inbox_ok (NotificationService.create_notification _)) =>
  exact (create_notification_ok _) : preserves.
#[export] Hint Extern 1 (preserves inbox_ok (NotificationService.retry_failed_notifications _)) =>
  apply retry_failed_preserves : preserves.
#[export] Hint Extern 1
  (preserves _ (NotificationService.get_notifications _ _ _ _)) =>
  apply keeps_preserves, get_notifications_keeps : preserves.

(** ** What the service guarantees *)

Section Guarantees.
Implicit Types (w : Inbox) (n : Notification).

(** C29.  The notification [create_notification] returns is the one that was
    inserted, read before it was sent: it says [pending] and carries no
    time of sending, while the document stored under its identifier says
    [delivered] (an email) or [sent], with the time of sending recorded and
    no retry counted. *)
Theorem created_notification_is_stale d w n w' :
  coll_wf (notifications w) ->
  NotificationService.create_notification d w = (Ok n, w') ->
  status n = NotificationStatus.PENDING /\ sent_at n = None /\
  exists stored,
    coll_get_str (str_id (id n)) (notifications w') = Some stored /\
    same_notice n stored /\
    status stored = (if decide (type n = NotificationType.EMAIL)
                     then NotificationStatus.DELIVERED else NotificationStatus.SENT) /\
    sent_at stored = Some (3 + inbox_clock w) /\ retry_count stored = 0%Z.
Proof.
  intros Hwf. rewrite create_notification_cases by done. case_bool_decide; [|done].
  destruct (new_Notification _ _ _) as [n0|e] eqn:Hn; [|done]. cbv zeta. intros [= <- <-].
  apply new_Notification_Ok in Hn as (_ & Hst & Hrc & _ & Hsent & _).
  split_and!; [exact Hst | exact Hsent |].
  exists (dispatched (type n0) (2 + inbox_clock w) (coll_insert n0 (notifications w)).1).
  split_and!.
  - cbn [notifications].
    apply (coll_get_str_save_eq _ _ _ _ (coll_insert_wf n0 _ Hwf)
             (coll_get_str_insert_new n0 _ Hwf)).
    by destruct (type n0).
  - apply dispatched_same_notice.
  - apply dispatched_status.
  - by destruct (type n0).
  - by destruct (type n0).
Qed.

(** While the invariant holds the sweep finds no notification to send
    again: it answers zero and changes nothing. *)
Theorem retry_failed_is_noop max_retries w :
  inbox_ok w ->
  NotificationService.retry_failed_notifications max_retries w = (Ok 0, w).
Proof.
  intros Hok. unfold NotificationService.retry_failed_notifications, bind.
  rewrite get_notifications_run. cbn. by rewrite no_failed_found.
Qed.

(** A notification of a type that is no value of the enumeration is
    refused with a [ValueError]; nothing is stored and the clock is not
    read. *)
Theorem create_notification_invalid_type d w :
  NotificationType.of_value (NotificationData.type d) = None ->
  NotificationService.create_notification d w =
  (Raise (invalid_notification_type (NotificationData.type d)), w).
Proof.
  intros Hty. unfold NotificationService.create_notification, bind.
  rewrite raise_if_run. case_bool_decide as Hin; [|done].
  apply list_elem_of_fmap in Hin as (m & Hm & _).
  by rewrite Hm, NotificationType_of_value_value in Hty.
Qed.

End Guarantees.
