(* ===== verification/NotificationConsumer.v ===== *)
(** * The Kafka consumer of the notification service:
    [src/notification_service/app/utils/kafka_consumer.py].

    The class [KafkaConsumer]: its three attributes that change
    ([kafka_enabled], [consumer], [running]), [start] and [stop], the loop
    [_consume_messages] over the messages the broker delivers, and the
    handlers a message is routed to, which act on the [Inbox] through the
    notification service.

    A message carries any JSON value, so every read of it is written with
    the failure Python has for it: [.get] on a value that is no object
    raises [AttributeError], [<] between a string and a number raises
    [TypeError], a recipient that is no string fails the construction of
    the [Notification].  Each level of the consumer catches what the level
    below raises and logs it; the logging is not modelled, the catching
    is.

    Whether the client can be created and started is decided outside the
    program: [start] takes the answer as its argument. *)

From S2P Require Import Prelude Money Json Collection Http Kafka.
From S2P Require Import NotificationModel NotificationRepository NotificationService.
From Stdlib Require Import QArith.
Local Close Scope Q_scope.
Local Open Scope act_scope.

(** ** Reading a JSON value the way Python does *)

Definition attribute_error : exn :=
  PyException "AttributeError" "object has no attribute 'get'".
Definition type_error : exn :=
  PyException "TypeError" "'<' not supported between instances".

(** The object on which [.get] is called: a dictionary has the method,
    no other JSON value has. *)
Definition as_dict {W} (j : json) : Act W dict :=
  match j with JDict d => ret d | _ => raise attribute_error end.

(** [x == s] for a string literal [s]. *)
Definition json_is (s : string) (j : json) : bool :=
  match j with JStr s' => String.eqb s' s | _ => false end.

(** [x < n] for an integer literal [n]: numbers compare (a boolean is a
    number), anything else raises. *)
Definition json_lt {W} (j : json) (n : Z) : Act W bool :=
  match j with
  | JBool b => ret (Z.b2z b <? n)%Z
  | JInt z => ret (z <? n)%Z
  | JFloat q => ret (Qltb q (inject_Z n))
  | _ => raise type_error
  end.

(** ** The class [KafkaConsumer] *)

Module KafkaConsumer.

Record t : Type := mk {
  kafka_enabled : bool;
  consumer : option ClientState;
  running : bool;
}.

Definition topics : list string := ["user-events"; "product-events"].

(** [KafkaConsumer()]: [KAFKA_ENABLED] read from the environment, no
    client, not running. *)
Definition new (enabled : bool) : t := mk enabled None false.

(** [start]: nothing when Kafka is disabled; else the client is created
    and started and the consumer runs, or the client is forgotten when
    that fails. *)
Definition start (connected : bool) : Act t unit :=
  k <- get ;;
  if negb (kafka_enabled k) then ret tt
  else if connected then put (mk (kafka_enabled k) (Some Running) true)
  else put (mk (kafka_enabled k) None (running k)).

(** [stop]: the consumer no longer runs, and the client is stopped when
    there is one. *)
Definition stop : Act t unit :=
  modify (fun k =>
            mk (kafka_enabled k)
              (match consumer k with Some _ => Some Stopped | None => None end) false).

Section Handlers.
Context `{PyRepr}.

(** The dictionary [notification_data] of [_handle_user_registered]. *)
Definition welcome_data (user_email user_name : json) (event_data : dict) (service : json)
    : NotificationData.t :=
  {| NotificationData.type := "email";
     NotificationData.recipient := user_email;
     NotificationData.subject := "Welcome to E-commerce Platform!";
     NotificationData.message :=
       "Hello " +:+ py_str user_name
       +:+ ", welcome to our platform! We're excited to have you on board.";
     NotificationData.event_type := "user.registered";
     NotificationData.event_data := event_data;
     NotificationData.source_service := service;
     NotificationData.priority := 3 |}.

Definition _handle_user_registered (event_data service : json) : Act Inbox unit :=
  event_data <- as_dict event_data ;;
  let user_email := dict_get "email" event_data in
  let user_name := dict_get "name" event_data in
  if json_truthy user_email then
    NotificationService.create_notification
      (welcome_data user_email user_name event_data service) ;;
    ret tt
  else ret tt.

Definition _handle_user_login (event_data service : json) : Act Inbox unit :=
  as_dict event_data ;; ret tt.

Definition _handle_user_updated (event_data service : json) : Act Inbox unit :=
  as_dict event_data ;; ret tt.

Definition _handle_product_created (event_data service : json) : Act Inbox unit :=
  as_dict event_data ;; ret tt.

(** The dictionary [notification_data] of
    [_handle_product_stock_updated]. *)
Definition low_stock_data (product_id stock_quantity : json) (event_data : dict)
    (service : json) : NotificationData.t :=
  {| NotificationData.type := "email";
     NotificationData.recipient := JStr "admin@ecommerce.com";
     NotificationData.subject := "Low Stock Alert";
     NotificationData.message :=
       "Product " +:+ py_str product_id +:+ " has low stock: " +:+ py_str stock_quantity
       +:+ " units remaining.";
     NotificationData.event_type := "product.stock_updated";
     NotificationData.event_data := event_data;
     NotificationData.source_service := service;
     NotificationData.priority := 4 |}.

Definition _handle_product_stock_updated (event_data service : json) : Act Inbox unit :=
  event_data <- as_dict event_data ;;
  let product_id := dict_get "product_id" event_data in
  let stock_quantity := dict_get "stock_quantity" event_data in
  low <- (if is_not_none stock_quantity then json_lt stock_quantity 10 else ret false) ;;
  if low : bool then
    NotificationService.create_notification
      (low_stock_data product_id stock_quantity event_data service) ;;
    ret tt
  else ret tt.

Definition _handle_user_event (event_type event_data service : json) : Act Inbox unit :=
  try_except
    (if json_is "user.registered" event_type then _handle_user_registered event_data service
     else if json_is "user.login" event_type then _handle_user_login event_data service
     else if json_is "user.updated" event_type then _handle_user_updated event_data service
     else ret tt)
    (fun _ => ret tt).

Definition _handle_product_event (event_type event_data service : json) : Act Inbox unit :=
  try_except
    (if json_is "product.created" event_type then _handle_product_created event_data service
     else if json_is "product.stock_updated" event_type
          then _handle_product_stock_updated event_data service
     else ret tt)
    (fun _ => ret tt).

Definition _process_message (message : Message) : Act Inbox unit :=
  try_except
    (let topic := topic message in
     value <- as_dict (value message) ;;
     let service := dict_get_default "service" (JStr "unknown") value in
     let event_type := dict_get_default "event_type" (JStr "unknown") value in
     let event_data := dict_get_default "data" (JDict []) value in
     if String.eqb topic "user-events" then _handle_user_event event_type event_data service
     else if String.eqb topic "product-events"
          then _handle_product_event event_type event_data service
     else ret tt)
    (fun _ => ret tt).

End Handlers.
End KafkaConsumer.

(** ** The process that consumes *)

(** The consumer and the inbox its handlers write to. *)
Record Notifier : Type := mkNotifier {
  inbox : Inbox;
  kafka_consumer : KafkaConsumer.t;
}.

Definition with_inbox (i : Inbox) (w : Notifier) : Notifier := mkNotifier i (kafka_consumer w).
Definition with_kafka_consumer (k : KafkaConsumer.t) (w : Notifier) : Notifier :=
  mkNotifier (inbox w) k.

(** [_consume_messages] over the messages the broker delivers, oldest
    first: it returns at once without a client, leaves the loop when the
    consumer no longer runs, and goes on after a message that failed. *)
Fixpoint consume_loop `{PyRepr} (messages : list Message) : Act Notifier unit :=
  match messages with
  | [] => ret tt
  | message :: rest =>
      w <- get ;;
      if negb (KafkaConsumer.running (kafka_consumer w)) then ret tt
      else
        try_except (zoom inbox with_inbox (KafkaConsumer._process_message message))
          (fun _ => ret tt) ;;
        consume_loop rest
  end.

Definition _consume_messages `{PyRepr} (messages : list Message) : Act Notifier unit :=
  w <- get ;;
  if negb (bool_decide (is_Some (KafkaConsumer.consumer (kafka_consumer w)))) then ret tt
  else consume_loop messages.

(** ** The handlers never fail and maintain the inbox *)

Section Total.
Context `{PyRepr}.
Implicit Types (w : Inbox) (j : json).

Lemma preserves_as_dict {W} (I : W -> Prop) j : preserves I (as_dict j).
Proof. destruct j; cbn; auto with preserves. Qed.

Lemma preserves_json_lt {W} (I : W -> Prop) j n : preserves I (json_lt j n).
Proof. destruct j; cbn; auto with preserves. Qed.

Hint Resolve preserves_as_dict preserves_json_lt : preserves.

Lemma _handle_user_event_run event_type event_data service w :
  KafkaConsumer._handle_user_event event_type event_data service w =
  (Ok tt,
   if json_is "user.registered" event_type
   then state_after (KafkaConsumer._handle_user_registered event_data service) w else w).
Proof.
  unfold KafkaConsumer._handle_user_event. rewrite try_except_swallow.
  destruct (json_is "user.registered" _); [done|]. f_equal. unfold state_after.
  repeat (destruct (json_is _ _); [by destruct event_data|]). done.
Qed.

Lemma _handle_product_event_run event_type event_data service w :
  KafkaConsumer._handle_product_event event_type event_data service w =
  (Ok tt,
   if json_is "product.stock_updated" event_type
   then state_after (KafkaConsumer._handle_product_stock_updated event_data service) w
   else w).
Proof.
  unfold KafkaConsumer._handle_product_event. rewrite try_except_swallow. f_equal.
  destruct event_type as [| | | |s| |]; try done. unfold json_is.
  destruct (String.eqb_spec s "product.created") as [->|];
    [by destruct event_data | by destruct (String.eqb s _)].
Qed.

(** No message makes the consumer fail. *)
Lemma _process_message_total message w :
  result_of (KafkaConsumer._process_message message) w = Ok tt.
Proof.
  unfold result_of, KafkaConsumer._process_message. by rewrite try_except_swallow.
Qed.

(** The handlers write through [create_notification] only, and only
    emails: an invariant of the inbox that the creation of an email
    maintains is maintained by the consumer. *)
Definition email_invariant (I : Inbox -> Prop) : Prop :=
  forall d, NotificationData.type d = "email" ->
            preserves I (NotificationService.create_notification d).

Lemma _process_message_preserves (I : Inbox -> Prop) message :
  email_invariant I -> preserves I (KafkaConsumer._process_message message).
Proof.
  intros HI.
  unfold KafkaConsumer._process_message, KafkaConsumer._handle_user_event,
    KafkaConsumer._handle_product_event, KafkaConsumer._handle_user_registered,
    KafkaConsumer._handle_user_login, KafkaConsumer._handle_user_updated,
    KafkaConsumer._handle_product_created, KafkaConsumer._handle_product_stock_updated.
  preserves; by apply HI.
Qed.

(** A message whose value is an object, routed: only a registration on
    [user-events] and a stock update on [product-events] reach a handler
    that writes. *)
Lemma _process_message_run tp key d w :
  KafkaConsumer._process_message (mkMessage tp key (JDict d)) w =
  (Ok tt,
   let service := dict_get_default "service" (JStr "unknown") d in
   let event_type := dict_get_default "event_type" (JStr "unknown") d in
   let event_data := dict_get_default "data" (JDict []) d in
   if String.eqb tp "user-events" then
     if json_is "user.registered" event_type
     then state_after (KafkaConsumer._handle_user_registered event_data service) w else w
   else if String.eqb tp "product-events" then
     if json_is "product.stock_updated" event_type
     then state_after (KafkaConsumer._handle_product_stock_updated event_data service) w
     else w
   else w).
Proof.
  unfold KafkaConsumer._process_message. rewrite try_except_swallow. f_equal.
  unfold state_after, bind. cbn [as_dict ret topic value].
  destruct (String.eqb tp "user-events"); [by rewrite _handle_user_event_run|].
  destruct (String.eqb tp "product-events"); [by rewrite _handle_product_event_run | done].
Qed.

(** A value that is no object is dropped. *)
Lemma _process_message_no_dict tp key j w :
  (forall d, j <> JDict d) -> KafkaConsumer._process_message (mkMessage tp key j) w = (Ok tt, w).
Proof.
  intros Hj. unfold KafkaConsumer._process_message. rewrite try_except_swallow.
  destruct j; try done. by destruct (Hj d).
Qed.

(** A message on a topic the handlers do not know is dropped. *)
Lemma _process_message_other_topic message w :
  topic message ∉ KafkaConsumer.topics ->
  KafkaConsumer._process_message message w = (Ok tt, w).
Proof.
  intros Htp. destruct message as [tp key j].
  destruct (String.eqb_spec tp "user-events") as [->|];
    [destruct Htp; repeat constructor|].
  destruct (String.eqb_spec tp "product-events") as [->|];
    [destruct Htp; repeat constructor|].
  destruct j; try by apply _process_message_no_dict.
  rewrite _process_message_run. cbv zeta.
  by rewrite !(proj2 (String.eqb_neq tp _)) by done.
Qed.

(** The two handlers that write, on the data they are written for. *)
Lemma _handle_user_registered_run data service w :
  KafkaConsumer._handle_user_registered (JDict data) service w =
  if json_truthy (dict_get "email" data) then
    let r := NotificationService.create_notification
               (KafkaConsumer.welcome_data (dict_get "email" data) (dict_get "name" data)
                  data service) w in
    (match r.1 with Ok _ => Ok tt | Raise e => Raise e end, r.2)
  else (Ok tt, w).
Proof.
  unfold KafkaConsumer._handle_user_registered, bind. cbn [as_dict ret].
  destruct (json_truthy _); [|done].
  by destruct (NotificationService.create_notification _ w) as [[n|e] w'].
Qed.

Lemma _handle_product_stock_updated_int data service q w :
  dict_get "stock_quantity" data = JInt q ->
  KafkaConsumer._handle_product_stock_updated (JDict data) service w =
  if bool_decide (q < 10)%Z then
    let r := NotificationService.create_notification
               (KafkaConsumer.low_stock_data (dict_get "product_id" data) (JInt q)
                  data service) w in
    (match r.1 with Ok _ => Ok tt | Raise e => Raise e end, r.2)
  else (Ok tt, w).
Proof.
  intros Hq. unfold KafkaConsumer._handle_product_stock_updated, bind.
  cbn [as_dict ret]. rewrite Hq. cbn [is_not_none json_lt ret].
  case_bool_decide as Hlt.
  - apply Z.ltb_lt in Hlt as ->.
    by destruct (NotificationService.create_notification _ w) as [[n|e] w'].
  - by apply Z.ltb_nlt in Hlt as ->.
Qed.

(** A message in the envelope of the producers: the value [send_event]
    builds for some service and payload, on the topic it names. *)
Definition enveloped (message : Message) : Prop :=
  exists service data, value message = enriched_event service (topic message) data.

Lemma _process_message_enveloped message w :
  enveloped message -> KafkaConsumer._process_message message w = (Ok tt, w).
Proof.
  destruct message as [tp key j]. intros (service & data & Hv). cbn in Hv. subst j.
  unfold enriched_event. rewrite _process_message_run.
  change (dict_get_default "event_type" _ _) with (JStr tp). cbv zeta.
  destruct (String.eqb_spec tp "user-events") as [->|]; [done|].
  by destruct (String.eqb_spec tp "product-events") as [->|].
Qed.

End Total.

(** ** What the consumer does with the events of the platform *)

Section Guarantees.
Context `{PyRepr}.
Implicit Types (w : Inbox).

(** C11.  The envelope a producer of the platform writes names the topic in its
    field [event_type]; the name of the event is inside the payload.  The
    consumer dispatches on the field of the envelope, so a message that
    [send_event] has put on the broker reaches no handler: the inbox is
    unchanged, whatever the service, the topic, the payload and the key. *)
Theorem published_event_ignored service tp data key k message w :
  message ∈ broker (state_after (Kafka.send_event service tp data key) k) ->
  message ∉ broker k ->
  KafkaConsumer._process_message message w = (Ok tt, w).
Proof.
  rewrite send_event_broker_spec. destruct (_ && _); [|done].
  intros [Hold | ->%list_elem_of_singleton]%elem_of_app Hnew; [done|].
  apply _process_message_enveloped. by eexists _, _.
Qed.

(** C28.  A registration that does reach the handler: a message on
    [user-events] whose envelope says [user.registered], from a service
    named by a string, with an address that is a string and not empty.
    One notification is added: an email to that address, with the welcome
    text, of priority 3, stored as delivered. *)
Theorem welcome_notification key d data email service w :
  coll_wf (notifications w) ->
  dict_get_default "event_type" (JStr "unknown") d = JStr "user.registered" ->
  dict_get_default "data" (JDict []) d = JDict data ->
  dict_get_default "service" (JStr "unknown") d = JStr service ->
  dict_get "email" data = JStr email -> email <> "" ->
  let w' := state_after (KafkaConsumer._process_message (mkMessage "user-events" key (JDict d))) w in
  (exists n,
     coll_get_str (str_id (Some (next_id (notifications w)))) (notifications w') = Some n /\
     type n = NotificationType.EMAIL /\ recipient n = email /\
     status n = NotificationStatus.DELIVERED /\
     subject n = Some "Welcome to E-commerce Platform!" /\
     message n = "Hello " +:+ py_str (dict_get "name" data)
                 +:+ ", welcome to our platform! We're excited to have you on board." /\
     priority n = 3%Z /\ source_service n = service) /\
  length (docs (notifications w')) = S (length (docs (notifications w))).
Proof.
  intros Hwf Hty Hdata Hsrv Hmail Hne. unfold state_after.
  rewrite _process_message_run. cbv zeta. rewrite Hty, Hdata, Hsrv. cbn [String.eqb json_is].
  change (String.eqb "user-events" "user-events") with true.
  change (String.eqb "user.registered" "user.registered") with true. cbn [snd].
  unfold state_after. rewrite _handle_user_registered_run, Hmail. cbn [json_truthy].
  rewrite (proj2 (String.eqb_neq email "")) by done. cbn [negb snd].
  destruct (email_created (KafkaConsumer.welcome_data (JStr email) (dict_get "name" data)
                             data (JStr service)) email service w Hwf)
    as [(n & Hget & Hn) Hlen]; [done..|].
  split; [|exact Hlen]. exists n. unfold email_of in Hn. cbn in Hn. by destruct_and!.
Qed.

(** A stock update that reaches the handler with a stock that is an
    integer: an alert to the administrator is added exactly when the stock
    is below ten, and the message is dropped otherwise. *)
Theorem low_stock_alert key d data q service w :
  coll_wf (notifications w) ->
  dict_get_default "event_type" (JStr "unknown") d = JStr "product.stock_updated" ->
  dict_get_default "data" (JDict []) d = JDict data ->
  dict_get_default "service" (JStr "unknown") d = JStr service ->
  dict_get "stock_quantity" data = JInt q ->
  let w' :=
    state_after (KafkaConsumer._process_message (mkMessage "product-events" key (JDict d))) w in
  if bool_decide (q < 10)%Z then
    (exists n,
       coll_get_str (str_id (Some (next_id (notifications w)))) (notifications w') = Some n /\
       type n = NotificationType.EMAIL /\ recipient n = "admin@ecommerce.com" /\
       status n = NotificationStatus.DELIVERED /\ subject n = Some "Low Stock Alert" /\
       message n = "Product " +:+ py_str (dict_get "product_id" data)
                   +:+ " has low stock: " +:+ pretty q +:+ " units remaining." /\
       priority n = 4%Z /\ source_service n = service) /\
    length (docs (notifications w')) = S (length (docs (notifications w)))
  else w' = w.
Proof.
  intros Hwf Hty Hdata Hsrv Hq. unfold state_after.
  rewrite _process_message_run. cbv zeta. rewrite Hty, Hdata, Hsrv.
  change (String.eqb "product-events" "user-events") with false.
  change (String.eqb "product-events" "product-events") with true.
  change (json_is "product.stock_updated" (JStr "product.stock_updated")) with true.
  cbn [snd]. unfold state_after. rewrite (_handle_product_stock_updated_int _ _ q) by done.
  case_bool_decide; [|done]. cbn [snd].
  destruct (email_created (KafkaConsumer.low_stock_data (dict_get "product_id" data) (JInt q)
                             data (JStr service)) "admin@ecommerce.com" service w Hwf)
    as [(n & Hget & Hn) Hlen]; [done..|].
  split; [|exact Hlen]. exists n. unfold email_of in Hn. cbn in Hn. by destruct_and!.
Qed.

(** A stock that is no number makes the comparison fail; the failure is
    caught and no alert is written. *)
Theorem low_stock_not_a_number key d data s w :
  dict_get_default "event_type" (JStr "unknown") d = JStr "product.stock_updated" ->
  dict_get_default "data" (JDict []) d = JDict data ->
  dict_get "stock_quantity" data = JStr s ->
  KafkaConsumer._process_message (mkMessage "product-events" key (JDict d)) w = (Ok tt, w).
Proof.
  intros Hty Hdata Hq. rewrite _process_message_run. cbv zeta. rewrite Hty, Hdata.
  change (String.eqb "product-events" "user-events") with false.
  change (String.eqb "product-events" "product-events") with true.
  change (json_is "product.stock_updated" (JStr "product.stock_updated")) with true.
  unfold state_after, KafkaConsumer._handle_product_stock_updated, bind.
  cbn [as_dict ret]. by rewrite Hq.
Qed.

End Guarantees.

(** ** The loop *)

Section Loop.
Context `{PyRepr}.
Implicit Types (w : Notifier) (l : list Message).

(** One message consumed by a running consumer. *)
Definition consumed (message : Message) (w : Notifier) : Notifier :=
  with_inbox (state_after (KafkaConsumer._process_message message) (inbox w)) w.

Lemma consume_loop_nil w : consume_loop [] w = (Ok tt, w).
Proof. done. Qed.

Lemma consume_loop_stopped l w :
  KafkaConsumer.running (kafka_consumer w) = false -> consume_loop l w = (Ok tt, w).
Proof. intros Hr. destruct l as [|m l]; [done|]. cbn. unfold bind, get. by rewrite Hr. Qed.

Lemma consume_loop_cons message l w :
  KafkaConsumer.running (kafka_consumer w) = true ->
  consume_loop (message :: l) w = consume_loop l (consumed message w).
Proof.
  intros Hr. cbn. unfold bind at 1. unfold get. rewrite Hr. cbn [negb].
  unfold bind. rewrite try_except_swallow. unfold consumed, state_after, zoom.
  by destruct (KafkaConsumer._process_message message (inbox w)).
Qed.

(** The loop in closed form: every message is consumed, in the order of
    delivery, while the consumer runs. *)
Lemma consume_loop_run l w :
  consume_loop l w =
  (Ok tt, if KafkaConsumer.running (kafka_consumer w)
          then foldl (fun w m => consumed m w) w l else w).
Proof.
  destruct (KafkaConsumer.running (kafka_consumer w)) eqn:Hr;
    [|by apply consume_loop_stopped].
  revert w Hr. induction l as [|m l IH]; intros w Hr; [done|].
  rewrite consume_loop_cons by done. by rewrite IH.
Qed.

(** Consuming does not touch the consumer itself. *)
Lemma consumed_all_consumer l w :
  kafka_consumer (foldl (fun w m => consumed m w) w l) = kafka_consumer w.
Proof. revert w. induction l as [|m l IH]; intros w; [done|]. cbn. by rewrite IH. Qed.

Lemma consume_loop_consumer l w :
  kafka_consumer (state_after (consume_loop l) w) = kafka_consumer w.
Proof.
  unfold state_after. rewrite consume_loop_run. cbn.
  destruct (KafkaConsumer.running _); [apply consumed_all_consumer|done].
Qed.

(** Messages delivered in two batches are consumed as if delivered in
    one. *)
Lemma consume_loop_app l1 l2 w :
  consume_loop (l1 ++ l2) w = (consume_loop l1 ;; consume_loop l2) w.
Proof.
  unfold bind. pose proof (consume_loop_consumer l1 w) as Hk. unfold state_after in Hk.
  rewrite (consume_loop_run l1) in *. cbn [snd] in Hk.
  rewrite (consume_loop_run (l1 ++ l2)), (consume_loop_run l2), Hk, foldl_app.
  by destruct (KafkaConsumer.running _).
Qed.

Lemma consumed_preserves (I : Inbox -> Prop) message w :
  email_invariant I -> I (inbox w) -> I (inbox (consumed message w)).
Proof. intros HI. by apply _process_message_preserves. Qed.

Lemma consume_loop_preserves (I : Inbox -> Prop) l :
  email_invariant I -> preserves (fun w => I (inbox w)) (consume_loop l).
Proof.
  intros HI w Hok. unfold state_after. rewrite consume_loop_run. cbn [snd].
  destruct (KafkaConsumer.running _); [|done]. revert w Hok.
  induction l as [|m l IH]; intros w Hok; [done|]. cbn. by apply IH, consumed_preserves.
Qed.

(** [_consume_messages]: nothing without a client, the loop with one; it
    never fails. *)
Lemma _consume_messages_run l w :
  _consume_messages l w =
  (Ok tt, if bool_decide (is_Some (KafkaConsumer.consumer (kafka_consumer w)))
             && KafkaConsumer.running (kafka_consumer w)
          then foldl (fun w m => consumed m w) w l else w).
Proof.
  unfold _consume_messages, bind, get. case_bool_decide; [|done]. apply consume_loop_run.
Qed.

Lemma _consume_messages_preserves (I : Inbox -> Prop) l :
  email_invariant I -> preserves (fun w => I (inbox w)) (_consume_messages l).
Proof.
  intros HI w Hok. unfold state_after, _consume_messages, bind, get.
  case_bool_decide; [|done]. by apply (consume_loop_preserves I l HI w).
Qed.

(** ** [start] and [stop] *)

Lemma start_run connected k :
  KafkaConsumer.start connected k =
  (Ok tt,
   if KafkaConsumer.kafka_enabled k then
     if connected then KafkaConsumer.mk true (Some Running) true
     else KafkaConsumer.mk true None (KafkaConsumer.running k)
   else k).
Proof.
  unfold KafkaConsumer.start, bind, get.
  destruct (KafkaConsumer.kafka_enabled k) eqn:He; [|done]. by destruct connected.
Qed.

(** A consumer that has been created and started consumes exactly when
    Kafka is enabled and the client could be started. *)
Lemma new_started enabled connected :
  let k := state_after (KafkaConsumer.start connected) (KafkaConsumer.new enabled) in
  KafkaConsumer.running k = enabled && connected /\
  (is_Some (KafkaConsumer.consumer k) <-> enabled && connected = true).
Proof.
  unfold state_after. rewrite start_run. destruct enabled, connected; cbn;
    (split; [done|]); split; (try done); try by intros [? [=]].
Qed.

(** After [stop] nothing is consumed any more. *)
Lemma stop_consumes_nothing l w :
  let w' := with_kafka_consumer (state_after KafkaConsumer.stop (kafka_consumer w)) w in
  _consume_messages l w' = (Ok tt, w').
Proof. cbv zeta. rewrite _consume_messages_run. cbn. by rewrite andb_false_r. Qed.

(** C34.  The loop of the consumer returns for every batch the broker delivers:
    no message makes it raise, it leaves the consumer as it found it, it
    handles the messages one by one in the order of delivery while the
    consumer runs, and none at all without a client or once [stop] has
    cleared [running]. *)
Theorem consume_messages_returns l w :
  let k := kafka_consumer w in
  let w' := state_after (_consume_messages l) w in
  result_of (_consume_messages l) w = Ok tt /\
  kafka_consumer w' = k /\
  w' = (if bool_decide (is_Some (KafkaConsumer.consumer k)) && KafkaConsumer.running k
        then foldl (fun w m => consumed m w) w l else w) /\
  _consume_messages l (with_kafka_consumer (state_after KafkaConsumer.stop k) w)
  = (Ok tt, with_kafka_consumer (state_after KafkaConsumer.stop k) w).
Proof.
  cbv zeta. unfold result_of, state_after at 1 2. rewrite _consume_messages_run. cbn [fst snd].
  split_and!; [done| |done|apply stop_consumes_nothing].
  destruct (_ && _); [apply consumed_all_consumer|done].
Qed.

End Loop.
