(* ===== verification/NotificationApi.v ===== *)
(** * The application of the notification service:
    [src/notification_service/app/main.py].

    The five routes of the application as actions on the [Inbox], each
    under its own [try]/[except] and the exception handlers of [Http], and
    the process: the lifespan starts the consumer on an empty database,
    and from then on the process serves a request or consumes a message
    the broker delivers on a topic the consumer subscribed to.

    No route writes a notification; the consumer is the only writer, and
    it writes emails.  So in every state the process reaches the inbox
    holds delivered emails only: the invariant of this file, from which
    the answers of the statistics and of the retry route follow. *)

From S2P Require Import Prelude Json Collection Http Kafka.
From S2P Require Import NotificationModel NotificationRepository NotificationService.
From S2P Require Import NotificationConsumer.
Local Open Scope act_scope.

(** ** Requests and payloads *)

Inductive NotificationRequest : Type :=
| GET_notification_root
| GET_notification_health
| GET_notifications_stats
| GET_notifications (recipient status : option string) (limit offset : Z)
| POST_notifications_retry_failed.

Inductive NotificationPayload : Type :=
| NotificationInfo (d : dict)
(** [{success, data: stats}] *)
| NotificationStats (stats : dict)
(** [{success, data, count, limit, offset}] *)
| NotificationList (data : list dict) (count : nat) (limit offset : Z)
(** [{success, message, retry_count}] *)
| NotificationRetry (message : string) (retry_count : nat).

Definition invalid_status (status : string) : exn :=
  HTTPException HTTP_400_BAD_REQUEST ("Invalid status: " +:+ status).

(** ** The routes *)

Module NotificationApp.
Import NotificationStatus.

Definition root : dict :=
  [("message", JStr "Notification Service API"); ("version", JStr "1.0.0")].

Definition health_check : dict :=
  [("status", JStr "healthy"); ("service", JStr "notification-service")].

Definition get_notification_stats : Act Inbox (HttpResponse NotificationPayload) :=
  respond HTTP_200_OK NotificationStats
    (mask_errors
       (total <- NotificationRepository.count_notifications None None ;;
        pending <- NotificationRepository.count_notifications None (Some PENDING) ;;
        sent <- NotificationRepository.count_notifications None (Some SENT) ;;
        delivered <- NotificationRepository.count_notifications None (Some DELIVERED) ;;
        failed <- NotificationRepository.count_notifications None (Some FAILED) ;;
        ret [("total", JInt (Z.of_nat total));
             ("pending", JInt (Z.of_nat pending));
             ("sent", JInt (Z.of_nat sent));
             ("delivered", JInt (Z.of_nat delivered));
             ("failed", JInt (Z.of_nat failed))])).

Definition get_notifications (recipient status : option string) (limit offset : Z)
    : Act Inbox (HttpResponse NotificationPayload) :=
  respond HTTP_200_OK Datatypes.id
    (reraise_http
       (notification_status <-
          (if truthy_str status then
             match NotificationStatus.of_value (default "" status) with
             | Some s => ret (Some s)
             | None => raise (invalid_status (default "" status))
             end
           else ret None) ;;
        notifications <-
          NotificationService.get_notifications recipient notification_status limit offset ;;
        let notifications_data := notification_dict <$> notifications in
        ret (NotificationList notifications_data (length notifications_data) limit offset))).

Definition retry_failed_notifications : Act Inbox (HttpResponse NotificationPayload) :=
  respond HTTP_200_OK Datatypes.id
    (mask_errors
       (retry_count <- NotificationService.retry_failed_notifications 3 ;;
        ret (NotificationRetry ("Retried " +:+ pretty retry_count +:+ " failed notifications")
               retry_count))).

Definition handle (req : NotificationRequest) : Act Inbox (HttpResponse NotificationPayload) :=
  match req with
  | GET_notification_root => ret (mkHttpResponse HTTP_200_OK (Payload (NotificationInfo root)))
  | GET_notification_health =>
      ret (mkHttpResponse HTTP_200_OK (Payload (NotificationInfo health_check)))
  | GET_notifications_stats => get_notification_stats
  | GET_notifications recipient status limit offset =>
      get_notifications recipient status limit offset
  | POST_notifications_retry_failed => retry_failed_notifications
  end.

(** ** The process *)

(** [lifespan]: the consumer is started before the first request and
    stopped after the last. *)
Definition startup (connected : bool) : Act Notifier unit :=
  zoom kafka_consumer with_kafka_consumer (KafkaConsumer.start connected).
Definition shutdown : Act Notifier unit :=
  zoom kafka_consumer with_kafka_consumer KafkaConsumer.stop.

(** The process as it boots: an empty database, the consumer configured
    from the environment, then [startup]. *)
Definition boot (kafka_enabled connected : bool) : Notifier :=
  state_after (startup connected)
    (mkNotifier (mkInbox coll_empty 0) (KafkaConsumer.new kafka_enabled)).

(** What the process reacts to: a request, or a message the broker
    delivers. *)
Inductive Event : Type :=
| Request (req : NotificationRequest)
| Delivery (message : Message).

Section Process.
Context `{PyRepr}.

Definition react (ev : Event) : Act Notifier unit :=
  match ev with
  | Request req => zoom inbox with_inbox (handle req) ;; ret tt
  | Delivery message => _consume_messages [message]
  end.

(** The broker delivers on the subscribed topics only. *)
Definition deliverable (ev : Event) : Prop :=
  match ev with
  | Request _ => True
  | Delivery message => topic message ∈ KafkaConsumer.topics
  end.

Inductive step : Notifier -> Notifier -> Prop :=
| step_event ev w : deliverable ev -> step w (state_after (react ev) w).

(** The states of a running process. *)
Inductive reachable : Notifier -> Prop :=
| reachable_boot kafka_enabled connected : reachable (boot kafka_enabled connected)
| reachable_step w w' : reachable w -> step w w' -> reachable w'.

(** The state after a list of events, in order. *)
Definition serve (evs : list Event) (w : Notifier) : Notifier :=
  foldl (fun w ev => state_after (react ev) w) w evs.

End Process.
End NotificationApp.

(** ** The routes, in one equation each *)

Section Routes.
Implicit Types (w : Inbox) (req : NotificationRequest).

(** The statistics never fail: the five counts, and the state as it was. *)
Lemma get_notification_stats_run w :
  NotificationApp.get_notification_stats w =
  let count st :=
    JInt (Z.of_nat (coll_count (NotificationRepository.matches None st) (notifications w))) in
  (Ok (mkHttpResponse HTTP_200_OK
         (Payload (NotificationStats
                     [("total", count None);
                      ("pending", count (Some NotificationStatus.PENDING));
                      ("sent", count (Some NotificationStatus.SENT));
                      ("delivered", count (Some NotificationStatus.DELIVERED));
                      ("failed", count (Some NotificationStatus.FAILED))]))), w).
Proof. unfold NotificationApp.get_notification_stats. by rewrite respond_run, mask_errors_run. Qed.

(** The status of the query, read: absent or empty is no filter, a value
    of the enumeration is that member, anything else is refused. *)
Definition status_filter (status : option string) : Res (option NotificationStatus.t) :=
  if truthy_str status then
    match NotificationStatus.of_value (default "" status) with
    | Some s => Ok (Some s)
    | None => Raise (invalid_status (default "" status))
    end
  else Ok None.

Lemma get_notifications_route_run recipient status limit offset w :
  NotificationApp.get_notifications recipient status limit offset w =
  (Ok match status_filter status with
      | Raise e => exception_handler e
      | Ok st =>
          if bool_decide (offset < 0)%Z then exception_handler internal_server_error
          else
            let data :=
              notification_dict <$>
                skip_limit (Z.to_nat offset) (Z.abs_nat limit)
                  (sort_desc created_at
                     (coll_find (NotificationRepository.matches recipient st)
                        (notifications w))) in
            mkHttpResponse HTTP_200_OK
              (Payload (NotificationList data (length data) limit offset))
      end, w).
Proof.
  unfold NotificationApp.get_notifications, status_filter.
  rewrite respond_run, reraise_http_run. unfold bind.
  destruct (truthy_str status); [destruct (NotificationStatus.of_value _)|]; try done;
    cbn [ret]; unfold NotificationService.get_notifications;
    rewrite get_notifications_run; by case_bool_decide.
Qed.

(** While no notification is recorded as failed the retry route finds
    nothing to send again. *)
Lemma retry_route_run w :
  inbox_ok w ->
  NotificationApp.retry_failed_notifications w =
  (Ok (mkHttpResponse HTTP_200_OK
         (Payload (NotificationRetry "Retried 0 failed notifications" 0))), w).
Proof.
  intros Hok. unfold NotificationApp.retry_failed_notifications.
  rewrite respond_run, mask_errors_run. unfold bind.
  unfold NotificationService.retry_failed_notifications, bind.
  rewrite get_notifications_run. cbn. by rewrite no_failed_found.
Qed.

(** No route writes. *)
Lemma handle_reads req w :
  inbox_ok w -> state_after (NotificationApp.handle req) w = w.
Proof.
  intros Hok. unfold state_after.
  destruct req as [| | |recipient status limit offset|]; cbn [NotificationApp.handle];
    [done | done | by rewrite get_notification_stats_run
    | by rewrite get_notifications_route_run | by rewrite retry_route_run].
Qed.

End Routes.

(** ** The process *)

Section Process.
Context `{PyRepr}.
Implicit Types (w : Notifier) (ev : NotificationApp.Event).

(** The invariant of the process. *)
Definition notifier_ok w : Prop := inbox_all delivered_email (inbox w).

Lemma notifier_ok_inbox_ok w : notifier_ok w -> inbox_ok (inbox w).
Proof. apply inbox_all_impl, delivered_never_failed. Qed.

Lemma react_request req w :
  notifier_ok w -> state_after (NotificationApp.react (NotificationApp.Request req)) w = w.
Proof.
  intros Hok%notifier_ok_inbox_ok. pose proof (handle_reads req _ Hok) as Hreq.
  unfold state_after, NotificationApp.react, bind, zoom in *.
  destruct (NotificationApp.handle req (inbox w)) as [[r|e] i]; cbn in *; subst i;
    by destruct w.
Qed.

Lemma react_ok ev : preserves notifier_ok (NotificationApp.react ev).
Proof.
  intros w Hok. destruct ev as [req|message]; [by rewrite react_request|].
  apply (_consume_messages_preserves (inbox_all delivered_email) [message]); [|done].
  intros d Hd. by apply create_email_delivered.
Qed.

Lemma notifier_boot_ok kafka_enabled connected :
  notifier_ok (NotificationApp.boot kafka_enabled connected).
Proof.
  unfold notifier_ok, NotificationApp.boot, NotificationApp.startup, state_after, zoom.
  destruct (KafkaConsumer.start _ _). apply inbox_all_empty.
Qed.

Lemma notifier_reachable_ok w : NotificationApp.reachable w -> notifier_ok w.
Proof.
  induction 1 as [|w w' _ IH Hstep]; [apply notifier_boot_ok|].
  destruct Hstep as [ev w _]. by apply (react_ok ev).
Qed.

Lemma notifier_serve_ok evs w : notifier_ok w -> notifier_ok (NotificationApp.serve evs w).
Proof.
  revert w. induction evs as [|ev evs IH]; intros w Hok; [done|].
  by apply IH, (react_ok ev).
Qed.

Lemma notifier_serve_reachable evs w :
  Forall NotificationApp.deliverable evs -> NotificationApp.reachable w ->
  NotificationApp.reachable (NotificationApp.serve evs w).
Proof.
  intros Hevs. revert w. induction Hevs as [|ev evs Hev _ IH]; intros w Hw; [done|].
  apply IH. eapply NotificationApp.reachable_step; [done | by constructor].
Qed.

(** A delivery of a message in the envelope of the producers changes
    nothing. *)
Lemma react_enveloped message w :
  enveloped message ->
  state_after (NotificationApp.react (NotificationApp.Delivery message)) w = w.
Proof.
  intros Henv. unfold state_after. cbn [NotificationApp.react].
  rewrite _consume_messages_run. cbn [snd foldl]. destruct (_ && _); [|done].
  unfold consumed, state_after. rewrite _process_message_enveloped by done. by destruct w.
Qed.

(** An event of the process whose message, when it is a delivery, is in
    the envelope of the producers. *)
Definition from_producers (ev : NotificationApp.Event) : Prop :=
  match ev with
  | NotificationApp.Delivery message => enveloped message
  | NotificationApp.Request _ => True
  end.

(** Requests and enveloped messages, in any order, leave the process as
    it is. *)
Lemma serve_enveloped evs w :
  Forall from_producers evs -> notifier_ok w -> NotificationApp.serve evs w = w.
Proof.
  intros Hevs. revert w.
  induction Hevs as [|ev evs Hev _ IH]; intros w Hok; [done|]. cbn [NotificationApp.serve foldl].
  destruct ev as [req|message];
    [rewrite react_request by done | rewrite react_enveloped by done]; by apply IH.
Qed.

Lemma serve_enveloped_boot kafka_enabled connected evs :
  Forall from_producers evs ->
  inbox (NotificationApp.serve evs (NotificationApp.boot kafka_enabled connected))
  = mkInbox coll_empty 0.
Proof.
  intros Hevs. rewrite serve_enveloped; [|done|apply notifier_boot_ok].
  unfold NotificationApp.boot, NotificationApp.startup, state_after, zoom.
  by destruct (KafkaConsumer.start _ _).
Qed.

End Process.

(** ** What the application guarantees *)

Section Guarantees.
Context `{PyRepr}.
Implicit Types (w : Notifier).

(** C24.  In every state the notification service reaches from its boot,
    whatever requests it served and whatever messages it consumed, the
    identifiers of the stored notifications are unique and every stored
    notification is an email that was delivered: never failed, never
    retried, created before it was sent, sent before it was delivered. *)
Theorem inbox_holds_delivered_emails w n :
  NotificationApp.reachable w ->
  n ∈ docs (notifications (inbox w)) ->
  coll_wf (notifications (inbox w)) /\
  coll_get_str (str_id (id n)) (notifications (inbox w)) = Some n /\ delivered_email n.
Proof.
  intros [Hwf Hall]%notifier_reachable_ok Hn. split_and!; [done | |].
  - exact (coll_get_str_elem_of _ n Hwf Hn).
  - rewrite Forall_forall in Hall. by apply Hall.
Qed.

(** The statistics of a running service: the total is the number of
    stored notifications, all of them are counted as delivered, and the
    counts of pending, sent and failed notifications are zero. *)
Theorem stats_count_delivered_only w :
  NotificationApp.reachable w ->
  let total := JInt (Z.of_nat (length (docs (notifications (inbox w))))) in
  NotificationApp.handle GET_notifications_stats (inbox w) =
  (Ok (mkHttpResponse HTTP_200_OK
         (Payload (NotificationStats
                     [("total", total); ("pending", JInt 0); ("sent", JInt 0);
                      ("delivered", total); ("failed", JInt 0)]))), inbox w).
Proof.
  intros Hok%notifier_reachable_ok. cbn [NotificationApp.handle].
  rewrite get_notification_stats_run. cbv beta zeta. by rewrite !(count_delivered _ _ Hok).
Qed.

(** The retry route of a running service finds no failed notification:
    it answers that it retried none and writes nothing. *)
Theorem retry_route_retries_nothing w :
  NotificationApp.reachable w ->
  NotificationApp.handle POST_notifications_retry_failed (inbox w) =
  (Ok (mkHttpResponse HTTP_200_OK
         (Payload (NotificationRetry "Retried 0 failed notifications" 0))), inbox w).
Proof. intros Hok%notifier_reachable_ok%notifier_ok_inbox_ok. by apply retry_route_run. Qed.

(** The platform as it is wired: whatever requests the service serves
    and whatever messages in the envelope of the producers it consumes,
    in any order, it never writes a notification. *)
Theorem producer_events_never_notify kafka_enabled connected evs :
  Forall (fun ev => match ev with
                    | NotificationApp.Delivery message => enveloped message
                    | NotificationApp.Request _ => True
                    end) evs ->
  inbox (NotificationApp.serve evs (NotificationApp.boot kafka_enabled connected))
  = mkInbox coll_empty 0.
Proof. apply serve_enveloped_boot. Qed.

(** Every request is answered, in every state: no exception leaves the
    application, and an error carries one of the status codes of the
    platform. *)
Theorem notification_handle_answers req (i : Inbox) :
  exists r, result_of (NotificationApp.handle req) i = Ok r /\ answers HTTP_200_OK r = true.
Proof.
  destruct req as [| | |recipient status limit offset|]; cbn [NotificationApp.handle];
    try (by eexists); apply respond_answers_known; auto with known.
  apply reraise_http_known. unfold NotificationService.get_notifications.
  apply raises_known_bind; [|intros st; apply raises_known_bind; [|auto with known]].
  - destruct (truthy_str status); [destruct (NotificationStatus.of_value _)|];
      auto with known. by apply raises_known_raise.
  - intros w e. unfold result_of. rewrite get_notifications_run.
    by case_bool_decide; intros [= <-].
Qed.

(** A status that is no value of the enumeration is refused with 400
    and its text; a negative offset, which the database refuses, is
    answered 500. *)
Theorem listing_refusals recipient status limit offset (i : Inbox) :
  let answer := result_of (NotificationApp.handle
                             (GET_notifications recipient (Some status) limit offset)) i in
  status <> "" ->
  (NotificationStatus.of_value status = None ->
   answer = Ok (mkHttpResponse HTTP_400_BAD_REQUEST
                  (ErrorBody ("Invalid status: " +:+ status) HTTP_400_BAD_REQUEST))) /\
  (is_Some (NotificationStatus.of_value status) -> (offset < 0)%Z ->
   answer = Ok (mkHttpResponse HTTP_500_INTERNAL_SERVER_ERROR
                  (ErrorBody "Internal server error" HTTP_500_INTERNAL_SERVER_ERROR))).
Proof.
  intros answer Hne. subst answer. unfold result_of. cbn [NotificationApp.handle].
  rewrite get_notifications_route_run. unfold status_filter.
  rewrite (proj2 (truthy_str_Some status)) by done.
  change (default "" (Some status)) with status. cbn [fst].
  split; [by intros ->|]. intros [st ->] Hlt. by rewrite bool_decide_true.
Qed.

End Guarantees.
