(* ===== verification/NotificationScenario.v ===== *)
(** * A concrete notification service: its theorems applied.

    A process booted with Kafka enabled and a broker it can reach, which
    consumes a registration and a stock update written the way its
    handlers read them, and the registration the producer of the user
    service does publish.  On this instance the consumer and the routes
    evaluate, and every theorem of the notification service that has
    hypotheses is applied at an input on which they hold. *)

From S2P Require Import Prelude Json Collection Http Kafka Events.
From S2P Require Import NotificationModel NotificationRepository NotificationService.
From S2P Require Import NotificationConsumer NotificationApi.

(** ** The messages *)

#[export] Instance plain_repr : PyRepr := {| repr_other _ := "<value>" |}.

Definition ada_data : dict := [("email", JStr "ada@example.com"); ("name", JStr "Ada")].

(** A registration as the handler reads it: the name of the event in the
    envelope. *)
Definition welcome_envelope : dict :=
  [("service", JStr "user-service"); ("event_type", JStr "user.registered");
   ("data", JDict ada_data)].
Definition welcome_message : Message :=
  mkMessage "user-events" (Some "0") (JDict welcome_envelope).

Definition stock_data (stock_quantity : json) : dict :=
  [("product_id", JStr "7"); ("stock_quantity", stock_quantity)].
Definition stock_envelope (stock_quantity : json) : dict :=
  [("service", JStr "product-service"); ("event_type", JStr "product.stock_updated");
   ("data", JDict (stock_data stock_quantity))].
Definition stock_message (stock_quantity : json) : Message :=
  mkMessage "product-events" (Some "7") (JDict (stock_envelope stock_quantity)).

(** The registration as the producer of the user service publishes it. *)
Definition ready_producer : KafkaProducer :=
  state_after Kafka.start (new_KafkaProducer true (fun _ => true)).
Definition ada_user_data : dict :=
  [("id", JStr "0"); ("email", JStr "ada@example.com"); ("name", JStr "Ada");
   ("created_at", JStr "0")].
Definition published_registration : Message :=
  mkMessage "user-events" (Some "0")
    (enriched_event "user-service" "user-events"
       (UserProducer.user_registered_event_data ada_user_data)).

(** ** The process *)

Definition inbox0 : Inbox := mkInbox coll_empty 0.

Definition notifier0 : Notifier := NotificationApp.boot true true.

Definition notified : Notifier :=
  NotificationApp.serve
    [NotificationApp.Delivery welcome_message;
     NotificationApp.Request GET_notifications_stats;
     NotificationApp.Delivery (stock_message (JInt 3))] notifier0.

(** The welcome as it is stored. *)
Definition stored_welcome : Notification :=
  mkNotification (Some 0) NotificationType.EMAIL "ada@example.com"
    (Some "Welcome to E-commerce Platform!")
    "Hello Ada, welcome to our platform! We're excited to have you on board."
    NotificationStatus.DELIVERED (Some 3) (Some 4) "user.registered" ada_data "user-service"
    None 3 0 3 0 5.

Lemma notified_reachable : NotificationApp.reachable notified.
Proof.
  apply notifier_serve_reachable; [|apply NotificationApp.reachable_boot].
  repeat constructor.
Qed.

Lemma notified_welcome : docs (notifications (inbox notified)) !! 0 = Some stored_welcome.
Proof. by vm_compute. Qed.

Lemma stored_welcome_notified : stored_welcome ∈ docs (notifications (inbox notified)).
Proof. eapply list_elem_of_lookup_2, notified_welcome. Qed.

(** ** The theorems of the service at this instance *)

Definition ada_welcome : NotificationData.t :=
  KafkaConsumer.welcome_data (JStr "ada@example.com") (JStr "Ada") ada_data (JStr "user-service").

Lemma created_notification_is_stale_witness :
  let r := NotificationService.create_notification ada_welcome inbox0 in
  exists n, r.1 = Ok n /\ status n = NotificationStatus.PENDING /\ sent_at n = None /\
    exists stored,
      coll_get_str (str_id (id n)) (notifications r.2) = Some stored /\
      same_notice n stored /\
      status stored = (if decide (type n = NotificationType.EMAIL)
                       then NotificationStatus.DELIVERED else NotificationStatus.SENT) /\
      sent_at stored = Some (3 + inbox_clock inbox0) /\ retry_count stored = 0%Z.
Proof.
  cbv zeta. eexists. split; [by vm_compute|].
  eapply (created_notification_is_stale ada_welcome inbox0);
    [apply coll_wf_empty | by vm_compute].
Defined.

Lemma retry_failed_is_noop_witness :
  NotificationService.retry_failed_notifications 3 (inbox notified) = (Ok 0, inbox notified).
Proof.
  apply retry_failed_is_noop, notifier_ok_inbox_ok, notifier_reachable_ok, notified_reachable.
Defined.

Definition fax : NotificationData.t :=
  NotificationData.mk "fax" (JStr "ada@example.com") "S" "M" "e" [] (JStr "s") 1.

Lemma create_notification_invalid_type_witness :
  NotificationService.create_notification fax inbox0 =
  (Raise (invalid_notification_type "fax"), inbox0).
Proof. exact (create_notification_invalid_type fax inbox0 eq_refl). Defined.

Lemma published_event_ignored_witness :
  KafkaConsumer._process_message published_registration inbox0 = (Ok tt, inbox0).
Proof.
  apply (published_event_ignored "user-service" "user-events"
           (UserProducer.user_registered_event_data ada_user_data) (JStr "0") ready_producer).
  - vm_compute. by apply list_elem_of_singleton.
  - vm_compute. apply not_elem_of_nil.
Defined.

Lemma welcome_notification_witness :
  let w' := state_after (KafkaConsumer._process_message welcome_message) inbox0 in
  (exists n,
     coll_get_str (str_id (Some (next_id (notifications inbox0)))) (notifications w') = Some n /\
     type n = NotificationType.EMAIL /\ recipient n = "ada@example.com" /\
     status n = NotificationStatus.DELIVERED /\
     subject n = Some "Welcome to E-commerce Platform!" /\
     message n = "Hello " +:+ py_str (dict_get "name" ada_data)
                 +:+ ", welcome to our platform! We're excited to have you on board." /\
     priority n = 3%Z /\ source_service n = "user-service") /\
  length (docs (notifications w')) = S (length (docs (notifications inbox0))).
Proof.
  exact (welcome_notification (Some "0") welcome_envelope ada_data "ada@example.com"
           "user-service" inbox0 coll_wf_empty eq_refl eq_refl eq_refl eq_refl
           ltac:(discriminate)).
Defined.

Lemma low_stock_alert_witness :
  let w' := state_after (KafkaConsumer._process_message (stock_message (JInt 3))) inbox0 in
  (exists n,
     coll_get_str (str_id (Some (next_id (notifications inbox0)))) (notifications w') = Some n /\
     type n = NotificationType.EMAIL /\ recipient n = "admin@ecommerce.com" /\
     status n = NotificationStatus.DELIVERED /\ subject n = Some "Low Stock Alert" /\
     message n = "Product " +:+ py_str (dict_get "product_id" (stock_data (JInt 3)))
                 +:+ " has low stock: " +:+ pretty 3%Z +:+ " units remaining." /\
     priority n = 4%Z /\ source_service n = "product-service") /\
  length (docs (notifications w')) = S (length (docs (notifications inbox0))).
Proof.
  exact (low_stock_alert (Some "7") (stock_envelope (JInt 3)) (stock_data (JInt 3)) 3
           "product-service" inbox0 coll_wf_empty eq_refl eq_refl eq_refl eq_refl).
Defined.

Lemma low_stock_not_a_number_witness :
  KafkaConsumer._process_message (stock_message (JStr "three")) inbox0 = (Ok tt, inbox0).
Proof.
  exact (low_stock_not_a_number (Some "7") (stock_envelope (JStr "three"))
           (stock_data (JStr "three")) "three" inbox0 eq_refl eq_refl eq_refl).
Defined.

(** ** The theorems of the application at this instance *)

Lemma inbox_holds_delivered_emails_witness :
  coll_wf (notifications (inbox notified)) /\
  coll_get_str (str_id (id stored_welcome)) (notifications (inbox notified))
    = Some stored_welcome /\
  delivered_email stored_welcome.
Proof.
  exact (inbox_holds_delivered_emails notified stored_welcome notified_reachable
           stored_welcome_notified).
Defined.

Lemma stats_count_delivered_only_witness :
  let total := JInt (Z.of_nat (length (docs (notifications (inbox notified))))) in
  NotificationApp.handle GET_notifications_stats (inbox notified) =
  (Ok (mkHttpResponse HTTP_200_OK
         (Payload (NotificationStats
                     [("total", total); ("pending", JInt 0); ("sent", JInt 0);
                      ("delivered", total); ("failed", JInt 0)]))), inbox notified).
Proof. exact (stats_count_delivered_only notified notified_reachable). Defined.

Lemma retry_route_retries_nothing_witness :
  NotificationApp.handle POST_notifications_retry_failed (inbox notified) =
  (Ok (mkHttpResponse HTTP_200_OK
         (Payload (NotificationRetry "Retried 0 failed notifications" 0))), inbox notified).
Proof. exact (retry_route_retries_nothing notified notified_reachable). Defined.

Lemma producer_events_never_notify_witness :
  inbox (NotificationApp.serve
           [NotificationApp.Delivery published_registration;
            NotificationApp.Request (GET_notifications None None 50 0)]
           (NotificationApp.boot true true))
  = mkInbox coll_empty 0.
Proof.
  apply producer_events_never_notify. repeat constructor. by eexists _, _.
Defined.

Lemma listing_refusals_witness :
  result_of (NotificationApp.handle (GET_notifications None (Some "lost") 50 0))
    (inbox notified)
  = Ok (mkHttpResponse HTTP_400_BAD_REQUEST
          (ErrorBody ("Invalid status: " +:+ "lost") HTTP_400_BAD_REQUEST)).
Proof.
  apply (listing_refusals None "lost" 50 0 (inbox notified)); [discriminate | reflexivity].
Defined.

(** ** The process, evaluated *)

(** Two notifications are stored, both delivered. *)
Example notified_statuses :
  (fun n => (recipient n, NotificationStatus.value (status n)))
    <$> docs (notifications (inbox notified))
  = [("ada@example.com", "delivered"); ("admin@ecommerce.com", "delivered")].
Proof. by vm_compute. Qed.

(** The listing of the delivered notifications, most recent first. *)
Example notified_listing :
  match result_of (NotificationApp.handle (GET_notifications None (Some "delivered") 1 0))
          (inbox notified) with
  | Ok (mkHttpResponse 200 (Payload (NotificationList data count _ _))) =>
      (dict_get "recipient" <$> data, count)
  | _ => ([], 0)
  end = ([JStr "admin@ecommerce.com"], 1).
Proof. by vm_compute. Qed.
