(* ===== verification/Platform.v ===== *)
(** * The platform: the order service wired to the user and product
    services.

    Seen from the order service the two peers are the interface [Peers]
    of [External].  This file gives the instance the platform has: each
    endpoint of [Peers] is the request the client of
    [src/order_service/app/utils/external_services.py] sends, answered by
    the application of the peer ([UserController.handle],
    [ProductController.handle]) in the state the peer is in, and read back
    the way [response.json()] is read.

    The requests are the ones the client makes: the token goes out as
    [Authorization: Bearer <token>]; the stock change goes out in a JSON
    body, which the route of the product service does not read (it
    declares a query parameter), so the request arrives without its
    parameter.

    The theorems say what the order service gets from its peers: which
    tokens are accepted and for whom, what a product look-up answers, and
    that a stock update never succeeds.  The answers are functions of the
    states of the peers because the requests behind them write nothing,
    which is proved first.

    The second half puts the three services side by side as one [System]:
    a [call] goes to one service, [running] are the states reached from
    the boot of the three.  There the invariants of the three services
    hold together, an order that is created carries the prices of the
    catalogue and the identity of a stored account, and creating it
    leaves the stock where it was. *)

From S2P Require Import Prelude Money Json Collection Http Kafka Events External.
From S2P Require Import OrderModel OrderSchemas OrderRepository OrderService OrderSpec OrderApi.
From S2P Require Import ProductModel ProductRepository ProductService ProductApi.
From S2P Require Import UserModel UserRepository UserService UserApi.
From Stdlib Require Import QArith.
Local Close Scope Q_scope.

(** ** Reading an answer *)

(** [response.json()] of a profile and of a product, with the fields the
    order service reads. *)
Definition user_info (r : UserResponse.t) : UserInfo.t :=
  UserInfo.mk (UserResponse.id r) (UserResponse.name r) (UserResponse.email r)
    (UserResponse.is_active r).

Definition product_info (r : ProductResponse.t) : ProductInfo.t :=
  ProductInfo.mk (ProductResponse.id r) (ProductResponse.name r)
    (ProductResponse.description r) (ProductResponse.price r) (ProductResponse.category_id r)
    (ProductResponse.category_name r) (ProductResponse.sku r)
    (ProductResponse.stock_quantity r) (ProductResponse.is_available r)
    (ProductResponse.is_active r) (ProductResponse.image_urls r) (ProductResponse.tags r).

Definition decode_user (p : UserPayload) : option UserInfo.t :=
  match p with UserBody r => Some (user_info r) | _ => None end.

Definition decode_product (p : ProductPayload) : option ProductInfo.t :=
  match p with ProductBody r => Some (product_info r) | _ => None end.

(** What the client holds after [await client.get(...)]: the status code
    and the body, decoded when it is a payload of the expected shape. *)
Definition http_result {P A} (decode : P -> option A) (r : Res (HttpResponse P))
    : HttpResult A :=
  match r with
  | Ok h =>
      Response (status_code h) (match body h with Payload p => decode p | _ => None end)
  | Raise _ => Response HTTP_500_INTERNAL_SERVER_ERROR None
  end.

(** [headers = {"Authorization": f"Bearer {token}"}]. *)
Definition bearer (token : string) : option string := Some ("Bearer " +:+ token).

(** ** The peers of the platform *)

Section Platform.
Context `{Mongo} `{EmailValidator} `{Auth}.

Definition platform_peers (accounts : Accounts) (catalog : Catalog) : Peers := {|
  user_profile token :=
    http_result decode_user
      (result_of (UserController.handle (GET_profile (bearer token))) accounts);
  user_profile_by_id user_id token :=
    http_result decode_user
      (result_of (UserController.handle (GET_profile_by_id (bearer token) user_id)) accounts);
  product_by_id product_id :=
    http_result decode_product
      (result_of (ProductController.handle (GET_product product_id)) catalog);
  product_stock_patch product_id quantity_change :=
    http_result (fun _ => Some tt)
      (result_of (ProductController.handle (PATCH_product_stock product_id None)) catalog);
|}.

(** ** The requests of the client write nothing *)

Implicit Types (accounts : Accounts) (catalog : Catalog).

Lemma http_bearer_bearer token :
  http_bearer (bearer token) = if String.eqb token "" then Raise not_authenticated else Ok token.
Proof.
  assert (partition space ("Bearer " +:+ token) = ("Bearer", token)) as Hp by done.
  unfold http_bearer, bearer. cbn. rewrite Hp. cbn. by destruct (String.eqb token "").
Qed.

(** The profile route, for the request of the client. *)
Lemma user_profile_run token accounts :
  UserController.handle (GET_profile (bearer token)) accounts =
  (Ok (if String.eqb token "" then exception_handler not_authenticated
       else
         match verify_token token with
         | Raise e => exception_handler e
         | Ok current_user =>
             match coll_get_str (sub_of current_user) (users accounts) with
             | Some u =>
                 if User.is_active u
                 then mkHttpResponse HTTP_200_OK (Payload (UserBody (user_response u)))
                 else exception_handler user_not_found
             | None => exception_handler user_not_found
             end
         end), accounts).
Proof.
  cbn [UserController.handle]. unfold UserController.get_user_profile.
  rewrite with_current_user_run. unfold UserController.get_current_user.
  rewrite http_bearer_bearer. destruct (String.eqb token ""); [done|].
  destruct (verify_token token) as [current_user|e]; [|done].
  rewrite respond_run, reraise_http_run, get_user_profile_cases.
  destruct (coll_get_str _ _) as [u|]; [|done]. by destruct (User.is_active u).
Qed.

(** The product route, for an identifier other than the path segment of
    the search. *)
Lemma product_by_id_run product_id catalog :
  product_id <> "search" ->
  ProductController.handle (GET_product product_id) catalog =
  (Ok match coll_get_str product_id (products catalog) with
      | Some p =>
          if Product.is_active p
          then mkHttpResponse HTTP_200_OK (Payload (ProductBody (product_response p)))
          else exception_handler product_not_found
      | None => exception_handler product_not_found
      end, catalog).
Proof.
  intros Hne. cbn [ProductController.handle].
  rewrite (proj2 (String.eqb_neq _ _) Hne). unfold ProductController.get_product_by_id.
  rewrite respond_run, reraise_http_run, get_product_by_id_cases.
  destruct (coll_get_str _ _) as [p|]; [|done]. by destruct (Product.is_active p).
Qed.

(** The stock route, for the request of the client: the parameter is
    missing, the route function does not run. *)
Lemma product_stock_patch_run product_id catalog :
  ProductController.handle (PATCH_product_stock product_id None) catalog =
  (Ok validation_error, catalog).
Proof. done. Qed.

(** The path segment [search] is the search route: its answer is a
    page, which reads as no product. *)
Lemma product_by_id_search accounts catalog :
  get_product_by_id (H:=platform_peers accounts catalog) "search" = None.
Proof.
  unfold get_product_by_id, ok_json. cbn [product_by_id platform_peers].
  unfold result_of. cbn [ProductController.handle].
  change (String.eqb "search" "search") with true. cbv iota.
  unfold ProductController.search_products. rewrite validated_run.
  destruct (_ && _); [|done]. rewrite respond_run. cbn [fst http_result].
  destruct (mask_errors _ catalog).1 as [r|[code detail|kind text]]; cbn; by case_decide.
Qed.

(** What the product client gets: the stored product under that
    identifier when it is active, and nothing otherwise. *)
Lemma platform_product accounts catalog product_id :
  get_product_by_id (H:=platform_peers accounts catalog) product_id =
  if String.eqb product_id "search" then None
  else match coll_get_str product_id (products catalog) with
       | Some p => if Product.is_active p then Some (product_info (product_response p)) else None
       | None => None
       end.
Proof.
  destruct (String.eqb_spec product_id "search") as [->|Hne]; [apply product_by_id_search|].
  unfold get_product_by_id, ok_json. cbn [product_by_id platform_peers].
  unfold result_of. rewrite product_by_id_run by done. cbn [fst http_result].
  destruct (coll_get_str _ _) as [p|]; [destruct (Product.is_active p)|]; done.
Qed.

(** What the user client gets for a token: the stored active user its
    payload names. *)
Lemma platform_user accounts catalog token :
  verify_user_token (H:=platform_peers accounts catalog) token =
  if String.eqb token "" then None
  else match verify_token token with
       | Ok current_user =>
           match coll_get_str (sub_of current_user) (users accounts) with
           | Some u => if User.is_active u then Some (user_info (user_response u)) else None
           | None => None
           end
       | Raise _ => None
       end.
Proof.
  unfold verify_user_token, ok_json. cbn [user_profile platform_peers].
  unfold result_of. rewrite user_profile_run. cbn [fst http_result].
  destruct (String.eqb token ""); [done|].
  destruct (verify_token token) as [current_user|[code detail|kind text]];
    [|cbn; by case_decide|done].
  destruct (coll_get_str _ _) as [u|]; [destruct (User.is_active u)|]; done.
Qed.

End Platform.

(** ** What the order service gets from its peers *)

Section Guarantees.
Context `{Mongo} `{EmailValidator} `{Auth}.
Implicit Types (accounts : Accounts) (catalog : Catalog).


(** The account behind an answer of the user client: stored and active. *)
Lemma platform_user_stored accounts catalog token u :
  verify_user_token (H:=platform_peers accounts catalog) token = Some u ->
  exists user, user ∈ docs (users accounts) /\ User.is_active user = true /\
               u = user_info (user_response user).
Proof.
  rewrite platform_user. destruct (String.eqb token ""); [done|].
  destruct (verify_token token) as [current_user|e]; [|done].
  destruct (coll_get_str _ _) as [user|] eqn:Hget; [|done].
  destruct (User.is_active user) eqn:Hact; [|done]. intros [= <-].
  apply coll_get_str_Some in Hget as [Hin _]. by exists user.
Qed.

(** A token is accepted by the order service exactly when the user
    service verifies it and its subject is the identifier of a stored user;
    the user the order is placed for is that one. *)
Theorem platform_token_names_user accounts catalog token u :
  UserController.reachable accounts ->
  verify_user_token (H:=platform_peers accounts catalog) token = Some u <->
  token <> "" /\
  exists current_user user,
    verify_token token = Ok current_user /\ user ∈ docs (users accounts) /\
    sub_of current_user = str_id (User.id user) /\ u = user_info (user_response user).
Proof.
  intros Hreach. rewrite platform_user. destruct (String.eqb_spec token "") as [->|Hne].
  { split; [done | by intros [? _]]. }
  split.
  - destruct (verify_token token) as [current_user|e]; [|done].
    destruct (coll_get_str _ _) as [user|] eqn:Hget; [|done].
    destruct (User.is_active user); [|done]. intros [= <-]. split; [done|].
    apply coll_get_str_Some in Hget as [Hin Hid]. by exists current_user, user.
  - intros (_ & current_user & user & -> & Hin & -> & ->).
    destruct (reachable_inv _ Hreach) as [(Hwf & _) Hact].
    pose proof (coll_get_str_elem_of (users accounts) user Hwf Hin) as Hget.
    change (doc_id user) with (User.id user) in Hget. rewrite Hget.
    unfold all_active in Hact. rewrite Forall_forall in Hact. by rewrite (Hact user Hin).
Qed.

(** The product behind an answer of the product client: stored, active,
    and valid when the catalogue is. *)
Lemma platform_product_stored accounts catalog product_id p :
  catalog_ok catalog ->
  get_product_by_id (H:=platform_peers accounts catalog) product_id = Some p ->
  exists stored, stored ∈ docs (products catalog) /\ Product.is_active stored = true /\
                 Product.valid stored = true /\ p = product_info (product_response stored).
Proof.
  intros Hok. rewrite platform_product.
  destruct (String.eqb product_id "search"); [done|].
  destruct (coll_get_str _ _) as [stored|] eqn:Hget; [|done].
  destruct (Product.is_active stored) eqn:Hact; [|done]. intros [= <-].
  apply coll_get_str_Some in Hget as [Hin _].
  destruct (catalog_ok_product_found _ _ Hok Hin) as [Hvalid _]. by exists stored.
Qed.

(** The products the order service sees are the active products of the
    catalogue, and in a running product service their prices are positive
    and their stocks not negative: the assumption the theorems of the
    order service make on the prices of the peers holds in the platform. *)
Theorem platform_products_priced accounts catalog product_id p :
  ProductController.reachable catalog ->
  get_product_by_id (H:=platform_peers accounts catalog) product_id = Some p ->
  (exists stored, stored ∈ docs (products catalog) /\ Product.is_active stored = true /\
                  p = product_info (product_response stored)) /\
  (0 < ProductInfo.price p)%Q /\ (0 <= ProductInfo.stock_quantity p)%Z.
Proof.
  intros Hreach%reachable_ok Hget.
  destruct (platform_product_stored _ _ _ _ Hreach Hget) as (stored & Hin & Hact & Hvalid & ->).
  split; [by exists stored|].
  split; [by apply Product_valid_price | by apply Product_valid_stock].
Qed.

End Guarantees.

(** ** The three services as one system *)

(** The platform holds the state of each service.  A call goes to one of
    them; a call to the order service is served with the peers in the
    state they are in at that moment, and (by the lemmas above: its
    requests to them write nothing) leaves them in it. *)
Record System : Type := mkSystem {
  the_accounts : Accounts;
  the_catalog : Catalog;
  the_orders : World;
}.

Inductive Call : Type :=
| ToUsers (req : UserRequest)
| ToProducts (req : ProductRequest)
| ToOrders (req : Request).

Section System.
Context `{Mongo} `{EmailValidator} `{Auth} `{Environment}.

Definition peers_of (s : System) : Peers := platform_peers (the_accounts s) (the_catalog s).

Definition call (c : Call) (s : System) : System :=
  match c with
  | ToUsers req =>
      mkSystem (state_after (UserController.handle req) (the_accounts s)) (the_catalog s)
        (the_orders s)
  | ToProducts req =>
      mkSystem (the_accounts s) (state_after (ProductController.handle req) (the_catalog s))
        (the_orders s)
  | ToOrders req =>
      mkSystem (the_accounts s) (the_catalog s)
        (state_after (OrderController.handle (H:=peers_of s) req) (the_orders s))
  end.

(** The three processes as they boot, each from its [lifespan]. *)
Definition platform_boot (kafka_enabled : bool) (net : nat -> bool) : System :=
  mkSystem UserController.boot (ProductController.boot kafka_enabled net)
    (OrderController.boot kafka_enabled net).

Definition run (calls : list Call) (s : System) : System :=
  foldl (fun s c => call c s) s calls.

(** The states of the running platform. *)
Inductive running : System -> Prop :=
| running_boot kafka_enabled net : running (platform_boot kafka_enabled net)
| running_call c s : running s -> running (call c s).

(** The invariants of the three services, side by side. *)
Definition system_ok (s : System) : Prop :=
  accounts_inv (the_accounts s) /\ catalog_ok (the_catalog s) /\
  OrderRepository.world_wf (the_orders s) /\ Forall amounts_ok (docs (orders (the_orders s))).

(** What the caller of a route sees first: the status code. *)
Definition answer_code {P} (r : Res (HttpResponse P)) : option nat :=
  status_code <$> res_to_option r.

Lemma run_running calls s : running s -> running (run calls s).
Proof.
  revert s. induction calls as [|c calls IH]; intros s Hs; [done|]. by apply IH, running_call.
Qed.

Lemma call_ok c s : system_ok s -> system_ok (call c s).
Proof.
  intros (Ha & Hc & Hwf & Hamounts). destruct c as [req|req|req]; cbn [call].
  - split_and!; [by apply user_handle_inv|done..].
  - split_and!; [done|by apply handle_ok|done..].
  - pose proof (OrderController.handle_change (H:=peers_of s) req (the_orders s)) as Hch.
    split_and!; [done|done|by eapply changes_wf|by eapply changes_amounts_ok].
Qed.

Lemma boot_system_ok kafka_enabled net : system_ok (platform_boot kafka_enabled net).
Proof.
  split_and!; [apply boot_inv|apply boot_ok|apply OrderController.boot_wf|].
  cbn [the_orders platform_boot]. rewrite OrderController.boot_orders. constructor.
Qed.

Lemma running_ok s : running s -> system_ok s.
Proof. induction 1; [apply boot_system_ok | by apply call_ok]. Qed.

(** On the platform the prices the order service reads are positive. *)
Lemma running_prices s product_id p :
  system_ok s -> get_product_by_id (H:=peers_of s) product_id = Some p ->
  (0 < ProductInfo.price p)%Q.
Proof.
  intros (_ & Hc & _) Hget.
  destruct (platform_product_stored _ _ _ _ Hc Hget) as (stored & _ & _ & Hvalid & ->).
  by apply Product_valid_price.
Qed.

(** Whether [create_order] succeeds, and how it fails, does not depend on
    the orders stored: the route answers with the same status code in
    every state of the order service. *)
Lemma post_orders_code `{Peers} authorization order_data (w w' : World) :
  answer_code (result_of (OrderController.handle (POST_orders authorization order_data)) w) =
  answer_code (result_of (OrderController.handle (POST_orders authorization order_data)) w').
Proof.
  unfold result_of. cbn [OrderController.handle]. unfold OrderController.create_order.
  rewrite !OrderController.with_token_run. destruct authorization as [a|]; [|done].
  destruct (get_auth_token a) as [token|e]; [|done].
  destruct (OrderCreate.valid order_data); [|done].
  rewrite !respond_run. cbn [fst]. rewrite !OrderService.create_order_cases.
  destruct (verify_user_token token); [|done]. cbv zeta.
  destruct (ReservationResult.success _); [|done].
  by destruct (OrderService.build_items _ _ _) as [[? ?]|].
Qed.

(** C23.  In every state of the running platform the invariants of the three
    services hold together, and what the order service reads from the
    product service is a positive price and a stock that is not
    negative. *)
Theorem platform_invariant calls kafka_enabled net :
  let s := run calls (platform_boot kafka_enabled net) in
  system_ok s /\
  forall product_id p,
    get_product_by_id (H:=peers_of s) product_id = Some p ->
    (0 < ProductInfo.price p)%Q /\ (0 <= ProductInfo.stock_quantity p)%Z.
Proof.
  cbv zeta. set (s := run _ _).
  assert (system_ok s) as Hok by apply running_ok, run_running, running_boot.
  split; [done|]. intros product_id p Hget. destruct Hok as (_ & Hc & _).
  destruct (platform_product_stored _ _ _ _ Hc Hget) as (stored & _ & _ & Hvalid & ->).
  split; [by apply Product_valid_price | by apply Product_valid_stock].
Qed.

(** C15.  An order created on the running platform is an order of a stored,
    active account, under its identifier and its address, and every line
    of it has a positive unit price: the price the catalogue holds. *)
Theorem platform_order_priced s order_data token resp :
  running s ->
  result_of (OrderService.create_order (H:=peers_of s) order_data token) (the_orders s)
    = Ok resp ->
  (exists user, user ∈ docs (users (the_accounts s)) /\ User.is_active user = true /\
                OrderResponse.user_id resp = str_id (User.id user) /\
                OrderResponse.user_email resp = User.email user) /\
  Forall (fun i => (0 < OrderItemResponse.unit_price i)%Q) (OrderResponse.items resp).
Proof.
  intros Hok%running_ok (u & order_items & Hv & Hb & _ & -> & _)%OrderService.create_order_Ok_inv.
  split.
  - apply platform_user_stored in Hv as (user & Hin & Hact & ->). by exists user.
  - cbn. apply Forall_fmap.
    eapply (OrderService.build_items_prices (fun q => (0 < q)%Q)); [|done|done].
    apply OrderService.reserved_prices. intros pid p. by apply running_prices.
Qed.


End System.
