(* ===== verification/PlatformEvents.v ===== *)
(** * The platform and its notifications.

    The producers of the platform write to one Kafka cluster; the
    notification service reads from it the topics it subscribed to.  This
    file puts the two ends together: the log of the cluster is what the
    producers of the running [System] of [Platform] have been
    acknowledged, and the notification service of [NotificationApi]
    consumes messages of that log.

    The user service starts no producer, the product service starts one
    and never calls it, and the order service publishes on [order-events],
    in the envelope of [Kafka.enriched_event].  The consumer subscribes to
    [user-events] and [product-events] and dispatches on the event type of
    the envelope.  So nothing of the log reaches the consumer, and nothing
    of the log would make it write a notification if it did: the inbox of
    the notification service stays empty whatever the platform does. *)

From S2P Require Import Prelude Money Json Collection Http Kafka Events External.
From S2P Require Import OrderModel OrderSchemas OrderRepository OrderService OrderSpec OrderApi.
From S2P Require Import ProductModel ProductRepository ProductService ProductApi.
From S2P Require Import UserModel UserRepository UserService UserApi Platform.
From S2P Require Import NotificationModel NotificationRepository NotificationService.
From S2P Require Import NotificationConsumer NotificationApi.

(** ** The log of the cluster *)

(** The messages the producers of the platform have been acknowledged:
    those of the product service and those of the order service. *)
Definition cluster_log (s : System) : list Message :=
  broker (catalog_producer (the_catalog s)) ++ broker_of (the_orders s).

(** What a consumer subscribed to [topics] is delivered of a log. *)
Definition subscribed (topics : list string) (log : list Message) : list Message :=
  filter (fun m => topic m ∈ topics) log.

(** An event of the notification service that, when it is a delivery,
    delivers a message of the log. *)
Definition of_log (log : list Message) (ev : NotificationApp.Event) : Prop :=
  match ev with
  | NotificationApp.Delivery message => message ∈ log
  | NotificationApp.Request _ => True
  end.

Section Events.
Context `{Mongo} `{EmailValidator} `{Auth} `{Environment} `{PyRepr}.
Implicit Types (s : System) (m : Message).

(** ** What the log holds *)

Lemma order_message_enveloped m : order_message m -> enveloped m.
Proof. intros [Ht [data Hv]]. exists order_service_name, data. by rewrite Ht. Qed.

Lemma order_message_not_subscribed m : order_message m -> topic m ∉ KafkaConsumer.topics.
Proof.
  intros [-> _]. unfold KafkaConsumer.topics, order_topic.
  by intros [?|[?|?%elem_of_nil]%elem_of_cons]%elem_of_cons.
Qed.

Lemma subscribed_nil topics log :
  Forall (fun m => topic m ∉ topics) log -> subscribed topics log = [].
Proof.
  induction 1 as [|m log Hm _ IH]; [done|]. unfold subscribed in *.
  by rewrite filter_cons_False.
Qed.

(** The product service has published nothing and the order service
    messages of its own only. *)
Lemma running_log s :
  running s ->
  broker (catalog_producer (the_catalog s)) = [] /\
  Forall order_message (broker_of (the_orders s)).
Proof.
  induction 1 as [kafka_enabled net|c s _ [IHp IHo]].
  - split; [apply boot_frame|].
    apply (OrderController.reachable_broker (H:=peers_of (platform_boot kafka_enabled net))).
    apply OrderController.reachable_boot.
  - destruct c as [req|req|req]; cbn [call the_catalog the_orders]; [done| |].
    + split; [|done]. by rewrite (handle_keeps catalog_producer req).
    + split; [done|].
      destruct (changes_forward _ _
                  (OrderController.handle_change (H:=peers_of s) req (the_orders s)))
        as (_ & _ & Hm).
      by apply Hm.
Qed.

Lemma running_log_order s : running s -> Forall order_message (cluster_log s).
Proof. intros [Hp Ho]%running_log. unfold cluster_log. by rewrite Hp. Qed.

(** ** What the notification service makes of it *)

(** C13.  Whatever calls the platform has served, the log of its cluster holds
    nothing on the topics the consumer subscribed to; and whatever
    requests the notification service serves and whatever messages of the
    log it is delivered, subscribed to or not, in any order and any number
    of times, it stores no notification. *)
Theorem platform_never_notifies s kafka_enabled connected evs :
  running s ->
  Forall (of_log (cluster_log s)) evs ->
  subscribed KafkaConsumer.topics (cluster_log s) = [] /\
  inbox (NotificationApp.serve evs (NotificationApp.boot kafka_enabled connected))
  = mkInbox coll_empty 0.
Proof.
  intros Hlog%running_log_order Hevs. rewrite Forall_forall in Hlog. split.
  - apply subscribed_nil, Forall_forall.
    intros m Hm. by apply order_message_not_subscribed, Hlog.
  - apply serve_enveloped_boot. eapply Forall_impl; [exact Hevs|].
    intros [req|m]; [done|]. intros Hm. by apply order_message_enveloped, Hlog.
Qed.

End Events.
