(* ===== verification/Scenario.v ===== *)
(** * A concrete shop: the theorems applied.

    Two users and three products behind the interface [Peers], a clock
    printed in decimal and a fixed identifier source behind [Environment],
    and a process with empty collections and a started producer.  On this
    instance the handlers evaluate, so that the example of the
    specification (two units at 30 make 60, 4.80 of tax, 10 of shipping,
    74.80 in all) is checked by computation, and every theorem of the
    order service that has hypotheses is applied at an input on which they
    hold. *)

From S2P Require Import Prelude Money Json Collection Http OrderModel Kafka OrderSchemas.
From S2P Require Import External OrderRepository OrderService OrderSpec OrderApi.
From stdpp Require Import relations.
From Stdlib Require Import QArith.
Local Close Scope Q_scope.

(** ** The peers *)

Definition alice : UserInfo.t := UserInfo.mk "u-alice" "Alice" "alice@example.org" true.
Definition bob : UserInfo.t := UserInfo.mk "u-bob" "Bob" "bob@example.org" true.

Definition widget : ProductInfo.t :=
  ProductInfo.mk "p-widget" "Widget" "A widget" (30 # 1) None (Some "Tools") (Some "W-1") 5
    true true [] [].
Definition gadget : ProductInfo.t :=
  ProductInfo.mk "p-gadget" "Gadget" "A gadget" (12050 # 100) None None None 1 true true [] [].
Definition retired : ProductInfo.t :=
  ProductInfo.mk "p-retired" "Retired" "" (5 # 1) None None None 9 false true [] [].

#[export] Instance shop_peers : Peers := {|
  user_profile token :=
    if decide (token = "token-alice") then Response 200 (Some alice)
    else if decide (token = "token-bob") then Response 200 (Some bob)
    else Response 401 None;
  user_profile_by_id user_id token := Response 404 None;
  product_by_id product_id :=
    if decide (product_id = "p-widget") then Response 200 (Some widget)
    else if decide (product_id = "p-gadget") then Response 200 (Some gadget)
    else if decide (product_id = "p-retired") then Response 200 (Some retired)
    else Response 404 None;
  product_stock_patch product_id quantity_change := ConnectionError;
|}.

#[export] Instance shop_environment : Environment := {|
  strftime t := pretty t;
  uuid4 n := "3f2b8c1e-" +:+ pretty n;
|}.

(** ** The process *)

(** Empty collections, Kafka enabled with a transport that always
    delivers, the producer started. *)
Definition world0 : World :=
  mkWorld coll_empty coll_empty
    (state_after start (new_KafkaProducer true (fun _ => true))) 0 0.

Definition home : ShippingAddressCreate.t :=
  ShippingAddressCreate.mk "Alice" "1 Main Street" None "Springfield" "IL" "62701" "US" None.

(** Two widgets: the example of the specification. *)
Definition two_widgets : OrderCreate.t :=
  OrderCreate.mk [OrderItemCreate.mk "p-widget" 2] home None (Some "card") None.

(** A line that cannot be served: the only gadget twice. *)
Definition two_gadgets : OrderCreate.t :=
  OrderCreate.mk [OrderItemCreate.mk "p-widget" 1; OrderItemCreate.mk "p-gadget" 2] home None
    None None.

(** The state after Alice has ordered two widgets: her order is number 0. *)
Definition world1 : World :=
  state_after (OrderService.create_order two_widgets "token-alice") world0.

(** ... and after the order has been shipped. *)
Definition world2 : World :=
  state_after (OrderRepository.update_order_status 0 OrderStatus.SHIPPED None) world1.

(** The same through the routes: the process boots, Alice places her
    order, the order is shipped. *)
Definition booted : World := OrderController.boot true (fun _ => true).

Definition place_request : Request := POST_orders (Some "Bearer token-alice") two_widgets.

Definition ship_request : Request :=
  PATCH_status 0 (OrderStatusUpdate.mk OrderStatus.SHIPPED None).

Definition placed_state : World := OrderController.serve [place_request] booted.
Definition shipped_state : World := OrderController.serve [ship_request] placed_state.

Lemma shop_prices pid p : get_product_by_id pid = Some p -> (0 <= ProductInfo.price p)%Q.
Proof.
  unfold get_product_by_id. cbn. repeat case_decide; intros [= <-]; done.
Qed.

Lemma world0_wf : OrderRepository.world_wf world0.
Proof. split_and!; [apply coll_wf_empty..|by constructor]. Qed.

(** ** The example of the specification *)

(** Two units of a product at 30, all reserved: the order returned
    has a subtotal of 60, a tax of 4.80, a shipping cost of 10 (60 is below
    100) and a total of 74.80, and it is pending and unpaid. *)
Example spec_example_totals :
  exists resp,
    result_of (OrderService.create_order two_widgets "token-alice") world0 = Ok resp /\
    (OrderResponse.subtotal resp == 60 /\ OrderResponse.tax_amount resp == 4.80 /\
     OrderResponse.shipping_cost resp == 10 /\ OrderResponse.total_amount resp == 74.80)%Q /\
    OrderResponse.status resp = OrderStatus.PENDING /\
    OrderResponse.payment_status resp = PaymentStatus.PENDING.
Proof. eexists. split; [vm_compute; reflexivity|]. by vm_compute. Qed.

(** ** The theorems of the order service at this instance *)

Ltac run := vm_compute; reflexivity.

Lemma create_order_totals_witness :
  exists resp,
    result_of (OrderService.create_order two_widgets "token-alice") world0 = Ok resp /\
    (OrderResponse.total_amount resp ==
     OrderResponse.subtotal resp + OrderResponse.tax_amount resp +
     OrderResponse.shipping_cost resp)%Q.
Proof.
  eexists. split; [run|].
  edestruct (OrderService.create_order_totals two_widgets "token-alice" world0)
    as (_ & _ & Hship & Htotal & _); [exact shop_prices | run |].
  rewrite Hship. exact Htotal.
Defined.

Lemma create_order_succeeds_witness :
  exists order,
    coll_get 0 (orders world1) = Some order /\ status order = OrderStatus.PENDING /\
    user_id order = "u-alice".
Proof.
  edestruct (OrderService.create_order_succeeds two_widgets "token-alice" alice world0)
    as (order & _ & Hget & _ & Hst & _ & Hu & _);
    [exact world0_wf | run | run | | by exists order].
  repeat constructor. exists widget. split_and!; [run | run | by vm_compute].
Defined.

Lemma create_order_no_partial_order_witness :
  state_after (OrderService.create_order two_gadgets "token-alice") world1 = world1.
Proof.
  edestruct (OrderService.create_order_no_partial_order two_gadgets "token-alice" world1)
    as (Hst & _); [run | exact Hst].
Defined.

Lemma create_order_emits_witness :
  exists m, broker (kafka_producer world1) = [m] /\ topic m = "order-events" /\
            payload_event_type m = JStr "order.created".
Proof.
  edestruct (OrderService.create_order_emits two_widgets "token-alice" world0)
    as (m & Hb & Ht & _ & Hp & _); [run|].
  exists m. split_and!; [exact Hb | exact Ht | exact Hp].
Defined.

Lemma cancel_order_succeeds_witness :
  exists cancelled,
    coll_get 0 (orders (state_after (OrderService.cancel_order 0 "token-alice") world1))
      = Some cancelled /\
    status cancelled = OrderStatus.CANCELLED.
Proof.
  edestruct (OrderService.cancel_order_succeeds 0 "token-alice" alice) with (w := world1)
    as (cancelled & t & _ & Hget & Hst & _); [run | run | run | | by exists cancelled].
  vm_compute. repeat constructor.
Defined.

Lemma cancel_order_refused_witness :
  result_of (OrderService.cancel_order 0 "token-alice") world2 =
  Raise (HTTPException 400 "Order cannot be cancelled in shipped status").
Proof.
  unfold result_of.
  erewrite (OrderService.cancel_order_refused 0 "token-alice" alice) with (w := world2);
    cycle 1; [run | run | run | vm_compute; repeat constructor | run].
Defined.

Lemma get_order_by_id_owner_only_witness :
  exists order, coll_get 0 (orders world1) = Some order /\ user_id order = "u-alice".
Proof.
  edestruct (OrderService.get_order_by_id_owner_only 0 "token-alice" world1)
    as (u & order & Hv & Hget & Hu & _); [run|].
  exists order. split; [exact Hget|]. rewrite Hu.
  assert (Some u = Some alice) as [= ->] by (rewrite <- Hv; run). done.
Defined.

Lemma get_user_orders_page_witness :
  exists r, OrderService.get_user_orders "token-alice" None 1 20 world1 = (Ok r, world1) /\
            length (OrderListResponse.orders r) <= 20.
Proof.
  edestruct (OrderService.get_user_orders_page "token-alice" None 1 20 world1 alice)
    as (r & Hr & Hlen & _); [run | discriminate | lia | lia |].
  exists r. split; [exact Hr | exact Hlen].
Defined.

Lemma user_orders_pages_cover_witness :
  let page p := result_of (OrderService.get_user_orders "token-alice" None p 1) world1 in
  let total_pages :=
    match page 1 with Ok r => OrderListResponse.total_pages r | Raise _ => 0 end in
  concat ((fun p => OrderService.listing_of (page p)) <$> seq 1 total_pages) =
  OrderService._convert_to_response <$>
    sort_desc created_at
      (coll_find (OrderRepository.matches_user (UserInfo.id alice) None) (orders world1)).
Proof.
  apply (OrderService.user_orders_pages_cover "token-alice" None 1 world1 alice);
    [run | discriminate | lia].
Defined.


Lemma milestone_never_overwritten_witness :
  exists o',
    coll_get 0 (orders (state_after
                          (OrderRepository.update_order_status 0 OrderStatus.SHIPPED
                             (Some "again")) world2)) = Some o' /\
    shipped_at o' = Some 4.
Proof.
  edestruct (OrderRepository.milestone_never_overwritten 0 OrderStatus.SHIPPED (Some "again")
               world2) with (ms := OrderStatus.SHIPPED) (t := 4)
    as (o' & _ & Hget & Hm); [run | run |].
  exists o'. split; [exact Hget | by injection Hm].
Defined.

Lemma reenter_keeps_milestone_witness :
  exists o1 o2,
    coll_get 0 (orders world2) = Some o1 /\
    coll_get 0 (orders (state_after
                          (OrderRepository.update_order_status 0 OrderStatus.SHIPPED None)
                          world2)) = Some o2 /\
    shipped_at o2 = shipped_at o1.
Proof.
  edestruct (OrderRepository.reenter_keeps_milestone 0 OrderStatus.SHIPPED None None world1)
    as (o1 & o2 & Hget1 & Hget2 & Hm & _); [run|].
  exists o1, o2. split_and!; [exact Hget1 | exact Hget2 | by injection Hm].
Defined.

(** ** The theorems of the application at this instance *)

Lemma placed_state_reachable : OrderController.reachable placed_state.
Proof. apply OrderController.serve_reachable, OrderController.reachable_boot. Qed.

Lemma service_refines_lifecycle_witness :
  exists kafka_enabled net, rtc change (OrderController.boot kafka_enabled net) placed_state.
Proof. exact (OrderController.service_refines_lifecycle _ placed_state_reachable). Defined.

Lemma reachable_invariant_witness :
  OrderRepository.world_wf placed_state /\
  Forall (fun o => amounts_ok o /\ (0 <= total_amount o)%Q /\ is_cents (total_amount o))
    (docs (orders placed_state)).
Proof. exact (OrderController.reachable_invariant _ placed_state_reachable). Defined.

Lemma stored_orders_only_evolve_witness :
  exists o o',
    coll_get 0 (orders placed_state) = Some o /\
    coll_get 0 (orders shipped_state) = Some o' /\ evolves o o'.
Proof.
  destruct (coll_get 0 (orders placed_state)) as [o|] eqn:Hget; [|by vm_compute in Hget].
  destruct (OrderController.stored_orders_only_evolve placed_state shipped_state 0 o
              placed_state_reachable (OrderController.serve_steps _ _) Hget)
    as (o' & Hget' & He).
  by exists o, o'.
Defined.

Lemma broker_append_only_witness :
  clock placed_state <= clock shipped_state /\
  broker_of placed_state `prefix_of` broker_of shipped_state.
Proof.
  exact (OrderController.broker_append_only _ _ (OrderController.serve_steps [ship_request] _)).
Defined.

Lemma token_required_witness :
  OrderController.handle (GET_order (Some "Basic YWxpY2U6cHc=") 0) placed_state =
  (Ok (mkHttpResponse 401 (ErrorBody "Invalid authorization header format" 401)),
   placed_state).
Proof.
  exact (OrderController.token_required (GET_order (Some "Basic YWxpY2U6cHc=") 0) _
           placed_state eq_refl eq_refl).
Defined.

Lemma invalid_page_unprocessable_witness :
  OrderController.handle (GET_admin_all None None None 0 20) placed_state =
  (Ok validation_error, placed_state).
Proof.
  exact (proj1 (OrderController.invalid_page_unprocessable None None None 0 20 placed_state
                  eq_refl)).
Defined.
