(* ===== verification/ProductScenario.v ===== *)
(** * A concrete catalogue: the theorems of the product service applied.

    A database whose text search is equality of strings, a process booted
    without Kafka, one category and two products created over HTTP.  On
    this instance the routes evaluate, and every theorem of the product
    service that has hypotheses is applied at an input on which they
    hold. *)

From S2P Require Import Prelude Money Json Collection Http Kafka Events ProductModel.
From S2P Require Import ProductRepository EventLoop StockRace ProductService ProductApi.
From Stdlib Require Import QArith.
Import StockUpdate.
Local Close Scope Q_scope.

(** ** The database and the requests *)

#[export] Instance exact_mongo : Mongo := {|
  regex_search pattern s := bool_decide (pattern = s);
|}.

Definition electronics : CategoryCreate.t :=
  CategoryCreate.mk "Electronics" (Some "Devices and accessories").

Definition laptop : ProductCreate.t :=
  ProductCreate.mk "Laptop" "A thin and light laptop" (1200 # 1) (Some "0") (Some "LAP-1") 5
    true [] ["computer"; "portable"] None None.

Definition cable : ProductCreate.t :=
  ProductCreate.mk "Cable" "A cable of two metres" (999 # 100) None None 0 true [] [] None None.

(** A second laptop under the SKU of the first. *)
Definition laptop_again : ProductCreate.t :=
  ProductCreate.mk "Laptop 2" "Another thin and light laptop" (1300 # 1) None (Some "LAP-1") 1
    true [] [] None None.

Definition catalog0 : Catalog := ProductController.boot false (fun _ => true).

Definition stocked : Catalog :=
  ProductController.serve [POST_categories electronics; POST_products laptop;
                           POST_products cable] catalog0.

(** The laptop as it is stored. *)
Definition stored_laptop : Product.t :=
  Product.mk (Some 0) "Laptop" "A thin and light laptop" (1200 # 1) (Some "0")
    (Some "Electronics") (Some "LAP-1") 5 true true [] ["computer"; "portable"] None None 2 3.

Lemma stocked_reachable : ProductController.reachable stocked.
Proof. apply catalog_serve_reachable, ProductController.reachable_boot. Qed.

Lemma stocked_ok : catalog_ok stocked.
Proof. apply reachable_ok, stocked_reachable. Qed.

Lemma stocked_laptop : coll_get_str "0" (products stocked) = Some stored_laptop.
Proof. by vm_compute. Qed.

(** ** The theorems of the service at this instance *)

Lemma update_stock_never_negative_witness :
  ProductService.update_stock "0" (-6) stocked = (Raise stock_refused, stocked).
Proof. exact (update_stock_never_negative "0" (-6) stocked _ stocked_ok stocked_laptop). Defined.

Lemma delete_product_soft_witness :
  exists w', ProductService.delete_product "0" stocked
             = (Ok "Product deleted successfully", w') /\
             result_of (ProductService.get_product_by_id "0") w' = Raise product_not_found.
Proof.
  destruct (delete_product_soft "0" stocked _ stocked_ok stocked_laptop)
    as (w' & Hrun & _ & _ & _ & Hget & _).
  by exists w'.
Defined.

Lemma create_product_sku_conflict_witness :
  ProductService.create_product laptop_again stocked = (Raise sku_exists, stocked).
Proof.
  apply (create_product_sku_conflict laptop_again "LAP-1" stocked stored_laptop);
    [done | done | done | | done].
  apply (coll_get_str_Some "0"), stocked_laptop.
Defined.

Lemma create_product_denormalises_witness :
  exists p, coll_get 0 (products stocked) = Some p /\
            Product.category_name p = Some "Electronics".
Proof.
  destruct (create_product_denormalises laptop
              (ProductController.serve [POST_categories electronics] catalog0)
              (product_response stored_laptop)
              (ProductController.serve [POST_categories electronics; POST_products laptop]
                 catalog0))
    as (p & Hget & _ & _ & _ & _ & c & Hc & Hname);
    [apply serve_ok, boot_ok | done | by vm_compute |].
  exists p. split; [by vm_compute in Hget |- * | ].
  rewrite Hname. vm_compute in Hc. by injection Hc as <-.
Defined.

Lemma search_products_counts_the_page_witness :
  exists r,
    ProductService.search_products
      (ProductSearchQuery.mk None None None None None None 1 1) stocked = (Ok r, stocked) /\
    ProductListResponse.total r = 1 /\ ProductListResponse.total_pages r = 1.
Proof.
  destruct (search_products_counts_the_page
              (ProductSearchQuery.mk None None None None None None 1 1) stocked eq_refl)
    as (r & Hrun & Htotal & _ & Hpages & _).
  exists r. split_and!; [done | | done].
  rewrite Htotal. vm_compute in Hrun. by injection Hrun as <-.
Defined.

Lemma get_all_products_page_witness :
  exists r,
    ProductService.get_all_products 0 1 stocked = (Ok r, stocked) /\
    ProductListResponse.total r = 2 /\ ProductListResponse.total_pages r = 2.
Proof.
  destruct (get_all_products_page 0 1 stocked) as (r & Hrun & _ & _ & Htotal & _ & Hpages);
    [lia|].
  exists r. split; [done|]. by rewrite Hpages, Htotal.
Defined.

(** ** The theorems of the application at this instance *)

Lemma catalog_invariant_witness :
  catalog_ok stocked /\
  forall p, p ∈ docs (products stocked) -> Product.sku p = Some "LAP-1" -> p = stored_laptop.
Proof.
  destruct (catalog_invariant stocked stocked_reachable) as (Hok & Hsku & _).
  split; [done|]. intros p Hin Hp. symmetry. apply Hsku; [|done..].
  apply (coll_get_str_Some "0"), stocked_laptop.
Defined.

Lemma catalog_stock_never_negative_witness :
  Product.valid stored_laptop = true /\
  (0 <= Product.stock_quantity stored_laptop)%Z /\ (0 < Product.price stored_laptop)%Q /\
  coll_get_str "0" (products stocked) = Some stored_laptop.
Proof.
  apply (catalog_stock_never_negative stocked stored_laptop stocked_reachable).
  apply (coll_get_str_Some "0"), stocked_laptop.
Defined.

Lemma product_service_never_publishes_witness : broker (catalog_producer stocked) = [].
Proof. exact (product_service_never_publishes stocked stocked_reachable). Defined.

Lemma stock_patch_refused_witness :
  ProductController.handle (PATCH_product_stock "0" (Some (-6)%Z)) stocked =
    (Ok (mkHttpResponse 400 (ErrorBody "Product not found or insufficient stock" 400)),
     stocked) /\
  ProductController.handle (PATCH_product_stock "0" None) stocked =
    (Ok validation_error, stocked).
Proof. exact (stock_patch_refused "0" (-6) stocked _ stocked_laptop eq_refl). Defined.

(** ** Concurrent stock updates at this instance *)

(** Two sales of four laptops each, from the stock of five. *)
Definition two_sales : list (string * Z) := [("0", (-4)%Z); ("0", (-4)%Z)].

Lemma stocked_wf : catalog_wf stocked.
Proof. apply stocked_ok. Qed.

Lemma schedule_keeps_stock_witness :
  let pool := (fun c : string * Z => Called c.1 c.2) <$> two_sales in
  exists pool',
    schedule resume interleaved pool stocked
    = (Ok pool', state_after (schedule resume interleaved pool) stocked) /\
    length pool' = length two_sales /\
    catalog_wf (state_after (schedule resume interleaved pool) stocked) /\
    stocks_ok (state_after (schedule resume interleaved pool) stocked).
Proof. exact (schedule_keeps_stock two_sales interleaved stocked stocked_wf). Defined.

Lemma update_stock_lost_update_witness :
  let pool := [Called "0" (-4); Called "0" (-4)] in
  let p1 := restocked (-4) (catalog_clock stocked) stored_laptop in
  let p2 := restocked (-4) (S (catalog_clock stocked)) stored_laptop in
  result_of (schedule resume interleaved pool) stocked = Ok [Returned (Some p1); Returned (Some p2)] /\
  coll_get_str "0" (products (state_after (schedule resume interleaved pool) stocked)) = Some p2 /\
  Product.stock_quantity p2 = (Product.stock_quantity stored_laptop + -4)%Z /\
  coll_get_str "0" (products (state_after (schedule resume in_turn pool) stocked)) =
    if bool_decide (Product.stock_quantity stored_laptop + -4 + -4 < 0)%Z then Some p1
    else Some (restocked (-4) (S (catalog_clock stocked)) p1).
Proof.
  apply (update_stock_lost_update "0" (-4) (-4) stored_laptop stocked);
    [apply stocked_wf | exact stocked_laptop | by vm_compute | by vm_compute].
Defined.

(** Both sales succeed when the calls interleave and one laptop is left:
    eight were sold from five.  In turn, the second sale is refused. *)
Example eight_laptops_from_five :
  let sold turns :=
    (fun t => match t with Returned (Some _) => true | _ => false end)
      <$> default [] (res_to_option
            (result_of (schedule resume turns [Called "0" (-4); Called "0" (-4)]) stocked)) in
  let left turns :=
    Product.stock_quantity
      <$> coll_get_str "0"
            (products (state_after (schedule resume turns [Called "0" (-4); Called "0" (-4)]) stocked)) in
  sold interleaved = [true; true] /\ left interleaved = Some 1%Z /\
  sold in_turn = [true; false] /\ left in_turn = Some 1%Z.
Proof. by vm_compute. Qed.
