(* ===== verification/PlatformScenario.v ===== *)
(** * A concrete platform: the three services together.

    The user service with Ada registered, the product service with a
    category and five laptops, and the order service, booted together and
    called in turn.  On this instance the order service is served by the
    applications of its peers, the calls evaluate, and every theorem of
    the platform that has hypotheses is applied at an input on which they
    hold.  The run at the end sells ten laptops from a stock of five. *)

From S2P Require Import Prelude Money Json Collection Http Kafka Events External.
From S2P Require Import OrderModel OrderSchemas OrderRepository OrderService OrderSpec OrderApi.
From S2P Require Import ProductModel ProductRepository ProductService ProductApi.
From S2P Require Import UserModel UserRepository UserService UserApi.
From S2P Require Import NotificationModel NotificationRepository NotificationService.
From S2P Require Import NotificationConsumer NotificationApi NotificationScenario.
From S2P Require Import Database Lifespan UserScenario Platform PlatformEvents Scenario.
From S2P Require Import ProductScenario.
From Stdlib Require Import QArith.
Local Close Scope Q_scope.

(** ** The system and the requests *)

Definition opened : System :=
  run [ToUsers (POST_register ada); ToProducts (POST_categories electronics);
       ToProducts (POST_products laptop)] (platform_boot false (fun _ => true)).

(** The token the user service issues to Ada, whose identifier is 0. *)
Definition ada_token : string := "token:0".

(** The whole stock of laptops in one order. *)
Definition five_laptops : OrderCreate.t :=
  OrderCreate.mk [OrderItemCreate.mk "0" 5] home None (Some "card") None.

Definition order_request : Request := POST_orders (bearer ada_token) five_laptops.

Definition sold_twice : System := run [ToOrders order_request; ToOrders order_request] opened.

Lemma opened_running : running opened.
Proof. apply run_running, running_boot. Qed.

Lemma opened_accounts : UserController.reachable (the_accounts opened).
Proof. exact registered_reachable. Qed.

Lemma opened_catalog : ProductController.reachable (the_catalog opened).
Proof.
  exact (catalog_serve_reachable [POST_categories electronics; POST_products laptop] _
           (ProductController.reachable_boot false (fun _ => true))).
Qed.

(** ** The theorems of the platform at this instance *)

Lemma platform_token_names_user_witness :
  verify_user_token (H:=peers_of opened) ada_token = Some (user_info (user_response stored_ada))
  <-> ada_token <> "" /\
      exists current_user user,
        verify_token ada_token = Ok current_user /\
        user ∈ docs (users (the_accounts opened)) /\
        sub_of current_user = str_id (User.id user) /\
        user_info (user_response stored_ada) = user_info (user_response user).
Proof.
  exact (platform_token_names_user (the_accounts opened) (the_catalog opened) ada_token
           (user_info (user_response stored_ada)) opened_accounts).
Defined.

Lemma platform_products_priced_witness :
  (exists stored, stored ∈ docs (products (the_catalog opened)) /\
                  Product.is_active stored = true /\
                  product_info (product_response stored_laptop)
                  = product_info (product_response stored)) /\
  (0 < ProductInfo.price (product_info (product_response stored_laptop)))%Q /\
  (0 <= ProductInfo.stock_quantity (product_info (product_response stored_laptop)))%Z.
Proof.
  apply (platform_products_priced (the_accounts opened) (the_catalog opened) "0");
    [exact opened_catalog | by vm_compute].
Defined.

Lemma platform_order_priced_witness :
  exists resp,
    result_of (OrderService.create_order (H:=peers_of opened) five_laptops ada_token)
      (the_orders opened) = Ok resp /\
    (exists user, user ∈ docs (users (the_accounts opened)) /\ User.is_active user = true /\
                  OrderResponse.user_id resp = str_id (User.id user) /\
                  OrderResponse.user_email resp = User.email user) /\
    Forall (fun i => (0 < OrderItemResponse.unit_price i)%Q) (OrderResponse.items resp).
Proof.
  eexists. split; [by vm_compute|].
  apply (platform_order_priced opened five_laptops ada_token); [exact opened_running|].
  by vm_compute.
Defined.

(** ** The lifespans at this instance *)

(** A database that answers, and one that does not; nothing is set in
    the environment. *)
Definition local_server : MongoServer := {|
  getenv _ := None;
  ping _ := Ok tt;
  init_beanie _ _ _ := Ok tt;
|}.

Definition server_selection_timeout : exn :=
  PyException "ServerSelectionTimeoutError" "localhost:27017: connection refused".

Definition no_server : MongoServer := {|
  getenv _ := None;
  ping _ := Raise server_selection_timeout;
  init_beanie _ _ _ := Raise server_selection_timeout;
|}.

Lemma order_lifespan_serves_witness :
  let lifespan := OrderProcess.lifespan (H:=local_server) (H0:=peers_of opened) in
  let p' := state_after (lifespan [order_request]) (OrderProcess.fresh false (fun _ => true)) in
  result_of (lifespan [order_request]) (OrderProcess.fresh false (fun _ => true)) = Ok tt /\
  app p' = state_after OrderController.shutdown
             (OrderController.serve (H:=peers_of opened) [order_request]
                (OrderController.boot false (fun _ => true))) /\
  released (connection p') = true /\
  producer (kafka_producer (app p')) <> Some Running.
Proof.
  exact (order_lifespan_serves (H:=local_server) (H0:=peers_of opened) false (fun _ => true)
           [order_request] eq_refl).
Defined.

Lemma order_lifespan_without_database_witness :
  OrderProcess.lifespan (H:=no_server) (H0:=peers_of opened) [order_request]
    (OrderProcess.fresh false (fun _ => true)) =
  (Raise server_selection_timeout,
   mkProcess (order_assigned (H:=no_server)) (app (OrderProcess.fresh false (fun _ => true)))) /\
  released (order_assigned (H:=no_server)) = false.
Proof.
  exact (order_lifespan_without_database (H:=no_server) (H0:=peers_of opened) false
           (fun _ => true) [order_request] server_selection_timeout eq_refl).
Defined.

Lemma product_lifespan_serves_witness :
  let reqs := [POST_categories electronics; POST_products laptop] in
  let p' := state_after (ProductProcess.lifespan (H:=local_server) reqs)
              (ProductProcess.fresh false (fun _ => true)) in
  result_of (ProductProcess.lifespan (H:=local_server) reqs)
    (ProductProcess.fresh false (fun _ => true)) = Ok tt /\
  app p' = state_after ProductController.shutdown
             (ProductController.serve reqs (ProductController.boot false (fun _ => true))) /\
  released (connection p') = true.
Proof.
  exact (product_lifespan_serves (H:=local_server) false (fun _ => true)
           [POST_categories electronics; POST_products laptop] eq_refl).
Defined.

(** ** The notifications of the platform at this instance *)

(** The same platform with Kafka enabled and a broker that acknowledges,
    after Ada has ordered. *)
Definition announced : System :=
  run [ToUsers (POST_register ada); ToProducts (POST_categories electronics);
       ToProducts (POST_products laptop); ToOrders order_request]
    (platform_boot true (fun _ => true)).

Lemma announced_running : running announced.
Proof. apply run_running, running_boot. Qed.

Lemma platform_never_notifies_witness :
  subscribed KafkaConsumer.topics (cluster_log announced) = [] /\
  inbox (NotificationApp.serve
           (NotificationApp.Request GET_notifications_stats
              :: (NotificationApp.Delivery <$> cluster_log announced))
           (NotificationApp.boot true true))
  = mkInbox coll_empty 0.
Proof.
  apply (platform_never_notifies announced true true); [exact announced_running|].
  constructor; [done|]. apply Forall_fmap, Forall_forall. by intros m Hm.
Defined.

(** The log holds the one event of the order, on the topic of the order
    service, with the topic where the consumer looks for the event type. *)
Example announced_log :
  (fun m => (topic m, envelope_event_type m, payload_event_type m)) <$> cluster_log announced
  = [("order-events", JStr "order-events", JStr "order.created")].
Proof. by vm_compute. Qed.

(** ** The platform, evaluated *)

(** The order of the whole stock is created. *)
Example order_created :
  answer_code (result_of (OrderController.handle (H:=peers_of opened) order_request)
                 (the_orders opened))
  = Some HTTP_201_CREATED.
Proof. by vm_compute. Qed.

(** Ordered twice, it is created twice: ten laptops are sold, and the
    catalogue still holds five. *)
Example ten_laptops_sold :
  (fun o => (OrderModel.status o, get_item_count o)) <$> docs (orders (the_orders sold_twice))
  = [(OrderStatus.PENDING, 5%Z); (OrderStatus.PENDING, 5%Z)] /\
  Product.stock_quantity <$> docs (products (the_catalog sold_twice)) = [5%Z].
Proof. by vm_compute. Qed.
